(* ===== verification/_CoqProject ===== *)
-Q . S2P
Prelude.v
Python.v
Chain.v
Matchers.v
Listeners.v
Dispatch.v
Bot.v
Send.v
Calls.v
BotDemo.v
Serve.v
Sched.v
Interleave.v
Suspend.v
Mirai.v
Contacts.v
Modules.v
ChainSpec.v
Attrs.v
