(* ===== verification/Prelude.v ===== *)
(** * JustBot-Reloaded: a verification development

    JustBot-Reloaded is a chat-bot framework in Python.  An application
    object ([BotApplication]) is built on an adapter for one chat platform;
    handler functions are registered on it with decorators ([on] for the
    event and the priority, [command], [keyword], [matcher], [role],
    [param_convert] and [nlp] for the attachments of a registered handler);
    handlers answer with [send_msg], which turns its argument into a
    [MessageChain] and hands it to the adapter.  An inbound event is
    dispatched to the listeners of its class in priority order.  Four files
    of the repository are verified here:

    - [src/apis/message_chain.py]: the message chain;
    - [src/jbot/__init__.py]: the application object;
    - [src/adapters/mirai/adapter.py]: the adapter for Mirai;
    - [src/objects/member.py]: a group member.

    ** Files

    - [Prelude] (this file): results of fallible code ([res]), the state and
      exception monad [eff] of the methods with its notation, pointwise
      equivalence with its [Proper] instances, the loops ([for_each],
      [map_eff]), the tactics ([run], [eff_simpl], [inv_elem_of],
      [case_res]) and generic lemmas on lists and strings.
    - [Python]: the fragment of Python's object model the sources use:
      values and their types, the exception classes with their hierarchy,
      iteration, [__name__], indexing, the class table with
      [__subclasses__()], [lower], [in] and [startswith] on strings.
    - [Chain], module [MessageChain]: [__new__], [create], [to_code],
      [as_display] over the record [cls] of the three class attributes
      ([elements], [_strings], [_result]); [as_display_at] is [as_display]
      with the number of frames left on the interpreter's stack; a step
      relation [reachable] over the calls.
    - [ChainSpec], module [ChainSpec]: the chain of the specification, a
      value built once from strings or from elements ([chain], [toCode],
      [asDisplay]), client programs that build and render chains ([op]),
      and their runs over values ([spec_run]) and over the class
      ([impl_run], with [build] and [text] the calls of [Chain]).
    - [Matchers], module [Matcher]: what [CommandMatcher] and
      [KeywordMatcher] store, and [matches]: the text a matcher sees of a
      chain, the test of one trigger, the longest trigger that matches.
    - [Listeners]: [Listener], the registry of [ListenerManager] as a list
      ordered by priority ([insert], [join], [set_slot], [listeners_for]),
      and the interface [ListenerManagerOps] (a type class: operations with
      the laws that relate them to the list model).
    - [Dispatch], module [Dispatch]: the pipeline for one inbound event:
      [plan] decides for one listener (role filter and fallback, matcher,
      NLP threshold, parameter conversion), [dispatch] runs the decisions
      over the listeners of the event, each handler in a [try] of its own;
      [dispatch_traced] is the same pass returning the calls it made.
    - [Bot], module [BotApplication]: a section over any implementation of
      [ListenerManagerOps], an adapter (record [Adapter]), a class table and
      the element constructor.  The state is the record [World]: the class
      attributes of [MessageChain], the managers by identity, the attribute
      dictionaries of the application object and of [CONFIG], the log and
      the outbox of the adapter.  [__init__], [set_config],
      [start_running], [coroutine], [on] with its [wrapper] ([on_wrapper],
      [on_join], [on_register]), [__set_decorator] with its [wrapper]
      ([set_wrapper]) and the six methods built on it, [send_msg]
      ([send_body], [send_handler], [find_plain], [chain_create], [send])
      each translate the method of the same name.  A closure returned by a
      decorator method is a value of [Decorator]; [apply_decorator] calls
      it.  The file has the theorems on registration, attachments and
      construction.
    - [Send], module [Send]: [send_msg] against its reference: the
      classification of the message ([branch]), the class the [Plain]
      lookup finds ([plain_class]), the outcome of the [try] block
      ([send_outcome]) and what a recording adapter is handed
      ([sent_of]).
    - [Calls], module [Calls]: the client code as sequences of calls on
      the application ([Call], [do_call], [reachable], [run_calls]), the
      invariant [app_inv], the calls of the public methods ([public]) and
      the theorems on sequences of calls.
    - [BotDemo], module [Demo]: one concrete program (an adapter that
      records, a class table, a few handlers) the theorems of [Bot] are
      applied to.
    - [Serve], module [Serve]: the application receiving events:
      [receive] is one pass over the registry of the application's
      manager, [call] a handler as the calls it makes to the application.
      Module [Examples] holds concrete passes.
    - [Sched], module [Sched]: the handlers as tasks of a cooperative
      scheduler, from section 5 of the specification: a state of the
      world, the inbound events and the pool of tasks, and the step
      relation [step] (an event is taken, or one task makes its next
      call); a handler may wait for ever ([Hang]), and its task is then
      never resumed.  The file is the setting of [Interleave] and
      [Suspend] and has no theorem of its own about the program.
    - [Interleave], module [Interleave]: what the tasks of a pool have
      still to hand to the adapter ([pending], [owed]), for handlers that
      only send ([sends_only]).
    - [Suspend], module [Suspend]: the scheduler with a second kind of
      suspension point, inside [send_msg] at the await of the adapter: a
      task holds the request the adapter was handed ([held]), [begin] runs
      a call up to that await, [resume] lets the adapter render the chain
      it holds ([render], the [to_code] of the class) and transmit the
      text ([wire]); [forget] is the state as [Sched] has it.
    - [Mirai], module [MiraiAdapter]: [__init__] with the name lookups of
      the module ([global_name] over [module_globals]), [__request_api]
      over a network given as a function, the stub properties.
    - [Contacts], module [Member]: the constructor over the attribute
      dictionary.
    - [Modules], module [PyModule]: what importing each of the four files
      does: the statements of a module ([Stmt]: imports, assignments, the
      call of [install], the class statement with the headers of its
      [def]s) run in order over the namespace of the module ([exec]), and
      the global names a function body evaluates when it is called
      ([call]).
    - [Attrs], module [PyAttrs]: the attributes of [self]: the methods of
      [BotApplication] and [MiraiAdapter] as the sequences of their reads
      and assignments of attributes and their calls of methods of the
      class ([Access]), run over the dictionary of the instance ([run],
      [call]); a read looks in the dictionary, the namespace of the class
      and the attributes of every object ([found]); [mangle] is the
      replacement of private names in a class body.

    ** How the code is read

    A method is a function from the state to a result and a state
    ([eff]); an exception is a value ([Raise e]) and the state at the
    raise is kept, because Python keeps it.  A [try] statement is
    [try_except].  Log lines are records of the logger, the level and the
    message with the arguments of its format string ([LogMsg]), not
    rendered text.  An object that other objects refer to (a manager) is a
    location in a map, so that two managers are two objects.  The awaits of
    [send_msg] run the adapter's coroutine to its end ([await]);
    [asyncio.run] does the same and raises [ValueError] on a value that is
    not a coroutine object.  A handler called by a pass of [Serve] runs
    to its end before the next is called; [Sched] interleaves the handlers
    between their calls, and [Suspend] also inside [send_msg], where the
    adapter's coroutine is split at its await: the part before is the
    [send_message] of the record, the part after renders the chain.  The
    [%] of a format string with one [%s]
    ([percent_s]) takes a tuple as its argument list.  A name is evaluated
    in the class body, the module and the builtins, at the time the
    statement that names it runs: annotations, defaults and decorators when
    the [def] runs, the names of a body when the function is called.  An
    attribute of [self] is looked up when the access runs; a name of a
    class body with two leading underscores and without two trailing ones
    stands for [_<class><name>], in [def]s and in bodies alike.

    Three files model code that the sources import and the repository does
    not hold under [src/]: [Matchers], [Listeners] and [Dispatch] follow
    the specification (sections 3, 4.2, 4.3, 5 and 7).  Where the
    specification leaves a choice open the file says which one it takes;
    what it does not determine at all (width folding, the NLP engine, what a
    handler does, how a failure is logged) is a [Context] of a section, so
    the theorems hold for every choice.  The schedulers of [Sched] and
    [Suspend] are from section 5 of the specification too.  What is proved
    of these models alone (a pass never raises, the scheduler keeps the
    invariant) says nothing of the program and is kept as lemmas; the
    theorems put forward as properties are those whose truth depends on
    the code under [src/].

    [Modules] and [Attrs] keep, of the lines they transcribe, the names
    and the accesses to [self] only; the behaviour of the same lines is in
    [Chain], [Bot], [Send], [Mirai] and [Contacts].  Their interpreters are
    Python's rules for names and attributes, as [Python] is its object
    model.

    ** What is assumed of code that is not among the sources

    - An element is not iterable: iterating one raises [TypeError]
      ([py_iter]).  [MessageChain.create] iterates its argument (line 19),
      so this is what makes [create] on one element raise; the theorems on
      [send_msg] with an element or a string depend on it.  [to_code()] and
      [as_display()] of an element return strings.
    - The constructor of a [Plain] class returns for every string
      ([construct] is a function); a constructor that raises is not
      modelled.
    - [Logger(...)], [ListenerManager()] and [pretty_function(target)]
      return for every argument, also for a target that is not a function.
    - The manager satisfies the laws of [ListenerManagerOps]: stable
      insertion by priority, setters that find the listeners by the
      identity of the handler.
    - The arguments of [command], [keyword], [matcher], [param_convert],
      [role] and [nlp] have the types their docstrings declare; the
      methods accept any object, and such calls are outside the model.
    - Where a theorem speaks of the outbox, or of every sequence of calls,
      the adapter's [send_message] only records what it is handed
      ([adapter_records]); where it speaks of the log line of a failed
      send, the adapter leaves the application its [adapter] attribute
      ([adapter_keeps]).  Each theorem names the one it needs.
    - In [Suspend] the adapter renders the chain it holds when it is
      resumed, not when it is handed the chain.
    - [asyncio.run] is called outside a running event loop: its
      [RuntimeError] inside one is not modelled.

    ** What the theorems show

    - [Chain]: the two renderings of a chain built from elements and from
      strings; the invariant tying [_result] to [_strings] in every
      reachable state, on returning and on raising paths; exactly when
      [create] returns; that all chains share one state, since [__new__]
      returns the class.
      [as_display] returns or raises at every recursion limit, with the
      outcome of a reference that does not recurse.
    - [ChainSpec]: a client program over the class always renders the
      chain built last ([shared_run]); it agrees with the program over
      values when every chain is rendered before the next is built
      ([chain_refines_spec], [linear]); programs that keep a chain
      across a construction differ ([kept_differs]).
    - [Listeners]: insertion keeps the order, is a permutation and is
      stable; the setters keep priorities, events, handlers and order, and
      fail exactly when no listener has the handler.
    - [Matchers]: a command matches the trigger alone or followed by white
      space and the argument; a keyword matches anywhere; [matches] rejects
      exactly when no trigger matches and otherwise returns the match of a
      trigger no shorter than any other that matches.
    - [Dispatch] (lemmas on the model of the specification, used by
      [Serve]): a pass never raises, calls exactly what [plan] decides for
      the registry it was given, in order, and keeps what every handler
      and every report keep; splitting undoes joining ([tokens_join]),
      every token is a word, and the readers of the attachments lose
      nothing on a typed registry ([readers_total]).
    - [Serve]: which handler a pass calls after the decorators of the
      application have run: after [on] with three priorities, after
      [command], after [command] with [param_convert] and after [role].
      These depend on what the decorators pass to the manager; that a pass
      calls what was planned for the registry at its start
      ([receive_calls_planned]) is a lemma on the pipeline.
    - [Sched]: lemmas on the scheduler that the next two files use: a
      step keeps the invariant, the tasks of a pool can be run one after
      the other, the states no step leaves.
    - [Interleave]: the outbox together with what the pool owes is the
      same, up to the order, in every state of a run of handlers that only
      send ([sends_owed]); so all complete runs hand the adapter the same
      messages, whatever the scheduler picked ([sends_any_schedule]).  Two
      concrete schedules hand them over in different orders.
    - [Suspend]: when two handlers are inside the adapter together, both
      targets are sent the text of the message sent last
      ([suspended_sends_cross]), because the chain the adapter holds is
      the class; every run is a run of [Sched] once the suspensions are
      forgotten, so what the adapter is handed is the same under every
      schedule ([suspend_hands_over]).
    - [Bot], registration: [on] on every input (a priority that is not an
      int, a priority that is not positive, a target that is not a
      coroutine function, one event class, a sequence of them), as one
      equation with its reference [on_spec] ([on_decides]), which also
      shows that a registration that raises leaves the registry as it
      was; the default priority ([on_default]); the order of the listeners
      after several registrations.
    - [Bot], attachments: the effect of an attachment decorator on a
      registered and on an unregistered handler; that it never reorders.
    - [Send]: [send_msg] against a reference ([send_outcome],
      [sent_of]) on every branch; that no message of a documented type
      reaches the adapter; that every exception is logged and raised
      again; when the two indexings of the [Plain] lookup are in range;
      that a send of anything but a chain does the same in every state of
      the class [MessageChain] ([stateless_send]).
    - [Bot], construction: the world [__init__] leaves, what [CONFIG]
      receives, that the new manager is distinct from every earlier one,
      and the [TypeError] of the login line on a nickname that is a tuple.
    - [Calls], the whole object: an invariant ([app_inv]) of every world the
      client code can reach by any sequence of calls ([reachable]); the
      preservation is proved once for any property of registries that
      insertion and the setters keep ([inv_with], section [keeps]), and
      gives a second invariant for the public methods: every slot holds an
      attachment of its kind ([public_calls_typed]).  Two of the six
      attachment decorators, applied in either order, return their targets
      and assign each its own slot on the listeners of its handler, with
      the same registry in both orders, unless they assign the same slot
      of the same handler ([attachments_commute]).
    - [Mirai]: the constructor raises [NameError]; [__request_api] on the
      returning path and on both kinds of connection error; an application
      cannot be built on this adapter.
    - [Contacts]: the constructor stores its arguments and nothing else.
    - [Modules]: a module that imports binds the names of its text, in
      order ([exec_binds]); with its packages installed it runs as if every
      package exported every name ([exec_provided]); importing
      [src/jbot/__init__.py] raises nothing and no method of
      [BotApplication] can raise [NameError]; importing the adapter binds
      exactly [MiraiAdapter.module_globals] and leaves [MiraiUtils] and
      [global_config] unbound ([sources_resolve]).
    - [Attrs]: a replaced name is an ordinary name ([mangle_mangled]); a
      body that returns on an instance returns on every instance with
      more attributes ([mono_run], [call_mono]), and a body that only
      reads returns on each path through its branches ([run_path]); the
      constructor of [BotApplication] reads no attribute before it has
      assigned it, every method finds what it reads on a constructed
      application, and [__set_decorator] can be reached by that name from
      inside the class only ([application_attrs_resolve]); the dictionary
      is that of the world [__init__] leaves ([constructed_init_world]);
      the constructor of [MiraiAdapter] assigns the attributes of the
      object [Mirai] leaves when it raises ([adapter_half_built]), and no
      method of [MiraiAdapter] names [__request_api]
      ([request_api_unreachable]).

    ** Bounds and choices

    - [exc_mro] walks the bases of an exception class with fuel 4; the
      deepest class of [ExcClass] has three ancestors, so the fuel is never
      exhausted ([exc_issubclass_refl], [exc_isinstance_Exception]).
    - [as_display] on a chain whose elements hold the class [MessageChain]
      itself calls itself on the same elements without end; the
      interpreter ends that with [RecursionError] when no frame is left.
      [as_display_at] takes the number of frames left and [as_display] is
      [as_display_at recursion_limit], with the default limit 1000 of the
      interpreter; the limit is not a bound of the model, since the outcome
      is the same for every number of frames from one on
      ([as_display_any_limit]).
    - [PyAttrs.run] follows the calls of methods of the class to a depth
      of one more than the number of methods ([call]); no method of the
      two classes calls itself, and the deepest chain of calls has two
      methods, so the depth is never exhausted
      ([application_attrs_resolve] shows every call returning).
    - All other recursion is structural; no theorem is conditional on a
      computation returning.
    - A word boundary after a command trigger is the end of the text or a
      white-space character; the argument of a command is the rest without
      its leading white space, the argument of a keyword the whole text;
      of triggers of the same length the first wins.  Width folding is
      applied to the text, not to the triggers.
    - A pass reads the registry once, when it starts: a listener a handler
      registers is visited from the next pass on.
    - A handler is the list of calls it makes to the application, fixed by
      the function and its arguments; a call that raises ends the handler.
      In [Sched] the list may hold [Hang], an await that never resumes.
    - What the installed packages export is a parameter of [Modules]
      ([Exports]); the theorems on the four files assume the imports are
      provided, and [builtins] lists the builtins the files name.
    - The scheduler is a relation, without fuel: the theorems on it
      quantify over every sequence of steps ([rtc step]) and over the
      states no step leaves ([nf step]).
    - The adapter of [Suspend] renders the chain once, when it resumes;
      what it does before its first await is the [send_message] of the
      [Adapter] record.  The theorems on the wire take messages whose
      chain is created by the send (lists and tuples of one item); a
      message of type [MessageChain] does not exist, since [create]
      returns the class.
    - [str_lower] folds ASCII letters only; the adapter names and module
      paths it is applied to are ASCII.
    - Lists and tuples are values: the sources never mutate a list they
      were given, so aliasing of lists is not modelled.  The objects that
      are mutated through several references (the class [MessageChain],
      the managers, the application, [CONFIG]) are in the state.
    - [set_config] copies the attributes in the order of the map, not in
      insertion order; the attributes have distinct names, so the
      resulting dictionary is the same ([copy_attrs_keys]).  The insertion
      order is in [Attrs] ([PyAttrs.constructed]).
    - Integers are unbounded ([Z]), as Python's are.
    - The adapter's coroutines are computations on [World]: a theorem
      that holds for every adapter holds for one that changes the
      application as well, which is why the invariants take an adapter
      that records what it is handed ([record_send]).

    ** Not modelled

    - The NLP engine (the confidence of a text, the word of a
      constituent), width folding and the bodies of the handlers: they are
      parameters, nothing is proved about a particular one.
    - [Element] subclasses of a platform, [Contact], [Event] beyond the four
      fields the pipeline reads, [Config] beyond its attribute dictionary.
    - [Logger], [pretty_function] and the rich markup: formatting only;
      [install()] of [rich.traceback] is the evaluation of its name.
    - The HTTP and WebSocket transport: [requests.get] is a parameter.
    - A [ListenerManager], a dispatch loop and a scheduler as code: none
      is among the sources.  [start_listen] of the only adapter is a stub,
      so no theorem speaks of [start_running] over an adapter that
      listens, and none of an implementation of the manager.
    - Suspension inside the other awaits: [check], [start_listen] and
      [nick_name] run to completion, and the adapter suspends at most once
      inside [send_message].
    - Deserialisation of platform events and the WebSocket loop of an
      adapter: a pass starts from an event received.
    - What [MiraiAdapter] inherits from [Adapter], which is not among the
      sources: [PyAttrs] looks a name up in the class itself and in
      [object], and [Mirai] gives the adapter the methods its own file
      defines.
    - The packages [JustBot.apis], [JustBot.utils], [JustBot.objects] and
      the message handler of an adapter, beyond what the specification
      says of them: nothing more of them can be translated from code. *)

(** ** This file

    The result type of fallible code, the monad [eff] with its notation in
    [eff_scope], pointwise equivalence of computations with its [Proper]
    instances, the loop combinators that model the [for] statement and list
    comprehensions with the lemmas that run them (totality, invariants),
    the hint databases and the small tactics of the development, and
    generic lemmas on strings and lists. *)

From Stdlib Require Export ZArith Lia.
From stdpp Require Export base tactics option list strings gmap.

(** ** Results of fallible code *)

(** A Python call either returns a value or raises; [E] is the type of
    exceptions. *)
Inductive res (E A : Type) : Type :=
| Ok (a : A)
| Raise (e : E).
Arguments Ok {E A} a.
Arguments Raise {E A} e.

Definition res_bind {E A B} (r : res E A) (k : A → res E B) : res E B :=
  match r with Ok a => k a | Raise e => Raise e end.

Definition res_map {E A B} (f : A → B) (r : res E A) : res E B :=
  match r with Ok a => Ok (f a) | Raise e => Raise e end.

Definition is_ok {E A} (r : res E A) : bool :=
  match r with Ok _ => true | Raise _ => false end.

(** All-or-first-failure traversal, left to right: the order in which a
    comprehension evaluates its items. *)
Fixpoint res_mapM {E A B} (f : A → res E B) (l : list A) : res E (list B) :=
  match l with
  | [] => Ok []
  | x :: l' =>
      res_bind (f x) (λ y, res_bind (res_mapM f l') (λ ys, Ok (y :: ys)))
  end.

(** ** The state-and-exception monad *)

(** A computation reads and writes a state [S] and returns or raises.  The
    state survives a raise: Python does not roll back the mutations made
    before an exception. *)
Definition eff (E S A : Type) : Type := S → res E A * S.

Section eff.
Context {E S : Type}.

Definition ret {A} (a : A) : eff E S A := λ s, (Ok a, s).

Definition bind {A B} (c : eff E S A) (k : A → eff E S B) : eff E S B :=
  λ s, match c s with
       | (Ok a, s') => k a s'
       | (Raise e, s') => (Raise e, s')
       end.

Definition raise {A} (e : E) : eff E S A := λ s, (Raise e, s).

Definition lift_res {A} (r : res E A) : eff E S A := λ s, (r, s).

Definition get : eff E S S := λ s, (Ok s, s).

Definition gets {A} (f : S → A) : eff E S A := λ s, (Ok (f s), s).

Definition put (s : S) : eff E S unit := λ _, (Ok tt, s).

Definition modify (f : S → S) : eff E S unit := λ s, (Ok tt, f s).

(** [try: c except e: h e]. *)
Definition try_except {A} (c : eff E S A) (h : E → eff E S A) : eff E S A :=
  λ s, match c s with
       | (Ok a, s') => (Ok a, s')
       | (Raise e, s') => h e s'
       end.

(** Run a computation over a part [S'] of the state, read by [proj] and
    written back by [upd]. *)
Definition embed {S' A} (proj : S → S') (upd : S' → S → S)
    (c : eff E S' A) : eff E S A :=
  λ s, let (r, s') := c (proj s) in (r, upd s' s).

(** [for x in l: body x]. *)
Fixpoint for_each {B} (body : B → eff E S unit) (l : list B) : eff E S unit :=
  match l with
  | [] => ret tt
  | x :: l' => bind (body x) (λ _, for_each body l')
  end.

(** [[f x for x in l]] with an effectful [f]. *)
Fixpoint map_eff {B C} (f : B → eff E S C) (l : list B) : eff E S (list C) :=
  match l with
  | [] => ret []
  | x :: l' => bind (f x) (λ y, bind (map_eff f l') (λ ys, ret (y :: ys)))
  end.

End eff.

Declare Scope eff_scope.
Delimit Scope eff_scope with eff.
Notation "x <- c ;; k" := (bind c (λ x, k))
  (at level 100, c at next level, right associativity,
   format "'[v' x  <-  c  ;; '/' k ']'") : eff_scope.
Notation "c ;; k" := (bind c (λ _, k))
  (at level 100, right associativity,
   format "'[v' c  ;; '/' k ']'") : eff_scope.
Open Scope eff_scope.

(** ** Pointwise equivalence of computations *)

#[export] Instance eff_equiv {E S A} : Equiv (eff E S A) :=
  λ c1 c2, ∀ s, c1 s = c2 s.

#[export] Instance eff_equivalence {E S A} : Equivalence (≡@{eff E S A}).
Proof.
  split.
  - by intros c s.
  - by intros c1 c2 H s.
  - intros c1 c2 c3 H1 H2 s. by rewrite H1.
Qed.

#[export] Instance bind_proper {E S A B} :
  Proper ((≡) ==> pointwise_relation A (≡) ==> (≡)) (@bind E S A B).
Proof.
  intros c1 c2 Hc k1 k2 Hk s. unfold bind. rewrite Hc.
  destruct (c2 s) as [[a|e] s']; [apply Hk | done].
Qed.

#[export] Instance try_except_proper {E S A} :
  Proper ((≡) ==> pointwise_relation E (≡) ==> (≡)) (@try_except E S A).
Proof.
  intros c1 c2 Hc h1 h2 Hh s. unfold try_except. rewrite Hc.
  destruct (c2 s) as [[a|e] s']; [done | apply Hh].
Qed.

#[export] Instance for_each_proper {E S B} :
  Proper (pointwise_relation B (≡) ==> (=) ==> (≡)) (@for_each E S B).
Proof.
  intros f g Hfg l _ <-. induction l as [|x l IH]; [done|]. simpl.
  f_equiv; [apply Hfg | intros _; apply IH].
Qed.

Section eff_laws.
Context {E S : Type}.
Implicit Types s : S.

Lemma bind_ret_l {A B} (a : A) (k : A → eff E S B) : bind (ret a) k ≡ k a.
Proof. by intros s. Qed.

Lemma bind_ret_r {A} (c : eff E S A) : bind c ret ≡ c.
Proof. intros s. unfold bind, ret. by destruct (c s) as [[a|e] s']. Qed.

Lemma bind_assoc {A B C} (c : eff E S A) (k : A → eff E S B)
    (k' : B → eff E S C) :
  bind (bind c k) k' ≡ bind c (λ a, bind (k a) k').
Proof. intros s. unfold bind. by destruct (c s) as [[a|e] s']. Qed.

Lemma bind_raise_l {A B} (e : E) (k : A → eff E S B) :
  bind (raise e) k ≡ raise e.
Proof. by intros s. Qed.

Lemma try_except_ret {A} (a : A) (h : E → eff E S A) :
  try_except (ret a) h ≡ ret a.
Proof. by intros s. Qed.

Lemma try_except_raise {A} (e : E) (h : E → eff E S A) :
  try_except (raise e) h ≡ h e.
Proof. by intros s. Qed.

(** Running a [bind] once the first computation is known. *)
Lemma bind_ok {A B} (c : eff E S A) (k : A → eff E S B) s a s' :
  c s = (Ok a, s') → bind c k s = k a s'.
Proof. unfold bind. by intros ->. Qed.

Lemma bind_err {A B} (c : eff E S A) (k : A → eff E S B) s e s' :
  c s = (Raise e, s') → bind c k s = (Raise e, s').
Proof. unfold bind. by intros ->. Qed.

Lemma for_each_app {B} (body : B → eff E S unit) (l1 l2 : list B) :
  for_each body (l1 ++ l2) ≡ bind (for_each body l1) (λ _, for_each body l2).
Proof.
  induction l1 as [|x l1 IH]; simpl.
  - by rewrite bind_ret_l.
  - rewrite bind_assoc. f_equiv. intros _. apply IH.
Qed.

(** Two loops whose bodies agree on the items agree. *)
Lemma for_each_ext {B} (f g : B → eff E S unit) (l : list B) :
  (∀ x, x ∈ l → f x ≡ g x) → for_each f l ≡ for_each g l.
Proof.
  induction l as [|x l IH]; intros Hfg; [done|]. simpl.
  f_equiv; [apply Hfg; left | intros _; apply IH].
  intros y Hy. apply Hfg. by right.
Qed.

(** A loop whose body only updates the state is a left fold. *)
Lemma for_each_modify {B} (f : B → S → S) (l : list B) s :
  for_each (E:=E) (λ x, modify (f x)) l s = (Ok tt, foldl (λ s x, f x s) s l).
Proof. revert s. induction l as [|x l IH]; intros s; [done|]. simpl. apply IH. Qed.

(** A comprehension whose items come from a pure fallible function. *)
Lemma map_eff_lift_res {B C} (f : B → res E C) (l : list B) s :
  map_eff (λ x, lift_res (f x)) l s = (res_mapM f l, s).
Proof.
  induction l as [|x l IH]; [done|]. simpl. unfold bind at 1, lift_res at 1.
  destruct (f x) as [y|e]; [|done]. simpl.
  unfold bind at 1. rewrite IH. by destruct (res_mapM f l).
Qed.

(** A comprehension whose items all return without touching the state. *)
Lemma map_eff_ok {B C} (f : B → eff E S C) (g : B → C) (l : list B) s :
  (∀ x s', x ∈ l → f x s' = (Ok (g x), s')) →
  map_eff f l s = (Ok (g <$> l), s).
Proof.
  induction l as [|x l IH]; intros Hf; [done|]. simpl.
  rewrite (bind_ok _ _ _ _ _ (Hf x s ltac:(left))).
  rewrite (bind_ok _ _ s (g <$> l) s); [done|].
  apply IH. intros y s' Hy. apply Hf. by right.
Qed.

(** A comprehension whose items, run in the state [s], return or raise
    without changing it. *)
Lemma map_eff_at {B C} (f : B → eff E S C) (g : B → res E C) (l : list B) s :
  (∀ x, x ∈ l → f x s = (g x, s)) → map_eff f l s = (res_mapM g l, s).
Proof.
  induction l as [|x l IH]; intros Hf; [done|]. simpl.
  unfold bind at 1. rewrite (Hf x) by left.
  destruct (g x) as [y|e]; [|done]. simpl.
  unfold bind at 1. rewrite IH by (intros; apply Hf; by right).
  by destruct (res_mapM g l).
Qed.

(** A loop whose body never raises never raises. *)
Lemma for_each_total {B} (body : B → eff E S unit) (l : list B) s :
  (∀ x s', x ∈ l → (body x s').1 = Ok tt) → (for_each body l s).1 = Ok tt.
Proof.
  revert s. induction l as [|x l IH]; intros s Hb; [done|]. simpl.
  pose proof (Hb x s ltac:(left)) as Hx. unfold bind.
  destruct (body x s) as [[[]|e] s']; [|done]. apply IH.
  intros y s'' Hy. apply Hb. by right.
Qed.

(** A property of the state every run of the body keeps is kept by the
    loop, however it ends. *)
Lemma for_each_invariant {B} (P : S → Prop) (body : B → eff E S unit)
    (l : list B) s :
  (∀ x s', x ∈ l → P s' → P (body x s').2) → P s → P (for_each body l s).2.
Proof.
  revert s. induction l as [|x l IH]; intros s Hb Hs; [done|]. simpl.
  pose proof (Hb x s ltac:(left) Hs) as Hx. unfold bind.
  destruct (body x s) as [[[]|e] s']; [|done]. apply IH; [|done].
  intros y s'' Hy. apply Hb. by right.
Qed.

(** [try] with a handler that only updates the state never raises. *)
Lemma try_except_modify (c : eff E S unit) (f : E → S → S) s :
  (try_except c (λ e, modify (f e)) s).1 = Ok tt.
Proof. unfold try_except. by destruct (c s) as [[[]|e] s']. Qed.

End eff_laws.

(** ** Traversals over results *)

Section res_lemmas.
Context {E A B : Type}.

Lemma res_mapM_ok (f : A → res E B) (g : A → B) (l : list A) :
  (∀ x, x ∈ l → f x = Ok (g x)) → res_mapM f l = Ok (g <$> l).
Proof.
  induction l as [|x l IH]; intros Hf; [done|]. simpl.
  rewrite Hf by left. simpl. rewrite IH; [done|].
  intros y Hy. apply Hf. by right.
Qed.

Lemma res_mapM_app (f : A → res E B) (l1 l2 : list A) :
  res_mapM f (l1 ++ l2)
  = res_bind (res_mapM f l1) (λ ys1,
      res_bind (res_mapM f l2) (λ ys2, Ok (ys1 ++ ys2))).
Proof.
  induction l1 as [|x l1 IH]; simpl.
  - by destruct (res_mapM f l2).
  - destruct (f x) as [y|e]; [|done]. simpl. rewrite IH.
    destruct (res_mapM f l1) as [ys1|e]; [|done]. simpl.
    by destruct (res_mapM f l2).
Qed.

(** The first failing item decides the failure. *)
Lemma res_mapM_raise (f : A → res E B) (g : A → B) (l1 l2 : list A) x e :
  (∀ y, y ∈ l1 → f y = Ok (g y)) → f x = Raise e →
  res_mapM f (l1 ++ x :: l2) = Raise e.
Proof.
  intros H1 Hx. rewrite res_mapM_app, (res_mapM_ok f g) by done. simpl.
  by rewrite Hx.
Qed.

Lemma res_mapM_length (f : A → res E B) (l : list A) ys :
  res_mapM f l = Ok ys → length ys = length l.
Proof.
  revert ys. induction l as [|x l IH]; intros ys; simpl.
  - by intros [= <-].
  - destruct (f x) as [y|e]; [|done]. simpl.
    destruct (res_mapM f l) as [ys'|e]; [|done]. simpl.
    intros [= <-]. simpl. f_equal. by apply IH.
Qed.

End res_lemmas.

(** ** Lists *)

Section list_lemmas.
Context {A : Type} (P : A → Prop) `{∀ x, Decision (P x)}.

Lemma filter_none (l : list A) : Forall (λ x, ¬ P x) l → filter P l = [].
Proof.
  induction 1 as [|x l Hx _ IH]; [done|]. by rewrite filter_cons_False.
Qed.

Lemma filter_all (l : list A) : Forall P l → filter P l = l.
Proof.
  induction 1 as [|x l Hx _ IH]; [done|]. by rewrite filter_cons_True, IH.
Qed.

End list_lemmas.

Lemma delete_insert_same {A} i (l : list A) x : delete i (<[i:=x]> l) = delete i l.
Proof. revert i. induction l as [|y l IH]; intros [|i]; simpl; by rewrite ?IH. Qed.

(** Two positions of a list overwritten twice. *)
Lemma insert_twice_ne {A} i j (x x' y y' : A) (l : list A) :
  i ≠ j →
  <[j:=y']> (<[i:=x']> (<[j:=y]> (<[i:=x]> l))) = <[j:=y']> (<[i:=x']> l).
Proof.
  intros Hij. rewrite (list_insert_insert_ne _ i j x' y) by done.
  by rewrite !list_insert_insert_eq.
Qed.

Lemma existsb_false {A} (f : A → bool) (l : list A) :
  existsb f l = false ↔ Forall (λ x, f x = false) l.
Proof.
  induction l as [|x l IH]; simpl; [by split; [constructor|]|].
  rewrite orb_false_iff, IH, Forall_cons. done.
Qed.

Lemma existsb_true {A} (f : A → bool) (l : list A) :
  existsb f l = true ↔ Exists (λ x, f x = true) l.
Proof.
  induction l as [|x l IH]; simpl; [by rewrite Exists_nil|].
  by rewrite orb_true_iff, IH, Exists_cons.
Qed.

(** ** Strings *)

(** Python's [''.join(l)]: the strings of [l] appended in order. *)
Definition str_concat (l : list string) : string :=
  foldr String.app "" l.

(** [sep.join(l)]. *)
Definition str_join (sep : string) (l : list string) : string :=
  String.concat sep l.

Lemma str_app_nil_r (s : string) : s +:+ "" = s.
Proof. induction s as [|c s IH]; [done|]. unfold String.app in *. simpl. by rewrite IH. Qed.

Lemma str_app_assoc (s1 s2 s3 : string) :
  (s1 +:+ s2) +:+ s3 = s1 +:+ (s2 +:+ s3).
Proof.
  induction s1 as [|c s1 IH]; [done|]. unfold String.app in *. simpl.
  by rewrite IH.
Qed.

Lemma str_concat_app (l1 l2 : list string) :
  str_concat (l1 ++ l2) = str_concat l1 +:+ str_concat l2.
Proof.
  induction l1 as [|s l1 IH]; [done|]. simpl.
  unfold str_concat in *. simpl. by rewrite IH, str_app_assoc.
Qed.

(** The accumulation loop [acc += s for s in l] computes [str_concat]. *)
Lemma foldl_str_app (l : list string) (acc : string) :
  foldl String.app acc l = acc +:+ str_concat l.
Proof.
  revert acc. induction l as [|s l IH]; intros acc; simpl.
  - by rewrite str_app_nil_r.
  - rewrite IH. unfold str_concat. simpl. by rewrite str_app_assoc.
Qed.

Lemma str_join_empty_sep (l : list string) : str_join "" l = str_concat l.
Proof.
  unfold str_join, str_concat. induction l as [|s [|s' l] IH]; simpl in *.
  - done.
  - by rewrite str_app_nil_r.
  - by rewrite <- IH.
Qed.

Lemma str_length_app (s1 s2 : string) :
  String.length (s1 +:+ s2) = String.length s1 + String.length s2.
Proof. induction s1 as [|c s1 IH]; [done|]. unfold String.app in *. simpl. by rewrite IH. Qed.

(** ** Hint databases and tactics *)

(** [eff] collects the equations that run a computation; [py] the facts about
    Python values that the components use to discharge side conditions. *)
Create HintDb eff discriminated.
Create Rewrite HintDb eff.
Create HintDb py discriminated.

#[export] Hint Rewrite @str_app_nil_r @str_app_assoc @str_concat_app
  @foldl_str_app @str_join_empty_sep : eff.

(** Unfold the monad's operations (and the definitions given) and compute. *)
Ltac eff_unfold :=
  unfold bind, ret, raise, lift_res, get, gets, put, modify, try_except in *.

Tactic Notation "eff_simpl" := (eff_unfold; simpl in *).

(** Run the first computation of a [bind] with the equation [lem] that gives
    its result and final state. *)
Tactic Notation "run" open_constr(lem) :=
  first [ unfold bind at 1; rewrite lem
        | unfold bind at 1 2; rewrite lem
        | unfold bind at 1 2 3; rewrite lem
        | rewrite lem ];
  csimpl.

(** Case analysis on the hypotheses [x ∈ [a; b; ...]] with a literal list. *)
Ltac inv_elem_of :=
  repeat match goal with
    | H : _ ∈ [] |- _ => by apply elem_of_nil in H
    | H : _ ∈ _ :: _ |- _ => apply elem_of_cons in H as [H|H]
    end.

(** Case analysis on the result of the computation scrutinised by the goal. *)
Ltac case_res :=
  match goal with
  | |- context [match ?c with pair _ _ => _ end] =>
      let r := fresh "r" in let s := fresh "s" in let H := fresh "Hrun" in
      destruct c as [[r|r] s] eqn:H
  | |- context [match ?r with Ok _ => _ | Raise _ => _ end] =>
      let a := fresh "a" in let H := fresh "Hres" in
      destruct r as [a|a] eqn:H
  end.
