(* ===== verification/Python.v ===== *)
(** * Python: the object model the sources rely on

    The repository is Python, and several of its methods branch on the
    run-time type of an argument ([type(message)], [ev.__class__],
    [type(priority) is not int]), iterate over it, call it, or look a class up
    through [__subclasses__()] and [__name__].  This file fixes the fragment of
    Python's data model that those lines use: exceptions with their class
    hierarchy, values with their types, the iteration protocol, [__name__],
    indexing, the [str] methods [lower], [in] and [startswith], and the class
    table with [__subclasses__()] and [str(cls)].  Nothing here models a line
    of the repository; the component files do, on top of it. *)

From Stdlib Require Import Ascii.
From S2P Require Import Prelude.

(** ** Classes *)

(** A class is identified by its module and its name; [str(cls)] prints
    both. *)
Record ClassRef : Type := mkClassRef { cls_module : string; cls_name : string }.

#[export] Instance ClassRef_eq_dec : EqDecision ClassRef.
Proof. solve_decision. Defined.

(** The types [type(v)] can return.  [TyType] is the metaclass [type], the
    type of every class object. *)
Inductive PyType : Type :=
| TyType
| TyNoneType
| TyBool
| TyInt
| TyStr
| TyList
| TyTuple
| TyDict
| TyFunction
| TyClass (c : ClassRef).

#[export] Instance PyType_eq_dec : EqDecision PyType.
Proof. solve_decision. Defined.

(** ** Exceptions *)

(** The exception classes the sources raise, catch or can meet.  The
    hierarchy is CPython's; [ExcRequestsConnectionError] is
    [requests.exceptions.ConnectionError], which derives from
    [requests.exceptions.RequestException], an [IOError] (that is [OSError]),
    and not from the builtin [ConnectionError]. *)
Inductive ExcClass : Type :=
| ExcException
| ExcTypeError
| ExcAttributeError
| ExcLookupError
| ExcIndexError
| ExcKeyError
| ExcNameError
| ExcOSError
| ExcConnectionError
| ExcRequestException
| ExcRequestsConnectionError
| ExcRuntimeError
| ExcRecursionError
| ExcValueError
| ExcImportError
| ExcModuleNotFoundError.

#[export] Instance ExcClass_eq_dec : EqDecision ExcClass.
Proof. solve_decision. Defined.

(** Direct base class; [ExcException] is the root of what [except Exception]
    catches. *)
Definition exc_base (c : ExcClass) : option ExcClass :=
  match c with
  | ExcException => None
  | ExcTypeError | ExcAttributeError | ExcLookupError | ExcNameError
  | ExcOSError | ExcRuntimeError | ExcValueError | ExcImportError =>
      Some ExcException
  | ExcModuleNotFoundError => Some ExcImportError
  | ExcRecursionError => Some ExcRuntimeError
  | ExcIndexError | ExcKeyError => Some ExcLookupError
  | ExcConnectionError | ExcRequestException => Some ExcOSError
  | ExcRequestsConnectionError => Some ExcRequestException
  end.

(** The chain of classes from [c] up to the root; the hierarchy has depth 4. *)
Fixpoint exc_mro_fuel (n : nat) (c : ExcClass) : list ExcClass :=
  match n with
  | 0 => [c]
  | S n' => c :: from_option (exc_mro_fuel n') [] (exc_base c)
  end.

Definition exc_mro : ExcClass → list ExcClass := exc_mro_fuel 4.

(** [issubclass(c, d)]. *)
Definition exc_issubclass (c d : ExcClass) : bool := bool_decide (d ∈ exc_mro c).

(** Why an exception was raised.  The payload stands for the message
    [str(e)] prints. *)
Inductive ExcInfo : Type :=
| NotIterable (t : PyType)
| NotCallable (t : PyType)
| ArgCount (fn : string) (expected given : nat)
| NoAttribute (t : PyType) (attr : string)
| BadConcat (t : PyType)
| IndexOutOfRange
| MissingKey (k : string)
| UndefinedName (name : string)
| RecursionDepth
| NotAwaitable (t : PyType)
| NotCoroutine (t : PyType)
| NoModule (package : string)
| NoExport (package name : string)
| Message (msg : string)
| Formatted (prefix : string) (cause : ExcInfo).

Record PyExc : Type := mkExc { exc_class : ExcClass; exc_info : ExcInfo }.

#[export] Instance ExcInfo_eq_dec : EqDecision ExcInfo.
Proof. solve_decision. Defined.
#[export] Instance PyExc_eq_dec : EqDecision PyExc.
Proof. solve_decision. Defined.

(** [isinstance(e, c)], the test of an [except c] clause. *)
Definition exc_isinstance (e : PyExc) (c : ExcClass) : bool :=
  exc_issubclass (exc_class e) c.

Definition TypeError (i : ExcInfo) : PyExc := mkExc ExcTypeError i.
Definition AttributeError (t : PyType) (a : string) : PyExc :=
  mkExc ExcAttributeError (NoAttribute t a).
Definition IndexError : PyExc := mkExc ExcIndexError IndexOutOfRange.
Definition KeyError (k : string) : PyExc := mkExc ExcKeyError (MissingKey k).
Definition NameError (n : string) : PyExc := mkExc ExcNameError (UndefinedName n).
Definition RecursionError : PyExc := mkExc ExcRecursionError RecursionDepth.
Definition ValueError (i : ExcInfo) : PyExc := mkExc ExcValueError i.
Definition ModuleNotFoundError (package : string) : PyExc :=
  mkExc ExcModuleNotFoundError (NoModule package).
Definition ImportError (package name : string) : PyExc :=
  mkExc ExcImportError (NoExport package name).

(** Computations of the development raise Python exceptions. *)
Abbreviation py S A := (eff PyExc S A).
Abbreviation pyres A := (res PyExc A).

(** ** Values *)

(** A function object: its identity, its [__name__], and whether it was
    defined with [async def] (what [asyncio.iscoroutinefunction] tests). *)
Record PyFunc : Type := mkFunc {
  fn_id : nat;
  fn_name : string;
  fn_is_coroutine : bool
}.

#[export] Instance PyFunc_eq_dec : EqDecision PyFunc.
Proof. solve_decision. Defined.

(** An instance of an element class, by its class and what its two
    rendering methods return. *)
Record Element : Type := mkElement {
  elem_class : ClassRef;
  elem_code : string;
  elem_display : string
}.

#[export] Instance Element_eq_dec : EqDecision Element.
Proof. solve_decision. Defined.

(** The values that reach the dynamically typed parameters of the sources.
    [VObj c] is an instance of a class [c] without any of the special methods
    used below. *)
Inductive PyVal : Type :=
| VNone
| VBool (b : bool)
| VInt (z : Z)
| VStr (s : string)
| VList (l : list PyVal)
| VTuple (l : list PyVal)
| VClass (c : ClassRef)
| VFunc (f : PyFunc)
| VElem (e : Element)
| VObj (c : ClassRef).

#[export] Instance PyVal_eq_dec : EqDecision PyVal.
Proof.
  refine (fix go (x y : PyVal) {struct x} : Decision (x = y) :=
    match x, y with
    | VNone, VNone => left _
    | VBool a, VBool b => cast_if (decide (a = b))
    | VInt a, VInt b => cast_if (decide (a = b))
    | VStr a, VStr b => cast_if (decide (a = b))
    | VList l1, VList l2 => cast_if (@list_eq_dec _ go l1 l2)
    | VTuple l1, VTuple l2 => cast_if (@list_eq_dec _ go l1 l2)
    | VClass a, VClass b => cast_if (decide (a = b))
    | VFunc a, VFunc b => cast_if (decide (a = b))
    | VElem a, VElem b => cast_if (decide (a = b))
    | VObj a, VObj b => cast_if (decide (a = b))
    | _, _ => right _
    end); congruence.
Defined.

(** An argument annotated [Union[T, List[T], Tuple[T]]]: one value or a
    sequence of them. *)
Inductive OneOrMany (A : Type) : Type :=
| One (a : A)
| Many (l : list A).
Arguments One {A} a.
Arguments Many {A} l.

#[export] Instance OneOrMany_eq_dec `{EqDecision A} : EqDecision (OneOrMany A).
Proof. solve_decision. Defined.

(** [type(v)]. *)
Definition py_type (v : PyVal) : PyType :=
  match v with
  | VNone => TyNoneType
  | VBool _ => TyBool
  | VInt _ => TyInt
  | VStr _ => TyStr
  | VList _ => TyList
  | VTuple _ => TyTuple
  | VClass _ => TyType
  | VFunc _ => TyFunction
  | VElem e => TyClass (elem_class e)
  | VObj c => TyClass c
  end.

(** The characters of a string as one-character strings: what iterating a
    [str] yields. *)
Fixpoint str_chars (s : string) : list string :=
  match s with
  | EmptyString => []
  | String c s' => String c EmptyString :: str_chars s'
  end.

(** [iter(v)] run to the end: the items a [for] loop or a comprehension
    visits, or [TypeError] for a value that is not iterable. *)
Definition py_iter (v : PyVal) : pyres (list PyVal) :=
  match v with
  | VList l | VTuple l => Ok l
  | VStr s => Ok (VStr <$> str_chars s)
  | _ => Raise (TypeError (NotIterable (py_type v)))
  end.

(** [v.__name__]: classes and functions have one. *)
Definition py_name (v : PyVal) : pyres string :=
  match v with
  | VClass c => Ok (cls_name c)
  | VFunc f => Ok (fn_name f)
  | _ => Raise (AttributeError (py_type v) "__name__")
  end.

(** [l[i]] on a Python list held as a Rocq list. *)
Definition py_index {A} (l : list A) (i : nat) : pyres A :=
  match l !! i with
  | Some x => Ok x
  | None => Raise IndexError
  end.

(** ** The class table *)

(** A class definition: its identity and its direct bases. *)
Record PyClass : Type := mkClass { cls_ref : ClassRef; cls_bases : list ClassRef }.

(** The classes of the running program, in definition order. *)
Definition ClassTable := list PyClass.

(** [c.__subclasses__()]: the direct subclasses, in definition order. *)
Definition subclasses (tbl : ClassTable) (c : ClassRef) : list ClassRef :=
  cls_ref <$> filter (λ k, c ∈ cls_bases k) tbl.

(** [str(cls)] for a class object. *)
Definition class_str (c : ClassRef) : string :=
  "<class '" +:+ cls_module c +:+ "." +:+ cls_name c +:+ "'>".

(** ** String methods *)

(** [c.lower()] on one ASCII character; other bytes are unchanged. *)
Definition ascii_lower (c : ascii) : ascii :=
  let n := Ascii.nat_of_ascii c in
  if (65 <=? n)%nat && (n <=? 90)%nat then Ascii.ascii_of_nat (n + 32) else c.

(** [s.lower()]. *)
Fixpoint str_lower (s : string) : string :=
  match s with
  | EmptyString => EmptyString
  | String c s' => String (ascii_lower c) (str_lower s')
  end.

(** [s.startswith(p)]. *)
Fixpoint str_startswith (p s : string) : bool :=
  match p, s with
  | EmptyString, _ => true
  | String a p', String b s' => bool_decide (a = b) && str_startswith p' s'
  | String _ _, EmptyString => false
  end.

(** [sub in s]. *)
Fixpoint str_contains (sub s : string) : bool :=
  str_startswith sub s ||
  match s with
  | EmptyString => false
  | String _ s' => str_contains sub s'
  end.

(** ** Facts *)

Lemma exc_issubclass_refl c : exc_issubclass c c = true.
Proof. by destruct c. Qed.

(** Every exception of the model is caught by [except Exception]. *)
Lemma exc_isinstance_Exception e : exc_isinstance e ExcException = true.
Proof. destruct e as [[] i]; reflexivity. Qed.

Lemma str_startswith_spec p s :
  str_startswith p s = true ↔ ∃ rest, s = p +:+ rest.
Proof.
  revert s. induction p as [|a p IH]; intros s; simpl.
  - split; [intros _; by exists s | done].
  - destruct s as [|b s]; simpl.
    + split; [done | by intros [rest [=]]].
    + rewrite andb_true_iff, bool_decide_eq_true, IH. split.
      * intros [-> [rest ->]]. by exists rest.
      * intros [rest [= -> ->]]. eauto.
Qed.

Lemma str_contains_spec sub s :
  str_contains sub s = true ↔ ∃ pre post, s = pre +:+ sub +:+ post.
Proof.
  induction s as [|b s IH]; simpl.
  - rewrite orb_false_r, str_startswith_spec. split.
    + intros [rest Hs]. by exists "", rest.
    + intros [[|c pre] [post Hs]]; [by exists post | done].
  - rewrite orb_true_iff, IH, str_startswith_spec. split.
    + intros [[rest Hs] | (pre & post & ->)].
      * by exists "", rest.
      * by exists (String b pre), post.
    + intros [[|c pre] [post Hs]].
      * left. by exists post.
      * right. injection Hs as -> ->. by exists pre, post.
Qed.

Lemma str_lower_app s1 s2 : str_lower (s1 +:+ s2) = str_lower s1 +:+ str_lower s2.
Proof. induction s1 as [|c s1 IH]; [done|]. unfold String.app in *. simpl. by rewrite IH. Qed.

Lemma ascii_lower_idemp c : ascii_lower (ascii_lower c) = ascii_lower c.
Proof. by destruct c as [[] [] [] [] [] [] [] []]. Qed.

Lemma str_lower_idemp s : str_lower (str_lower s) = str_lower s.
Proof. induction s as [|c s IH]; [done|]. simpl. by rewrite ascii_lower_idemp, IH. Qed.

Lemma str_lower_length s : String.length (str_lower s) = String.length s.
Proof. induction s as [|c s IH]; [done|]. simpl. by rewrite IH. Qed.

Lemma elem_of_subclasses tbl c k :
  k ∈ subclasses tbl c ↔ ∃ d, d ∈ tbl ∧ cls_ref d = k ∧ c ∈ cls_bases d.
Proof.
  unfold subclasses. rewrite list_elem_of_fmap. split.
  - intros (d & -> & Hd). apply list_elem_of_filter in Hd as [Hc Hd]. eauto.
  - intros (d & Hd & <- & Hc). exists d. split; [done|].
    apply list_elem_of_filter. eauto.
Qed.

Lemma py_iter_list l : py_iter (VList l) = Ok l.
Proof. done. Qed.

Lemma py_iter_tuple l : py_iter (VTuple l) = Ok l.
Proof. done. Qed.

Lemma py_iter_elem e :
  py_iter (VElem e) = Raise (TypeError (NotIterable (TyClass (elem_class e)))).
Proof. done. Qed.

Lemma py_index_Some {A} (l : list A) i x : l !! i = Some x → py_index l i = Ok x.
Proof. unfold py_index. by intros ->. Qed.

Lemma py_index_nil {A} i : py_index (@nil A) i = Raise IndexError.
Proof. unfold py_index. by rewrite lookup_nil. Qed.

#[export] Hint Rewrite py_iter_list py_iter_tuple py_iter_elem
  @py_index_nil : eff.
#[export] Hint Resolve exc_issubclass_refl exc_isinstance_Exception : py.
