(* ===== verification/Chain.v ===== *)
(** * Chain: the message chain ([src/apis/message_chain.py])

    [MessageChain.__new__] stores its data in attributes of the class object
    and returns the class object itself, so the program has exactly one chain:
    the state of this component is the record [MessageChain.cls] of the three
    class attributes, and every method is a computation over it.

    The theorems give the behaviour of each method on every path (the two
    renderings of the specification, the [AttributeError] and [TypeError]
    paths), the invariant that ties [_result] to [_strings] on all paths, and
    the consequences of keeping the state on the class: a second chain
    overwrites the first, and a chain built from strings displays the elements
    of the chain built before it.  Because a chain is the class, a chain
    among the elements of a chain makes [as_display] call itself:
    [as_display_at] carries the number of frames left on the stack, and the
    outcome is shown not to depend on it. *)

From S2P Require Import Prelude Python.

Module MessageChain.

(** ** State *)

(** The class object [MessageChain] as [str(cls)] and [type()] see it. *)
Definition ref : ClassRef :=
  mkClassRef "JustBot.apis.message_chain" "MessageChain".

(** The attributes of the class object.  An attribute that was never
    assigned is [None] here and an [AttributeError] when read. *)
Record cls : Type := mkCls {
  elements : option PyVal;
  _strings : option PyVal;
  _result : option string
}.

(** The class right after its [class] statement: line 8 is an annotation
    without a value and assigns nothing. *)
Definition fresh : cls := mkCls None None None.

(** [cls.<name>]: the attribute, or [AttributeError] on the type object. *)
Definition getattr {A} (name : string) (field : cls → option A) : py cls A :=
  c <- get ;;
  match field c with
  | Some a => ret a
  | None => raise (AttributeError TyType name)
  end.

Definition set_elements (v : PyVal) : py cls unit :=
  modify (λ c, mkCls (Some v) (_strings c) (_result c)).

Definition set_strings (v : PyVal) : py cls unit :=
  modify (λ c, mkCls (elements c) (Some v) (_result c)).

Definition set_result (r : string) : py cls unit :=
  modify (λ c, mkCls (elements c) (_strings c) (Some r)).

(** ** Methods *)

(** [cls._result += i]: [str + str], a [TypeError] for any other operand. *)
Definition add_result (i : PyVal) : py cls unit :=
  r <- getattr "_result" _result ;;
  match i with
  | VStr s => set_result (r +:+ s)
  | _ => raise (TypeError (BadConcat (py_type i)))
  end.

(** [MessageChain(strings)].  The call returns [cls], which is no instance of
    [cls], so no [__init__] runs and the result is the class object. *)
Definition __new__ (strings : PyVal) : py cls PyVal :=
  set_strings strings ;;
  set_result "" ;;
  items <- lift_res (py_iter strings) ;;
  for_each add_result items ;;
  ret (VClass ref).

(** [MessageChain.to_code()]. *)
Definition to_code : py cls string := getattr "_result" _result.

(** [i.to_code()] for an item of [elements]: an element renders itself; the
    class [MessageChain], whose [to_code] is a class method, returns its
    current result; nothing else of the model has the attribute. *)
Definition item_to_code (i : PyVal) : py cls PyVal :=
  match i with
  | VElem e => ret (VStr (elem_code e))
  | VClass c =>
      if decide (c = ref) then r <- to_code ;; ret (VStr r)
      else raise (AttributeError (py_type i) "to_code")
  | _ => raise (AttributeError (py_type i) "to_code")
  end.

(** [MessageChain.create(elements)]: the local list [strings] is the
    comprehension of [item_to_code] over the items, in order. *)
Definition create (elems : PyVal) : py cls PyVal :=
  set_elements elems ;;
  items <- lift_res (py_iter elems) ;;
  strings <- map_eff item_to_code items ;;
  __new__ (VList strings).

(** The depth of the interpreter's stack ([sys.getrecursionlimit()]) when
    [as_display] is called: 1000 unless the program changes it. *)
Definition recursion_limit : nat := 1000.

(** [element.as_display()] for an item of [cls.elements], given what a call
    of [MessageChain.as_display] one frame down does: an element renders
    itself; the class [MessageChain], whose [as_display] is a class method,
    makes that call; nothing else of the model has the attribute. *)
Definition item_as_display_in (inner : py cls string) (i : PyVal) : py cls string :=
  match i with
  | VElem e => ret (elem_display e)
  | VClass c =>
      if decide (c = ref) then inner
      else raise (AttributeError (py_type i) "as_display")
  | _ => raise (AttributeError (py_type i) "as_display")
  end.

(** [MessageChain.as_display()] with [depth] frames left on the stack: with
    none the interpreter raises [RecursionError]. *)
Fixpoint as_display_at (depth : nat) : py cls string :=
  match depth with
  | 0 => raise RecursionError
  | S d =>
      elems <- getattr "elements" elements ;;
      items <- lift_res (py_iter elems) ;;
      shown <- map_eff (item_as_display_in (as_display_at d)) items ;;
      ret (str_join "" shown)
  end.

(** [MessageChain.as_display()]. *)
Definition as_display : py cls string := as_display_at recursion_limit.

(** ** Reference definitions and the invariant *)

(** What an item contributes to the display when a nested call of
    [as_display] gives [inner]. *)
Definition display_with (inner : pyres string) (i : PyVal) : pyres string :=
  match i with
  | VElem e => Ok (elem_display e)
  | VClass c =>
      if decide (c = ref) then inner
      else Raise (AttributeError (py_type i) "as_display")
  | _ => Raise (AttributeError (py_type i) "as_display")
  end.

(** The reference for an item: the class among the elements is a
    [RecursionError], whatever the depth of the stack. *)
Definition item_as_display : PyVal → pyres string :=
  display_with (Raise RecursionError).

(** The result of [as_display], by cases on the attribute, when a nested
    call gives [inner]. *)
Definition display_of (inner : pyres string) (c : cls) : pyres string :=
  match elements c with
  | None => Raise (AttributeError TyType "elements")
  | Some elems =>
      res_bind (py_iter elems) (λ items,
        res_map str_concat (res_mapM (display_with inner) items))
  end.

(** What [as_display] gives with [depth] frames left. *)
Fixpoint result_at (depth : nat) (c : cls) : pyres string :=
  match depth with
  | 0 => Raise RecursionError
  | S d => display_of (result_at d c) c
  end.

(** The strings a run of the loop of [__new__] appends before it stops: the
    items up to the first one that is not a [str]. *)
Fixpoint leading_strs (items : list PyVal) : list string :=
  match items with
  | VStr s :: items' => s :: leading_strs items'
  | _ => []
  end.

(** Whether the loop runs to the end. *)
Definition all_strs (items : list PyVal) : bool :=
  forallb (λ i, match i with VStr _ => true | _ => false end) items.

(** The items of a value, none when it is not iterable. *)
Definition items_of (v : PyVal) : list PyVal :=
  match py_iter v with Ok l => l | Raise _ => [] end.

(** [_result] and [_strings] are assigned together, and [_result] is the
    concatenation of the leading strings of [_strings]: all of them after a
    call that returned, those before the offending item after a call that
    raised. *)
Definition wf (c : cls) : Prop :=
  match _strings c, _result c with
  | None, None => True
  | Some v, Some r => r = str_concat (leading_strs (items_of v))
  | _, _ => False
  end.

#[export] Instance wf_dec c : Decision (wf c).
Proof. unfold wf. destruct (_strings c), (_result c); apply _. Defined.

(** ** Running the loops *)

Lemma leading_strs_VStr (ss : list string) : leading_strs (VStr <$> ss) = ss.
Proof. induction ss as [|s ss IH]; [done|]. simpl. f_equal. apply IH. Qed.

Lemma all_strs_VStr (ss : list string) : all_strs (VStr <$> ss) = true.
Proof. by induction ss. Qed.

Lemma all_strs_inv items :
  all_strs items = true → items = VStr <$> leading_strs items.
Proof.
  induction items as [|[] items IH]; try done. intros H. csimpl.
  f_equal. by apply IH.
Qed.

(** The loop of lines 11-12 from any accumulator: it appends the leading
    strings and raises at the first other item. *)
Lemma for_each_add_result items e st r :
  for_each add_result items (mkCls e st (Some r))
  = (if all_strs items then Ok tt
     else Raise (TypeError (BadConcat
            (py_type (default VNone (drop (length (leading_strs items)) items !! 0))))),
     mkCls e st (Some (r +:+ str_concat (leading_strs items)))).
Proof.
  revert r. induction items as [|i items IH]; intros r; simpl.
  - by rewrite str_app_nil_r.
  - destruct i; try (by rewrite ?str_app_nil_r).
    unfold bind at 1. simpl. rewrite IH. unfold str_concat. simpl.
    by rewrite str_app_assoc.
Qed.

(** [__new__] on every input. *)
Lemma run_new strings c :
  __new__ strings c
  = (match py_iter strings with
     | Ok items =>
         if all_strs items then Ok (VClass ref)
         else Raise (TypeError (BadConcat
                (py_type (default VNone
                   (drop (length (leading_strs items)) items !! 0)))))
     | Raise e => Raise e
     end,
     mkCls (elements c) (Some strings)
       (Some (str_concat (leading_strs (items_of strings))))).
Proof.
  unfold __new__, items_of. eff_simpl.
  destruct (py_iter strings) as [items|e]; [|done].
  pose proof (for_each_add_result items (elements c) (Some strings) "") as H.
  eff_simpl. rewrite H. by destruct (all_strs items).
Qed.

Lemma run_new_strs (ss : list string) c :
  __new__ (VList (VStr <$> ss)) c
  = (Ok (VClass ref),
     mkCls (elements c) (Some (VList (VStr <$> ss))) (Some (str_concat ss))).
Proof.
  rewrite run_new. unfold items_of. simpl.
  by rewrite all_strs_VStr, leading_strs_VStr.
Qed.

(** The comprehension of [create] over element instances. *)
Lemma map_eff_item_to_code (es : list Element) c :
  map_eff item_to_code (VElem <$> es) c = (Ok (VStr <$> (elem_code <$> es)), c).
Proof.
  rewrite (map_eff_ok _ (λ v, match v with VElem e => VStr (elem_code e) | _ => v end)).
  - by rewrite <- !list_fmap_compose.
  - by intros v s' (e & -> & _)%list_elem_of_fmap.
Qed.

Lemma run_create_elems (es : list Element) c :
  create (VList (VElem <$> es)) c
  = (Ok (VClass ref),
     mkCls (Some (VList (VElem <$> es)))
           (Some (VList (VStr <$> (elem_code <$> es))))
           (Some (str_concat (elem_code <$> es)))).
Proof.
  unfold create. eff_simpl. rewrite map_eff_item_to_code.
  by rewrite run_new_strs.
Qed.

Lemma res_mapM_item_as_display (es : list Element) :
  res_mapM item_as_display (VElem <$> es) = Ok (elem_display <$> es).
Proof.
  rewrite (res_mapM_ok _ (λ v, match v with VElem e => elem_display e | _ => "" end)).
  - f_equal. by rewrite <- list_fmap_compose.
  - by intros v (e & -> & _)%list_elem_of_fmap.
Qed.

(** *** The recursion of [as_display] *)

Lemma run_item_as_display_in inner r i c :
  inner c = (r, c) → item_as_display_in inner i c = (display_with r i, c).
Proof. intros Hin. destruct i; try done. simpl. by case_decide. Qed.

(** A call at any depth leaves the class as it was. *)
Lemma run_as_display_at d c : as_display_at d c = (result_at d c, c).
Proof.
  induction d as [|d IH]; [done|]. simpl. unfold display_of, getattr. eff_simpl.
  destruct (elements c) as [elems|]; [|done].
  destruct (py_iter elems) as [items|e]; [|done]. simpl.
  run (map_eff_at (item_as_display_in (as_display_at d))
         (display_with (result_at d c)) items c).
  - destruct (res_mapM _ items); [|done]. simpl. by rewrite str_join_empty_sep.
  - intros i _. by apply run_item_as_display_in.
Qed.

(** Items after a prefix that displays are displayed alike whether the
    nested call raises [e] or gives what the whole list gives with [e]:
    when the class is among them, the whole list raises as the nested call
    does. *)
Lemma res_mapM_display_with e (h : list string → string) pre ps items :
  res_mapM (display_with (Raise e)) pre = Ok ps →
  res_mapM (display_with
              (res_map h (res_mapM (display_with (Raise e)) (pre ++ items)))) items
  = res_mapM (display_with (Raise e)) items.
Proof.
  revert pre ps. induction items as [|i items IH]; intros pre ps Hpre; [done|].
  destruct i as [| | | | |k|x| | |]; try done.
  - rewrite res_mapM_app, Hpre. simpl. by case_decide.
  - simpl. rewrite (cons_middle _ pre), (assoc_L (++)).
    erewrite IH; [done|]. by rewrite res_mapM_app, Hpre.
Qed.

(** One more frame changes nothing once the call has one. *)
Lemma display_of_idemp e c :
  display_of (display_of (Raise e) c) c = display_of (Raise e) c.
Proof.
  unfold display_of. destruct (elements c) as [elems|]; [|done].
  destruct (py_iter elems) as [items|e']; [|done]. simpl.
  f_equal. exact (res_mapM_display_with e str_concat [] [] items eq_refl).
Qed.

Lemma result_at_S d c : result_at (S d) c = display_of (Raise RecursionError) c.
Proof.
  induction d as [|d IH]; [done|].
  change (result_at (S (S d)) c) with (display_of (result_at (S d) c) c).
  rewrite IH. apply display_of_idemp.
Qed.

(** C23: [MessageChain.as_display()] returns or raises whatever the recursion
    limit: with at least one frame left its outcome is the one of the
    reference, in which the class among its own elements is a
    [RecursionError], and the class is left as it was. *)
Theorem as_display_any_limit (d : nat) (c : cls) :
  as_display_at (S d) c = (display_of (Raise RecursionError) c, c).
Proof. by rewrite run_as_display_at, result_at_S. Qed.

Lemma run_as_display c :
  as_display c
  = (match elements c with
     | None => Raise (AttributeError TyType "elements")
     | Some elems =>
         res_bind (py_iter elems) (λ items,
           res_map str_concat (res_mapM item_as_display items))
     end, c).
Proof.
  unfold as_display, recursion_limit. by rewrite run_as_display_at, result_at_S.
Qed.

Lemma run_as_display_elems (es : list Element) st r :
  as_display (mkCls (Some (VList (VElem <$> es))) st r)
  = (Ok (str_concat (elem_display <$> es)),
     mkCls (Some (VList (VElem <$> es))) st r).
Proof. rewrite run_as_display. simpl. by rewrite res_mapM_item_as_display. Qed.

#[export] Hint Rewrite run_new_strs run_create_elems run_as_display_elems
  leading_strs_VStr all_strs_VStr : eff.

(** ** [create] and [as_display] on every input *)

(** [item_to_code] reads [_result] and writes nothing: as a function of the
    attribute. *)
Definition item_code (r : option string) (i : PyVal) : pyres PyVal :=
  match i with
  | VElem e => Ok (VStr (elem_code e))
  | VClass c =>
      if decide (c = ref)
      then match r with
           | Some s => Ok (VStr s)
           | None => Raise (AttributeError TyType "_result")
           end
      else Raise (AttributeError (py_type i) "to_code")
  | _ => Raise (AttributeError (py_type i) "to_code")
  end.

Lemma run_item_to_code i c : item_to_code i c = (item_code (_result c) i, c).
Proof.
  destruct i; try done. unfold item_to_code, item_code, to_code, getattr.
  case_decide; [|done]. eff_simpl. by destruct (_result c).
Qed.

Lemma run_map_item_to_code items c :
  map_eff item_to_code items c = (res_mapM (item_code (_result c)) items, c).
Proof.
  rewrite <- map_eff_lift_res. revert c.
  induction items as [|i items IH]; intros c; [done|]. simpl.
  unfold bind at 1 3. rewrite run_item_to_code. unfold lift_res at 1.
  destruct (item_code _ i); [|done]. unfold bind. by rewrite IH.
Qed.

(** What the comprehension of [create] collects is a list of strings. *)
Lemma item_code_all_strs r items strings :
  res_mapM (item_code r) items = Ok strings → all_strs strings = true.
Proof.
  revert strings. induction items as [|i items IH]; intros strings; simpl.
  - by intros [= <-].
  - destruct (item_code r i) as [v|] eqn:Hi; [|done]. simpl.
    destruct (res_mapM _ items) as [vs|]; [|done]. simpl. intros [= <-]. simpl.
    rewrite (IH vs eq_refl), andb_true_r.
    destruct i; simplify_eq/=; try done.
    case_decide; [|done]. by destruct r; simplify_eq.
Qed.

(** The state [create] leaves when it raises before reaching [__new__]. *)
Definition with_elements (v : PyVal) (c : cls) : cls :=
  mkCls (Some v) (_strings c) (_result c).

Lemma run_create elems c :
  create elems c
  = match py_iter elems with
    | Raise e => (Raise e, with_elements elems c)
    | Ok items =>
        match res_mapM (item_code (_result c)) items with
        | Raise e => (Raise e, with_elements elems c)
        | Ok strings => __new__ (VList strings) (with_elements elems c)
        end
    end.
Proof.
  unfold create, set_elements. eff_simpl.
  destruct (py_iter elems) as [items|e]; [|done].
  pose proof (run_map_item_to_code items (with_elements elems c)) as H.
  unfold with_elements in *. simpl in H. rewrite H.
  by destruct (res_mapM _ items).
Qed.

(** [create] reads the state only to render the class itself: when no item
    is the class, its result is the same from every state, and so is the
    state it leaves when it returns. *)
Lemma item_code_stateless r r' i : i ≠ VClass ref → item_code r i = item_code r' i.
Proof. destruct i; try done. simpl. case_decide; [|done]. by subst. Qed.

Lemma create_stateless elems c c' :
  (∀ items, py_iter elems = Ok items → VClass ref ∉ items) →
  (create elems c).1 = (create elems c').1
  ∧ (is_ok (create elems c).1 = true → (create elems c).2 = (create elems c').2).
Proof.
  intros Hit. rewrite !run_create. destruct (py_iter elems) as [items|e]; [|done].
  assert (res_mapM (item_code (_result c)) items
          = res_mapM (item_code (_result c')) items) as ->.
  { specialize (Hit items eq_refl). induction items as [|i items IH]; [done|].
    simpl. rewrite (item_code_stateless _ (_result c') i) by set_solver.
    rewrite IH; [done|set_solver]. }
  destruct (res_mapM _ items) as [strings|e]; [|done].
  by rewrite !run_new.
Qed.

(** A call of [create] that returns, returns the class object. *)
Lemma create_value elems c v : (create elems c).1 = Ok v → v = VClass ref.
Proof.
  rewrite run_create. destruct (py_iter elems); [|done].
  destruct (res_mapM _ _); [|done]. rewrite run_new. simpl.
  destruct (all_strs _); [|done]. by intros [= <-].
Qed.

(** After a call of [create] that returns, the class has a result:
    [to_code] returns. *)
Lemma create_rendered elems c :
  is_ok (create elems c).1 = true → is_Some (_result (create elems c).2).
Proof.
  rewrite run_create. destruct (py_iter elems); [|done].
  destruct (res_mapM _ _); [|done]. by rewrite run_new.
Qed.

(** No call of [create] takes the result away. *)
Lemma create_keeps_result elems c :
  is_Some (_result c) → is_Some (_result (create elems c).2).
Proof.
  intros Hc. rewrite run_create. destruct (py_iter elems); [|done].
  destruct (res_mapM _ _); [|done]. by rewrite run_new.
Qed.

Lemma run_to_code c :
  to_code c
  = (match _result c with
     | Some r => Ok r
     | None => Raise (AttributeError TyType "_result")
     end, c).
Proof. unfold to_code, getattr. eff_simpl. by destruct (_result c). Qed.

(** ** The calls a client can make, as steps *)

Inductive call : Type :=
| CallNew (strings : PyVal)
| CallCreate (elems : PyVal)
| CallToCode
| CallAsDisplay.

(** The state after a call, whether it returned or raised. *)
Definition step (k : call) (c : cls) : cls :=
  match k with
  | CallNew strings => (__new__ strings c).2
  | CallCreate elems => (create elems c).2
  | CallToCode => (to_code c).2
  | CallAsDisplay => (as_display c).2
  end.

(** The states a program can bring the class into. *)
Inductive reachable : cls → Prop :=
| reachable_fresh : reachable fresh
| reachable_step k c : reachable c → reachable (step k c).

Lemma wf_new strings c : wf (__new__ strings c).2.
Proof. by rewrite run_new. Qed.

Lemma wf_with_elements v c : wf c → wf (with_elements v c).
Proof. done. Qed.

Lemma wf_create elems c : wf c → wf (create elems c).2.
Proof.
  intros Hc. rewrite run_create. destruct (py_iter elems); [|done].
  destruct (res_mapM _ _); [apply wf_new | done].
Qed.

Lemma wf_step k c : wf c → wf (step k c).
Proof.
  destruct k; simpl.
  - intros _. apply wf_new.
  - apply wf_create.
  - by rewrite run_to_code.
  - by rewrite run_as_display.
Qed.

(** ** Theorems *)

(** C3: [MessageChain.create(E).to_code()] is the concatenation, in order, of
    [e.to_code()] for the elements [e] of the list [E], whatever the class
    held before the call. *)
Theorem create_to_code (es : list Element) (c : cls) :
  (create (VList (VElem <$> es)) ;; to_code) c
  = (Ok (str_concat (elem_code <$> es)),
     mkCls (Some (VList (VElem <$> es)))
           (Some (VList (VStr <$> (elem_code <$> es))))
           (Some (str_concat (elem_code <$> es)))).
Proof. run run_create_elems. by rewrite run_to_code. Qed.

(** C18: [MessageChain(S).to_code()] is the concatenation of the strings of
    the list [S] in order; the elements stored by an earlier [create] are left
    as they were. *)
Theorem new_to_code (ss : list string) (c : cls) :
  (__new__ (VList (VStr <$> ss)) ;; to_code) c
  = (Ok (str_concat ss),
     mkCls (elements c) (Some (VList (VStr <$> ss))) (Some (str_concat ss))).
Proof. run run_new_strs. by rewrite run_to_code. Qed.

(** C36: after [MessageChain.create(E)], [as_display()] is the concatenation,
    in order, of [e.as_display()] for the elements of [E]. *)
Theorem create_as_display (es : list Element) (c : cls) :
  (create (VList (VElem <$> es)) ;; as_display) c
  = (Ok (str_concat (elem_display <$> es)),
     mkCls (Some (VList (VElem <$> es)))
           (Some (VList (VStr <$> (elem_code <$> es))))
           (Some (str_concat (elem_code <$> es)))).
Proof.
  run run_create_elems. by rewrite run_as_display_elems.
Qed.

(** C29: in every state the class can reach, through any sequence of calls
    that return or raise, [_strings] and [_result] are assigned together and
    [_result] is the concatenation of the leading strings of [_strings]. *)
Theorem reachable_wf (c : cls) : reachable c → wf c.
Proof. induction 1 as [|k c _ IH]; [done | by apply wf_step]. Qed.

(** C8: two chains are one object: after a second [create], the value the
    first [create] returned renders the elements of the second. *)
Theorem chains_share_state (es1 es2 : list Element) (c : cls) :
  (c1 <- create (VList (VElem <$> es1)) ;;
   c2 <- create (VList (VElem <$> es2)) ;;
   r <- item_to_code c1 ;;
   ret (c1, c2, r)) c
  = (Ok (VClass ref, VClass ref, VStr (str_concat (elem_code <$> es2))),
     mkCls (Some (VList (VElem <$> es2)))
           (Some (VList (VStr <$> (elem_code <$> es2))))
           (Some (str_concat (elem_code <$> es2)))).
Proof.
  by do 2 run run_create_elems.
Qed.

(** C35: a chain built from strings after a chain built from elements renders
    the strings as its code and the earlier elements as its display: the
    display is not reported as unavailable. *)
Theorem new_keeps_elements (es : list Element) (ss : list string) (c : cls) :
  (create (VList (VElem <$> es)) ;;
   __new__ (VList (VStr <$> ss)) ;;
   code <- to_code ;;
   shown <- as_display ;;
   ret (code, shown)) c
  = (Ok (str_concat ss, str_concat (elem_display <$> es)),
     mkCls (Some (VList (VElem <$> es)))
           (Some (VList (VStr <$> ss)))
           (Some (str_concat ss))).
Proof.
  run run_create_elems. run run_new_strs. run run_to_code.
  by run run_as_display_elems.
Qed.

(** C37: on a class that never ran [create], a chain built from strings has
    no [elements] attribute and [as_display()] raises [AttributeError]. *)
Theorem as_display_without_elements (ss : list string) :
  (__new__ (VList (VStr <$> ss)) ;; as_display) fresh
  = (Raise (AttributeError TyType "elements"),
     mkCls None (Some (VList (VStr <$> ss))) (Some (str_concat ss))).
Proof. run run_new_strs. by rewrite run_as_display. Qed.

(** [MessageChain.create(e)] on one element instead of a list assigns
    [elements] and then raises [TypeError] at the loop header, leaving the
    code of the old chain beside the new [elements]. *)
Lemma create_element_raises (e : Element) (c : cls) :
  create (VElem e) c
  = (Raise (TypeError (NotIterable (TyClass (elem_class e)))),
     mkCls (Some (VElem e)) (_strings c) (_result c)).
Proof. by rewrite run_create. Qed.

(** [create] returns exactly when its argument is iterable and each item
    has a [to_code()] that returns. *)
Lemma create_ok_iff (elems : PyVal) (c : cls) :
  is_ok (create elems c).1 = true
  ↔ ∃ items, py_iter elems = Ok items
      ∧ is_ok (res_mapM (item_code (_result c)) items) = true.
Proof.
  rewrite run_create. destruct (py_iter elems) as [items|e]; simpl.
  - destruct (res_mapM _ items) as [strings|e] eqn:Hm; simpl.
    + rewrite run_new. simpl. rewrite (item_code_all_strs _ _ _ Hm).
      split; [|done]. intros _. exists items. by rewrite Hm.
    + split; [done|]. intros (? & [= <-] & H). by rewrite Hm in H.
  - split; [done | by intros (? & [=] & _)].
Qed.

(** What [create] and [MessageChain(...)] return is the class object:
    its type is [type], not [MessageChain]. *)
Lemma create_returns_class (elems : PyVal) (c : cls) :
  match (create elems c).1 with
  | Ok v => v = VClass ref ∧ py_type v = TyType
  | Raise _ => True
  end.
Proof.
  destruct (create elems c).1 as [v|e] eqn:Hv; [|done].
  by apply create_value in Hv as ->.
Qed.

(** ** Concrete runs *)

Definition Plain (text : string) : Element :=
  mkElement (mkClassRef "JustBot.adapters.mirai.elements" "Plain") text text.

Definition At (target : string) : Element :=
  mkElement (mkClassRef "JustBot.adapters.mirai.elements" "At")
    ("[at:" +:+ target +:+ "]") ("@" +:+ target).

Lemma reachable_wf_witness :
  wf (step CallAsDisplay
        (step (CallNew (VList [VStr "a"; VInt 3; VStr "b"]))
           (step (CallCreate (VList [VElem (At "1"); VElem (Plain "hi")])) fresh))).
Proof. apply reachable_wf. repeat constructor. Defined.

Example create_to_code_run :
  (create (VTuple [VElem (At "1"); VElem (Plain "hi")]) ;; to_code) fresh
  = (Ok "[at:1]hi",
     mkCls (Some (VTuple [VElem (At "1"); VElem (Plain "hi")]))
           (Some (VList [VStr "[at:1]"; VStr "hi"])) (Some "[at:1]hi")).
Proof. reflexivity. Qed.

Example new_stops_at_first_non_string :
  __new__ (VList [VStr "a"; VInt 3; VStr "b"]) fresh
  = (Raise (TypeError (BadConcat TyInt)),
     mkCls None (Some (VList [VStr "a"; VInt 3; VStr "b"])) (Some "a")).
Proof. reflexivity. Qed.

Example create_of_string_raises :
  (create (VStr "hi") fresh).1 = Raise (AttributeError TyStr "to_code").
Proof. reflexivity. Qed.

Example nested_chain_display_recurses :
  (create (VList [VClass ref]) ;; as_display)
    (mkCls None None (Some "x"))
  = (Raise RecursionError,
     mkCls (Some (VList [VClass ref])) (Some (VList [VStr "x"])) (Some "x")).
Proof. reflexivity. Qed.

End MessageChain.
