(* ===== verification/Matchers.v ===== *)
(** * Matchers: the message matchers attached to listeners

    The classes [CommandMatcher] and [KeywordMatcher] are not among the
    sources ([src/jbot/__init__.py] imports them from [.matchers] and only
    calls their constructors), so this file models them from the
    specification (sections 3 and 4.2): what a matcher holds, how its
    constructor stores the arguments [BotApplication.command] and
    [BotApplication.keyword] pass, and [matches]: the text a matcher sees of
    a chain, the test of one trigger for either variant, and the choice of
    the longest trigger that matches.

    The specification does not say which characters width folding maps
    together: [matches] takes the folding function as an argument.  A word
    boundary is the end of the text or a white-space character, and the
    argument of a command is what follows with its leading white space
    removed; the argument of a keyword is the whole text. *)

From Stdlib Require Import Ascii.
From S2P Require Import Prelude Python.

Module Matcher.

(** The two variants. *)
Inductive kind : Type := Command | Keyword.

#[export] Instance kind_eq_dec : EqDecision kind.
Proof. solve_decision. Defined.

(** A matcher: its trigger strings, whether half-width and full-width
    characters are folded together before comparison, and the element classes
    whose renderings are dropped from a chain before matching. *)
Record t : Type := mk {
  variant : kind;
  triggers : list string;
  match_all_width : bool;
  ignore : list ClassRef
}.

#[export] Instance t_eq_dec : EqDecision t.
Proof. solve_decision. Defined.

(** One trigger string stands for the list of that one string. *)
Definition triggers_of (arg : OneOrMany string) : list string :=
  match arg with
  | One s => [s]
  | Many l => l
  end.

(** ** Strings *)

(** White space, as [str.split] and [str.strip] see it in ASCII. *)
Definition is_space (c : ascii) : bool :=
  bool_decide (c ∈ [" "; "009"; "010"; "011"; "012"; "013"]%char).

(** [s] without the prefix [p], when it starts with it. *)
Fixpoint strip_prefix (p s : string) : option string :=
  match p, s with
  | EmptyString, _ => Some s
  | String a p', String b s' => if decide (a = b) then strip_prefix p' s' else None
  | String _ _, EmptyString => None
  end.

(** [s.lstrip()]. *)
Fixpoint lstrip (s : string) : string :=
  match s with
  | String c s' => if is_space c then lstrip s' else s
  | EmptyString => EmptyString
  end.

(** ** Matching *)

(** A match: the trigger that decided it and the argument text. *)
Record result : Type := mkResult { trigger : string; argument : string }.

#[export] Instance result_eq_dec : EqDecision result.
Proof. solve_decision. Defined.

(** The display text of a chain as the matcher sees it: without the
    elements of the ignored classes. *)
Definition text_of (m : t) (chain : list Element) : string :=
  str_concat (elem_display <$> filter (λ e, elem_class e ∉ ignore m) chain).

(** The text a command leaves as its argument: the trigger has to be
    followed by a word boundary. *)
Definition command_rest (trig text : string) : option string :=
  match strip_prefix trig text with
  | Some EmptyString => Some EmptyString
  | Some (String c rest) => if is_space c then Some (lstrip rest) else None
  | None => None
  end.

(** One trigger against the text. *)
Definition match_trigger (k : kind) (text trig : string) : option result :=
  match k with
  | Command => mkResult trig <$> command_rest trig text
  | Keyword => if str_contains trig text then Some (mkResult trig text) else None
  end.

(** The longer trigger wins; of two of the same length the earlier. *)
Definition longer (best : option result) (c : result) : option result :=
  match best with
  | Some b =>
      if decide (String.length (trigger b) < String.length (trigger c))
      then Some c else Some b
  | None => Some c
  end.

Section matching.
Context (fold : string → string).

(** The text after normalisation. *)
Definition normalize (m : t) (s : string) : string :=
  if match_all_width m then fold s else s.

(** The text the triggers are compared with. *)
Definition seen (m : t) (chain : list Element) : string :=
  normalize m (text_of m chain).

(** [matcher.matches(chain)]. *)
Definition matches (m : t) (chain : list Element) : option result :=
  foldl longer None (omap (match_trigger (variant m) (seen m chain)) (triggers m)).

End matching.

End Matcher.

(** [CommandMatcher(command=..., match_all_width=..., ignore=...)]. *)
Definition CommandMatcher (command : OneOrMany string) (match_all_width : bool)
    (ignore : list ClassRef) : Matcher.t :=
  Matcher.mk Matcher.Command (Matcher.triggers_of command) match_all_width ignore.

(** [KeywordMatcher(keyword=..., match_all_width=..., ignore=...)]. *)
Definition KeywordMatcher (keyword : OneOrMany string) (match_all_width : bool)
    (ignore : list ClassRef) : Matcher.t :=
  Matcher.mk Matcher.Keyword (Matcher.triggers_of keyword) match_all_width ignore.

Lemma triggers_of_nonempty_one (s : string) : Matcher.triggers_of (One s) = [s].
Proof. done. Qed.

(** ** Strings *)

Lemma strip_prefix_app (p r : string) : Matcher.strip_prefix p (p +:+ r) = Some r.
Proof. induction p as [|a p IH]; [done|]. simpl. by case_decide. Qed.

Lemma strip_prefix_Some (p s r : string) :
  Matcher.strip_prefix p s = Some r ↔ s = p +:+ r.
Proof.
  split; [|intros ->; apply strip_prefix_app].
  revert s. induction p as [|a p IH]; intros [|b s]; simpl; try done.
  - by intros [= <-].
  - by intros [= <-].
  - case_decide as Hab; [|done]. intros Hs. by rewrite Hab, (IH s Hs).
Qed.

Lemma lstrip_no_space (s : string) :
  match Matcher.lstrip s with
  | String c _ => Matcher.is_space c = false
  | EmptyString => True
  end.
Proof.
  induction s as [|c s IH]; [done|]. simpl.
  destruct (Matcher.is_space c) eqn:Hc; [done|]. by simpl.
Qed.

(** ** One trigger *)

(** A command matches the trigger alone, or the trigger, white space and
    then the argument. *)
Lemma command_rest_Some (trig text arg : string) :
  Matcher.command_rest trig text = Some arg ↔
  (text = trig ∧ arg = "")
  ∨ ∃ c rest, text = trig +:+ String c rest
      ∧ Matcher.is_space c = true ∧ arg = Matcher.lstrip rest.
Proof.
  unfold Matcher.command_rest.
  destruct (Matcher.strip_prefix trig text) as [[|c rest]|] eqn:Hp.
  - apply strip_prefix_Some in Hp as ->. rewrite str_app_nil_r. split.
    + intros [= <-]. by left.
    + intros [[_ ->]|(c & rest & Hs & _)]; [done|].
      apply (f_equal String.length) in Hs.
      rewrite str_length_app in Hs. simpl in Hs. lia.
  - apply strip_prefix_Some in Hp as ->. split.
    + destruct (Matcher.is_space c) eqn:Hc; [|done]. intros [= <-].
      right. by exists c, rest.
    + intros [[Hs _]|(c' & rest' & Hs & Hc & ->)].
      * apply (f_equal String.length) in Hs.
        rewrite str_length_app in Hs. simpl in Hs. lia.
      * apply String.app_inj in Hs. injection Hs as -> ->. by rewrite Hc.
  - split; [done|]. intros [[-> _]|(c & rest & -> & _)].
    + pose proof (strip_prefix_app trig "") as Hq.
      rewrite str_app_nil_r in Hq. congruence.
    + by rewrite strip_prefix_app in Hp.
Qed.

Lemma match_trigger_trigger k text trig r :
  Matcher.match_trigger k text trig = Some r → Matcher.trigger r = trig.
Proof.
  destruct k; simpl.
  - destruct (Matcher.command_rest trig text); [|done]. by intros [= <-].
  - destruct (str_contains trig text); [|done]. by intros [= <-].
Qed.

(** A keyword matches anywhere in the text. *)
Lemma match_keyword_iff text trig :
  is_Some (Matcher.match_trigger Matcher.Keyword text trig)
  ↔ ∃ a b, text = a +:+ trig +:+ b.
Proof.
  rewrite <- str_contains_spec. simpl.
  destruct (str_contains trig text); rewrite is_Some_alt; naive_solver.
Qed.

(** ** The choice among triggers *)

(** The fold of [longer] returns one of its candidates, and none of them
    has a longer trigger. *)
Lemma foldl_longer (b : Matcher.result) (l : list Matcher.result) :
  ∃ r, foldl Matcher.longer (Some b) l = Some r ∧ r ∈ b :: l
    ∧ Forall (λ x, String.length (Matcher.trigger x)
                   ≤ String.length (Matcher.trigger r)) (b :: l).
Proof.
  revert b. induction l as [|c l IH]; intros b; simpl.
  - exists b. split_and!; [done|left|by constructor].
  - case_decide as Hbc.
    + destruct (IH c) as (r & -> & Hr & Hall). exists r.
      split_and!; [done|by right|]. pose proof (Forall_inv Hall) as Hc.
      simpl in Hc. constructor; [lia|done].
    + destruct (IH b) as (r & -> & Hr & Hall). exists r.
      apply Forall_cons in Hall as [Hb Hall].
      split_and!; [done | |].
      { apply elem_of_cons in Hr as [->|Hr]; [by left | by right; right]. }
      simpl in Hb.
      repeat constructor; [done|lia|done].
Qed.

Section matching_laws.
Context (fold : string → string).
Implicit Types (m : Matcher.t) (chain : list Element).

Local Abbreviation seen := (Matcher.seen fold).

(** No trigger matches exactly when [matches] rejects. *)
Lemma matches_None m chain :
  Matcher.matches fold m chain = None
  ↔ ∀ t, t ∈ Matcher.triggers m →
      Matcher.match_trigger (Matcher.variant m) (seen m chain) t = None.
Proof.
  unfold Matcher.matches.
  destruct (omap _ (Matcher.triggers m)) as [|b l] eqn:Ho; simpl.
  - split; [|done]. intros _ t Ht.
    destruct (Matcher.match_trigger _ _ t) as [r|] eqn:Hr; [|done].
    assert (r ∈ omap (Matcher.match_trigger (Matcher.variant m) (seen m chain))
                     (Matcher.triggers m)) as Hin
      by (apply list_elem_of_omap; eauto).
    rewrite Ho in Hin. by apply elem_of_nil in Hin.
  - destruct (foldl_longer b l) as (r & -> & _). split; [done|]. intros Hno.
    assert (b ∈ omap (Matcher.match_trigger (Matcher.variant m) (seen m chain))
                     (Matcher.triggers m)) as (t & Ht & Hb)%list_elem_of_omap
      by (rewrite Ho; left).
    by rewrite Hno in Hb.
Qed.

(** What [matches] returns is the match of one of the triggers, and no
    trigger that matches is longer. *)
Lemma matches_Some m chain r :
  Matcher.matches fold m chain = Some r →
  Matcher.trigger r ∈ Matcher.triggers m
  ∧ Matcher.match_trigger (Matcher.variant m) (seen m chain) (Matcher.trigger r)
    = Some r
  ∧ ∀ t, t ∈ Matcher.triggers m →
      is_Some (Matcher.match_trigger (Matcher.variant m) (seen m chain) t) →
      String.length t ≤ String.length (Matcher.trigger r).
Proof.
  unfold Matcher.matches.
  set (f := Matcher.match_trigger (Matcher.variant m) (seen m chain)).
  destruct (omap f (Matcher.triggers m)) as [|b l] eqn:Ho; [done|]. simpl.
  destruct (foldl_longer b l) as (r' & -> & Hin & Hall). intros [= ->].
  rewrite <- Ho in Hin, Hall.
  apply list_elem_of_omap in Hin as (t & Ht & Hr).
  pose proof (match_trigger_trigger _ _ _ _ Hr) as Htr.
  split_and!; [by rewrite Htr..|]. intros t' Ht' [r' Hr'].
  rewrite Forall_forall in Hall.
  rewrite <- (match_trigger_trigger _ _ _ _ Hr'). apply Hall.
  apply list_elem_of_omap. eauto.
Qed.

(** With one trigger, [matches] is the test of that trigger. *)
Lemma matches_one m chain t :
  Matcher.triggers m = [t] →
  Matcher.matches fold m chain
  = Matcher.match_trigger (Matcher.variant m) (seen m chain) t.
Proof.
  unfold Matcher.matches. intros ->. simpl.
  by destruct (Matcher.match_trigger _ _ t).
Qed.

End matching_laws.
