(* ===== verification/Listeners.v ===== *)
(** * Listeners: the listener entity and the listener manager

    [Listener] and [ListenerManager] are imported by
    [src/jbot/__init__.py] from [.utils] and are not among the sources.  This
    file models them from the specification (sections 3, 4.3 and 8): a
    listener binds one event to one handler and carries four optional
    attachments; the manager keeps the listeners ordered by ascending
    priority, equal priorities in registration order.

    The file gives the reference model of the registry as a list of entries
    ([insert], [set_slot]), its order invariant and stability lemmas, and the
    interface [ListenerManagerOps] through which the application file uses a
    manager: operations together with the laws that relate them to the
    reference model.  The list model is its instance; no manager is among
    the sources, so the laws are what is assumed of one. *)

From Stdlib Require Import QArith.
From stdpp Require Import sorting.
From S2P Require Import Prelude Python Matchers.

(** ** Roles and attachments *)

(** The permission tags of the specification. *)
Module Role.
Inductive t : Type := Admin | Member.

#[export] Instance t_eq_dec : EqDecision t.
Proof. solve_decision. Defined.
End Role.

#[export] Existing Instance Role.t_eq_dec.

(** The values the attachment decorators hand to the manager, in the shape
    [BotApplication] builds them. *)
Inductive Attach : Type :=
| AMatcher (m : Matcher.t)
| AParamConvert (t : option PyType)
| ARole (role : OneOrMany Role.t) (todo : option PyFunc)
| ANlp (c : Q) (keywords : list string) (params : list (string * string)).

(** The four attachment slots of a listener. *)
Inductive Slot : Type := SMatcher | SParamConvert | SRole | SNlp.

#[export] Instance Slot_eq_dec : EqDecision Slot.
Proof. solve_decision. Defined.

(** The slot an attachment belongs to. *)
Definition kind (v : Attach) : Slot :=
  match v with
  | AMatcher _ => SMatcher
  | AParamConvert _ => SParamConvert
  | ARole _ _ => SRole
  | ANlp _ _ _ => SNlp
  end.

(** ** The listener *)

Module Listener.

Record t : Type := mk {
  event : PyVal;
  target : PyFunc;
  matcher : option Attach;
  param_convert : option Attach;
  role : option Attach;
  nlp : option Attach
}.

(** The attachment in a slot. *)
Definition slot (s : Slot) (l : t) : option Attach :=
  match s with
  | SMatcher => matcher l
  | SParamConvert => param_convert l
  | SRole => role l
  | SNlp => nlp l
  end.

(** Assign a slot. *)
Definition set_slot (s : Slot) (v : Attach) (l : t) : t :=
  match s with
  | SMatcher => mk (event l) (target l) (Some v) (param_convert l) (role l) (nlp l)
  | SParamConvert => mk (event l) (target l) (matcher l) (Some v) (role l) (nlp l)
  | SRole => mk (event l) (target l) (matcher l) (param_convert l) (Some v) (nlp l)
  | SNlp => mk (event l) (target l) (matcher l) (param_convert l) (role l) (Some v)
  end.

(** Every slot that is assigned holds an attachment of its kind. *)
Definition well_attached (l : t) : Prop :=
  ∀ s v, slot s l = Some v → kind v = s.

Lemma slot_set_slot s s' v l :
  slot s' (set_slot s v l) = if decide (s' = s) then Some v else slot s' l.
Proof. by destruct s, s'. Qed.

Lemma target_set_slot s v l : target (set_slot s v l) = target l.
Proof. by destruct s. Qed.

Lemma event_set_slot s v l : event (set_slot s v l) = event l.
Proof. by destruct s. Qed.

Lemma set_slot_well_attached s v l :
  kind v = s → well_attached l → well_attached (set_slot s v l).
Proof.
  intros Hk Hl s' v'. rewrite slot_set_slot. case_decide; [|apply Hl].
  by intros [= <-]; subst.
Qed.

End Listener.

(** [Listener(event, target)]: a listener without attachments. *)
Definition Listener (event : PyVal) (target : PyFunc) : Listener.t :=
  Listener.mk event target None None None None.

Lemma Listener_well_attached event target :
  Listener.well_attached (Listener event target).
Proof. by intros []. Qed.

(** ** The registry as an ordered list *)

Module ListenerManager.

Record entry : Type := mkEntry { priority : Z; listener : Listener.t }.

(** The order of the registry. *)
Definition prio_le (a b : entry) : Prop := (priority a ≤ priority b)%Z.

#[export] Instance prio_le_dec : RelDecision prio_le.
Proof. intros a b. unfold prio_le. apply _. Defined.

#[export] Instance prio_le_trans : Transitive prio_le.
Proof. intros a b c. unfold prio_le. lia. Qed.

#[export] Instance prio_le_total : Total prio_le.
Proof. intros a b. unfold prio_le. lia. Qed.

(** The invariant: ascending priorities. *)
Definition sorted (reg : list entry) : Prop := StronglySorted prio_le reg.

(** Insertion behind every entry of the same or a smaller priority. *)
Fixpoint insert (x : entry) (reg : list entry) : list entry :=
  match reg with
  | [] => [x]
  | e :: reg' =>
      if decide (priority e ≤ priority x)%Z
      then e :: insert x reg'
      else x :: e :: reg'
  end.

(** [join(listener, priority)]: rejected unless the priority is positive. *)
Definition join (l : Listener.t) (p : Z) (reg : list entry) : bool * list entry :=
  if decide (0 < p)%Z then (true, insert (mkEntry p l) reg) else (false, reg).

(** The listeners a handler identity names. *)
Definition has_target (tgt : PyVal) (e : entry) : bool :=
  bool_decide (tgt = VFunc (Listener.target (listener e))).

Definition set_entry (s : Slot) (tgt : PyVal) (v : Attach) (e : entry) : entry :=
  if has_target tgt e
  then mkEntry (priority e) (Listener.set_slot s v (listener e))
  else e.

(** [set_matcher], [set_param_convert], [set_role] and [set_nlp]: the slot is
    assigned on every listener of the handler; with no such listener the
    call fails and changes nothing. *)
Definition set_slot (s : Slot) (tgt : PyVal) (v : Attach) (reg : list entry)
    : bool * list entry :=
  if existsb (has_target tgt) reg
  then (true, set_entry s tgt v <$> reg)
  else (false, reg).

(** The registry is typed when every listener is well attached. *)
Definition typed (reg : list entry) : Prop :=
  Forall (λ e, Listener.well_attached (listener e)) reg.

(** The listeners of one event, in the order a dispatch visits them. *)
Definition listeners_for (ev : PyVal) (reg : list entry) : list Listener.t :=
  listener <$> filter (λ e, Listener.event (listener e) = ev) reg.

(** *** Order *)

Lemma insert_split x reg :
  ∃ pre post, reg = pre ++ post ∧ insert x reg = pre ++ x :: post
    ∧ Forall (λ e, prio_le e x) pre
    ∧ (∀ e, head post = Some e → (priority x < priority e)%Z).
Proof.
  induction reg as [|e reg (pre & post & -> & Hins & Hpre & Hpost)]; simpl.
  - exists [], []. by repeat split.
  - case_decide.
    + exists (e :: pre), post. rewrite Hins.
      split_and!; [done | done | by constructor | done].
    + exists [], (e :: pre ++ post).
      split_and!; [done | done | constructor | intros ? [= <-]; lia].
Qed.

(** In a sorted list whose head is above [x], every entry is above [x]. *)
Lemma above_tail x post :
  StronglySorted prio_le post →
  (∀ e, head post = Some e → (priority x < priority e)%Z) →
  Forall (λ e, prio_le x e ∧ priority e ≠ priority x) post.
Proof.
  destruct post as [|e post]; [done|]. intros [Hall Hs]%StronglySorted_cons Hx.
  specialize (Hx e eq_refl). constructor; [unfold prio_le; lia|].
  eapply Forall_impl; [apply Hall|]. unfold prio_le. intros; simpl in *; lia.
Qed.

Lemma insert_Permutation x reg : insert x reg ≡ₚ x :: reg.
Proof.
  destruct (insert_split x reg) as (pre & post & -> & -> & _).
  by rewrite Permutation_middle.
Qed.

Lemma insert_sorted x reg : sorted reg → sorted (insert x reg).
Proof.
  unfold sorted. destruct (insert_split x reg) as (pre & post & -> & -> & Hpre & Hpost).
  rewrite !StronglySorted_app, StronglySorted_cons.
  intros (H12 & Hs1 & Hs2). split_and!; [| done | | done].
  - intros a b Ha [->|Hb]%elem_of_cons.
    + by eapply Forall_forall in Hpre.
    + by apply H12.
  - eapply Forall_impl; [by apply (above_tail x)|]. by intros ? [? _].
Qed.

(** Stability: the entries of each priority keep their registration order,
    the new entry last among its equals. *)
Lemma insert_stable x reg (q : Z) :
  sorted reg →
  filter (λ e, priority e = q) (insert x reg)
  = filter (λ e, priority e = q) reg
    ++ (if decide (priority x = q) then [x] else []).
Proof.
  unfold sorted. destruct (insert_split x reg) as (pre & post & -> & -> & Hpre & Hpost).
  rewrite StronglySorted_app. intros (_ & _ & Hs2).
  pose proof (above_tail x post Hs2 Hpost) as Hall.
  rewrite !filter_app, filter_cons, <- app_assoc. f_equal.
  case_decide as Hq; simpl; [|by rewrite app_nil_r].
  assert (filter (λ e, priority e = q) post = []) as ->; [|done].
  apply filter_none. eapply Forall_impl; [apply Hall|].
  unfold prio_le. intros e He. simpl. lia.
Qed.

(** The listeners of every other event are not moved. *)
Lemma listeners_for_insert ev x reg :
  sorted reg →
  Listener.event (listener x) ≠ ev →
  listeners_for ev (insert x reg) = listeners_for ev reg.
Proof.
  intros _ Hev. unfold listeners_for.
  destruct (insert_split x reg) as (pre & post & -> & -> & _).
  by rewrite !filter_app, filter_cons_False.
Qed.

(** A selection of a sorted registry is sorted: the listeners of one event
    are visited by ascending priority. *)
Lemma sorted_filter (P : entry → Prop) `{∀ e, Decision (P e)} reg :
  sorted reg → sorted (filter P reg).
Proof.
  unfold sorted. induction 1 as [|e reg Hs IH Hall]; [constructor|].
  rewrite filter_cons. case_decide; [|done]. constructor; [done|].
  apply Forall_forall. intros e' [_ He']%list_elem_of_filter.
  by eapply Forall_forall in Hall.
Qed.

Lemma join_sorted l p reg : sorted reg → sorted (join l p reg).2.
Proof. unfold join. case_decide; [apply insert_sorted | done]. Qed.

Lemma join_positive l p reg :
  Forall (λ e, 0 < priority e)%Z reg → Forall (λ e, 0 < priority e)%Z (join l p reg).2.
Proof.
  unfold join. case_decide; [|done]. intros Hreg. simpl.
  rewrite insert_Permutation. by constructor.
Qed.

(** *** Attachments *)

Lemma set_entry_priority s tgt v e : priority (set_entry s tgt v e) = priority e.
Proof. unfold set_entry. by destruct (has_target tgt e). Qed.

Lemma set_entry_event s tgt v e :
  Listener.event (listener (set_entry s tgt v e)) = Listener.event (listener e).
Proof. unfold set_entry. destruct (has_target tgt e); [|done]. by destruct s. Qed.

Lemma set_entry_target s tgt v e :
  Listener.target (listener (set_entry s tgt v e)) = Listener.target (listener e).
Proof. unfold set_entry. destruct (has_target tgt e); [|done]. by destruct s. Qed.

Lemma set_slot_priorities s tgt v reg :
  priority <$> (set_slot s tgt v reg).2 = priority <$> reg.
Proof.
  unfold set_slot. destruct (existsb _ reg); [|done]. simpl.
  rewrite <- list_fmap_compose. apply list_fmap_ext. intros _ e _. simpl.
  apply set_entry_priority.
Qed.

Lemma set_slot_events s tgt v reg :
  (Listener.event ∘ listener) <$> (set_slot s tgt v reg).2
  = (Listener.event ∘ listener) <$> reg.
Proof.
  unfold set_slot. destruct (existsb _ reg); [|done]. simpl.
  rewrite <- list_fmap_compose. apply list_fmap_ext. intros _ e _. simpl.
  apply set_entry_event.
Qed.

Lemma set_slot_targets s tgt v reg :
  (Listener.target ∘ listener) <$> (set_slot s tgt v reg).2
  = (Listener.target ∘ listener) <$> reg.
Proof.
  unfold set_slot. destruct (existsb _ reg); [|done]. simpl.
  rewrite <- list_fmap_compose. apply list_fmap_ext. intros _ e _. simpl.
  apply set_entry_target.
Qed.

(** Sortedness is a property of the list of priorities. *)
Lemma sorted_priorities_iff reg :
  sorted reg ↔ StronglySorted Z.le (priority <$> reg).
Proof.
  unfold sorted. split.
  - apply StronglySorted_fmap. by intros a b.
  - induction reg as [|e reg IH]; csimpl; [constructor|].
    rewrite !StronglySorted_cons, Forall_fmap. intros [Hall Hs].
    split; [done | by apply IH].
Qed.

Lemma sorted_priorities reg1 reg2 :
  priority <$> reg1 = priority <$> reg2 → sorted reg1 → sorted reg2.
Proof. rewrite !sorted_priorities_iff. by intros ->. Qed.

Lemma set_slot_sorted s tgt v reg : sorted reg → sorted (set_slot s tgt v reg).2.
Proof. apply sorted_priorities. by rewrite set_slot_priorities. Qed.

Lemma set_slot_length s tgt v reg : length (set_slot s tgt v reg).2 = length reg.
Proof.
  rewrite <- (length_fmap priority), set_slot_priorities. apply length_fmap.
Qed.

(** A failed call changes nothing, and it fails exactly when no listener has
    the handler. *)
Lemma set_slot_false s tgt v reg :
  (set_slot s tgt v reg).1 = false
  ↔ Forall (λ e, tgt ≠ VFunc (Listener.target (listener e))) reg.
Proof.
  unfold set_slot. destruct (existsb _ reg) eqn:Hex; simpl.
  - split; [done|]. intros Hall. apply existsb_true, Exists_exists in Hex as (e & He & Ht).
    eapply Forall_forall in Hall; [|done].
    unfold has_target in Ht. by apply bool_decide_eq_true in Ht.
  - split; [|done]. intros _. apply existsb_false in Hex.
    eapply Forall_impl; [apply Hex|]. intros e. unfold has_target.
    by intros ?%bool_decide_eq_false.
Qed.

Lemma set_slot_unchanged s tgt v reg :
  (set_slot s tgt v reg).1 = false → (set_slot s tgt v reg).2 = reg.
Proof. unfold set_slot. by destruct (existsb _ reg). Qed.

(** The registry after a setter, whether or not it found the handler: the
    slot is assigned on the listeners of the handler. *)
Lemma set_slot_entries s tgt v reg :
  (set_slot s tgt v reg).2 = set_entry s tgt v <$> reg.
Proof.
  unfold set_slot. destruct (existsb _ reg) eqn:Hex; [done|]. simpl.
  apply existsb_false in Hex. symmetry. etrans; [|apply list_fmap_id].
  apply Forall_fmap_ext_1. eapply Forall_impl; [exact Hex|].
  intros e He. unfold set_entry. by rewrite He.
Qed.

Lemma set_slot_true s tgt v reg :
  Exists (λ e, tgt = VFunc (Listener.target (listener e))) reg →
  (set_slot s tgt v reg).1 = true.
Proof.
  intros Hex. unfold set_slot.
  assert (existsb (has_target tgt) reg = true) as ->; [|done].
  apply existsb_true. eapply Exists_impl; [exact Hex|].
  intros e ->. by apply bool_decide_eq_true.
Qed.

(** A setter leaves every handler registered. *)
Lemma set_entry_Exists s tgt v tgt' reg :
  Exists (λ e, tgt' = VFunc (Listener.target (listener e))) reg →
  Exists (λ e, tgt' = VFunc (Listener.target (listener e)))
    (set_entry s tgt v <$> reg).
Proof.
  intros Hex. rewrite Exists_fmap. eapply Exists_impl; [exact Hex|].
  intros e ->. simpl. by rewrite set_entry_target.
Qed.

(** Attachments commute, unless they assign the same slot of the same
    handler. *)
Lemma set_entry_has_target s tgt v tgt' e :
  has_target tgt' (set_entry s tgt v e) = has_target tgt' e.
Proof. unfold has_target. by rewrite set_entry_target. Qed.

Lemma set_entry_comm s1 tgt1 v1 s2 tgt2 v2 e :
  s1 ≠ s2 ∨ tgt1 ≠ tgt2 →
  set_entry s1 tgt1 v1 (set_entry s2 tgt2 v2 e)
  = set_entry s2 tgt2 v2 (set_entry s1 tgt1 v1 e).
Proof.
  intros Hne. unfold set_entry at 1 3. rewrite !set_entry_has_target.
  unfold set_entry, has_target. repeat case_bool_decide; try done.
  destruct Hne as [Hs|Ht]; [|congruence]. simpl. f_equal.
  by destruct s1, s2.
Qed.

Lemma set_slot_existsb s tgt v tgt' reg :
  existsb (has_target tgt') (set_slot s tgt v reg).2 = existsb (has_target tgt') reg.
Proof.
  unfold set_slot. destruct (existsb (has_target tgt) reg); [|done]. simpl.
  induction reg as [|e reg IH]; [done|]. csimpl.
  by rewrite set_entry_has_target, IH.
Qed.

Lemma set_slot_comm s1 tgt1 v1 s2 tgt2 v2 reg :
  s1 ≠ s2 ∨ tgt1 ≠ tgt2 →
  (set_slot s1 tgt1 v1 (set_slot s2 tgt2 v2 reg).2).2
  = (set_slot s2 tgt2 v2 (set_slot s1 tgt1 v1 reg).2).2.
Proof.
  intros Hne. unfold set_slot at 1 3. rewrite !set_slot_existsb.
  unfold set_slot.
  destruct (existsb (has_target tgt1) reg), (existsb (has_target tgt2) reg);
    try done.
  simpl. rewrite <- !list_fmap_compose. apply list_fmap_ext. intros _ e _.
  by apply set_entry_comm.
Qed.

(** Any property of the priorities and the handlers is kept by an insertion
    of an entry that has it, and by every attachment. *)
Lemma insert_Forall (P : entry → Prop) x reg :
  P x → Forall P reg → Forall P (insert x reg).
Proof. intros Hx Hreg. rewrite insert_Permutation. by constructor. Qed.

Lemma set_slot_Forall (P : Z → PyFunc → Prop) s tgt v reg :
  Forall (λ e, P (priority e) (Listener.target (listener e))) reg →
  Forall (λ e, P (priority e) (Listener.target (listener e))) (set_slot s tgt v reg).2.
Proof.
  unfold set_slot. destruct (existsb _ reg); [|done]. simpl.
  rewrite Forall_fmap. intros Hreg. eapply Forall_impl; [apply Hreg|].
  intros e. simpl. by rewrite set_entry_priority, set_entry_target.
Qed.

Lemma insert_typed p ev f reg :
  typed reg → typed (insert (mkEntry p (Listener ev f)) reg).
Proof. apply insert_Forall, Listener_well_attached. Qed.

Lemma set_slot_typed s tgt v reg :
  kind v = s → typed reg → typed (set_slot s tgt v reg).2.
Proof.
  intros Hk. unfold set_slot, typed. destruct (existsb _ reg); [|done]. simpl.
  rewrite Forall_fmap. intros Hreg. eapply Forall_impl; [apply Hreg|].
  intros e He. unfold set_entry. simpl.
  destruct (has_target tgt e); [|done]. by apply Listener.set_slot_well_attached.
Qed.

End ListenerManager.

(** ** The interface of a manager *)

(** What [BotApplication] uses of a listener manager: construction, [join],
    the four setters, and the view of the registry as the ordered list of
    the reference model.  The laws say that every operation acts on that view
    as the reference operation does. *)
Class ListenerManagerOps (R : Type) : Type := {
  lm_new : R;
  lm_join : Listener.t → Z → R → bool * R;
  lm_set : Slot → PyVal → Attach → R → bool * R;
  lm_entries : R → list ListenerManager.entry;
  lm_new_entries : lm_entries lm_new = [];
  lm_join_spec l p r :
    (lm_join l p r).1 = (ListenerManager.join l p (lm_entries r)).1
    ∧ lm_entries (lm_join l p r).2 = (ListenerManager.join l p (lm_entries r)).2;
  lm_set_spec s tgt v r :
    (lm_set s tgt v r).1 = (ListenerManager.set_slot s tgt v (lm_entries r)).1
    ∧ lm_entries (lm_set s tgt v r).2
      = (ListenerManager.set_slot s tgt v (lm_entries r)).2
}.

(** The reference model implements the interface. *)
#[export] Instance list_manager : ListenerManagerOps (list ListenerManager.entry) := {
  lm_new := [];
  lm_join := ListenerManager.join;
  lm_set := ListenerManager.set_slot;
  lm_entries := id;
  lm_new_entries := eq_refl;
  lm_join_spec _ _ _ := conj eq_refl eq_refl;
  lm_set_spec _ _ _ _ := conj eq_refl eq_refl
}.

Section manager_laws.
Context `{ListenerManagerOps R}.
Implicit Types r : R.

(** The registry of a manager stays sorted. *)
Lemma lm_join_sorted l p r :
  ListenerManager.sorted (lm_entries r) →
  ListenerManager.sorted (lm_entries (lm_join l p r).2).
Proof.
  destruct (lm_join_spec l p r) as [_ ->]. apply ListenerManager.join_sorted.
Qed.

Lemma lm_set_sorted s tgt v r :
  ListenerManager.sorted (lm_entries r) →
  ListenerManager.sorted (lm_entries (lm_set s tgt v r).2).
Proof.
  destruct (lm_set_spec s tgt v r) as [_ ->]. apply ListenerManager.set_slot_sorted.
Qed.

Lemma lm_new_sorted : ListenerManager.sorted (lm_entries lm_new).
Proof. rewrite lm_new_entries. constructor. Qed.

(** A rejected [join] leaves the registry as it was. *)
Lemma lm_join_rejected l p r :
  (p ≤ 0)%Z → (lm_join l p r).1 = false ∧ lm_entries (lm_join l p r).2 = lm_entries r.
Proof.
  intros Hp. destruct (lm_join_spec l p r) as [-> ->].
  unfold ListenerManager.join. by case_decide; [lia|].
Qed.

Lemma lm_join_accepted l p r :
  (0 < p)%Z →
  (lm_join l p r).1 = true
  ∧ lm_entries (lm_join l p r).2
    = ListenerManager.insert (ListenerManager.mkEntry p l) (lm_entries r).
Proof.
  intros Hp. destruct (lm_join_spec l p r) as [-> ->].
  unfold ListenerManager.join. by case_decide; [|lia].
Qed.

End manager_laws.

#[export] Hint Resolve lm_new_sorted lm_join_sorted lm_set_sorted : py.
