(* ===== verification/Dispatch.v ===== *)
(** * Dispatch: the traversal of the listeners of an inbound event

    The traversal lives in the message handler of the adapter package and in
    [ListenerManager], which are not among the sources; this file models it
    from the specification (sections 4.2, 4.3, 5 and 7).

    [plan] is what the pipeline decides for one listener, without running
    anything: the role filter with its fallback, the matcher, the NLP
    threshold, the conversion of the argument.  [dispatch] visits the
    listeners of the event in registry order and runs what [plan] decided,
    each handler inside its own [try]; [dispatch_traced] is the same loop
    returning what it ran, the reference the theorems are stated with.

    What a handler does, how a failure is reported, width folding, the
    confidence the NLP engine gives a text and the word it finds for a
    constituent are not specified: they are the [Context] of the sections.
    A handler runs to its end before the next starts, as [await] does
    everywhere in the development. *)

From Stdlib Require Import QArith Ascii.
From S2P Require Import Prelude Python Matchers Listeners.

Module Dispatch.

(** ** Events and invocations *)

(** An inbound event, already deserialised: its class, the role of its
    sender, its message and its message chain. *)
Record Event : Type := mkEvent {
  event_type : PyVal;
  sender_role : Role.t;
  message : PyVal;
  message_chain : list Element
}.

(** The three shapes of converted parameters. *)
Inductive Params : Type :=
| PRaw (s : string)
| PTokens (l : list string)
| PMapping (kv : list (string * string)).

(** How a function is called by the pipeline: a handler with the event and
    its parameters (none without a matcher), a fallback with the event, the
    message and the chain. *)
Inductive Invocation : Type :=
| Handle (ev : Event) (params : option Params)
| Fallback (ev : Event) (msg : PyVal) (chain : list Element).

(** What the pipeline decides for one listener. *)
Inductive Action : Type :=
| Skip
| Run (f : PyFunc) (i : Invocation).

(** How a call ended. *)
Inductive Outcome : Type :=
| Returned
| Failed (e : PyExc).

(** ** Reading the attachments *)

Definition roles_of (r : OneOrMany Role.t) : list Role.t :=
  match r with
  | One x => [x]
  | Many l => l
  end.

Definition matcher_of (l : Listener.t) : option Matcher.t :=
  match Listener.matcher l with
  | Some (AMatcher m) => Some m
  | _ => None
  end.

Definition role_of (l : Listener.t) : option (list Role.t * option PyFunc) :=
  match Listener.role l with
  | Some (ARole r todo) => Some (roles_of r, todo)
  | _ => None
  end.

Definition nlp_of (l : Listener.t)
    : option (Q * list string * list (string * string)) :=
  match Listener.nlp l with
  | Some (ANlp c keywords params) => Some (c, keywords, params)
  | _ => None
  end.

(** The declared conversion type; none declared is the raw string. *)
Definition convert_of (l : Listener.t) : PyType :=
  match Listener.param_convert l with
  | Some (AParamConvert (Some t)) => t
  | _ => TyStr
  end.

(** ** Parameter conversion *)

(** [s.split()]: the maximal runs without white space, [cur] being the run
    read so far. *)
Fixpoint tokens_from (cur : string) (s : string) : list string :=
  match s with
  | EmptyString => if decide (cur = "") then [] else [cur]
  | String c s' =>
      if Matcher.is_space c
      then (if decide (cur = "") then [] else [cur]) ++ tokens_from "" s'
      else tokens_from (cur +:+ String c "") s'
  end.

Definition tokens (s : string) : list string := tokens_from "" s.

(** A word: a string that is not empty and has no white space. *)
Definition word (w : string) : Prop :=
  w ≠ "" ∧ Forall (λ c, Matcher.is_space c = false) (String.list_ascii_of_string w).

(** The display text of the chain of an event. *)
Definition text (ev : Event) : string :=
  str_concat (elem_display <$> message_chain ev).

Section plan.
Context (fold : string → string).
Context (confidence : list string → string → Q).
Context (slot_value : string → string → option string).

(** Step 3: with an NLP binding, the confidence has to reach the
    threshold. *)
Definition nlp_accepts (l : Listener.t) (ev : Event) : bool :=
  match nlp_of l with
  | Some (c, keywords, _) => Qle_bool c (confidence keywords (text ev))
  | None => true
  end.

(** The keyword-value mapping: every parameter of the NLP binding with the
    word found for its constituent. *)
Definition slots (l : Listener.t) (ev : Event) : option (list (string * string)) :=
  match nlp_of l with
  | Some (_, _, params) =>
      mapM (λ ps, pair ps.1 <$> slot_value ps.2 (text ev)) params
  | None => None
  end.

(** Step 4: the argument converted as declared; [None] is a rejection. *)
Definition convert (l : Listener.t) (ev : Event) (arg : string) : option Params :=
  match convert_of l with
  | TyStr => Some (PRaw arg)
  | TyList => Some (PTokens (tokens arg))
  | TyDict => PMapping <$> slots l ev
  | _ => None
  end.

(** Steps 2 to 4 for a listener whose role filter let the event pass. *)
Definition accept (ev : Event) (l : Listener.t) : Action :=
  match matcher_of l with
  | Some m =>
      match Matcher.matches fold m (message_chain ev) with
      | Some r =>
          if nlp_accepts l ev then
            match convert l ev (Matcher.argument r) with
            | Some p => Run (Listener.target l) (Handle ev (Some p))
            | None => Skip
            end
          else Skip
      | None => Skip
      end
  | None =>
      if nlp_accepts l ev then Run (Listener.target l) (Handle ev None)
      else Skip
  end.

(** Steps 1 to 4. *)
Definition plan (ev : Event) (l : Listener.t) : Action :=
  match role_of l with
  | Some (allowed, todo) =>
      if bool_decide (sender_role ev ∈ allowed) then accept ev l
      else match todo with
           | Some f => Run f (Fallback ev (message ev) (message_chain ev))
           | None => Skip
           end
  | None => accept ev l
  end.

(** The call an action makes. *)
Definition invocation (a : Action) : option (PyFunc * Invocation) :=
  match a with
  | Skip => None
  | Run f i => Some (f, i)
  end.

(** The calls of a pass over a registry, in order. *)
Definition planned (ev : Event) (reg : list ListenerManager.entry)
    : list (PyFunc * Invocation) :=
  omap (λ l, invocation (plan ev l))
       (ListenerManager.listeners_for (event_type ev) reg).

(** ** Running a pass *)

Section run.
Context {S : Type}.
Context (call : PyFunc → Invocation → py S unit).
Context (report : PyFunc → PyExc → S → S).

(** One listener: a failure of its handler is reported and ends there. *)
Definition run_action (a : Action) : py S unit :=
  match a with
  | Skip => ret tt
  | Run f i => try_except (call f i) (λ e, modify (report f e))
  end.

(** [dispatch(event)] over the registry as it is when the pass starts. *)
Definition dispatch (ev : Event) (reg : list ListenerManager.entry) : py S unit :=
  for_each (λ l, run_action (plan ev l))
           (ListenerManager.listeners_for (event_type ev) reg).

(** The same, returning each call it made and how it ended. *)
Definition run_traced (a : Action)
    : py S (list (PyFunc * Invocation * Outcome)) :=
  match a with
  | Skip => ret []
  | Run f i =>
      try_except (call f i ;; ret [(f, i, Returned)])
                 (λ e, modify (report f e) ;; ret [(f, i, Failed e)])
  end.

Definition dispatch_traced (ev : Event) (reg : list ListenerManager.entry)
    : py S (list (PyFunc * Invocation * Outcome)) :=
  outs <- map_eff (λ l, run_traced (plan ev l))
            (ListenerManager.listeners_for (event_type ev) reg) ;;
  ret (concat outs).

End run.
End plan.

(** ** Tokens *)

Lemma tokens_from_space cur c s :
  Matcher.is_space c = true →
  tokens_from cur (String c s)
  = (if decide (cur = "") then [] else [cur]) ++ tokens s.
Proof. intros Hc. simpl. by rewrite Hc. Qed.

(** A run without white space is read into the current token. *)
Lemma tokens_from_word cur w s :
  Forall (λ c, Matcher.is_space c = false) (String.list_ascii_of_string w) →
  tokens_from cur (w +:+ s) = tokens_from (cur +:+ w) s.
Proof.
  revert cur. induction w as [|c w IH]; intros cur Hw.
  - by rewrite str_app_nil_r.
  - apply Forall_cons in Hw as [Hc Hw]. change (String c w +:+ s) with (String c (w +:+ s)).
    simpl. rewrite Hc, IH by done. f_equal.
    by rewrite str_app_assoc.
Qed.

(** No token is empty. *)
Lemma tokens_from_nonempty cur s : Forall (λ t, t ≠ "") (tokens_from cur s).
Proof.
  revert cur. induction s as [|c s IH]; intros cur; simpl.
  - case_decide; by repeat constructor.
  - destruct (Matcher.is_space c); [|done].
    apply Forall_app. split; [|done]. case_decide; by repeat constructor.
Qed.

(** Splitting undoes joining: words joined by single spaces are the tokens
    of the result. *)
Lemma tokens_join (ws : list string) :
  Forall word ws → tokens (str_join " " ws) = ws.
Proof.
  unfold tokens. induction 1 as [|w ws [Hne Hw] Hws IH]; [done|].
  destruct ws as [|w' ws].
  - change (str_join " " [w]) with w. rewrite <- (str_app_nil_r w) at 1.
    rewrite tokens_from_word by done. change ("" +:+ w) with w.
    simpl. by rewrite decide_False.
  - change (str_join " " (w :: w' :: ws))
      with (w +:+ String " " (str_join " " (w' :: ws))).
    rewrite tokens_from_word, tokens_from_space by done.
    change ("" +:+ w) with w. rewrite decide_False by done.
    unfold tokens. by rewrite IH.
Qed.

Lemma list_ascii_app (a b : string) :
  String.list_ascii_of_string (a +:+ b)
  = String.list_ascii_of_string a ++ String.list_ascii_of_string b.
Proof. induction a as [|c a IH]; [done|]. simpl. by rewrite <- IH. Qed.

(** Every token is a word. *)
Lemma tokens_from_words cur s :
  Forall (λ c, Matcher.is_space c = false) (String.list_ascii_of_string cur) →
  Forall word (tokens_from cur s).
Proof.
  revert cur. induction s as [|c s IH]; intros cur Hcur; simpl.
  - case_decide; by repeat constructor.
  - destruct (Matcher.is_space c) eqn:Hc.
    + apply Forall_app. split; [case_decide; by repeat constructor|].
      by apply IH.
    + apply IH. rewrite list_ascii_app. apply Forall_app. split; [done|].
      by repeat constructor.
Qed.

Lemma tokens_words s : Forall word (tokens s).
Proof. by apply tokens_from_words. Qed.

(** Splitting is idempotent through joining: the tokens of a text joined
    by single spaces split into the same tokens. *)
Lemma tokens_roundtrip s : tokens (str_join " " (tokens s)) = tokens s.
Proof. apply tokens_join, tokens_words. Qed.

(** ** What [plan] decides *)

Section plan_laws.
Context (fold : string → string).
Context (confidence : list string → string → Q).
Context (slot_value : string → string → option string).
Implicit Types (ev : Event) (l : Listener.t).

Local Abbreviation plan := (plan fold confidence slot_value).
Local Abbreviation accept := (accept fold confidence slot_value).
Local Abbreviation planned := (planned fold confidence slot_value).

(** On a well-attached listener the readers lose nothing: a slot that is
    assigned is read. *)
Lemma readers_total l :
  Listener.well_attached l →
  (matcher_of l = None ↔ Listener.matcher l = None)
  ∧ (role_of l = None ↔ Listener.role l = None)
  ∧ (nlp_of l = None ↔ Listener.nlp l = None).
Proof.
  intros Hl. unfold matcher_of, role_of, nlp_of.
  pose proof (Hl SMatcher) as Hm. pose proof (Hl SRole) as Hr.
  pose proof (Hl SNlp) as Hn. simpl in *.
  split_and!.
  - destruct (Listener.matcher l) as [v|]; [|done]. specialize (Hm v eq_refl).
    destruct v; try done; by split.
  - destruct (Listener.role l) as [v|]; [|done]. specialize (Hr v eq_refl).
    destruct v; try done; by split.
  - destruct (Listener.nlp l) as [v|]; [|done]. specialize (Hn v eq_refl).
    destruct v; try done; by split.
Qed.

(** Without an NLP binding the conversion is that of the declared type:
    the raw argument when none or [str] is declared, its tokens for [list],
    a rejection for [dict] and for any other type. *)
Lemma convert_declared l ev arg t :
  nlp_of l = None →
  Listener.param_convert l = Some (AParamConvert t) →
  convert slot_value l ev arg
  = match t with
    | None | Some TyStr => Some (PRaw arg)
    | Some TyList => Some (PTokens (tokens arg))
    | Some _ => None
    end.
Proof.
  intros Hn Hp. unfold convert, convert_of, slots. rewrite Hp, Hn.
  by destruct t as [[]|].
Qed.

(** A listener without attachments accepts every event of its type. *)
Lemma plan_plain ev e f :
  plan ev (Listener e f) = Run f (Handle ev None).
Proof. done. Qed.

(** The role filter comes first: a sender outside the allowed roles reaches
    the fallback, or nothing. *)
Lemma plan_role_rejected ev l allowed todo :
  role_of l = Some (allowed, todo) → sender_role ev ∉ allowed →
  plan ev l = match todo with
              | Some f => Run f (Fallback ev (message ev) (message_chain ev))
              | None => Skip
              end.
Proof. unfold Dispatch.plan. intros -> Hr. by rewrite bool_decide_eq_false_2. Qed.

Lemma plan_role_allowed ev l allowed todo :
  role_of l = Some (allowed, todo) → sender_role ev ∈ allowed →
  plan ev l = accept ev l.
Proof. unfold Dispatch.plan. intros -> Hr. by rewrite bool_decide_eq_true_2. Qed.

(** The handler of a listener runs only on an event that passed its role
    filter, its matcher and its NLP threshold. *)
Lemma plan_handle ev l f ev' p :
  plan ev l = Run f (Handle ev' p) →
  f = Listener.target l ∧ ev' = ev
  ∧ (∀ allowed todo, role_of l = Some (allowed, todo) → sender_role ev ∈ allowed)
  ∧ (∀ m, matcher_of l = Some m →
       is_Some (Matcher.matches fold m (message_chain ev)))
  ∧ nlp_accepts confidence l ev = true.
Proof.
  assert (accept ev l = Run f (Handle ev' p) →
          f = Listener.target l ∧ ev' = ev
          ∧ (∀ m, matcher_of l = Some m →
               is_Some (Matcher.matches fold m (message_chain ev)))
          ∧ nlp_accepts confidence l ev = true) as Hacc.
  { unfold Dispatch.accept. destruct (matcher_of l) as [m|].
    - destruct (Matcher.matches _ _ _) as [r|] eqn:Hr; [|done].
      destruct (nlp_accepts _ _ _); [|done].
      destruct (convert _ _ _ _); [|done]. intros [= <- <- <-].
      split_and!; try done. intros ? [= <-]. by rewrite Hr.
    - destruct (nlp_accepts _ _ _); [|done]. by intros [= <- <- <-]. }
  unfold Dispatch.plan. destruct (role_of l) as [[allowed todo]|].
  - case_bool_decide as Hr; [|by destruct todo].
    intros (-> & -> & Hm & Hn)%Hacc. split_and!; try done. by intros ?? [= <- <-].
  - intros (-> & -> & Hm & Hn)%Hacc. by split_and!.
Qed.

(** Whatever the pipeline runs for a listener is its handler or its
    fallback. *)
Lemma plan_run ev l f i :
  plan ev l = Run f i →
  f = Listener.target l ∨ ∃ allowed, role_of l = Some (allowed, Some f).
Proof.
  assert (accept ev l = Run f i → f = Listener.target l) as Hacc.
  { unfold Dispatch.accept. destruct (matcher_of l).
    - destruct (Matcher.matches _ _ _); [|done].
      destruct (nlp_accepts _ _ _); [|done].
      destruct (convert _ _ _ _); [|done]. by intros [= <- _].
    - destruct (nlp_accepts _ _ _); [|done]. by intros [= <- _]. }
  unfold Dispatch.plan. destruct (role_of l) as [[allowed [g|]]|]; [| |by left; auto].
  - case_bool_decide; [by left; auto|]. intros [= <- _]. right. by exists allowed.
  - case_bool_decide; [by left; auto|done].
Qed.

(** A pass calls only handlers and fallbacks of listeners registered for
    the class of the event. *)
Lemma planned_sound ev reg f i :
  (f, i) ∈ planned ev reg →
  ∃ e, e ∈ reg
    ∧ Listener.event (ListenerManager.listener e) = event_type ev
    ∧ (f = Listener.target (ListenerManager.listener e)
       ∨ ∃ allowed, role_of (ListenerManager.listener e) = Some (allowed, Some f)).
Proof.
  unfold Dispatch.planned, ListenerManager.listeners_for.
  intros (l & (e & -> & [He Hin]%list_elem_of_filter)%list_elem_of_fmap & Hl)%list_elem_of_omap.
  exists e. split_and!; [done..|]. apply (plan_run ev _ f i).
  destruct (plan ev _); [done|]. by injection Hl as -> ->.
Qed.

(** ** A pass *)

Section run_laws.
Context {S : Type}.
Context (call : PyFunc → Invocation → py S unit).
Context (report : PyFunc → PyExc → S → S).

Local Abbreviation dispatch := (dispatch fold confidence slot_value call report).
Local Abbreviation dispatch_traced :=
  (dispatch_traced fold confidence slot_value call report).

Lemma run_action_ok a s : (run_action call report a s).1 = Ok tt.
Proof. destruct a; [done|]. apply try_except_modify. Qed.

(** The traced run of an action makes the call the action names, and
    leaves the state the plain run leaves. *)
Lemma run_traced_spec a s :
  ∃ outs, run_traced call report a s = (Ok outs, (run_action call report a s).2)
    ∧ outs.*1 = option_list (invocation a).
Proof.
  destruct a as [|f i]; [by exists []|]. simpl. unfold try_except, bind.
  destruct (call f i s) as [[[]|e] s']; by eexists.
Qed.

Lemma traced_loop ev (ls : list Listener.t) s :
  ∃ outs,
    map_eff (λ l, run_traced call report (plan ev l)) ls s
    = (Ok outs, (for_each (λ l, run_action call report (plan ev l)) ls s).2)
    ∧ (concat outs).*1 = omap (λ l, invocation (plan ev l)) ls.
Proof.
  revert s. induction ls as [|l ls IH]; intros s; [by exists []|]. simpl.
  destruct (run_traced_spec (plan ev l) s) as (o & Ho & Hcalls).
  pose proof (run_action_ok (plan ev l) s) as Hok.
  unfold bind at 1 3. rewrite Ho.
  destruct (run_action call report (plan ev l) s) as [[[]|?] s']; [|done].
  simpl. destruct (IH s') as (outs & Houts & Hrest).
  unfold bind at 1. rewrite Houts. exists (o :: outs). split; [done|].
  simpl. rewrite fmap_app, Hcalls, Hrest.
  by destruct (invocation (plan ev l)).
Qed.

(** A pass never raises, whatever the handlers do. *)
Lemma dispatch_ok ev reg s : (dispatch ev reg s).1 = Ok tt.
Proof. apply for_each_total. intros. apply run_action_ok. Qed.

(** A pass calls, in order, exactly what [planned] lists for the registry
    it started with, whatever the calls do to the state. *)
Lemma dispatch_traced_calls ev reg s :
  ∃ outs, dispatch_traced ev reg s = (Ok outs, (dispatch ev reg s).2)
    ∧ outs.*1 = planned ev reg.
Proof.
  unfold Dispatch.dispatch_traced, Dispatch.dispatch, Dispatch.planned.
  destruct (traced_loop ev (ListenerManager.listeners_for (event_type ev) reg) s)
    as (outs & Houts & Hcalls).
  exists (concat outs). split; [|done]. unfold bind. by rewrite Houts.
Qed.

(** What every call and every report keep, a pass keeps. *)
Lemma dispatch_invariant (P : S → Prop) ev reg s :
  (∀ f i s', P s' → P (call f i s').2) →
  (∀ f e s', P s' → P (report f e s')) →
  P s → P (dispatch ev reg s).2.
Proof.
  intros Hcall Hrep. apply for_each_invariant. intros l s' _ Hs'.
  destruct (plan ev l) as [|f i]; [done|]. simpl. unfold try_except.
  pose proof (Hcall f i s' Hs') as Hc.
  destruct (call f i s') as [[[]|e] s'']; [done|]. by apply Hrep.
Qed.

End run_laws.
End plan_laws.

End Dispatch.
