(* ===== verification/Bot.v ===== *)
(** * Bot: the application object ([src/jbot/__init__.py])

    [BotApplication] is the facade of the framework: it registers listeners
    ([on]), attaches matchers, roles, parameter conversions and language
    bindings to them (the decorators built by [__set_decorator]), and sends
    messages ([send_msg]).  Its methods run in the monad [py World]: the
    world holds the attributes of the application object, the attributes of
    the global [CONFIG], the listener managers by identity, the class
    attributes of [MessageChain], the lines the loggers wrote and the
    messages handed to the adapter.

    A decorator is a closure; here it is data ([Decorator]) and
    [apply_decorator] is the call [decorator(target)].

    The module-level constants and the data shared with the adapter come
    first; module [BotApplication] holds the class: a section over the
    manager implementation, the adapter, the class table and the element
    constructor, with the methods, the lemmas that run them ([run_...]),
    and the theorems on registration, attachments and construction.  The
    theorems on [send_msg] are in [Send], the invariant of all reachable
    worlds in [Calls], a concrete program in [BotDemo]. *)

From Stdlib Require Import QArith.
From stdpp Require Import sorting.
From S2P Require Import Prelude Python Chain Matchers Listeners.

(** ** Module-level constants *)

Definition VERSION : string := "2.2.0".
Definition HTTP_PROTOCOL : string := "http://".
Definition WS_PROTOCOL : string := "ws://".

(** The class objects the methods compare types with. *)
Definition Element_ref : ClassRef := mkClassRef "JustBot.apis.element" "Element".
Definition BotApplication_ref : ClassRef := mkClassRef "JustBot" "BotApplication".

(** ** Attributes, log lines, decorators *)

(** What an attribute of the application object or of [CONFIG] can hold: a
    plain value, or a reference to one of the objects of the world. *)
Inductive Attr : Type :=
| AtVal (v : PyVal)
| AtAdapter
| AtManager (loc : nat)
| AtLogger (name : string)
| AtApp.

#[export] Instance Attr_eq_dec : EqDecision Attr.
Proof. solve_decision. Defined.

(** The attributes a [Config] object starts with when it is built from
    positional arguments, given the names of its fields (the class is not
    among the sources). *)
Definition Config (fields : list string) (args : list Attr) : gmap string Attr :=
  list_to_map (zip fields args).

(** The global [CONFIG] of line 15: a [Config] built from six [None]. *)
Definition CONFIG (fields : list string) : gmap string Attr :=
  Config fields (replicate 6 (AtVal VNone)).

Inductive Level : Type := INFO | WARNING | ERROR.

#[export] Instance Level_eq_dec : EqDecision Level.
Proof. solve_decision. Defined.

(** The log lines of the file, by the statement that writes them; the
    arguments are those of the format string. *)
Inductive LogMsg : Type :=
| MsgLoading (version : string)
| MsgAdapterName (name : string)
| MsgLogin (nickname : Attr)
| MsgPriorityType
| MsgRegister (multi : bool) (name : string) (priority : Z) (target : PyVal)
| MsgNotCoroutine (target : PyVal)
| MsgPriorityNotPositive
| MsgNotListener (desc : string) (target : PyVal)
| MsgSendTypeError
| MsgSendFailed (e : PyExc).

Record LogRecord : Type := mkLog {
  log_logger : string;
  log_level : Level;
  log_msg : LogMsg
}.

(** [fmt % a] for a format string with one [%s], as far as the argument
    goes (line 37): a tuple is the list of the arguments, so it must hold
    exactly one; any other value is the one argument. *)
Definition percent_s (a : Attr) : res PyExc Attr :=
  match a with
  | AtVal (VTuple []) =>
      Raise (TypeError (Message "not enough arguments for format string"))
  | AtVal (VTuple [x]) => Ok (AtVal x)
  | AtVal (VTuple _) =>
      Raise (TypeError
               (Message "not all arguments converted during string formatting"))
  | _ => Ok a
  end.

(** The closures the decorator methods return. *)
Inductive Decorator : Type :=
| DecIdentity
| DecOn (event : PyVal) (priority : Z)
| DecSet (value : Attach) (type : string) (desc : string).

(** ** The world *)

Module BotApplication.

Section bot.
Context {R : Type} `{ListenerManagerOps R}.

Record World : Type := mkWorld {
  chain : MessageChain.cls;
  managers : gmap nat R;
  app : gmap string Attr;
  config : gmap string Attr;
  log : list LogRecord;
  outbox : list (PyVal * PyVal * MessageChain.cls)
}.

Definition set_chain (c : MessageChain.cls) (w : World) : World :=
  mkWorld c (managers w) (app w) (config w) (log w) (outbox w).
Definition set_managers (m : gmap nat R) (w : World) : World :=
  mkWorld (chain w) m (app w) (config w) (log w) (outbox w).
Definition set_app (a : gmap string Attr) (w : World) : World :=
  mkWorld (chain w) (managers w) a (config w) (log w) (outbox w).
Definition set_config_attrs (c : gmap string Attr) (w : World) : World :=
  mkWorld (chain w) (managers w) (app w) c (log w) (outbox w).
Definition add_log (r : LogRecord) (w : World) : World :=
  mkWorld (chain w) (managers w) (app w) (config w) (log w ++ [r]) (outbox w).
Definition add_outbox (x : PyVal * PyVal * MessageChain.cls) (w : World) : World :=
  mkWorld (chain w) (managers w) (app w) (config w) (log w) (outbox w ++ [x]).

(** What [await] and [asyncio.run] are given: a coroutine object, or some
    other value. *)
Inductive Awaitable (A : Type) : Type :=
| Coroutine (c : py World A)
| NotACoroutine (v : PyVal).
Arguments Coroutine {A} c.
Arguments NotACoroutine {A} v.

(** [await x]. *)
Definition await {A} (x : Awaitable A) : py World A :=
  match x with
  | Coroutine c => c
  | NotACoroutine v => raise (TypeError (NotAwaitable (py_type v)))
  end.

(** What the application uses of its adapter (the base class [Adapter] is
    not among the sources; [src/adapters/mirai/adapter.py] is one
    implementation). *)
Record Adapter : Type := mkAdapter {
  name : string;
  nick_name : Awaitable Attr;
  utils : Attr;
  message_handler : Attr;
  logger : string;
  check : Awaitable unit;
  start_listen : Awaitable unit;
  send_message : PyVal → PyVal → Awaitable unit
}.

Context (adapter : Adapter).
Context (classes : ClassTable).
Context (construct : ClassRef → PyVal → Element).

(** ** Attribute access and logging *)

(** [self.<name>]. *)
Definition self_getattr (name : string) : py World Attr :=
  w <- get ;;
  match app w !! name with
  | Some a => ret a
  | None => raise (AttributeError (TyClass BotApplication_ref) name)
  end.

(** [self.<name> = a]. *)
Definition self_setattr (name : string) (a : Attr) : py World unit :=
  modify (λ w, set_app (<[name := a]> (app w)) w).

(** [lg.info(...)], [lg.warning(...)], [lg.error(...)] on a logger. *)
Definition logger_log (name : string) (lvl : Level) (msg : LogMsg) : py World unit :=
  modify (add_log (mkLog name lvl msg)).

(** [self.logger.<level>(...)]. *)
Definition self_log (lvl : Level) (msg : LogMsg) : py World unit :=
  lg <- self_getattr "logger" ;;
  match lg with
  | AtLogger n => logger_log n lvl msg
  | _ => raise (AttributeError TyNoneType "logger")
  end.

(** [self.adapter]. *)
Definition self_adapter : py World Adapter :=
  a <- self_getattr "adapter" ;;
  match a with
  | AtAdapter => ret adapter
  | _ => raise (AttributeError TyNoneType "adapter")
  end.

(** [self.adapter.logger.<level>(...)]. *)
Definition adapter_log (lvl : Level) (msg : LogMsg) : py World unit :=
  a <- self_adapter ;;
  logger_log (logger a) lvl msg.

(** A call [self.listener_manager.<method>(...)]: the manager the attribute
    refers to is updated in place. *)
Definition self_manager {A} (method : R → A * R) : py World A :=
  a <- self_getattr "listener_manager" ;;
  w <- get ;;
  match a with
  | AtManager loc =>
      match managers w !! loc with
      | Some r =>
          put (set_managers (<[loc := (method r).2]> (managers w)) w) ;;
          ret (method r).1
      | None => raise (AttributeError TyNoneType "listener_manager")
      end
  | _ => raise (AttributeError TyNoneType "listener_manager")
  end.

(** ** Registration: [on] *)

(** [asyncio.iscoroutinefunction(target)]. *)
Definition iscoroutinefunction (target : PyVal) : bool :=
  match target with
  | VFunc f => fn_is_coroutine f
  | _ => false
  end.

(** [ev = ev[0]] when [ev] is a list of one item (lines 116-117). *)
Definition unwrap_single (ev : PyVal) : PyVal :=
  match ev with
  | VList [e] => e
  | _ => ev
  end.

(** [join = lambda e: self.listener_manager.join(listener=Listener(e, target),
    priority=priority)] (line 118). *)
Definition on_join (priority : Z) (target : PyFunc) (e : PyVal) : py World unit :=
  _ <- self_manager (lm_join (Listener e target) priority) ;; ret tt.

(** [register = lambda multi, name: self.logger.info(...)] (lines 119-120). *)
Definition on_register (priority : Z) (target : PyVal) (multi : bool)
    (name : string) : py World unit :=
  self_log INFO (MsgRegister multi name priority target).

(** The function [wrapper] of [on] (lines 112-131), closed over [event] and
    [priority]. *)
Definition on_wrapper (event : PyVal) (priority : Z) (target : PyVal)
    : py World PyVal :=
  match target with
  | VFunc f =>
      if fn_is_coroutine f then
        let ev := unwrap_single event in
        if bool_decide (py_type ev ∉ [TyList; TyTuple]) then
          name <- lift_res (py_name ev) ;;
          on_register priority target true name ;;
          on_join priority f ev
        else
          items <- lift_res (py_iter ev) ;;
          names <- lift_res (res_mapM py_name items) ;;
          on_register priority target false (str_join " & " names) ;;
          for_each (on_join priority f) items
      else self_log WARNING (MsgNotCoroutine target)
  | _ => self_log WARNING (MsgNotCoroutine target)
  end ;;
  ret target.

(** [BotApplication.on(event, priority)] (lines 98-134).  The last branch
    logs and falls off the end of the function: the call returns [None]. *)
Definition on (event : PyVal) (priority : PyVal) : py World (option Decorator) :=
  match priority with
  | VInt p =>
      if decide (p > 0)%Z then ret (Some (DecOn event p))
      else self_log ERROR MsgPriorityNotPositive ;; ret None
  | _ => self_log ERROR MsgPriorityType ;; ret (Some DecIdentity)
  end.

(** [BotApplication.on(event)]: the call that leaves the priority to its
    default (line 98). *)
Definition on_default (event : PyVal) : py World (option Decorator) :=
  on event (VInt 5).

(** ** Attachments: [__set_decorator] and its six callers *)

(** The keys of [mapping] (lines 138-143). *)
Definition slot_of_type (type : string) : option Slot :=
  if decide (type = "matcher") then Some SMatcher
  else if decide (type = "param_convert") then Some SParamConvert
  else if decide (type = "role") then Some SRole
  else if decide (type = "nlp") then Some SNlp
  else None.

(** The function [wrapper] of [__set_decorator] (lines 137-148). *)
Definition set_wrapper (value : Attach) (type : string) (desc : string)
    (target : PyVal) : py World PyVal :=
  match slot_of_type type with
  | Some s =>
      flag <- self_manager (lm_set s target value) ;;
      (if negb flag then self_log WARNING (MsgNotListener desc target)
       else ret tt) ;;
      ret target
  | None => raise (KeyError type)
  end.

(** [BotApplication.__set_decorator(value, type, desc)]. *)
Definition __set_decorator (value : Attach) (type : string) (desc : string)
    : Decorator :=
  DecSet value type desc.

Definition command (command : OneOrMany string) (match_all_width : bool)
    (ignore : list ClassRef) : Decorator :=
  let command_matcher := CommandMatcher command match_all_width ignore in
  __set_decorator (AMatcher command_matcher) "matcher" "消息匹配器".

Definition keyword (keyword : OneOrMany string) (match_all_width : bool)
    (ignore : list ClassRef) : Decorator :=
  let keyword_matcher := KeywordMatcher keyword match_all_width ignore in
  __set_decorator (AMatcher keyword_matcher) "matcher" "消息匹配器".

Definition matcher (matcher : Matcher.t) : Decorator :=
  __set_decorator (AMatcher matcher) "matcher" "消息匹配器".

Definition param_convert (param_convert : option PyType) : Decorator :=
  __set_decorator (AParamConvert param_convert) "param_convert" "参数转换类型".

Definition role (role : OneOrMany Role.t) (todo : option PyFunc) : Decorator :=
  __set_decorator (ARole role todo) "role" "权限组".

Definition nlp (c : Q) (keywords : list string) (params : list (string * string))
    : Decorator :=
  __set_decorator (ANlp c keywords params) "nlp" "自然语言处理".

(** ** Applying a decorator *)

(** [d(target)] for the value [d] a decorator method returned; calling
    [None] is a [TypeError]. *)
Definition apply_decorator (d : option Decorator) (target : PyVal) : py World PyVal :=
  match d with
  | Some DecIdentity => ret target
  | Some (DecOn event priority) => on_wrapper event priority target
  | Some (DecSet value type desc) => set_wrapper value type desc target
  | None => raise (TypeError (NotCallable TyNoneType))
  end.

(** ** Sending: [send_msg] *)

(** The call [MessageChain.create(...)] with the given positional
    arguments: [create] takes exactly one besides [cls]. *)
Definition chain_create (args : list PyVal) : py World PyVal :=
  match args with
  | [elems] => embed chain set_chain (MessageChain.create elems)
  | _ => raise (TypeError (ArgCount "create" 1 (length args)))
  end.

(** The class the string branch instantiates (lines 75-79): among the direct
    subclasses of [Element] whose [str] contains the adapter's name, case
    folded, the first one; among its direct subclasses named [Plain], the
    first one.  [self.adapter.name] is read once per subclass of [Element],
    so not at all when there is none. *)
Definition find_plain : py World ClassRef :=
  match subclasses classes Element_ref with
  | [] => raise IndexError
  | elements =>
      a <- self_adapter ;;
      let outer :=
        (λ i, filter (λ k, cls_name k = "Plain") (subclasses classes i))
        <$> filter (λ i, str_contains (str_lower (name a))
                           (str_lower (class_str i)) = true) elements in
      inner <- lift_res (py_index outer 0) ;;
      lift_res (py_index inner 0)
  end.

(** [await send(chain)] with
    [send = lambda chain: self.adapter.send_message(target, chain)]. *)
Definition send (target chain : PyVal) : py World unit :=
  a <- self_adapter ;;
  await (send_message a target chain).

(** [error()]: the warning of line 68. *)
Definition send_error : py World unit :=
  adapter_log WARNING MsgSendTypeError.

(** The body of the [try] statement of [send_msg] (lines 65-89). *)
Definition send_body (target message : PyVal) : py World unit :=
  let t := py_type message in
  let elements := subclasses classes Element_ref in
  let is_element :=
    bool_decide (t ∈ TyClass <$> elements)
    || bool_decide (t = TyClass Element_ref) in
  let is_list := bool_decide (t ∈ [TyList; TyTuple]) in
  if bool_decide (t = TyClass MessageChain.ref) then send target message
  else if bool_decide (t = TyStr) then
    plain_cls <- find_plain ;;
    c <- chain_create [VElem (construct plain_cls message)] ;;
    send target c
  else if is_element || is_list then
    if is_element then
      c <- chain_create [message] ;;
      send target c
    else if is_list then
      args <- lift_res (py_iter message) ;;
      c <- chain_create args ;;
      send target c
    else send_error
  else send_error.

(** The [except Exception as e] clause (lines 90-92): the exception is
    logged on the adapter's logger and raised again. *)
Definition send_handler (e : PyExc) : py World unit :=
  if exc_isinstance e ExcException
  then adapter_log ERROR (MsgSendFailed e) ;; raise e
  else raise e.

(** [BotApplication.send_msg(target, message)] (lines 48-92). *)
Definition send_msg (target message : PyVal) : py World unit :=
  try_except (send_body target message) send_handler.

(** ** Construction and start *)

(** [BotApplication.coroutine(x)], that is [asyncio.run(x)]: runs a
    coroutine to its end and refuses anything else. *)
Definition coroutine {A} (x : Awaitable A) : py World A :=
  match x with
  | Coroutine c => c
  | NotACoroutine v => raise (ValueError (NotCoroutine (py_type v)))
  end.

(** [ListenerManager()]: a new manager, at an identity of its own. *)
Definition new_manager : py World nat :=
  w <- get ;;
  let loc := fresh (dom (managers w)) in
  put (set_managers (<[loc := lm_new]> (managers w)) w) ;;
  ret loc.

(** [CONFIG.__setattr__(k, v)]. *)
Definition config_setattr (k : string) (v : Attr) : py World unit :=
  modify (λ w, set_config_attrs (<[k := v]> (config w)) w).

(** [BotApplication.set_config()] (lines 40-43). *)
Definition set_config : py World unit :=
  w <- get ;;
  for_each (λ k, v <- self_getattr k ;; config_setattr k v)
    (map_to_list (app w)).*1 ;;
  config_setattr "application" AtApp.

(** [BotApplication.__init__(adapter)] (lines 26-38), on the new object. *)
Definition __init__ : py World unit :=
  self_setattr "adapter" AtAdapter ;;
  a <- self_adapter ;;
  nickname <- coroutine (nick_name a) ;;
  self_setattr "nickname" nickname ;;
  loc <- new_manager ;;
  self_setattr "listener_manager" (AtManager loc) ;;
  a <- self_adapter ;;
  self_setattr "adapter_utils" (utils a) ;;
  a <- self_adapter ;;
  self_setattr "message_handler" (message_handler a) ;;
  set_config ;;
  self_setattr "logger" (AtLogger ("Application/" +:+ VERSION)) ;;
  self_log INFO (MsgLoading VERSION) ;;
  self_log INFO (MsgAdapterName (name adapter)) ;;
  nickname <- self_getattr "nickname" ;;
  shown <- lift_res (percent_s nickname) ;;
  self_log INFO (MsgLogin shown) ;;
  a <- self_adapter ;;
  coroutine (check a).

(** [BotApplication.start_running()]. *)
Definition start_running : py World unit :=
  a <- self_adapter ;;
  coroutine (start_listen a).

(** The world before the application is constructed: the class statement of
    [MessageChain] has run, [CONFIG] is built, nothing else exists. *)
Definition initial (fields : list string) : World :=
  mkWorld MessageChain.fresh ∅ ∅ (CONFIG fields) [] [].

(** ** Views of the world *)

(** The manager [self.listener_manager] refers to. *)
Definition app_manager (w : World) : option R :=
  match app w !! "listener_manager" with
  | Some (AtManager loc) => managers w !! loc
  | _ => None
  end.

(** Its registry, in dispatch order. *)
Definition registry (w : World) : list ListenerManager.entry :=
  from_option lm_entries [] (app_manager w).

(** The application object has its manager [r] at [loc] and its logger
    named [lg]: the state [__init__] establishes and every method keeps. *)
Definition ready (w : World) (loc : nat) (r : R) (lg : string) : Prop :=
  app w !! "listener_manager" = Some (AtManager loc)
  ∧ managers w !! loc = Some r
  ∧ app w !! "logger" = Some (AtLogger lg)
  ∧ app w !! "adapter" = Some AtAdapter.

(** The world after the manager at [loc] became [r]. *)
Definition with_manager (loc : nat) (r : R) (w : World) : World :=
  set_managers (<[loc := r]> (managers w)) w.

(** ** Running the helpers *)

Lemma ready_registry w loc r lg : ready w loc r lg → registry w = lm_entries r.
Proof. intros (Ha & Hm & _). unfold registry, app_manager. by rewrite Ha, Hm. Qed.

Lemma ready_with_manager w loc r r' lg :
  ready w loc r lg → ready (with_manager loc r' w) loc r' lg.
Proof.
  intros (Ha & Hm & Hl & Had). split_and!; [done | | done | done]. simpl.
  by rewrite lookup_insert_eq.
Qed.

Lemma ready_add_log w loc r lg x : ready w loc r lg → ready (add_log x w) loc r lg.
Proof. done. Qed.

Lemma with_manager_other loc r w loc' :
  loc ≠ loc' → managers (with_manager loc r w) !! loc' = managers w !! loc'.
Proof. intros. simpl. by rewrite lookup_insert_ne. Qed.

Lemma run_self_log w loc r lg lvl msg :
  ready w loc r lg → self_log lvl msg w = (Ok tt, add_log (mkLog lg lvl msg) w).
Proof.
  intros (_ & _ & Hl & _). unfold self_log, self_getattr. eff_simpl. by rewrite Hl.
Qed.

Lemma run_self_manager {A} (method : R → A * R) w loc r lg :
  ready w loc r lg →
  self_manager method w = (Ok (method r).1, with_manager loc (method r).2 w).
Proof.
  intros (Ha & Hm & _). unfold self_manager, self_getattr. eff_simpl.
  by rewrite Ha, Hm.
Qed.

Lemma run_on_join p f e w loc r lg :
  ready w loc r lg →
  on_join p f e w = (Ok tt, with_manager loc (lm_join (Listener e f) p r).2 w).
Proof.
  intros Hw. unfold on_join.
  by run (run_self_manager (lm_join (Listener e f) p) w loc r lg Hw).
Qed.

(** The manager after the joins of a list of events, in order. *)
Definition join_all (p : Z) (f : PyFunc) (items : list PyVal) (r : R) : R :=
  foldl (λ r e, (lm_join (Listener e f) p r).2) r items.

Lemma with_manager_twice loc r1 r2 w :
  with_manager loc r2 (with_manager loc r1 w) = with_manager loc r2 w.
Proof. unfold with_manager, set_managers. simpl. by rewrite insert_insert_eq. Qed.

Lemma with_manager_id w loc r lg : ready w loc r lg → with_manager loc r w = w.
Proof.
  intros (_ & Hm & _). destruct w. unfold with_manager, set_managers. simpl in *.
  by rewrite insert_id.
Qed.

Lemma run_for_each_join p f items w loc r lg :
  ready w loc r lg →
  for_each (on_join p f) items w
  = (Ok tt, with_manager loc (join_all p f items r) w).
Proof.
  revert w r. induction items as [|e items IH]; intros w r Hw; simpl.
  - by erewrite with_manager_id.
  - run (run_on_join p f e w loc r lg Hw).
    erewrite IH by (by eapply ready_with_manager).
    by rewrite with_manager_twice.
Qed.

(** The adapter attribute of a constructed application. *)
Definition has_adapter (w : World) : Prop := app w !! "adapter" = Some AtAdapter.

Lemma ready_has_adapter w loc r lg : ready w loc r lg → has_adapter w.
Proof. by intros (_ & _ & _ & Ha). Qed.

Lemma run_self_adapter w : has_adapter w → self_adapter w = (Ok adapter, w).
Proof. intros Ha. unfold self_adapter, self_getattr. eff_simpl. by rewrite Ha. Qed.

Lemma run_adapter_log lvl msg w :
  has_adapter w →
  adapter_log lvl msg w = (Ok tt, add_log (mkLog (logger adapter) lvl msg) w).
Proof. intros Ha. unfold adapter_log. by run (run_self_adapter w Ha). Qed.

(** ** [on]: the behaviour of the wrapper on every input *)

(** The items of the event argument when it is a sequence. *)
Definition seq_items (ev : PyVal) : list PyVal :=
  match ev with
  | VList l | VTuple l => l
  | _ => []
  end.

(** What [on_wrapper] does in a ready world, as a function of the world. *)
Definition on_wrapper_spec (event : PyVal) (p : Z) (target : PyVal)
    (loc : nat) (r : R) (lg : string) (w : World) : pyres PyVal * World :=
  if iscoroutinefunction target then
    match target with
    | VFunc f =>
        let ev := unwrap_single event in
        if bool_decide (py_type ev ∉ [TyList; TyTuple]) then
          match py_name ev with
          | Ok name =>
              (Ok target,
               with_manager loc (lm_join (Listener ev f) p r).2
                 (add_log (mkLog lg INFO (MsgRegister true name p target)) w))
          | Raise e => (Raise e, w)
          end
        else
          match res_mapM py_name (seq_items ev) with
          | Ok names =>
              (Ok target,
               with_manager loc (join_all p f (seq_items ev) r)
                 (add_log (mkLog lg INFO
                    (MsgRegister false (str_join " & " names) p target)) w))
          | Raise e => (Raise e, w)
          end
    | _ => (Ok target, w)
    end
  else (Ok target, add_log (mkLog lg WARNING (MsgNotCoroutine target)) w).

Lemma py_iter_seq ev :
  py_type ev ∈ [TyList; TyTuple] → py_iter ev = Ok (seq_items ev).
Proof. destruct ev; simpl; intros Hty; inv_elem_of; done. Qed.

Lemma run_on_wrapper event p target w loc r lg :
  ready w loc r lg →
  on_wrapper event p target w = on_wrapper_spec event p target loc r lg w.
Proof.
  intros Hw. unfold on_wrapper, on_wrapper_spec, on_register.
  destruct target as [|b|z|s|l|l|c|f|e|c];
    try (by run (run_self_log w loc r lg WARNING _ Hw)).
  simpl. destruct (fn_is_coroutine f);
    [|by run (run_self_log w loc r lg WARNING _ Hw)].
  case_bool_decide as Hty.
  - unfold bind at 1 2, lift_res at 1. destruct (py_name _) as [nm|e]; [|done].
    cbv beta iota. run (run_self_log w loc r lg INFO (MsgRegister true nm p (VFunc f)) Hw).
    by run (run_on_join p f (unwrap_single event) _ loc r lg
              (ready_add_log _ _ _ _ _ Hw)).
  - unfold bind at 1 2, lift_res at 1.
    rewrite (py_iter_seq _ Hty). cbv beta iota.
    unfold bind at 1 2, lift_res at 1. destruct (res_mapM _ _) as [names|e]; [|done].
    cbv beta iota. run (run_self_log w loc r lg INFO
                          (MsgRegister false (str_join " & " names) p (VFunc f)) Hw).
    by run (run_for_each_join p f (seq_items (unwrap_single event)) _ loc r lg
              (ready_add_log _ _ _ _ _ Hw)).
Qed.

(** [@bot.on(event, priority)] above a definition: the decorator expression
    is evaluated, then called with the function. *)
Definition decorate (d : py World (option Decorator)) (target : PyVal)
    : py World PyVal :=
  dec <- d ;; apply_decorator dec target.

(** The registry after the joins of [join_all], by the laws of the
    interface. *)
Definition insert_all (p : Z) (f : PyFunc) (items : list PyVal)
    (reg : list ListenerManager.entry) : list ListenerManager.entry :=
  foldl (λ reg e, ListenerManager.insert (ListenerManager.mkEntry p (Listener e f)) reg)
    reg items.

Lemma join_all_entries p f items r :
  (0 < p)%Z → lm_entries (join_all p f items r) = insert_all p f items (lm_entries r).
Proof.
  intros Hp. revert r. induction items as [|e items IH]; intros r; [done|].
  simpl. rewrite IH. by destruct (lm_join_accepted (Listener e f) p r Hp) as [_ ->].
Qed.

Lemma registry_with_manager w loc r r' lg :
  ready w loc r lg → registry (with_manager loc r' w) = lm_entries r'.
Proof. intros Hw. eapply ready_registry. by eapply ready_with_manager. Qed.

Lemma run_set_wrapper value type desc target s w loc r lg :
  ready w loc r lg → slot_of_type type = Some s →
  set_wrapper value type desc target w
  = (Ok target,
     if (lm_set s target value r).1
     then with_manager loc (lm_set s target value r).2 w
     else add_log (mkLog lg WARNING (MsgNotListener desc target))
            (with_manager loc (lm_set s target value r).2 w)).
Proof.
  intros Hw Hs. unfold set_wrapper. rewrite Hs.
  run (run_self_manager (lm_set s target value) w loc r lg Hw).
  destruct (lm_set s target value r).1; simpl; [done|].
  by run (run_self_log _ loc _ lg WARNING _ (ready_with_manager _ _ _ _ _ Hw)).
Qed.

(** A failed setter leaves the manager as it was. *)
Lemma lm_set_failed s tgt v r :
  (lm_set s tgt v r).1 = false → lm_entries (lm_set s tgt v r).2 = lm_entries r.
Proof.
  destruct (lm_set_spec s tgt v r) as [-> ->].
  apply ListenerManager.set_slot_unchanged.
Qed.

(** ** Theorems: registration *)

(** The decorator statement, for a positive integer priority. *)
Lemma run_decorate_on event p target w loc r lg :
  ready w loc r lg → (0 < p)%Z →
  decorate (on event (VInt p)) target w
  = on_wrapper_spec event p target loc r lg w.
Proof.
  intros Hw Hp. unfold decorate, on. rewrite decide_True by lia.
  run (bind_ret_l (S:=World)). simpl. by apply run_on_wrapper.
Qed.

(** The same for one event class and a coroutine function. *)
Lemma run_decorate_class (ev : ClassRef) p f w loc r lg :
  ready w loc r lg → (0 < p)%Z → fn_is_coroutine f = true →
  decorate (on (VClass ev) (VInt p)) (VFunc f) w
  = (Ok (VFunc f),
     with_manager loc (lm_join (Listener (VClass ev) f) p r).2
       (add_log (mkLog lg INFO (MsgRegister true (cls_name ev) p (VFunc f))) w)).
Proof.
  intros Hw Hp Hf. rewrite (run_decorate_on _ _ _ w loc r lg Hw Hp).
  unfold on_wrapper_spec. simpl. by rewrite Hf.
Qed.

Lemma registry_decorate_class (ev : ClassRef) p f w loc r lg :
  ready w loc r lg → (0 < p)%Z → fn_is_coroutine f = true →
  registry (decorate (on (VClass ev) (VInt p)) (VFunc f) w).2
  = ListenerManager.insert
      (ListenerManager.mkEntry p (Listener (VClass ev) f)) (registry w).
Proof.
  intros Hw Hp Hf. rewrite (run_decorate_class ev p f w loc r lg Hw Hp Hf). simpl.
  erewrite registry_with_manager by (by apply ready_add_log).
  destruct (lm_join_accepted (Listener (VClass ev) f) p r Hp) as [_ ->].
  by erewrite ready_registry.
Qed.

(** C6: decorating a coroutine function with [on(E, p)] for one event class
    [E] and a positive integer [p] returns the function, inserts one
    listener for [E] behind the registered listeners of priority at most
    [p], and writes one INFO line. *)
Theorem on_registers (ev : ClassRef) (p : Z) (f : PyFunc) w loc r lg :
  ready w loc r lg → (0 < p)%Z → fn_is_coroutine f = true →
  (decorate (on (VClass ev) (VInt p)) (VFunc f) w).1 = Ok (VFunc f)
  ∧ registry (decorate (on (VClass ev) (VInt p)) (VFunc f) w).2
    = ListenerManager.insert
        (ListenerManager.mkEntry p (Listener (VClass ev) f)) (registry w)
  ∧ log (decorate (on (VClass ev) (VInt p)) (VFunc f) w).2
    = log w ++ [mkLog lg INFO (MsgRegister true (cls_name ev) p (VFunc f))].
Proof.
  intros Hw Hp Hf. split_and!.
  - by rewrite (run_decorate_class ev p f w loc r lg Hw Hp Hf).
  - by apply (registry_decorate_class ev p f w loc r lg).
  - by rewrite (run_decorate_class ev p f w loc r lg Hw Hp Hf).
Qed.

(** C4: a registration keeps the registry sorted by ascending priority, and
    among the listeners of each priority it keeps the registration order,
    the new listener last. *)
Theorem on_sorted_stable (ev : ClassRef) (p q : Z) (f : PyFunc) w loc r lg :
  ready w loc r lg → (0 < p)%Z → fn_is_coroutine f = true →
  ListenerManager.sorted (registry w) →
  ListenerManager.sorted (registry (decorate (on (VClass ev) (VInt p)) (VFunc f) w).2)
  ∧ filter (λ e, ListenerManager.priority e = q)
      (registry (decorate (on (VClass ev) (VInt p)) (VFunc f) w).2)
    = filter (λ e, ListenerManager.priority e = q) (registry w)
      ++ (if decide (p = q)
          then [ListenerManager.mkEntry p (Listener (VClass ev) f)] else []).
Proof.
  intros Hw Hp Hf Hs.
  rewrite (registry_decorate_class ev p f w loc r lg Hw Hp Hf).
  split; [by apply ListenerManager.insert_sorted|].
  by rewrite ListenerManager.insert_stable.
Qed.

Lemma ready_decorate_class (ev : ClassRef) p f w loc r lg :
  ready w loc r lg → (0 < p)%Z → fn_is_coroutine f = true →
  ready (decorate (on (VClass ev) (VInt p)) (VFunc f) w).2 loc
    (lm_join (Listener (VClass ev) f) p r).2 lg.
Proof.
  intros Hw Hp Hf. rewrite (run_decorate_class ev p f w loc r lg Hw Hp Hf).
  eapply ready_with_manager. by apply ready_add_log.
Qed.

(** Three handlers registered for one event class with priorities 3, 1
    and 3, in this order, on an application without listeners, are
    dispatched in the order second, first, third. *)
Lemma on_priority_order (ev : ClassRef) (f1 f2 f3 : PyFunc) w loc r lg :
  ready w loc r lg → registry w = [] →
  fn_is_coroutine f1 = true → fn_is_coroutine f2 = true →
  fn_is_coroutine f3 = true →
  let w1 := (decorate (on (VClass ev) (VInt 3)) (VFunc f1) w).2 in
  let w2 := (decorate (on (VClass ev) (VInt 1)) (VFunc f2) w1).2 in
  let w3 := (decorate (on (VClass ev) (VInt 3)) (VFunc f3) w2).2 in
  ListenerManager.listeners_for (VClass ev) (registry w3)
  = [Listener (VClass ev) f2; Listener (VClass ev) f1; Listener (VClass ev) f3].
Proof.
  intros Hw Hreg Hf1 Hf2 Hf3 w1 w2 w3.
  pose proof (ready_decorate_class ev 3 f1 w loc r lg Hw eq_refl Hf1) as Hw1.
  pose proof (ready_decorate_class ev 1 f2 _ loc _ lg Hw1 eq_refl Hf2) as Hw2.
  unfold w3, w2, w1.
  rewrite (registry_decorate_class ev 3 f3 _ loc _ lg Hw2 eq_refl Hf3).
  rewrite (registry_decorate_class ev 1 f2 _ loc _ lg Hw1 eq_refl Hf2).
  rewrite (registry_decorate_class ev 3 f1 w loc r lg Hw eq_refl Hf1), Hreg.
  unfold ListenerManager.listeners_for. simpl. by rewrite !filter_cons_True, filter_nil.
Qed.

(** C9: [on] with a priority that is an integer but not positive logs an
    error and returns [None]; used as a decorator, the call of [None] raises
    [TypeError], after the error line and without touching the registry. *)
Theorem on_rejects_non_positive (event target : PyVal) (p : Z) w loc r lg :
  ready w loc r lg → (p ≤ 0)%Z →
  on event (VInt p) w = (Ok None, add_log (mkLog lg ERROR MsgPriorityNotPositive) w)
  ∧ decorate (on event (VInt p)) target w
    = (Raise (TypeError (NotCallable TyNoneType)),
       add_log (mkLog lg ERROR MsgPriorityNotPositive) w)
  ∧ registry (decorate (on event (VInt p)) target w).2 = registry w.
Proof.
  intros Hw Hp. unfold decorate, on. rewrite decide_False by lia.
  assert ((self_log ERROR MsgPriorityNotPositive ;; ret None) w
          = (Ok (@None Decorator), add_log (mkLog lg ERROR MsgPriorityNotPositive) w))
    as Hon by (by run (run_self_log w loc r lg ERROR _ Hw)).
  split_and!; [done | by run Hon |]. by run Hon.
Qed.

(** [on] with a priority whose type is not [int] ([bool] included) logs
    an error and returns the identity decorator: the function is returned
    and nothing is registered. *)
Lemma on_priority_not_int (event priority target : PyVal) w loc r lg :
  ready w loc r lg → py_type priority ≠ TyInt →
  decorate (on event priority) target w
  = (Ok target, add_log (mkLog lg ERROR MsgPriorityType) w).
Proof.
  intros Hw Hty. unfold decorate, on.
  destruct priority; try done; by run (run_self_log w loc r lg ERROR _ Hw).
Qed.

(** The decorator statement [@app.on(event, priority)] on every input, as a
    function of the world. *)
Definition on_spec (event priority target : PyVal) (loc : nat) (r : R)
    (lg : string) (w : World) : pyres PyVal * World :=
  match priority with
  | VInt p =>
      if decide (0 < p)%Z then on_wrapper_spec event p target loc r lg w
      else (Raise (TypeError (NotCallable TyNoneType)),
            add_log (mkLog lg ERROR MsgPriorityNotPositive) w)
  | _ => (Ok target, add_log (mkLog lg ERROR MsgPriorityType) w)
  end.

(** A decorator statement that raises has registered nothing. *)
Lemma on_spec_raises event priority target w loc r lg :
  is_ok (on_spec event priority target loc r lg w).1 = false →
  registry (on_spec event priority target loc r lg w).2 = registry w.
Proof.
  unfold on_spec, on_wrapper_spec. destruct priority as [|b|p|s|l|l|c|f|e|c]; try done.
  case_decide; [|done]. destruct (iscoroutinefunction target); [|done].
  destruct target; try done. case_bool_decide.
  - by destruct (py_name _).
  - by destruct (res_mapM _ _).
Qed.

(** C11: the decorator statement [@app.on(event, priority)] against its
    reference, on every input: a priority that is not an [int] ([bool]
    included) logs an error and leaves the function undecorated, one that
    is not positive logs and raises [TypeError] (the call of [None]), a
    positive one runs the wrapper: warning for a target that is not a
    coroutine function, one listener for one event class, one per class
    for a sequence.  A statement that raises has registered nothing, also
    when the event is a sequence. *)
Theorem on_decides (event priority target : PyVal) w loc r lg :
  ready w loc r lg →
  decorate (on event priority) target w
  = on_spec event priority target loc r lg w
  ∧ (is_ok (decorate (on event priority) target w).1 = false →
     registry (decorate (on event priority) target w).2 = registry w).
Proof.
  intros Hw.
  assert (decorate (on event priority) target w
          = on_spec event priority target loc r lg w) as ->.
  { unfold on_spec. destruct priority as [|b|p|s|l|l|c|f|e|c];
      try (unfold decorate, on; by run (run_self_log w loc r lg ERROR _ Hw)).
    case_decide as Hp; [by apply run_decorate_on|].
    unfold decorate, on. rewrite decide_False by lia.
    by run (run_self_log w loc r lg ERROR MsgPriorityNotPositive Hw). }
  split; [done | apply on_spec_raises].
Qed.

(** The default priority is 5. *)
Lemma on_default_registers (ev : ClassRef) f w loc r lg :
  ready w loc r lg → fn_is_coroutine f = true →
  decorate (on_default (VClass ev)) (VFunc f) w
  = (Ok (VFunc f),
     with_manager loc (lm_join (Listener (VClass ev) f) 5 r).2
       (add_log (mkLog lg INFO (MsgRegister true (cls_name ev) 5 (VFunc f))) w)).
Proof. intros Hw Hf. by apply run_decorate_class. Qed.

(** C38: decorating something that is not a coroutine function logs a
    warning, registers nothing and returns the target. *)
Theorem on_not_coroutine (event target : PyVal) (p : Z) w loc r lg :
  ready w loc r lg → (0 < p)%Z → iscoroutinefunction target = false →
  decorate (on event (VInt p)) target w
  = (Ok target, add_log (mkLog lg WARNING (MsgNotCoroutine target)) w).
Proof.
  intros Hw Hp Hf. rewrite (run_decorate_on _ _ _ w loc r lg Hw Hp).
  unfold on_wrapper_spec. by rewrite Hf.
Qed.

(** C19: [on] with a tuple of event classes (or a list of other than one)
    registers one listener per class, in the order of the sequence, all with
    the same priority and the same handler, and writes one INFO line with
    the names joined by [" & "]. *)
Theorem on_multi_event (ev : PyVal) (cs : list ClassRef) (p : Z) (f : PyFunc)
    w loc r lg :
  ready w loc r lg → (0 < p)%Z → fn_is_coroutine f = true →
  py_type ev ∈ [TyList; TyTuple] → unwrap_single ev = ev →
  seq_items ev = VClass <$> cs →
  (decorate (on ev (VInt p)) (VFunc f) w).1 = Ok (VFunc f)
  ∧ registry (decorate (on ev (VInt p)) (VFunc f) w).2
    = insert_all p f (VClass <$> cs) (registry w)
  ∧ log (decorate (on ev (VInt p)) (VFunc f) w).2
    = log w ++ [mkLog lg INFO
                  (MsgRegister false (str_join " & " (cls_name <$> cs)) p (VFunc f))].
Proof.
  intros Hw Hp Hf Hty Hun Hitems. rewrite (run_decorate_on _ _ _ w loc r lg Hw Hp).
  unfold on_wrapper_spec. simpl. rewrite Hf, Hun, bool_decide_eq_false_2 by (by intros ?).
  rewrite Hitems, (res_mapM_ok _ (λ v, match v with VClass c => cls_name c | _ => "" end)).
  2: { by intros v (c & -> & _)%list_elem_of_fmap. }
  rewrite <- list_fmap_compose. simpl. split_and!; [done | | done].
  erewrite registry_with_manager by (by apply ready_add_log).
  rewrite join_all_entries by done. by erewrite ready_registry.
Qed.

(** A list of one event class is the class: [on([E], p)] and [on(E, p)]
    decorate every target alike, in every world, whatever the priority
    (result, registry and log line, the multi-event flag included). *)
Lemma on_singleton_list (ev : ClassRef) (priority target : PyVal) w :
  decorate (on (VList [VClass ev]) priority) target w
  = decorate (on (VClass ev) priority) target w.
Proof.
  unfold decorate, on. destruct priority as [|b|p|s|l|l|c|f|e|c]; try done.
  by case_decide.
Qed.

(** ** Theorems: attachments *)

(** The slot a decorator assigns, when it is one of [__set_decorator]. *)
Definition decorator_slot (d : Decorator) : option Slot :=
  match d with
  | DecSet _ type _ => slot_of_type type
  | _ => None
  end.

(** The registry after an attachment decorator, by the reference model. *)
Lemma registry_apply_set value type desc s target w loc r lg :
  ready w loc r lg → slot_of_type type = Some s →
  registry (apply_decorator (Some (DecSet value type desc)) target w).2
  = (ListenerManager.set_slot s target value (registry w)).2.
Proof.
  intros Hw Hs. simpl. rewrite (run_set_wrapper _ _ _ _ s w loc r lg Hw Hs).
  destruct (lm_set_spec s target value r) as [_ Hreg].
  rewrite (ready_registry w loc r lg Hw), <- Hreg. simpl.
  destruct (lm_set s target value r).1;
    [by rewrite (registry_with_manager w loc r _ lg Hw)|].
  apply (ready_registry _ loc _ lg), ready_add_log.
  by eapply ready_with_manager.
Qed.

Lemma ready_apply_set value type desc s target w loc r lg :
  ready w loc r lg → slot_of_type type = Some s →
  ready (apply_decorator (Some (DecSet value type desc)) target w).2 loc
    (lm_set s target value r).2 lg.
Proof.
  intros Hw Hs. simpl. rewrite (run_set_wrapper _ _ _ _ s w loc r lg Hw Hs).
  destruct (lm_set s target value r).1; simpl; [|apply ready_add_log];
    by eapply ready_with_manager.
Qed.

(** Its result and its log line, by the flag of the reference model. *)
Lemma result_apply_set value type desc s target w loc r lg :
  ready w loc r lg → slot_of_type type = Some s →
  (apply_decorator (Some (DecSet value type desc)) target w).1 = Ok target
  ∧ log (apply_decorator (Some (DecSet value type desc)) target w).2
    = log w ++
      (if (ListenerManager.set_slot s target value (registry w)).1 then []
       else [mkLog lg WARNING (MsgNotListener desc target)]).
Proof.
  intros Hw Hs. simpl. rewrite (run_set_wrapper _ _ _ _ s w loc r lg Hw Hs).
  destruct (lm_set_spec s target value r) as [Hflag _].
  rewrite (ready_registry w loc r lg Hw), <- Hflag. simpl. split; [done|].
  destruct (lm_set s target value r).1; simpl; [by rewrite app_nil_r | done].
Qed.

(** Each of the six attachment decorators names a key of [mapping]:
    [command], [keyword] and [matcher] the matcher slot, [param_convert],
    [role] and [nlp] their own, so the lookup [mapping[type]] never raises
    [KeyError] for them. *)
Lemma public_decorator_slots cmd w1 ig m pc rl todo c kws ps :
  decorator_slot (command cmd w1 ig) = Some SMatcher
  ∧ decorator_slot (keyword cmd w1 ig) = Some SMatcher
  ∧ decorator_slot (matcher m) = Some SMatcher
  ∧ decorator_slot (param_convert pc) = Some SParamConvert
  ∧ decorator_slot (role rl todo) = Some SRole
  ∧ decorator_slot (nlp c kws ps) = Some SNlp.
Proof. by split_and!. Qed.

(** C12: an attachment decorator applied to a target that no listener has as
    its handler returns the target, leaves the registry as it was, and writes
    one warning naming the attachment. *)
Theorem attach_unregistered value type desc s (target : PyVal) w loc r lg :
  ready w loc r lg → slot_of_type type = Some s →
  Forall (λ e, target ≠ VFunc (Listener.target (ListenerManager.listener e)))
    (registry w) →
  (apply_decorator (Some (DecSet value type desc)) target w).1 = Ok target
  ∧ registry (apply_decorator (Some (DecSet value type desc)) target w).2
    = registry w
  ∧ log (apply_decorator (Some (DecSet value type desc)) target w).2
    = log w ++ [mkLog lg WARNING (MsgNotListener desc target)].
Proof.
  intros Hw Hs Hnone.
  destruct (result_apply_set value type desc s target w loc r lg Hw Hs) as [-> ->].
  rewrite (registry_apply_set _ _ _ s _ w loc r lg Hw Hs).
  apply (ListenerManager.set_slot_false s _ value) in Hnone.
  by rewrite Hnone, ListenerManager.set_slot_unchanged.
Qed.

(** C10: an attachment decorator applied to the handler of registered
    listeners assigns its slot on each of them, changes no other listener,
    returns the target and writes nothing. *)
Theorem attach_registered value type desc s (target : PyVal) w loc r lg :
  ready w loc r lg → slot_of_type type = Some s →
  Exists (λ e, target = VFunc (Listener.target (ListenerManager.listener e)))
    (registry w) →
  (apply_decorator (Some (DecSet value type desc)) target w).1 = Ok target
  ∧ registry (apply_decorator (Some (DecSet value type desc)) target w).2
    = ListenerManager.set_entry s target value <$> registry w
  ∧ log (apply_decorator (Some (DecSet value type desc)) target w).2 = log w.
Proof.
  intros Hw Hs Hsome.
  destruct (result_apply_set value type desc s target w loc r lg Hw Hs) as [-> ->].
  rewrite (registry_apply_set _ _ _ s _ w loc r lg Hw Hs).
  unfold ListenerManager.set_slot.
  assert (existsb (ListenerManager.has_target target) (registry w) = true) as ->.
  { apply existsb_true. eapply Exists_impl; [apply Hsome|].
    intros e ->. by apply bool_decide_eq_true. }
  by rewrite app_nil_r.
Qed.

(** Whatever an attachment decorator does, the listeners keep their
    priorities, events and handlers, in the same order, and the registry
    stays sorted. *)
Lemma attach_keeps_order value type desc s (target : PyVal) w loc r lg :
  ready w loc r lg → slot_of_type type = Some s →
  ListenerManager.sorted (registry w) →
  ListenerManager.sorted
    (registry (apply_decorator (Some (DecSet value type desc)) target w).2)
  ∧ ListenerManager.priority
      <$> registry (apply_decorator (Some (DecSet value type desc)) target w).2
    = ListenerManager.priority <$> registry w
  ∧ (Listener.event ∘ ListenerManager.listener)
      <$> registry (apply_decorator (Some (DecSet value type desc)) target w).2
    = (Listener.event ∘ ListenerManager.listener) <$> registry w
  ∧ (Listener.target ∘ ListenerManager.listener)
      <$> registry (apply_decorator (Some (DecSet value type desc)) target w).2
    = (Listener.target ∘ ListenerManager.listener) <$> registry w.
Proof.
  intros Hw Hs Hsorted. rewrite (registry_apply_set _ _ _ s _ w loc r lg Hw Hs).
  split_and!.
  - by apply ListenerManager.set_slot_sorted.
  - apply ListenerManager.set_slot_priorities.
  - apply ListenerManager.set_slot_events.
  - apply ListenerManager.set_slot_targets.
Qed.

(** Two attachment decorators, one after the other: the second returns
    its target, the registry has both slots assigned on the listeners of
    the two handlers, and nothing is written when both handlers are
    registered. *)
Lemma attach_then v1 t1 d1 s1 tgt1 v2 t2 d2 s2 tgt2 w loc r lg :
  ready w loc r lg → slot_of_type t1 = Some s1 → slot_of_type t2 = Some s2 →
  (apply_decorator (Some (DecSet v2 t2 d2)) tgt2
     (apply_decorator (Some (DecSet v1 t1 d1)) tgt1 w).2).1 = Ok tgt2
  ∧ registry (apply_decorator (Some (DecSet v2 t2 d2)) tgt2
                (apply_decorator (Some (DecSet v1 t1 d1)) tgt1 w).2).2
    = ListenerManager.set_entry s2 tgt2 v2 <$>
        (ListenerManager.set_entry s1 tgt1 v1 <$> registry w)
  ∧ (Exists (λ e, tgt1 = VFunc (Listener.target (ListenerManager.listener e)))
       (registry w) →
     Exists (λ e, tgt2 = VFunc (Listener.target (ListenerManager.listener e)))
       (registry w) →
     log (apply_decorator (Some (DecSet v2 t2 d2)) tgt2
            (apply_decorator (Some (DecSet v1 t1 d1)) tgt1 w).2).2 = log w).
Proof.
  intros Hw H1 H2.
  pose proof (ready_apply_set v1 t1 d1 s1 tgt1 w loc r lg Hw H1) as Hw1.
  pose proof (registry_apply_set v1 t1 d1 s1 tgt1 w loc r lg Hw H1) as Hr1.
  rewrite ListenerManager.set_slot_entries in Hr1.
  destruct (result_apply_set v1 t1 d1 s1 tgt1 w loc r lg Hw H1) as [_ Hl1].
  destruct (result_apply_set v2 t2 d2 s2 tgt2 _ loc _ lg Hw1 H2) as [-> Hl2].
  rewrite (registry_apply_set _ _ _ s2 _ _ loc _ lg Hw1 H2).
  rewrite ListenerManager.set_slot_entries, Hr1. split_and!; [done..|].
  intros Hx1 Hx2. rewrite Hl2, Hl1, Hr1.
  rewrite !ListenerManager.set_slot_true, !app_nil_r;
    auto using ListenerManager.set_entry_Exists.
Qed.

(** ** Running [set_config] and [__init__] *)

(** The loop of [set_config] over the keys [ks], as a fold on the attributes
    of [CONFIG]. *)
Definition copy_attrs (a : gmap string Attr) (ks : list string)
    (c : gmap string Attr) : gmap string Attr :=
  foldl (λ c k, match a !! k with Some v => <[k := v]> c | None => c end) c ks.

Lemma copy_attrs_lookup a ks c k :
  copy_attrs a ks c !! k
  = match a !! k with
    | Some v => if decide (k ∈ ks) then Some v else c !! k
    | None => c !! k
    end.
Proof.
  revert c. induction ks as [|k0 ks IH]; intros c; simpl.
  - by destruct (a !! k).
  - unfold copy_attrs in *. simpl. rewrite IH.
    destruct (a !! k) as [v|] eqn:Hk.
    + destruct (decide (k ∈ ks)) as [Hin|Hnin].
      { by rewrite decide_True by by right. }
      destruct (decide (k = k0)) as [->|Hne].
      { rewrite decide_True by by left. by rewrite Hk, lookup_insert_eq. }
      rewrite decide_False by by intros [?|?]%elem_of_cons.
      destruct (a !! k0); [by rewrite lookup_insert_ne|done].
    + destruct (a !! k0) eqn:Hk0; [|done].
      rewrite lookup_insert_ne; [done|]. intros ->. congruence.
Qed.

(** Over all the keys of the object, the loop is a union that prefers the
    object's attributes. *)
Lemma copy_attrs_keys a c : copy_attrs a (map_to_list a).*1 c = a ∪ c.
Proof.
  apply map_eq. intros k. rewrite copy_attrs_lookup, lookup_union.
  destruct (a !! k) as [v|] eqn:Hk; [|by destruct (c !! k)].
  rewrite decide_True; [by destruct (c !! k)|].
  apply list_elem_of_fmap. exists (k, v). split; [done|].
  by apply elem_of_map_to_list.
Qed.

Lemma run_self_setattr k a w :
  self_setattr k a w = (Ok tt, set_app (<[k := a]> (app w)) w).
Proof. done. Qed.

Lemma run_copy_attrs ks w :
  Forall (λ k, is_Some (app w !! k)) ks →
  for_each (λ k, v <- self_getattr k ;; config_setattr k v) ks w
  = (Ok tt, set_config_attrs (copy_attrs (app w) ks (config w)) w).
Proof.
  revert w. induction ks as [|k ks IH]; intros w Hks.
  - by destruct w.
  - apply Forall_cons in Hks as [[v Hv] Hks]. cbn [for_each].
    assert ((v <- self_getattr k ;; config_setattr k v) w
            = (Ok tt, set_config_attrs (<[k := v]> (config w)) w)) as Hstep.
    { unfold self_getattr, config_setattr. eff_simpl. by rewrite Hv. }
    run Hstep. rewrite IH by done. unfold copy_attrs. simpl. by rewrite Hv.
Qed.

Lemma run_set_config w :
  set_config w
  = (Ok tt, set_config_attrs (<["application" := AtApp]> (app w ∪ config w)) w).
Proof.
  unfold set_config. unfold bind at 1, get at 1.
  run (run_copy_attrs (map_to_list (app w)).*1 w).
  - by rewrite copy_attrs_keys.
  - apply Forall_forall. intros k ([k' v] & -> & Hkv%elem_of_map_to_list)%list_elem_of_fmap.
    by exists v.
Qed.

(** The name of the application's logger. *)
Definition app_logger : string := "Application/" +:+ VERSION.

(** The attributes [__init__] has assigned when it calls [set_config]. *)
Definition init_attrs (nick : Attr) (loc : nat) : gmap string Attr :=
  <["message_handler" := message_handler adapter]>
    (<["adapter_utils" := utils adapter]>
      (<["listener_manager" := AtManager loc]>
        (<["nickname" := nick]> (<["adapter" := AtAdapter]> ∅)))).

(** The world [__init__] leaves when the adapter answers. *)
Definition init_world (nick shown : Attr) (w : World) : World :=
  let loc := fresh (dom (managers w)) in
  mkWorld (chain w) (<[loc := lm_new]> (managers w))
    (<["logger" := AtLogger app_logger]> (init_attrs nick loc))
    (<["application" := AtApp]> (init_attrs nick loc ∪ config w))
    (log w ++ [mkLog app_logger INFO (MsgLoading VERSION);
               mkLog app_logger INFO (MsgAdapterName (name adapter));
               mkLog app_logger INFO (MsgLogin shown)])
    (outbox w).

Lemma run_self_getattr k v w :
  app w !! k = Some v → self_getattr k w = (Ok v, w).
Proof. intros Hk. unfold self_getattr. eff_simpl. by rewrite Hk. Qed.

Lemma run_logger_attr lg lvl msg w :
  app w !! "logger" = Some (AtLogger lg) →
  self_log lvl msg w = (Ok tt, add_log (mkLog lg lvl msg) w).
Proof. intros Hlg. unfold self_log. by run (run_self_getattr "logger" _ w Hlg). Qed.

Lemma run_new_manager w :
  new_manager w
  = (Ok (fresh (dom (managers w))),
     set_managers (<[fresh (dom (managers w)) := lm_new]> (managers w)) w).
Proof. done. Qed.

Ltac lookup_attr := unfold has_adapter; simpl; by simplify_map_eq.
Ltac step_adapter :=
  unfold bind at 1; rewrite run_self_adapter by lookup_attr; csimpl.
Ltac step_log :=
  unfold bind at 1; erewrite run_logger_attr by lookup_attr; csimpl.

(** The world [__init__] has built when it formats the login line. *)
Definition login_world (nick : Attr) (w : World) : World :=
  let loc := fresh (dom (managers w)) in
  mkWorld (chain w) (<[loc := lm_new]> (managers w))
    (<["logger" := AtLogger app_logger]> (init_attrs nick loc))
    (<["application" := AtApp]> (init_attrs nick loc ∪ config w))
    (log w ++ [mkLog app_logger INFO (MsgLoading VERSION);
               mkLog app_logger INFO (MsgAdapterName (name adapter))])
    (outbox w).

(** [__init__] up to line 37. *)
Lemma run_init_to_login nick w :
  app w = ∅ →
  nick_name adapter = Coroutine (ret nick) →
  __init__ w
  = (shown <- lift_res (percent_s nick) ;;
     self_log INFO (MsgLogin shown) ;;
     a <- self_adapter ;;
     coroutine (check a)) (login_world nick w).
Proof.
  intros Happ Hn. unfold __init__.
  run (run_self_setattr "adapter" AtAdapter w). step_adapter.
  rewrite Hn. unfold coroutine at 1. rewrite bind_ret_l.
  run (run_self_setattr "nickname" nick). run run_new_manager.
  run (run_self_setattr "listener_manager"). step_adapter.
  run (run_self_setattr "adapter_utils"). step_adapter.
  run (run_self_setattr "message_handler").
  run run_set_config. run (run_self_setattr "logger").
  do 2 step_log.
  unfold bind at 1. erewrite run_self_getattr by lookup_attr. csimpl.
  f_equal. unfold login_world, init_attrs, app_logger. rewrite Happ.
  lazy [chain managers app config log outbox add_log set_app set_config_attrs set_managers].
  by rewrite <- !(assoc_L (++)).
Qed.

Lemma run_init nick shown w :
  app w = ∅ →
  nick_name adapter = Coroutine (ret nick) →
  percent_s nick = Ok shown →
  check adapter = Coroutine (ret tt) →
  __init__ w = (Ok tt, init_world nick shown w).
Proof.
  intros Happ Hn Hs Hc. rewrite (run_init_to_login nick w Happ Hn), Hs.
  unfold bind at 1, lift_res at 1. step_log. step_adapter. rewrite Hc.
  unfold init_world, login_world, add_log. simpl. by rewrite <- !(assoc_L (++)).
Qed.

(** When the login line cannot be formatted the constructor stops there:
    [check] is not run. *)
Lemma run_init_format_error nick e w :
  app w = ∅ →
  nick_name adapter = Coroutine (ret nick) →
  percent_s nick = Raise e →
  __init__ w = (Raise e, login_world nick w).
Proof. intros Happ Hn Hs. by rewrite (run_init_to_login nick w Happ Hn), Hs. Qed.

(** [percent_s] fails on the tuples that do not hold exactly one item, and
    on nothing else. *)
Lemma percent_s_raises a :
  (∃ e, percent_s a = Raise e) ↔ ∃ l, a = AtVal (VTuple l) ∧ length l ≠ 1.
Proof.
  split.
  - intros [e He]. destruct a as [[]| | | |]; try done.
    destruct l as [|x [|y l]]; [|done|]; by eexists.
  - intros (l & -> & Hl). destruct l as [|x [|y l]]; [|done|]; by eexists.
Qed.

(** ** Theorems: construction *)

Lemma init_world_ready nick shown w :
  ready (init_world nick shown w) (fresh (dom (managers w))) lm_new app_logger.
Proof. unfold ready, init_world, init_attrs. simpl. split_and!; by simplify_map_eq. Qed.

(** C7: with an adapter whose [nick_name] is a coroutine that returns a
    value the login line can format and whose [check] returns, [__init__]
    on a new object returns and leaves the application ready: its manager
    is a new one with no listener, its logger is named after the version,
    and it has logged the three start-up lines in order. *)
Theorem init_ready nick shown w :
  app w = ∅ →
  nick_name adapter = Coroutine (ret nick) →
  percent_s nick = Ok shown →
  check adapter = Coroutine (ret tt) →
  (__init__ w).1 = Ok tt
  ∧ ready (__init__ w).2 (fresh (dom (managers w))) lm_new app_logger
  ∧ registry (__init__ w).2 = []
  ∧ log (__init__ w).2
    = log w ++ [mkLog app_logger INFO (MsgLoading VERSION);
                mkLog app_logger INFO (MsgAdapterName (name adapter));
                mkLog app_logger INFO (MsgLogin shown)].
Proof.
  intros Happ Hn Hs Hc. rewrite (run_init nick shown w Happ Hn Hs Hc). cbn [fst snd].
  split_and!; [done | apply init_world_ready | | done].
  rewrite (ready_registry _ _ _ _ (init_world_ready nick shown w)).
  apply lm_new_entries.
Qed.

(** The manager of the application is a new object: every manager that
    existed before [__init__] (the adapter's own among them) is still there,
    unchanged, at an identity other than the application's; the class
    attributes of [MessageChain] and the outbox are untouched. *)
Lemma init_frame nick shown w loc r :
  app w = ∅ →
  nick_name adapter = Coroutine (ret nick) →
  percent_s nick = Ok shown →
  check adapter = Coroutine (ret tt) →
  managers w !! loc = Some r →
  managers (__init__ w).2 !! loc = Some r
  ∧ app (__init__ w).2 !! "listener_manager" ≠ Some (AtManager loc)
  ∧ chain (__init__ w).2 = chain w
  ∧ outbox (__init__ w).2 = outbox w.
Proof.
  intros Happ Hn Hs Hc Hloc. rewrite (run_init nick shown w Happ Hn Hs Hc).
  cbn [fst snd].
  assert (fresh (dom (managers w)) ≠ loc) as Hne.
  { intros <-. apply (is_fresh (dom (managers w))). by apply elem_of_dom. }
  unfold init_world, init_attrs. simpl. split_and!; [| |done..].
  - by rewrite lookup_insert_ne.
  - simplify_map_eq. congruence.
Qed.

(** C39: [set_config] runs before the logger is assigned: after [__init__],
    [CONFIG] holds the application under [application] and a copy of the
    five attributes assigned before the call, and its [logger] attribute is
    what it was before. *)
Theorem init_config nick shown w :
  app w = ∅ →
  nick_name adapter = Coroutine (ret nick) →
  percent_s nick = Ok shown →
  check adapter = Coroutine (ret tt) →
  config (__init__ w).2 !! "application" = Some AtApp
  ∧ (∀ k, k ∈ ["adapter"; "nickname"; "listener_manager"; "adapter_utils";
               "message_handler"] →
          is_Some (app (__init__ w).2 !! k)
          ∧ config (__init__ w).2 !! k = app (__init__ w).2 !! k)
  ∧ is_Some (app (__init__ w).2 !! "logger")
  ∧ config (__init__ w).2 !! "logger" = config w !! "logger".
Proof.
  intros Happ Hn Hs Hc. rewrite (run_init nick shown w Happ Hn Hs Hc). cbn [fst snd].
  unfold init_world, init_attrs. simpl. split_and!.
  - by simplify_map_eq.
  - intros k Hk. inv_elem_of; subst; simplify_map_eq; split; try done;
      by repeat first [rewrite lookup_union_l' by (by simplify_map_eq) | simplify_map_eq].
  - by simplify_map_eq.
  - rewrite lookup_insert_ne by done. rewrite lookup_union_r; [done|].
    by simplify_map_eq.
Qed.

(** With an adapter whose [nick_name] is not a coroutine object,
    [asyncio.run] raises [ValueError] with only [adapter] assigned. *)
Lemma run_init_not_coroutine v w :
  nick_name adapter = NotACoroutine v →
  __init__ w
  = (Raise (ValueError (NotCoroutine (py_type v))),
     set_app (<["adapter" := AtAdapter]> (app w)) w).
Proof.
  intros Hn. unfold __init__.
  run (run_self_setattr "adapter" AtAdapter w). step_adapter. by rewrite Hn.
Qed.

(** C31: when the adapter's [nick_name] returns a tuple that does not hold
    exactly one item, the login line of [__init__] cannot be formatted: the
    constructor raises [TypeError] after it has assigned the attributes,
    filled [CONFIG] and logged two lines, and [check] is never run,
    whatever it is. *)
Theorem init_login_tuple l w :
  app w = ∅ →
  nick_name adapter = Coroutine (ret (AtVal (VTuple l))) →
  length l ≠ 1 →
  ∃ e, __init__ w = (Raise e, login_world (AtVal (VTuple l)) w)
       ∧ exc_class e = ExcTypeError.
Proof.
  intros Happ Hn Hl.
  destruct (proj2 (percent_s_raises (AtVal (VTuple l)))) as [e He]; [by exists l|].
  exists e. split; [by apply run_init_format_error|].
  destruct l as [|x [|y l]]; simplify_eq/=; done.
Qed.

End bot.

Arguments Coroutine {R A} c.
Arguments NotACoroutine {R A} v.

End BotApplication.
