(* ===== verification/Send.v ===== *)
(** * Send: [send_msg] against its reference

    [send_msg] of [src/jbot/__init__.py] (the method itself is in [Bot]):
    the lemmas that run its [try] block and its [except] clause, the
    classification of the type of the message ([branch]), the class the
    [Plain] lookup finds as a function of the class table ([plain_class]),
    the reference [send_outcome] for the block and [sent_of] for what an
    adapter that records is handed, and the theorems on every branch. *)

From S2P Require Import Prelude Python Chain Matchers Listeners Bot.
Import BotApplication.

Module Send.

Section send.
Context {R : Type} `{ListenerManagerOps R}.
Context (adapter : Adapter (R:=R)).
Context (classes : ClassTable).
Context (construct : ClassRef → PyVal → Element).

Local Abbreviation World := (BotApplication.World (R:=R)).
Local Abbreviation Awaitable := (BotApplication.Awaitable (R:=R)).
Implicit Types w : World.
Local Abbreviation find_plain := (BotApplication.find_plain adapter classes).
Local Abbreviation send := (BotApplication.send adapter).
Local Abbreviation send_error := (BotApplication.send_error adapter).
Local Abbreviation send_body := (BotApplication.send_body adapter classes construct).
Local Abbreviation send_handler := (BotApplication.send_handler adapter).
Local Abbreviation send_msg := (BotApplication.send_msg adapter classes construct).
Local Abbreviation run_self_adapter := (BotApplication.run_self_adapter adapter).
Local Abbreviation run_adapter_log := (BotApplication.run_adapter_log adapter).

(** ** Running [send_msg] *)

(** An adapter whose [send_message] is a coroutine that records the target,
    the chain it was handed and the class attributes of [MessageChain] at
    that moment, and returns. *)
Definition record_send (target chain_val : PyVal) : Awaitable unit :=
  Coroutine (modify (λ w, add_outbox (target, chain_val, chain w) w)).

Lemma run_send target c w :
  has_adapter w → send target c w = await (send_message adapter target c) w.
Proof. intros Ha. unfold send. by run (run_self_adapter w Ha). Qed.

Lemma run_chain_create x w :
  chain_create [x] w
  = ((MessageChain.create x (chain w)).1,
     set_chain (MessageChain.create x (chain w)).2 w).
Proof. unfold chain_create, embed. by destruct (MessageChain.create x (chain w)). Qed.

(** Every exception of the model is an [Exception]: the handler logs it and
    raises it again. *)
Lemma run_send_handler e w :
  has_adapter w →
  send_handler e w
  = (Raise e, add_log (mkLog (logger adapter) ERROR (MsgSendFailed e)) w).
Proof.
  intros Ha. unfold send_handler. rewrite exc_isinstance_Exception.
  by run (run_adapter_log ERROR (MsgSendFailed e) w Ha).
Qed.

(** A body that raises in a world that still has the adapter is logged and
    raised again; a body that returns is left alone. *)
Lemma run_try_send (body : py World unit) w :
  (∀ e w', body w = (Raise e, w') → has_adapter w') →
  try_except body send_handler w
  = match body w with
    | (Ok a, w') => (Ok a, w')
    | (Raise e, w') =>
        (Raise e, add_log (mkLog (logger adapter) ERROR (MsgSendFailed e)) w')
    end.
Proof.
  intros Hbody. unfold try_except. destruct (body w) as [[a|e] w'] eqn:Hrun; [done|].
  apply run_send_handler. by eapply Hbody.
Qed.

(** The five tests of [send_body], as one classification of the type. *)
Inductive Branch : Type :=
| BChain | BStr | BElement | BList | BOther.

Definition branch (t : PyType) : Branch :=
  if bool_decide (t = TyClass MessageChain.ref) then BChain
  else if bool_decide (t = TyStr) then BStr
  else if bool_decide (t ∈ TyClass <$> subclasses classes Element_ref)
          || bool_decide (t = TyClass Element_ref) then BElement
  else if bool_decide (t ∈ [TyList; TyTuple]) then BList
  else BOther.

(** The class [find_plain] finds, as a function of the class table and the
    adapter's name. *)
Definition plain_class : pyres ClassRef :=
  let outer :=
    (λ i, filter (λ k, cls_name k = "Plain") (subclasses classes i))
    <$> filter (λ i, str_contains (str_lower (name adapter))
                       (str_lower (class_str i)) = true)
          (subclasses classes Element_ref) in
  res_bind (py_index outer 0) (λ inner, py_index inner 0).

(** What the [try] block of [send_msg] does, branch by branch, with the
    lookups and [create] evaluated: the reference for [send_body]. *)
Definition send_outcome (target message : PyVal) (w : World) : pyres unit * World :=
  match branch (py_type message) with
  | BChain => await (send_message adapter target message) w
  | BStr =>
      match plain_class with
      | Ok k =>
          (Raise (TypeError (NotIterable (TyClass (elem_class (construct k message))))),
           set_chain (MessageChain.with_elements (VElem (construct k message))
                        (chain w)) w)
      | Raise e => (Raise e, w)
      end
  | BElement =>
      (Raise (TypeError (NotIterable (py_type message))),
       set_chain (MessageChain.with_elements message (chain w)) w)
  | BList =>
      match seq_items message with
      | [x] =>
          match MessageChain.create x (chain w) with
          | (Ok c, ch) => await (send_message adapter target c) (set_chain ch w)
          | (Raise e, ch) => (Raise e, set_chain ch w)
          end
      | args => (Raise (TypeError (ArgCount "create" 1 (length args))), w)
      end
  | BOther => (Ok tt, add_log (mkLog (logger adapter) WARNING MsgSendTypeError) w)
  end.

(** *** The classification *)

(** No class of the table is the type of a list, a tuple or a string. *)
Lemma not_class_type t (cs : list ClassRef) :
  t ∈ [TyList; TyTuple; TyStr] → bool_decide (t ∈ TyClass <$> cs) = false.
Proof.
  intros Ht. apply bool_decide_eq_false_2.
  intros (c & -> & _)%list_elem_of_fmap. inv_elem_of; simplify_eq.
Qed.

(** A class object, [None], a number or a function is in no branch. *)
Lemma branch_other t :
  t ∈ [TyType; TyNoneType; TyBool; TyInt; TyDict; TyFunction] → branch t = BOther.
Proof.
  intros Ht. unfold branch.
  rewrite !bool_decide_eq_false_2; [done | | | | | ];
    try intros (c & -> & _)%list_elem_of_fmap; try intros ?;
    inv_elem_of; simplify_eq.
Qed.

Lemma branch_seq t : t ∈ [TyList; TyTuple] → branch t = BList.
Proof.
  intros Ht. unfold branch.
  rewrite not_class_type by (inv_elem_of; subst; repeat constructor).
  inv_elem_of; by subst.
Qed.

Lemma branch_seq_inv t : branch t = BList → t ∈ [TyList; TyTuple].
Proof.
  unfold branch. do 2 (case_bool_decide; [done|]).
  destruct (_ || _); [done|]. by case_bool_decide.
Qed.

Lemma branch_str_inv t : branch t = BStr → t = TyStr.
Proof.
  unfold branch. case_bool_decide; [done|]. case_bool_decide; [done|].
  destruct (_ || _); [done|]. by case_bool_decide.
Qed.

Lemma branch_element_class t : branch t = BElement → ∃ c, t = TyClass c.
Proof.
  unfold branch. do 2 (case_bool_decide; [done|]).
  destruct (bool_decide (t ∈ _)) eqn:Hin; simpl.
  - apply bool_decide_eq_true in Hin.
    apply list_elem_of_fmap in Hin as (c & -> & _). eauto.
  - destruct (bool_decide (t = TyClass Element_ref)) eqn:He.
    + apply bool_decide_eq_true in He. eauto.
    + by destruct (bool_decide (t ∈ [TyList; TyTuple])).
Qed.

(** *** The indexing of the [Plain] lookup *)

(** The element classes of the adapter: the direct subclasses of [Element]
    whose [str] contains the adapter's name, case folded. *)
Definition adapter_elements : list ClassRef :=
  filter (λ i, str_contains (str_lower (name adapter)) (str_lower (class_str i)) = true)
    (subclasses classes Element_ref).

(** The lookup by cases on the two lists it indexes. *)
Lemma plain_class_index :
  plain_class
  = match adapter_elements with
    | [] => Raise IndexError
    | i :: _ =>
        match filter (λ k, cls_name k = "Plain") (subclasses classes i) with
        | [] => Raise IndexError
        | k :: _ => Ok k
        end
    end.
Proof.
  unfold plain_class, adapter_elements.
  destruct (filter _ (subclasses classes Element_ref)) as [|i l]; [done|].
  csimpl. unfold py_index at 1. simpl.
  by destruct (filter _ (subclasses classes i)).
Qed.

(** *** [send_body] and [send_msg] against the reference *)

Lemma run_find_plain w : has_adapter w → find_plain w = (plain_class, w).
Proof.
  intros Ha. unfold find_plain, plain_class.
  destruct (subclasses classes Element_ref) as [|i elements] eqn:Hsub; [done|].
  run (run_self_adapter w Ha). unfold bind, lift_res.
  by destruct (py_index _ 0) as [inner|e].
Qed.

(** C24: the two indexings [[...][0][0]] of the [Plain] lookup are in range
    exactly when the first element class of the adapter has a direct subclass
    named [Plain], and then the first such subclass is found; an element
    class of the adapter further down the list is never consulted, every
    failure is an [IndexError], and the world is not changed. *)
Theorem find_plain_in_range w :
  has_adapter w →
  find_plain w
  = (match adapter_elements with
     | [] => Raise IndexError
     | i :: _ =>
         match filter (λ k, cls_name k = "Plain") (subclasses classes i) with
         | [] => Raise IndexError
         | k :: _ => Ok k
         end
     end, w).
Proof. intros Ha. by rewrite run_find_plain, plain_class_index. Qed.

(** Iterating an instance raises. *)
Lemma py_iter_instance v c :
  py_type v = TyClass c → py_iter v = Raise (TypeError (NotIterable (TyClass c))).
Proof. destruct v; simpl; try done; by intros [= ->]. Qed.

(** [create] followed by [send]. *)
Lemma run_create_send target x w :
  has_adapter w →
  (c <- chain_create [x] ;; send target c) w
  = match MessageChain.create x (chain w) with
    | (Ok c, ch) => await (send_message adapter target c) (set_chain ch w)
    | (Raise e, ch) => (Raise e, set_chain ch w)
    end.
Proof.
  intros Ha. run (run_chain_create x w).
  destruct (MessageChain.create x (chain w)) as [[c|e] ch]; [|done]. simpl.
  by rewrite run_send.
Qed.

Lemma run_create_send_instance target x c w :
  has_adapter w → py_type x = TyClass c →
  (v <- chain_create [x] ;; send target v) w
  = (Raise (TypeError (NotIterable (TyClass c))),
     set_chain (MessageChain.with_elements x (chain w)) w).
Proof.
  intros Ha Hty. rewrite run_create_send by done.
  by rewrite MessageChain.run_create, (py_iter_instance _ _ Hty).
Qed.

Lemma run_send_body target message w :
  has_adapter w → send_body target message w = send_outcome target message w.
Proof.
  intros Ha. unfold send_outcome.
  assert (send_body target message w
          = match branch (py_type message) with
            | BChain => send target message w
            | BStr =>
                (plain_cls <- find_plain ;;
                 c <- chain_create [VElem (construct plain_cls message)] ;;
                 send target c) w
            | BElement => (c <- chain_create [message] ;; send target c) w
            | BList =>
                (args <- lift_res (py_iter message) ;;
                 c <- chain_create args ;;
                 send target c) w
            | BOther => send_error w
            end) as ->.
  { unfold send_body, branch. repeat case_bool_decide; simpl; done. }
  destruct (branch (py_type message)) eqn:Hb.
  - by apply run_send.
  - unfold bind at 1. rewrite (run_find_plain w Ha).
    destruct plain_class as [k|e]; [|done]. cbv beta iota.
    by apply run_create_send_instance.
  - destruct (branch_element_class _ Hb) as [c Hc]. rewrite Hc.
    by apply run_create_send_instance.
  - apply branch_seq_inv in Hb. unfold bind at 1, lift_res at 1.
    rewrite (py_iter_seq _ Hb). cbv beta iota.
    destruct (seq_items message) as [|x [|y l]]; [done | | done].
    by apply run_create_send.
  - by apply run_adapter_log.
Qed.

(** [send_msg] in a world where the adapter's coroutine keeps the [adapter]
    attribute of the application: an outcome that raises is logged on the
    adapter's logger and raised again, an outcome that returns is final. *)
Lemma run_send_msg target message w :
  has_adapter w →
  (∀ e w', send_outcome target message w = (Raise e, w') → has_adapter w') →
  send_msg target message w
  = match send_outcome target message w with
    | (Ok a, w') => (Ok a, w')
    | (Raise e, w') =>
        (Raise e, add_log (mkLog (logger adapter) ERROR (MsgSendFailed e)) w')
    end.
Proof.
  intros Ha Hkeep. unfold send_msg.
  rewrite run_try_send; rewrite run_send_body; done.
Qed.

(** Outcomes that do not run the adapter keep the attribute. *)
Lemma send_outcome_keeps target message w :
  has_adapter w → branch (py_type message) ∈ [BStr; BElement; BOther] →
  ∀ e w', send_outcome target message w = (Raise e, w') → has_adapter w'.
Proof.
  intros Ha Hb e w'. unfold send_outcome. inv_elem_of; rewrite Hb.
  - destruct plain_class; by intros [= <- <-].
  - by intros [= <- <-].
  - done.
Qed.

(** With an adapter that records, no outcome loses the attribute. *)
Lemma send_outcome_keeps_record target message w :
  has_adapter w → (∀ t c, send_message adapter t c = record_send t c) →
  ∀ e w', send_outcome target message w = (Raise e, w') → has_adapter w'.
Proof.
  intros Ha Hrec e w'. unfold send_outcome.
  destruct (branch (py_type message)) eqn:Hb.
  - by rewrite Hrec.
  - destruct plain_class; by intros [= <- <-].
  - by intros [= <- <-].
  - destruct (seq_items message) as [|x [|y l]]; try (by intros [= <- <-]).
    destruct (MessageChain.create x (chain w)) as [[c|e'] ch];
      [by rewrite Hrec | by intros [= <- <-]].
  - done.
Qed.

(** An adapter whose coroutine keeps the [adapter] attribute. *)
Definition adapter_keeps : Prop :=
  ∀ t c w, has_adapter w → has_adapter (await (send_message adapter t c) w).2.

Definition adapter_records : Prop :=
  ∀ t c, send_message adapter t c = record_send t c.

Lemma record_keeps : adapter_records → adapter_keeps.
Proof. intros Hrec t c w Ha. by rewrite Hrec. Qed.

Lemma send_outcome_keeps_adapter target message w :
  has_adapter w → adapter_keeps →
  ∀ e w', send_outcome target message w = (Raise e, w') → has_adapter w'.
Proof.
  intros Ha Hk e w'. unfold send_outcome.
  destruct (branch (py_type message)) eqn:Hb.
  - intros Hrun. specialize (Hk target message w Ha). by rewrite Hrun in Hk.
  - destruct plain_class; by intros [= <- <-].
  - by intros [= <- <-].
  - destruct (seq_items message) as [|x [|y l]]; try (by intros [= <- <-]).
    destruct (MessageChain.create x (chain w)) as [[c|e'] ch];
      [|by intros [= <- <-]].
    intros Hrun. specialize (Hk target c (set_chain ch w) Ha).
    by rewrite Hrun in Hk.
  - done.
Qed.

(** What an adapter that records is handed by one [send_msg]: the reference
    for the outbox. *)
Definition sent_of (target message : PyVal) (c : MessageChain.cls)
  : list (PyVal * PyVal * MessageChain.cls) :=
  match branch (py_type message) with
  | BChain => [(target, message, c)]
  | BList =>
      match seq_items message with
      | [x] =>
          match MessageChain.create x c with
          | (Ok v, ch) => [(target, v, ch)]
          | _ => []
          end
      | _ => []
      end
  | _ => []
  end.

(** The outbox and the log after an outcome, for an adapter that records. *)
Lemma outbox_send_outcome target message w :
  adapter_records →
  outbox (send_outcome target message w).2
  = outbox w ++ sent_of target message (chain w).
Proof.
  intros Hrec. unfold send_outcome, sent_of.
  destruct (branch (py_type message));
    rewrite ?Hrec; simpl; rewrite ?app_nil_r; try done.
  - by destruct plain_class.
  - destruct (seq_items message) as [|x [|y l]]; simpl; rewrite ?app_nil_r; try done.
    destruct (MessageChain.create x (chain w)) as [[c|e'] ch];
      rewrite ?Hrec; simpl; by rewrite ?app_nil_r.
Qed.

(** *** [send_msg], branch by branch *)

(** A chain built by [MessageChain.create] is never handed to the
    adapter: what [create] returns is the class object, whose type is [type],
    so [send_msg] takes its last branch, logs the type warning and returns. *)
Lemma send_msg_chain_not_sent target elems c ch w :
  has_adapter w →
  MessageChain.create elems (chain w) = (Ok c, ch) →
  send_msg target c (set_chain ch w)
  = (Ok tt, add_log (mkLog (logger adapter) WARNING MsgSendTypeError)
              (set_chain ch w)).
Proof.
  intros Ha Hc.
  assert (c = VClass MessageChain.ref) as ->.
  { apply (MessageChain.create_value elems (chain w)). by rewrite Hc. }
  rewrite run_send_msg; unfold send_outcome; rewrite ?branch_other; try done;
    simpl; repeat constructor.
Qed.

(** A message whose type is [type], [NoneType], [bool], [int], [dict] or
    [function] is not sent: the warning is logged on the adapter's logger
    and the call returns. *)
Lemma send_msg_unsupported target message w :
  has_adapter w →
  py_type message ∈ [TyType; TyNoneType; TyBool; TyInt; TyDict; TyFunction] →
  send_msg target message w
  = (Ok tt, add_log (mkLog (logger adapter) WARNING MsgSendTypeError) w).
Proof.
  intros Ha Ht.
  rewrite run_send_msg; unfold send_outcome; rewrite ?branch_other; done.
Qed.

(** A string is never sent.  When the class table has a [Plain] for the
    adapter, [create] is given the one element instead of a list of it and
    raises [TypeError] on iterating it, after assigning [elements]; when it
    has none, the lookup raises.  Either way the error is logged and raised
    again, and the outbox is as before. *)
Lemma send_msg_str target s w :
  has_adapter w →
  send_msg target (VStr s) w
  = match plain_class with
    | Ok k =>
        let e := TypeError (NotIterable (TyClass (elem_class (construct k (VStr s))))) in
        (Raise e,
         add_log (mkLog (logger adapter) ERROR (MsgSendFailed e))
           (set_chain (MessageChain.with_elements (VElem (construct k (VStr s)))
                         (chain w)) w))
    | Raise e =>
        (Raise e, add_log (mkLog (logger adapter) ERROR (MsgSendFailed e)) w)
    end.
Proof.
  intros Ha.
  assert (branch (py_type (VStr s)) = BStr) as Hb.
  { reflexivity. }
  rewrite run_send_msg; [|done|].
  - unfold send_outcome. rewrite Hb. by destruct plain_class.
  - apply send_outcome_keeps; [done|]. rewrite Hb. repeat constructor.
Qed.

(** A single element (an instance of [Element] or of a direct subclass
    of it) is never sent: [create] is given the element itself and raises
    [TypeError] on iterating it. *)
Lemma send_msg_element target message w :
  has_adapter w → branch (py_type message) = BElement →
  let e := TypeError (NotIterable (py_type message)) in
  send_msg target message w
  = (Raise e,
     add_log (mkLog (logger adapter) ERROR (MsgSendFailed e))
       (set_chain (MessageChain.with_elements message (chain w)) w)).
Proof.
  intros Ha Hb.
  rewrite run_send_msg; [|done|].
  - unfold send_outcome. by rewrite Hb.
  - apply send_outcome_keeps; [done|]. rewrite Hb. repeat constructor.
Qed.

(** An element whose class is not a direct subclass of [Element] (the
    [Plain] that the string branch looks up is a subclass of a subclass) is
    not recognised as an element: the type warning is logged and nothing is
    sent. *)
Lemma send_msg_indirect_element target (e : Element) w :
  has_adapter w →
  elem_class e ∉ Element_ref :: MessageChain.ref :: subclasses classes Element_ref →
  send_msg target (VElem e) w
  = (Ok tt, add_log (mkLog (logger adapter) WARNING MsgSendTypeError) w).
Proof.
  intros Ha Hcls.
  assert (branch (py_type (VElem e)) = BOther) as Hb.
  { rewrite !not_elem_of_cons in Hcls. destruct Hcls as (He & Hc & Hsub).
    unfold branch. cbn [py_type].
    rewrite (bool_decide_eq_false_2 (_ = TyClass MessageChain.ref)) by congruence.
    rewrite (bool_decide_eq_false_2 (_ = TyStr)) by done.
    rewrite (bool_decide_eq_false_2 (_ ∈ TyClass <$> _))
      by (by intros (c & [= <-] & Hin)%list_elem_of_fmap).
    rewrite (bool_decide_eq_false_2 (_ = TyClass Element_ref)) by congruence.
    rewrite bool_decide_eq_false_2; [done|]. intros Hin. inv_elem_of; done. }
  rewrite run_send_msg;
    [unfold send_outcome; by rewrite Hb | done | apply send_outcome_keeps; [done|] ].
  rewrite Hb. repeat constructor.
Qed.

(** A list or tuple of other than one item is never sent: its items are
    passed to [create] as separate arguments, so the call raises [TypeError]
    for the number of arguments, before [create] runs. *)
Lemma send_msg_list_arity target message w :
  has_adapter w → py_type message ∈ [TyList; TyTuple] →
  length (seq_items message) ≠ 1 →
  let e := TypeError (ArgCount "create" 1 (length (seq_items message))) in
  send_msg target message w
  = (Raise e, add_log (mkLog (logger adapter) ERROR (MsgSendFailed e)) w).
Proof.
  intros Ha Ht Hlen.
  assert (send_outcome target message w
          = (Raise (TypeError (ArgCount "create" 1 (length (seq_items message)))), w))
    as Hout.
  { unfold send_outcome. rewrite (branch_seq _ Ht).
    by destruct (seq_items message) as [|x [|y l]]. }
  rewrite run_send_msg;
    [by rewrite Hout | done | rewrite Hout; by intros e w' [= <- <-]].
Qed.

(** The one shape that reaches the adapter is a list or tuple of one
    item: [create] is called on that item, so the item has to be the list of
    elements.  With an adapter that records, the outbox gains the class
    object and the class attributes [create] left. *)
Lemma send_msg_single_item target message x w :
  has_adapter w → adapter_records →
  py_type message ∈ [TyList; TyTuple] → seq_items message = [x] →
  send_msg target message w
  = match MessageChain.create x (chain w) with
    | (Ok c, ch) => (Ok tt, add_outbox (target, c, ch) (set_chain ch w))
    | (Raise e, ch) =>
        (Raise e, add_log (mkLog (logger adapter) ERROR (MsgSendFailed e))
                    (set_chain ch w))
    end.
Proof.
  intros Ha Hrec Ht Hx.
  rewrite run_send_msg by eauto using send_outcome_keeps_adapter, record_keeps.
  unfold send_outcome. rewrite (branch_seq _ Ht), Hx.
  destruct (MessageChain.create x (chain w)) as [[c|e] ch]; [|done].
  by rewrite Hrec.
Qed.

(** C5: what one [send_msg] hands to an adapter that records, for every
    message: the outbox grows by [sent_of]. *)
Theorem send_msg_outbox target message w :
  has_adapter w → adapter_records →
  outbox (send_msg target message w).2
  = outbox w ++ sent_of target message (chain w).
Proof.
  intros Ha Hrec.
  rewrite run_send_msg by eauto using send_outcome_keeps_adapter, record_keeps.
  rewrite <- outbox_send_outcome by done.
  by destruct (send_outcome target message w) as [[a|e] w'].
Qed.

(** The messages the signature and the documentation of [send_msg] name: a
    chain (what [MessageChain.create] returns), an element, a string, a list
    or a tuple of elements. *)
Definition documented (message : PyVal) : Prop :=
  message = VClass MessageChain.ref
  ∨ (∃ e, message = VElem e ∧ elem_class e ≠ MessageChain.ref)
  ∨ (∃ s, message = VStr s)
  ∨ (∃ es, message = VList (VElem <$> es) ∨ message = VTuple (VElem <$> es)).

Lemma sent_of_documented target message c :
  documented message → sent_of target message c = [].
Proof.
  unfold sent_of. intros [->|[(e & -> & He)|[(s & ->)|(es & [->| ->])]]].
  - by rewrite branch_other by (simpl; repeat constructor).
  - destruct (branch _) eqn:Hb; try done.
    unfold branch in Hb. cbn [py_type] in Hb.
    rewrite bool_decide_eq_false_2 in Hb by congruence. by repeat case_match.
  - done.
  - rewrite branch_seq by (simpl; repeat constructor). simpl.
    destruct es as [|e [|e' es]]; simpl; by rewrite ?MessageChain.run_create.
  - rewrite branch_seq by (simpl; repeat constructor). simpl.
    destruct es as [|e [|e' es]]; simpl; by rewrite ?MessageChain.run_create.
Qed.

(** C2: no message of a documented type reaches the adapter: for a chain,
    an element, a string and a list or tuple of elements, [send_msg] leaves
    the outbox as it was (it warns or raises instead). *)
Theorem send_msg_documented_never_sends target message w :
  has_adapter w → adapter_records → documented message →
  outbox (send_msg target message w).2 = outbox w.
Proof.
  intros Ha Hrec Hdoc.
  rewrite run_send_msg by eauto using send_outcome_keeps_adapter, record_keeps.
  rewrite <- (app_nil_r (outbox w)), <- (sent_of_documented target message (chain w) Hdoc).
  rewrite <- outbox_send_outcome by done.
  by destruct (send_outcome target message w) as [[a|e] w'].
Qed.

(** C17: [send_msg] swallows nothing: it raises exactly when its [try] block
    does, with the same exception, and then the last line of the log is the
    error on the adapter's logger; when the block returns, [send_msg] returns
    in the same world. *)
Theorem send_msg_raise_logged target message w :
  has_adapter w → adapter_keeps →
  match send_body target message w with
  | (Ok a, w') => send_msg target message w = (Ok a, w')
  | (Raise e, w') =>
      send_msg target message w
      = (Raise e, add_log (mkLog (logger adapter) ERROR (MsgSendFailed e)) w')
  end.
Proof.
  intros Ha Hk.
  rewrite run_send_msg by eauto using send_outcome_keeps_adapter.
  rewrite run_send_body by done.
  by destruct (send_outcome target message w) as [[a|e] w'].
Qed.

(** *** When [send_msg] returns, and what it reads *)

(** [send_msg] returns for an instance of [MessageChain], for a list or
    tuple whose single item [create] accepts, and for a message of no
    supported type (after the warning); it raises for everything else. *)
Definition send_returns (message : PyVal) (c : MessageChain.cls) : bool :=
  match branch (py_type message) with
  | BChain | BOther => true
  | BStr | BElement => false
  | BList =>
      match seq_items message with
      | [x] => is_ok (MessageChain.create x c).1
      | _ => false
      end
  end.

(** A message whose sending does not read the class attributes of
    [MessageChain]: it is no instance of the class, and the item [create] is
    given does not hold the class. *)
Definition stateless (message : PyVal) : Prop :=
  branch (py_type message) ≠ BChain
  ∧ ∀ x items, seq_items message = [x] → py_iter x = Ok items →
               VClass MessageChain.ref ∉ items.

Lemma send_outcome_returns target message w :
  adapter_records →
  is_ok (send_outcome target message w).1 = send_returns message (chain w).
Proof.
  intros Hrec. unfold send_outcome, send_returns.
  destruct (branch (py_type message)); rewrite ?Hrec; try done.
  - by destruct plain_class.
  - destruct (seq_items message) as [|x [|y l]]; try done.
    destruct (MessageChain.create x (chain w)) as [[c|e] ch]; by rewrite ?Hrec.
Qed.

(** What one [send_msg] does to the outbox, and whether it returns. *)
Lemma send_msg_effect target message w :
  has_adapter w → adapter_records →
  is_ok (send_msg target message w).1 = send_returns message (chain w)
  ∧ outbox (send_msg target message w).2
    = outbox w ++ sent_of target message (chain w).
Proof.
  intros Ha Hrec.
  rewrite run_send_msg by eauto using send_outcome_keeps_adapter, record_keeps.
  rewrite <- (send_outcome_returns target), <- outbox_send_outcome by done.
  by destruct (send_outcome target message w) as [[a|e] w'].
Qed.

(** What the adapter holds after a send of anything but an instance of
    [MessageChain]: the class itself, which has a result then, and the class
    is as the request recorded it. *)
Lemma send_msg_request target message w x :
  has_adapter w → adapter_records → branch (py_type message) ≠ BChain →
  x ∈ sent_of target message (chain w) →
  x.1 = (target, VClass MessageChain.ref)
  ∧ chain (send_msg target message w).2 = x.2
  ∧ is_Some (MessageChain._result x.2).
Proof.
  intros Ha Hrec Hb.
  rewrite run_send_msg by eauto using send_outcome_keeps_adapter, record_keeps.
  unfold send_outcome, sent_of. destruct (branch (py_type message)); try done;
    try by intros ?%elem_of_nil.
  destruct (seq_items message) as [|e [|y l]]; try by intros ?%elem_of_nil.
  pose proof (MessageChain.create_value e (chain w)) as Hv.
  pose proof (MessageChain.create_rendered e (chain w)) as Hr.
  destruct (MessageChain.create e (chain w)) as [[v|err] ch];
    [|by intros ?%elem_of_nil].
  intros ->%list_elem_of_singleton. rewrite Hrec, (Hv v eq_refl). simpl.
  split_and!; [done..|by apply Hr].
Qed.

(** Once the class has a result, it has one after every [send_msg]. *)
Lemma send_msg_keeps_result target message w :
  has_adapter w → adapter_records →
  is_Some (MessageChain._result (chain w)) →
  is_Some (MessageChain._result (chain (send_msg target message w).2)).
Proof.
  intros Ha Hrec Hc.
  rewrite run_send_msg by eauto using send_outcome_keeps_adapter, record_keeps.
  pose proof (λ x, MessageChain.create_keeps_result x (chain w) Hc) as Hx.
  unfold send_outcome. destruct (branch (py_type message)); rewrite ?Hrec; try done.
  - by destruct plain_class.
  - destruct (seq_items message) as [|x [|y l]]; try done. specialize (Hx x).
    destruct (MessageChain.create x (chain w)) as [[v|e] ch]; by rewrite ?Hrec.
Qed.

(** For a stateless message both are the same from every state of the
    class. *)
Lemma stateless_send target message c c' :
  stateless message →
  send_returns message c = send_returns message c'
  ∧ sent_of target message c = sent_of target message c'.
Proof.
  intros [Hb Hx]. unfold send_returns, sent_of.
  destruct (branch (py_type message)); try done.
  destruct (seq_items message) as [|x [|y l]]; try done.
  destruct (MessageChain.create_stateless x c c' (λ items, Hx x items eq_refl))
    as [H1 H2].
  destruct (MessageChain.create x c) as [[v|e] ch], (MessageChain.create x c')
    as [[v'|e'] ch']; simplify_eq/=; try done.
  by rewrite (H2 eq_refl).
Qed.

End send.

End Send.
