(* ===== verification/Calls.v ===== *)
(** * Calls: the application as a state machine

    What the client code does with a constructed application is a sequence
    of calls ([Call]: a decoration with [on], an attachment, a [send_msg]);
    [do_call] runs one and [reachable] collects the worlds they lead to.
    The file proves the invariant of the application ([app_inv]) for every
    reachable world, once for any property of registries that insertion and
    the setters keep (section [keeps]), the typing of the attachments for
    the calls of the public methods, and that the attachment decorators
    compose in either order. *)

From S2P Require Import Prelude Python Chain Matchers Listeners Bot Send.
Import BotApplication Send.

Module Calls.

Section calls.
Context {R : Type} `{ListenerManagerOps R}.
Context (adapter : Adapter (R:=R)).
Context (classes : ClassTable).
Context (construct : ClassRef → PyVal → Element).

Local Abbreviation World := (BotApplication.World (R:=R)).
Implicit Types w : World.
Local Abbreviation send_msg := (BotApplication.send_msg adapter classes construct).
Local Abbreviation branch := (Send.branch classes).
Local Abbreviation plain_class := (Send.plain_class adapter classes).
Local Abbreviation send_outcome := (Send.send_outcome adapter classes construct).
Local Abbreviation run_send_msg := (Send.run_send_msg adapter classes construct).
Local Abbreviation adapter_records := (Send.adapter_records adapter).

(** What the client code does with the application after it is built. *)
Inductive Call : Type :=
| CallOn (event priority target : PyVal)
| CallAttach (value : Attach) (type desc : string) (target : PyVal)
| CallSend (target message : PyVal).

(** One call, its result dropped; an exception ends the call, not the
    program (the caller may catch it). *)
Definition do_call (c : Call) : py World unit :=
  match c with
  | CallOn event priority target =>
      _ <- decorate (on event priority) target ;; ret tt
  | CallAttach value type desc target =>
      _ <- apply_decorator (Some (__set_decorator value type desc)) target ;; ret tt
  | CallSend target message => send_msg target message
  end.

(** The worlds a sequence of calls reaches from [w0]. *)
Inductive reachable (w0 : World) : World → Prop :=
| reach_start : reachable w0 w0
| reach_call c w : reachable w0 w → reachable w0 (do_call c w).2.

(** A listener of the registry is sound: its priority is positive and its
    handler is a coroutine function. *)
Definition handler_ok (e : ListenerManager.entry) : Prop :=
  (0 < ListenerManager.priority e)%Z
  ∧ fn_is_coroutine (Listener.target (ListenerManager.listener e)) = true.

Definition registry_ok (reg : list ListenerManager.entry) : Prop :=
  ListenerManager.sorted reg ∧ Forall handler_ok reg.

(** An application that is ready and whose registry has the property [Q]. *)
Definition inv_with (Q : list ListenerManager.entry → Prop) (w : World) : Prop :=
  ∃ loc r lg, ready w loc r lg ∧ Q (registry w).

(** The invariant of the application: it is ready and its registry is
    sorted and sound. *)
Definition app_inv (w : World) : Prop := inv_with registry_ok w.

(** The calls of the public methods: [on], [send_msg] and the six
    attachment decorators ([__set_decorator] itself is private). *)
Definition public_decorator (d : Decorator) : Prop :=
  (∃ cmd maw ig, d = command cmd maw ig)
  ∨ (∃ kw maw ig, d = keyword kw maw ig)
  ∨ (∃ m, d = matcher m) ∨ (∃ pc, d = param_convert pc)
  ∨ (∃ rl todo, d = role rl todo) ∨ (∃ c kws ps, d = nlp c kws ps).

Definition public (c : Call) : Prop :=
  match c with
  | CallAttach value type desc _ => public_decorator (DecSet value type desc)
  | _ => True
  end.

(** A sequence of calls, one after the other. *)
Definition run_calls (cs : list Call) (w : World) : World :=
  foldl (λ w c, (do_call c w).2) w cs.

Lemma discard_state {A} (c : py World A) w : ((_ <- c ;; ret tt) w).2 = (c w).2.
Proof. unfold bind, ret. by destruct (c w) as [[a|e] w']. Qed.

Lemma registry_ok_insert p ev f reg :
  (0 < p)%Z → fn_is_coroutine f = true →
  registry_ok reg →
  registry_ok (ListenerManager.insert (ListenerManager.mkEntry p (Listener ev f)) reg).
Proof.
  intros Hp Hf [Hs Hall]. split; [by apply ListenerManager.insert_sorted|].
  by apply ListenerManager.insert_Forall.
Qed.

Lemma registry_ok_set_slot s tgt v reg :
  registry_ok reg → registry_ok (ListenerManager.set_slot s tgt v reg).2.
Proof.
  intros [Hs Hall]. split; [by apply ListenerManager.set_slot_sorted|].
  by apply (ListenerManager.set_slot_Forall
              (λ p f, (0 < p)%Z ∧ fn_is_coroutine f = true)).
Qed.

(** *** What every call keeps

    A property of registries that the insertion of a new listener with a
    positive priority and a coroutine function keeps is kept by [on]; one
    that the setter of an attachment keeps is kept by its decorator; and
    [send_msg] leaves the registry alone. *)

Section keeps.
Context (Q : list ListenerManager.entry → Prop).
Context (Q_insert : ∀ p ev f reg,
  (0 < p)%Z → fn_is_coroutine f = true → Q reg →
  Q (ListenerManager.insert (ListenerManager.mkEntry p (Listener ev f)) reg)).

Lemma inv_same w w' :
  app w' = app w → managers w' = managers w → inv_with Q w → inv_with Q w'.
Proof.
  intros Ha Hm (loc & r & lg & Hw & Hreg). exists loc, r, lg.
  unfold ready, registry, app_manager in *. by rewrite Ha, Hm.
Qed.

Lemma inv_add_log x w : inv_with Q w → inv_with Q (add_log x w).
Proof. by apply inv_same. Qed.

Lemma inv_with_manager w loc r r' lg :
  ready w loc r lg → Q (lm_entries r') → inv_with Q (with_manager loc r' w).
Proof.
  intros Hw Hreg. exists loc, r', lg. split; [by eapply ready_with_manager|].
  by rewrite (registry_with_manager w loc r r' lg Hw).
Qed.

Lemma Q_insert_all p f items reg :
  (0 < p)%Z → fn_is_coroutine f = true → Q reg → Q (insert_all p f items reg).
Proof.
  intros Hp Hf. revert reg. induction items as [|e items IH]; intros reg Hreg; [done|].
  apply IH. by apply Q_insert.
Qed.

Lemma inv_on_wrapper event p target w loc r lg :
  ready w loc r lg → Q (lm_entries r) → (0 < p)%Z →
  inv_with Q (on_wrapper_spec event p target loc r lg w).2.
Proof.
  intros Hw Hreg Hp.
  assert (inv_with Q w) as Hinv.
  { exists loc, r, lg. by rewrite (ready_registry w loc r lg Hw). }
  unfold on_wrapper_spec.
  destruct (iscoroutinefunction target) eqn:Hf; [|by apply inv_add_log].
  destruct target as [|b|z|s|l|l|c|f|e|c]; try done. simpl in Hf.
  case_bool_decide.
  - destruct (py_name _) as [nm|e]; [|done]. simpl.
    eapply inv_with_manager; [by apply ready_add_log|].
    destruct (lm_join_accepted (Listener (unwrap_single event) f) p r Hp) as [_ ->].
    by apply Q_insert.
  - destruct (res_mapM _ _) as [names|e]; [|done]. simpl.
    eapply inv_with_manager; [by apply ready_add_log|].
    rewrite join_all_entries by done. by apply Q_insert_all.
Qed.

Lemma inv_on event priority target w :
  inv_with Q w → inv_with Q (decorate (on event priority) target w).2.
Proof.
  intros Hinv. pose proof Hinv as (loc & r & lg & Hw & Hreg).
  rewrite (ready_registry w loc r lg Hw) in Hreg.
  destruct (decide (py_type priority = TyInt)) as [Hty|Hty].
  - destruct priority as [|b|p|s|l|l|c|f|e|c]; try done.
    destruct (decide (0 < p)%Z) as [Hp|Hp].
    + rewrite (run_decorate_on _ _ _ w loc r lg Hw Hp).
      by apply inv_on_wrapper.
    + unfold decorate, on. rewrite decide_False by lia.
      unfold bind at 1 2. rewrite (run_self_log w loc r lg ERROR _ Hw). simpl.
      by apply inv_add_log.
  - unfold decorate, on.
    destruct priority; try done;
      unfold bind at 1 2; rewrite (run_self_log w loc r lg ERROR _ Hw);
      by apply inv_add_log.
Qed.

Lemma inv_attach value type desc target w :
  (∀ s reg, slot_of_type type = Some s → Q reg →
            Q (ListenerManager.set_slot s target value reg).2) →
  inv_with Q w →
  inv_with Q (apply_decorator (Some (DecSet value type desc)) target w).2.
Proof.
  intros Hset Hinv. pose proof Hinv as (loc & r & lg & Hw & Hreg).
  rewrite (ready_registry w loc r lg Hw) in Hreg.
  destruct (slot_of_type type) as [s|] eqn:Hs.
  - simpl. rewrite (run_set_wrapper _ _ _ _ s w loc r lg Hw Hs). simpl.
    assert (inv_with Q (with_manager loc (lm_set s target value r).2 w)) as Hw'.
    { eapply inv_with_manager; [done|].
      destruct (lm_set_spec s target value r) as [_ ->]. by apply Hset. }
    destruct (lm_set s target value r).1; [done | by apply inv_add_log].
  - simpl. unfold set_wrapper. by rewrite Hs.
Qed.

(** An adapter that records changes neither the application object nor the
    managers. *)
Lemma send_outcome_same target message w :
  adapter_records →
  app (send_outcome target message w).2 = app w
  ∧ managers (send_outcome target message w).2 = managers w.
Proof.
  intros Hrec. unfold send_outcome.
  destruct (branch (py_type message)); rewrite ?Hrec; try done.
  - by destruct plain_class.
  - destruct (seq_items message) as [|x [|y l]]; try done.
    destruct (MessageChain.create x (chain w)) as [[c|e] ch]; by rewrite ?Hrec.
Qed.

Lemma inv_send target message w :
  adapter_records → inv_with Q w → inv_with Q (send_msg target message w).2.
Proof.
  intros Hrec Hinv. pose proof Hinv as (loc & r & lg & Hw & _).
  pose proof (ready_has_adapter _ _ _ _ Hw) as Ha.
  rewrite run_send_msg by eauto using Send.send_outcome_keeps_adapter, Send.record_keeps.
  destruct (send_outcome_same target message w Hrec) as [Happ Hm].
  destruct (send_outcome target message w) as [[a|e] w']; simpl in *;
    [|apply inv_add_log]; by apply (inv_same w).
Qed.

(** One call keeps the property, whether it returns or raises, when the
    setter of its attachment does. *)
Lemma inv_do_call c w :
  adapter_records →
  (∀ value type desc target s reg,
     c = CallAttach value type desc target → slot_of_type type = Some s →
     Q reg → Q (ListenerManager.set_slot s target value reg).2) →
  inv_with Q w → inv_with Q (do_call c w).2.
Proof.
  intros Hrec Hset Hinv. destruct c; simpl.
  - rewrite discard_state. by apply inv_on.
  - rewrite discard_state. apply inv_attach; [|done]. intros s reg.
    by apply (Hset value type desc target).
  - by apply inv_send.
Qed.

End keeps.

Lemma app_inv_add_log x w : app_inv w → app_inv (add_log x w).
Proof. apply inv_add_log. Qed.

(** One call keeps the invariant, whether it returns or raises. *)
Lemma app_inv_do_call c w :
  adapter_records → app_inv w → app_inv (do_call c w).2.
Proof.
  intros Hrec. apply inv_do_call; [apply registry_ok_insert | done |].
  intros. by apply registry_ok_set_slot.
Qed.

(** ** What registration and attachment leave alone

    [on] and the attachment decorators write to the log and to the manager
    of the application, and to nothing else: the class [MessageChain], the
    attributes of the application, [CONFIG] and the outbox are as before. *)
Definition frame (w w' : World) : Prop :=
  chain w' = chain w ∧ app w' = app w ∧ config w' = config w
  ∧ outbox w' = outbox w.

Lemma frame_on event priority target w :
  app_inv w → frame w (decorate (on event priority) target w).2.
Proof.
  intros (loc & r & lg & Hw & _).
  destruct (decide (py_type priority = TyInt)) as [Hty|Hty].
  - destruct priority as [|b|p|s|l|l|c|f|e|c]; try done.
    destruct (decide (0 < p)%Z) as [Hp|Hp].
    + rewrite (run_decorate_on _ _ _ w loc r lg Hw Hp). unfold on_wrapper_spec.
      destruct (iscoroutinefunction target); [|done].
      destruct target; try done. case_bool_decide.
      * by destruct (py_name _).
      * by destruct (res_mapM _ _).
    + unfold decorate, on. rewrite decide_False by lia.
      unfold bind at 1 2. by rewrite (run_self_log w loc r lg ERROR _ Hw).
  - unfold decorate, on.
    destruct priority; try done;
      unfold bind at 1 2; by rewrite (run_self_log w loc r lg ERROR _ Hw).
Qed.

Lemma frame_attach value type desc target w :
  app_inv w →
  frame w (apply_decorator (Some (DecSet value type desc)) target w).2.
Proof.
  intros (loc & r & lg & Hw & _).
  destruct (slot_of_type type) as [s|] eqn:Hs.
  - simpl. rewrite (run_set_wrapper _ _ _ _ s w loc r lg Hw Hs). simpl.
    by destruct (lm_set s target value r).1.
  - simpl. unfold set_wrapper. by rewrite Hs.
Qed.

(** A call other than [send_msg] changes the log and the manager only. *)
Lemma frame_do_call c w :
  app_inv w → (∀ target message, c ≠ CallSend target message) →
  frame w (do_call c w).2.
Proof.
  intros Hinv Hc. destruct c; simpl; rewrite ?discard_state.
  - by apply frame_on.
  - by apply frame_attach.
  - by destruct (Hc target message).
Qed.

(** A registry typed and sound stays so under the public calls: the six
    decorators hand the setter an attachment of the kind of its slot. *)
Definition registry_typed (reg : list ListenerManager.entry) : Prop :=
  registry_ok reg ∧ ListenerManager.typed reg.

Lemma public_decorator_kind value type desc :
  public_decorator (DecSet value type desc) →
  slot_of_type type = Some (kind value).
Proof.
  intros [(?&?&?&Hd)|[(?&?&?&Hd)|[(?&Hd)|[(?&Hd)|[(?&?&Hd)|(?&?&?&Hd)]]]]];
    by injection Hd as -> -> ->.
Qed.

Lemma typed_do_call c w :
  adapter_records → public c →
  inv_with registry_typed w → inv_with registry_typed (do_call c w).2.
Proof.
  intros Hrec Hpub. apply inv_do_call; [|done|].
  - intros p ev f reg Hp Hf [Hok Hty]. split;
      [by apply registry_ok_insert | by apply ListenerManager.insert_typed].
  - intros value type desc target s reg -> Hs [Hok Hty].
    apply public_decorator_kind in Hpub. split; [by apply registry_ok_set_slot|].
    apply ListenerManager.set_slot_typed; congruence.
Qed.

Lemma reachable_run_calls w0 w : reachable w0 w ↔ ∃ cs, w = run_calls cs w0.
Proof.
  split.
  - induction 1 as [|c w _ [cs ->]]; [by exists []|].
    exists (cs ++ [c]). unfold run_calls. by rewrite foldl_app.
  - intros [cs ->]. induction cs as [|c cs IH] using rev_ind; [constructor|].
    unfold run_calls in *. rewrite foldl_app. simpl. by constructor.
Qed.

(** C1: whatever the client code calls, with whatever arguments and whether
    or not the calls raise, an application that is ready stays ready, and its
    registry stays sorted by ascending priority and holds only listeners of
    positive priority whose handlers are coroutine functions. *)
Theorem reachable_app_inv w0 w :
  adapter_records → app_inv w0 → reachable w0 w → app_inv w.
Proof.
  intros Hrec H0 Hreach. induction Hreach as [|c w _ IH]; [done|].
  by apply app_inv_do_call.
Qed.

(** C28: the attachments are typed: after any sequence of calls of the
    public methods ([on], [send_msg], [command], [keyword], [matcher],
    [param_convert], [role], [nlp]), returning or raising, every slot of
    every listener that is assigned holds an attachment of the kind of the
    slot, and the invariant of the application holds. *)
Theorem public_calls_typed cs w :
  adapter_records → Forall public cs →
  inv_with registry_typed w → inv_with registry_typed (run_calls cs w).
Proof.
  intros Hrec Hcs. revert w. induction Hcs as [|c cs Hc _ IH]; intros w Hw; [done|].
  apply IH. by apply typed_do_call.
Qed.

(** C20: the attachment decorators compose and are independent of their
    order.  For two decorators returned by [command], [keyword], [matcher],
    [param_convert], [role] or [nlp] that attach things of different kinds,
    or to different handlers: applied one after the other, in either order,
    each returns its target, and the registry is the one before with each
    attachment assigned, in the slot of its kind, on the listeners of its
    handler, the same in both orders; when both handlers are registered
    nothing is written to the log. *)
Theorem attachments_commute v1 t1 d1 (tgt1 : PyVal) v2 t2 d2 (tgt2 : PyVal)
    w loc r lg :
  ready w loc r lg →
  public_decorator (DecSet v1 t1 d1) → public_decorator (DecSet v2 t2 d2) →
  kind v1 ≠ kind v2 ∨ tgt1 ≠ tgt2 →
  let first := apply_decorator (Some (DecSet v1 t1 d1)) tgt1 in
  let second := apply_decorator (Some (DecSet v2 t2 d2)) tgt2 in
  (second (first w).2).1 = Ok tgt2 ∧ (first (second w).2).1 = Ok tgt1
  ∧ registry (second (first w).2).2
    = ListenerManager.set_entry (kind v2) tgt2 v2 <$>
        (ListenerManager.set_entry (kind v1) tgt1 v1 <$> registry w)
  ∧ registry (first (second w).2).2 = registry (second (first w).2).2
  ∧ (Exists (λ e, tgt1 = VFunc (Listener.target (ListenerManager.listener e)))
       (registry w) →
     Exists (λ e, tgt2 = VFunc (Listener.target (ListenerManager.listener e)))
       (registry w) →
     log (second (first w).2).2 = log w ∧ log (first (second w).2).2 = log w).
Proof.
  intros Hw H1%public_decorator_kind H2%public_decorator_kind Hne. cbv zeta.
  destruct (attach_then v1 t1 d1 _ tgt1 v2 t2 d2 _ tgt2 w loc r lg Hw H1 H2)
    as (-> & -> & Hl12).
  destruct (attach_then v2 t2 d2 _ tgt2 v1 t1 d1 _ tgt1 w loc r lg Hw H2 H1)
    as (-> & -> & Hl21).
  split_and!; [done..| |by auto].
  rewrite <- !list_fmap_compose. apply list_fmap_ext. intros _ e _.
  by apply ListenerManager.set_entry_comm.
Qed.

End calls.

End Calls.
