(* ===== verification/BotDemo.v ===== *)
(** * BotDemo: one concrete program of the application

    One program to which the theorems of [Bot] are applied: the registry is
    the reference list, the adapter answers and records what it is asked to
    send, and the class table has the element classes of one platform.
    Module [Demo] holds the program, the worlds it goes through and the
    instances of the theorems at them. *)

From Stdlib Require Import QArith.
From stdpp Require Import sorting.
From S2P Require Import Prelude Python Chain Matchers Listeners Bot Send Calls.
Import BotApplication Send Calls.

Module Demo.

Definition Registry : Type := list ListenerManager.entry.

Definition nick : Attr := AtVal (VStr "JustBot").

Definition adapter : Adapter (R:=Registry) :=
  mkAdapter "Mirai" (Coroutine (ret nick)) (AtVal VNone) (AtVal VNone)
    "Adapter/Mirai" (Coroutine (ret tt)) (Coroutine (ret tt)) record_send.

(** An adapter that answers [nick_name] with a pair, and whose [check] is
    not even a coroutine. *)
Definition pair_nick : list PyVal := [VStr "JustBot"; VInt 1].
Definition adapter_pair : Adapter (R:=Registry) :=
  mkAdapter "Mirai" (Coroutine (ret (AtVal (VTuple pair_nick)))) (AtVal VNone)
    (AtVal VNone) "Adapter/Mirai" (NotACoroutine VNone) (Coroutine (ret tt))
    record_send.

Definition MiraiElement_ref : ClassRef :=
  mkClassRef "JustBot.adapters.mirai.elements" "MiraiElement".
Definition Plain_ref : ClassRef :=
  mkClassRef "JustBot.adapters.mirai.elements" "Plain".

Definition classes : ClassTable :=
  [mkClass Element_ref []; mkClass MiraiElement_ref [Element_ref];
   mkClass Plain_ref [MiraiElement_ref]].

(** An element class called with a string: the text is its code and its
    display. *)
Definition construct (k : ClassRef) (v : PyVal) : Element :=
  match v with
  | VStr s => mkElement k s s
  | _ => mkElement k "" ""
  end.

Definition GroupMessage : ClassRef := mkClassRef "JustBot.events" "GroupMessage".
Definition FriendMessage : ClassRef := mkClassRef "JustBot.events" "FriendMessage".

Definition handler : PyFunc := mkFunc 1 "hello" true.
Definition plain_def : PyFunc := mkFunc 2 "helper" false.

(** The world before the application exists, after [__init__], and after
    one registration. *)
Definition w0 : World (R:=Registry) := initial [].
Definition w1 : World (R:=Registry) := init_world adapter nick nick w0.
Definition w2 : World (R:=Registry) :=
  (decorate (on (VClass GroupMessage) (VInt 5)) (VFunc handler) w1).2.

Lemma w1_ready : ready w1 0 [] "Application/2.2.0".
Proof. by split_and!. Qed.

Lemma w2_ready :
  ready w2 0 [ListenerManager.mkEntry 5 (Listener (VClass GroupMessage) handler)]
    "Application/2.2.0".
Proof. by split_and!. Qed.

Definition entry1 : ListenerManager.entry :=
  ListenerManager.mkEntry 5 (Listener (VClass GroupMessage) handler).

Ltac ready_demo := first [apply w1_ready | apply w2_ready | lia | done].

Lemma on_registers_witness :
  (decorate (on (VClass FriendMessage) (VInt 3)) (VFunc handler) w2).1
  = Ok (VFunc handler)
  ∧ registry (decorate (on (VClass FriendMessage) (VInt 3)) (VFunc handler) w2).2
    = ListenerManager.insert
        (ListenerManager.mkEntry 3 (Listener (VClass FriendMessage) handler))
        (registry w2)
  ∧ log (decorate (on (VClass FriendMessage) (VInt 3)) (VFunc handler) w2).2
    = log w2 ++ [mkLog "Application/2.2.0" INFO
                   (MsgRegister true "FriendMessage" 3 (VFunc handler))].
Proof. apply (on_registers FriendMessage 3 handler w2 0 [entry1]); ready_demo. Defined.

Lemma on_sorted_stable_witness :
  ListenerManager.sorted
    (registry (decorate (on (VClass FriendMessage) (VInt 5)) (VFunc handler) w2).2)
  ∧ filter (λ e, ListenerManager.priority e = 5%Z)
      (registry (decorate (on (VClass FriendMessage) (VInt 5)) (VFunc handler) w2).2)
    = filter (λ e, ListenerManager.priority e = 5%Z) (registry w2)
      ++ (if decide (5 = 5)%Z
          then [ListenerManager.mkEntry 5 (Listener (VClass FriendMessage) handler)]
          else []).
Proof.
  apply (on_sorted_stable FriendMessage 5 5 handler w2 0 [entry1] "Application/2.2.0");
    try ready_demo.
  repeat constructor.
Defined.

Definition second : PyFunc := mkFunc 3 "second" true.
Definition third : PyFunc := mkFunc 4 "third" true.

Lemma on_priority_order_witness :
  ListenerManager.listeners_for (VClass GroupMessage)
    (registry
       (decorate (on (VClass GroupMessage) (VInt 3)) (VFunc third)
          (decorate (on (VClass GroupMessage) (VInt 1)) (VFunc second)
             (decorate (on (VClass GroupMessage) (VInt 3)) (VFunc handler) w1).2).2).2)
  = [Listener (VClass GroupMessage) second; Listener (VClass GroupMessage) handler;
     Listener (VClass GroupMessage) third].
Proof.
  apply (on_priority_order GroupMessage handler second third w1 0 []
           "Application/2.2.0"); ready_demo.
Defined.

Lemma on_rejects_non_positive_witness :
  on (VClass GroupMessage) (VInt 0) w1
  = (Ok None, add_log (mkLog "Application/2.2.0" ERROR MsgPriorityNotPositive) w1)
  ∧ decorate (on (VClass GroupMessage) (VInt 0)) (VFunc handler) w1
    = (Raise (TypeError (NotCallable TyNoneType)),
       add_log (mkLog "Application/2.2.0" ERROR MsgPriorityNotPositive) w1)
  ∧ registry (decorate (on (VClass GroupMessage) (VInt 0)) (VFunc handler) w1).2
    = registry w1.
Proof.
  apply (on_rejects_non_positive (VClass GroupMessage) (VFunc handler) 0 w1 0 []);
    ready_demo.
Defined.

Lemma on_priority_not_int_witness :
  decorate (on (VClass GroupMessage) (VBool true)) (VFunc handler) w1
  = (Ok (VFunc handler), add_log (mkLog "Application/2.2.0" ERROR MsgPriorityType) w1).
Proof.
  apply (on_priority_not_int (VClass GroupMessage) (VBool true) (VFunc handler) w1 0 []);
    ready_demo.
Defined.

Lemma on_decides_witness :
  decorate (on (VClass GroupMessage) (VBool true)) (VFunc handler) w1
  = on_spec (VClass GroupMessage) (VBool true) (VFunc handler) 0 []
      "Application/2.2.0" w1
  ∧ (is_ok (decorate (on (VClass GroupMessage) (VBool true)) (VFunc handler) w1).1
     = false →
     registry (decorate (on (VClass GroupMessage) (VBool true)) (VFunc handler) w1).2
     = registry w1).
Proof.
  apply (on_decides (VClass GroupMessage) (VBool true) (VFunc handler) w1 0 []);
    ready_demo.
Defined.

Lemma on_not_coroutine_witness :
  decorate (on (VClass GroupMessage) (VInt 5)) (VFunc plain_def) w1
  = (Ok (VFunc plain_def),
     add_log (mkLog "Application/2.2.0" WARNING (MsgNotCoroutine (VFunc plain_def))) w1).
Proof.
  apply (on_not_coroutine (VClass GroupMessage) (VFunc plain_def) 5 w1 0 []);
    ready_demo.
Defined.

Definition both : PyVal := VTuple [VClass GroupMessage; VClass FriendMessage].

Lemma on_multi_event_witness :
  (decorate (on both (VInt 5)) (VFunc handler) w1).1 = Ok (VFunc handler)
  ∧ registry (decorate (on both (VInt 5)) (VFunc handler) w1).2
    = insert_all 5 handler (VClass <$> [GroupMessage; FriendMessage]) (registry w1)
  ∧ log (decorate (on both (VInt 5)) (VFunc handler) w1).2
    = log w1 ++ [mkLog "Application/2.2.0" INFO
                   (MsgRegister false
                      (str_join " & " (cls_name <$> [GroupMessage; FriendMessage]))
                      5 (VFunc handler))].
Proof.
  apply (on_multi_event both [GroupMessage; FriendMessage] 5 handler w1 0 []);
    try ready_demo.
  repeat constructor.
Defined.

Definition hello : Attach := AMatcher (CommandMatcher (One "hello") false []).
Definition attach_hello : option Decorator :=
  Some (DecSet hello "matcher" "消息匹配器").

Lemma attach_unregistered_witness :
  (apply_decorator attach_hello (VFunc plain_def) w2).1 = Ok (VFunc plain_def)
  ∧ registry (apply_decorator attach_hello (VFunc plain_def) w2).2 = registry w2
  ∧ log (apply_decorator attach_hello (VFunc plain_def) w2).2
    = log w2 ++ [mkLog "Application/2.2.0" WARNING
                   (MsgNotListener "消息匹配器" (VFunc plain_def))].
Proof.
  apply (attach_unregistered hello "matcher" _ SMatcher (VFunc plain_def) w2 0 [entry1]);
    try ready_demo.
  repeat constructor. by intros [=].
Defined.

Lemma attach_registered_witness :
  (apply_decorator attach_hello (VFunc handler) w2).1 = Ok (VFunc handler)
  ∧ registry (apply_decorator attach_hello (VFunc handler) w2).2
    = ListenerManager.set_entry SMatcher (VFunc handler) hello <$> registry w2
  ∧ log (apply_decorator attach_hello (VFunc handler) w2).2 = log w2.
Proof.
  apply (attach_registered hello "matcher" _ SMatcher (VFunc handler) w2 0 [entry1]
           "Application/2.2.0"); try ready_demo.
  by constructor.
Defined.

Definition admin : Attach := ARole (One Role.Admin) None.
Definition attach_admin : option Decorator := Some (role (One Role.Admin) None).

Lemma attachments_commute_witness :
  (apply_decorator attach_admin (VFunc handler)
     (apply_decorator attach_hello (VFunc handler) w2).2).1 = Ok (VFunc handler)
  ∧ registry (apply_decorator attach_admin (VFunc handler)
                (apply_decorator attach_hello (VFunc handler) w2).2).2
    = ListenerManager.set_entry SRole (VFunc handler) admin <$>
        (ListenerManager.set_entry SMatcher (VFunc handler) hello <$> registry w2)
  ∧ registry (apply_decorator attach_hello (VFunc handler)
                (apply_decorator attach_admin (VFunc handler) w2).2).2
    = registry (apply_decorator attach_admin (VFunc handler)
                  (apply_decorator attach_hello (VFunc handler) w2).2).2.
Proof.
  destruct (Calls.attachments_commute hello "matcher" "消息匹配器" (VFunc handler)
              admin "role" "权限组" (VFunc handler) w2 0 [entry1]
              "Application/2.2.0") as (H1 & _ & H3 & H4 & _);
    [ready_demo | | | by left | done].
  - right; right; left. by exists (CommandMatcher (One "hello") false []).
  - do 4 right; left. by exists (One Role.Admin), None.
Defined.

Lemma attach_keeps_order_witness :
  ListenerManager.sorted (registry (apply_decorator attach_hello (VFunc handler) w2).2)
  ∧ ListenerManager.priority
      <$> registry (apply_decorator attach_hello (VFunc handler) w2).2
    = ListenerManager.priority <$> registry w2
  ∧ (Listener.event ∘ ListenerManager.listener)
      <$> registry (apply_decorator attach_hello (VFunc handler) w2).2
    = (Listener.event ∘ ListenerManager.listener) <$> registry w2
  ∧ (Listener.target ∘ ListenerManager.listener)
      <$> registry (apply_decorator attach_hello (VFunc handler) w2).2
    = (Listener.target ∘ ListenerManager.listener) <$> registry w2.
Proof.
  apply (attach_keeps_order hello "matcher" _ SMatcher (VFunc handler) w2 0 [entry1]
           "Application/2.2.0"); try ready_demo.
  repeat constructor.
Defined.

(** The messages of the runs below. *)
Definition friend : PyVal := VInt 10001.
Definition hi : PyVal := VElem (mkElement Plain_ref "hi" "hi").
Definition send_log (lvl : Level) (msg : LogMsg) : LogRecord :=
  mkLog "Adapter/Mirai" lvl msg.

Lemma w1_adapter : has_adapter w1.
Proof. done. Qed.

Lemma send_msg_chain_not_sent_witness :
  send_msg adapter classes construct friend (VClass MessageChain.ref)
    (set_chain (MessageChain.create (VList [hi]) (chain w1)).2 w1)
  = (Ok tt, add_log (send_log WARNING MsgSendTypeError)
              (set_chain (MessageChain.create (VList [hi]) (chain w1)).2 w1)).
Proof.
  by apply (send_msg_chain_not_sent adapter classes construct friend (VList [hi])).
Defined.

(** A class table in which the first element class of the adapter has no
    [Plain] and the second has one. *)
Definition MiraiFace_ref : ClassRef :=
  mkClassRef "JustBot.adapters.mirai.faces" "MiraiFace".
Definition shadowed : ClassTable :=
  [mkClass Element_ref []; mkClass MiraiFace_ref [Element_ref];
   mkClass MiraiElement_ref [Element_ref]; mkClass Plain_ref [MiraiElement_ref]].

Lemma find_plain_in_range_witness :
  find_plain adapter shadowed w1
  = (match adapter_elements adapter shadowed with
     | [] => Raise IndexError
     | i :: _ =>
         match filter (λ k, cls_name k = "Plain") (subclasses shadowed i) with
         | [] => Raise IndexError
         | k :: _ => Ok k
         end
     end, w1).
Proof. by apply (find_plain_in_range adapter shadowed). Defined.

Example find_plain_shadowed : (find_plain adapter shadowed w1).1 = Raise IndexError.
Proof. by vm_compute. Qed.

Lemma send_msg_str_witness :
  send_msg adapter classes construct friend (VStr "hi") w1
  = match plain_class adapter classes with
    | Ok k =>
        let e := TypeError (NotIterable (TyClass (elem_class (construct k (VStr "hi"))))) in
        (Raise e,
         add_log (send_log ERROR (MsgSendFailed e))
           (set_chain (MessageChain.with_elements (VElem (construct k (VStr "hi")))
                         (chain w1)) w1))
    | Raise e => (Raise e, add_log (send_log ERROR (MsgSendFailed e)) w1)
    end.
Proof. by apply (send_msg_str adapter classes construct). Defined.

Definition base_elem : PyVal := VElem (mkElement MiraiElement_ref "" "").

Lemma send_msg_element_witness :
  let e := TypeError (NotIterable (py_type base_elem)) in
  send_msg adapter classes construct friend base_elem w1
  = (Raise e,
     add_log (send_log ERROR (MsgSendFailed e))
       (set_chain (MessageChain.with_elements base_elem (chain w1)) w1)).
Proof. by apply (send_msg_element adapter classes construct). Defined.

Lemma send_msg_indirect_element_witness :
  send_msg adapter classes construct friend hi w1
  = (Ok tt, add_log (send_log WARNING MsgSendTypeError) w1).
Proof.
  apply (send_msg_indirect_element adapter classes construct); [done|].
  intros Hin. by repeat (apply elem_of_cons in Hin as [?|Hin]; [done|]);
    apply elem_of_nil in Hin.
Defined.

Lemma adapter_records_demo : adapter_records adapter.
Proof. by intros t c. Qed.

(** A list of two elements, as the documentation of [send_msg] passes it. *)
Definition two : PyVal := VList [hi; hi].

Lemma send_msg_list_arity_witness :
  let e := TypeError (ArgCount "create" 1 (length (seq_items two))) in
  send_msg adapter classes construct friend two w1
  = (Raise e, add_log (send_log ERROR (MsgSendFailed e)) w1).
Proof.
  apply (send_msg_list_arity adapter classes construct); [done | | done].
  simpl. repeat constructor.
Defined.

(** A list whose one item is the list of elements. *)
Definition nested : PyVal := VList [VList [hi; hi]].

Lemma send_msg_single_item_witness :
  send_msg adapter classes construct friend nested w1
  = match MessageChain.create (VList [hi; hi]) (chain w1) with
    | (Ok c, ch) => (Ok tt, add_outbox (friend, c, ch) (set_chain ch w1))
    | (Raise e, ch) =>
        (Raise e, add_log (send_log ERROR (MsgSendFailed e)) (set_chain ch w1))
    end.
Proof.
  apply (send_msg_single_item adapter classes construct friend nested);
    [done | apply adapter_records_demo | | done].
  simpl. repeat constructor.
Defined.

Lemma send_msg_outbox_witness :
  outbox (send_msg adapter classes construct friend nested w1).2
  = outbox w1 ++ sent_of classes friend nested (chain w1).
Proof.
  apply (send_msg_outbox adapter classes construct);
    [done | apply adapter_records_demo].
Defined.

Lemma send_msg_documented_never_sends_witness :
  outbox (send_msg adapter classes construct friend two w1).2 = outbox w1.
Proof.
  apply (send_msg_documented_never_sends adapter classes construct);
    [done | apply adapter_records_demo |].
  right. right. right. exists [mkElement Plain_ref "hi" "hi"; mkElement Plain_ref "hi" "hi"].
  by left.
Defined.

Lemma send_msg_raise_logged_witness :
  match send_body adapter classes construct friend two w1 with
  | (Ok a, w') => send_msg adapter classes construct friend two w1 = (Ok a, w')
  | (Raise e, w') =>
      send_msg adapter classes construct friend two w1
      = (Raise e, add_log (send_log ERROR (MsgSendFailed e)) w')
  end.
Proof.
  apply (send_msg_raise_logged adapter classes construct); [done|].
  apply record_keeps, adapter_records_demo.
Defined.

Lemma init_ready_witness :
  (__init__ adapter w0).1 = Ok tt
  ∧ ready (__init__ adapter w0).2 (fresh (dom (managers w0))) lm_new app_logger
  ∧ registry (__init__ adapter w0).2 = []
  ∧ log (__init__ adapter w0).2
    = log w0 ++ [mkLog app_logger INFO (MsgLoading VERSION);
                 mkLog app_logger INFO (MsgAdapterName (name adapter));
                 mkLog app_logger INFO (MsgLogin nick)].
Proof. by apply (init_ready adapter nick nick w0). Defined.

(** A world in which the adapter built a manager of its own before the
    application is constructed. *)
Definition w_adapter : World (R:=Registry) :=
  set_managers (<[0 := [entry1]]> ∅) w0.

Lemma init_login_tuple_witness :
  ∃ e, __init__ adapter_pair w0 = (Raise e, login_world adapter_pair (AtVal (VTuple pair_nick)) w0)
       ∧ exc_class e = ExcTypeError.
Proof. by apply (init_login_tuple adapter_pair pair_nick w0). Defined.

Lemma init_frame_witness :
  managers (__init__ adapter w_adapter).2 !! 0 = Some [entry1]
  ∧ app (__init__ adapter w_adapter).2 !! "listener_manager" ≠ Some (AtManager 0)
  ∧ chain (__init__ adapter w_adapter).2 = chain w_adapter
  ∧ outbox (__init__ adapter w_adapter).2 = outbox w_adapter.
Proof. by apply (init_frame adapter nick nick w_adapter 0 [entry1]). Defined.

Lemma init_config_witness :
  config (__init__ adapter w0).2 !! "application" = Some AtApp
  ∧ (∀ k, k ∈ ["adapter"; "nickname"; "listener_manager"; "adapter_utils";
               "message_handler"] →
          is_Some (app (__init__ adapter w0).2 !! k)
          ∧ config (__init__ adapter w0).2 !! k = app (__init__ adapter w0).2 !! k)
  ∧ is_Some (app (__init__ adapter w0).2 !! "logger")
  ∧ config (__init__ adapter w0).2 !! "logger" = config w0 !! "logger".
Proof. by apply (init_config adapter nick nick w0). Defined.

(** A program: one registration, one attachment, two sends (the second
    raises). *)
Definition program : list Call :=
  [CallOn (VClass GroupMessage) (VInt 5) (VFunc handler);
   CallAttach hello "matcher" "消息匹配器" (VFunc handler);
   CallSend friend nested;
   CallSend friend (VStr "hi")].

Definition run_program (cs : list Call) (w : World (R:=Registry)) : World :=
  foldl (λ w c, (do_call adapter classes construct c w).2) w cs.

Lemma w1_inv : app_inv w1.
Proof.
  exists 0, [], "Application/2.2.0". split; [apply w1_ready|]. by split; constructor.
Qed.

Lemma reachable_app_inv_witness : app_inv (run_program program w1).
Proof.
  apply (reachable_app_inv adapter classes construct w1).
  - apply adapter_records_demo.
  - apply w1_inv.
  - unfold run_program, program. cbn [foldl]. do 4 apply reach_call. apply reach_start.
Defined.

(** The program makes public calls only: its attachment is what [matcher]
    builds. *)
Lemma program_public : Forall public program.
Proof.
  unfold program. repeat apply List.Forall_cons; try done.
  right. right. left. by exists (CommandMatcher (One "hello") false []).
Qed.

Lemma w1_typed : inv_with registry_typed w1.
Proof.
  exists 0, [], "Application/2.2.0". split; [apply w1_ready|].
  split; [by split; constructor | by constructor].
Qed.

Lemma public_calls_typed_witness :
  inv_with registry_typed (run_calls adapter classes construct program w1).
Proof.
  apply (public_calls_typed adapter classes construct program w1).
  - apply adapter_records_demo.
  - apply program_public.
  - apply w1_typed.
Defined.

(** The private method takes any value for any slot: a role attachment
    under the key of the matcher is stored in the matcher slot. *)
Example private_call_untyped :
  Listener.matcher ∘ ListenerManager.listener
    <$> registry
          (run_calls adapter classes construct
             [CallOn (VClass GroupMessage) (VInt 5) (VFunc handler);
              CallAttach (ARole (One Role.Admin) None) "matcher" "" (VFunc handler)]
             w1)
  = [Some (ARole (One Role.Admin) None)].
Proof. by vm_compute. Qed.

End Demo.
