(* ===== verification/Serve.v ===== *)
(** * Serve: the application receiving events

    The composition of the application of [src/jbot/__init__.py] with the
    dispatch pipeline: an inbound event is dispatched over the registry of
    the manager the application object refers to, read once when the pass
    starts, and the handlers the pass calls are client code that calls the
    application back ([on], the attachment decorators, [send_msg]).

    A handler is given by the calls it makes, in order; a call that raises
    ends the handler, and the pass reports it and goes on.  The theorems say
    which functions a pass calls after the registrations and attachments of
    the application.  That the pass never raises, calls every listener
    that accepts the event whatever the handlers before it did and keeps
    the invariant of the application are lemmas on the pipeline, which is
    modelled from the specification; the theorems use them. *)

From Stdlib Require Import QArith.
From S2P Require Import Prelude Python Chain Matchers Listeners.
From S2P Require Import Dispatch Bot Send Calls BotDemo.
Import BotApplication Send Calls.

Module Serve.

Section serve.
Context {R : Type} `{ListenerManagerOps R}.
Context (adapter : Adapter (R:=R)).
Context (classes : ClassTable).
Context (construct : ClassRef → PyVal → Element).
Context (fold : string → string).
Context (confidence : list string → string → Q).
Context (slot_value : string → string → option string).
Context (body : PyFunc → Dispatch.Invocation → list Call).
Context (failure : PyFunc → PyExc → LogRecord).

Local Abbreviation W := (World (R:=R)).

(** A handler called: the calls of its body in order, up to the first that
    raises. *)
Definition call (f : PyFunc) (i : Dispatch.Invocation) : py W unit :=
  for_each (do_call adapter classes construct) (body f i).

(** A failure is one more line of the log. *)
Definition report (f : PyFunc) (e : PyExc) (w : W) : W :=
  add_log (failure f e) w.

(** The registry as the manager of the application has it now. *)
Definition snapshot : py W (list ListenerManager.entry) :=
  self_manager (λ r, (lm_entries r, r)).

(** An inbound event: one pass over the registry read at its start. *)
Definition receive (ev : Dispatch.Event) : py W unit :=
  reg <- snapshot ;;
  Dispatch.dispatch fold confidence slot_value call report ev reg.

(** The same pass, returning the calls it made. *)
Definition receive_traced (ev : Dispatch.Event)
    : py W (list (PyFunc * Dispatch.Invocation * Dispatch.Outcome)) :=
  reg <- snapshot ;;
  Dispatch.dispatch_traced fold confidence slot_value call report ev reg.

(** The world after a registration and after an attachment, their results
    dropped. *)
Definition registered (ev : ClassRef) (p : Z) (f : PyFunc) (w : W) : W :=
  (decorate (on (VClass ev) (VInt p)) (VFunc f) w).2.

Definition attached (d : Decorator) (f : PyFunc) (w : W) : W :=
  (apply_decorator (Some d) (VFunc f) w).2.

(** ** Running a pass *)

Local Abbreviation planned := (Dispatch.planned fold confidence slot_value).
Local Abbreviation plan := (Dispatch.plan fold confidence slot_value).

Lemma run_snapshot w loc r lg :
  ready w loc r lg → snapshot w = (Ok (registry w), w).
Proof.
  intros Hw. unfold snapshot. rewrite (run_self_manager _ w loc r lg Hw). simpl.
  by rewrite (with_manager_id w loc r lg Hw), (ready_registry w loc r lg Hw).
Qed.

Lemma run_receive ev w loc r lg :
  ready w loc r lg →
  receive ev w
  = Dispatch.dispatch fold confidence slot_value call report ev (registry w) w.
Proof. intros Hw. unfold receive. by run (run_snapshot w loc r lg Hw). Qed.

(** The calls of a pass are those planned for the registry it started
    with, and the traced pass ends in the world the pass ends in. *)
Lemma run_receive_traced ev w loc r lg :
  ready w loc r lg →
  ∃ outs, receive_traced ev w = (Ok outs, (receive ev w).2)
    ∧ outs.*1 = planned ev (registry w).
Proof.
  intros Hw. rewrite (run_receive ev w loc r lg Hw). unfold receive_traced.
  run (run_snapshot w loc r lg Hw). apply Dispatch.dispatch_traced_calls.
Qed.

(** A handler keeps the invariant of the application, however it ends. *)
Lemma app_inv_call f i w :
  adapter_records adapter → app_inv w → app_inv (call f i w).2.
Proof.
  intros Hrec. apply for_each_invariant. intros c w' _.
  by apply app_inv_do_call.
Qed.

(** A pass returns and keeps the invariant. *)
Lemma receive_returns ev w :
  adapter_records adapter → app_inv w →
  (receive ev w).1 = Ok tt ∧ app_inv (receive ev w).2.
Proof.
  intros Hrec Hinv. pose proof Hinv as (loc & r & lg & Hw & _).
  rewrite (run_receive ev w loc r lg Hw). split; [apply Dispatch.dispatch_ok|].
  apply Dispatch.dispatch_invariant; [|intros; by apply app_inv_add_log|done].
  intros. by apply app_inv_call.
Qed.

(** The listeners a pass visits are in ascending priority, and each has a
    positive priority and a coroutine function as its handler. *)
Lemma visited_sorted ev w :
  app_inv w →
  ∃ es, ListenerManager.sorted es ∧ Forall handler_ok es
    ∧ ListenerManager.listeners_for ev (registry w) = ListenerManager.listener <$> es.
Proof.
  intros (loc & r & lg & _ & Hs & Hok).
  exists (filter (λ e, Listener.event (ListenerManager.listener e) = ev) (registry w)).
  split_and!; [by apply ListenerManager.sorted_filter| |done].
  apply Forall_forall. intros e [_ He]%list_elem_of_filter.
  by eapply Forall_forall in Hok.
Qed.

(** ** The registry after the decorators *)

Lemma registry_registered ev p f w loc r lg :
  ready w loc r lg → registry w = [] → (0 < p)%Z → fn_is_coroutine f = true →
  registry (registered ev p f w)
  = [ListenerManager.mkEntry p (Listener (VClass ev) f)].
Proof.
  intros Hw Hreg Hp Hf. unfold registered.
  by rewrite (registry_decorate_class ev p f w loc r lg Hw Hp Hf), Hreg.
Qed.

(** An attachment on the one listener of a fresh application. *)
Lemma registry_attached value type desc s ev p f w loc r lg :
  ready w loc r lg → registry w = [] → (0 < p)%Z → fn_is_coroutine f = true →
  slot_of_type type = Some s →
  registry (attached (DecSet value type desc) f (registered ev p f w))
  = [ListenerManager.mkEntry p
       (Listener.set_slot s value (Listener (VClass ev) f))].
Proof.
  intros Hw Hreg Hp Hf Hs. unfold attached.
  pose proof (ready_decorate_class ev p f w loc r lg Hw Hp Hf) as Hw1.
  rewrite (registry_apply_set _ _ _ s _ _ loc _ lg Hw1 Hs).
  fold (registered ev p f w).
  rewrite (registry_registered ev p f w loc r lg Hw Hreg Hp Hf).
  unfold ListenerManager.set_slot, ListenerManager.set_entry,
    ListenerManager.has_target. simpl. by rewrite bool_decide_eq_true_2.
Qed.

Lemma ready_attached value type desc s ev p f w loc r lg :
  ready w loc r lg → (0 < p)%Z → fn_is_coroutine f = true →
  slot_of_type type = Some s →
  ∃ r', ready (attached (DecSet value type desc) f (registered ev p f w)) loc r' lg.
Proof.
  intros Hw Hp Hf Hs. eexists. eapply ready_apply_set; [|done].
  by apply ready_decorate_class.
Qed.

(** A second attachment on the same listener. *)
Lemma registry_attached_twice v1 t1 d1 s1 v2 t2 d2 s2 ev p f w loc r lg :
  ready w loc r lg → registry w = [] → (0 < p)%Z → fn_is_coroutine f = true →
  slot_of_type t1 = Some s1 → slot_of_type t2 = Some s2 →
  registry (attached (DecSet v2 t2 d2) f
              (attached (DecSet v1 t1 d1) f (registered ev p f w)))
  = [ListenerManager.mkEntry p
       (Listener.set_slot s2 v2 (Listener.set_slot s1 v1 (Listener (VClass ev) f)))].
Proof.
  intros Hw Hreg Hp Hf H1 H2.
  destruct (ready_attached v1 t1 d1 s1 ev p f w loc r lg Hw Hp Hf H1) as [r' Hw'].
  unfold attached at 1. rewrite (registry_apply_set _ _ _ s2 _ _ loc r' lg Hw' H2).
  rewrite (registry_attached _ _ _ s1 ev p f w loc r lg) by done.
  unfold ListenerManager.set_slot, ListenerManager.set_entry,
    ListenerManager.has_target. simpl.
  rewrite Listener.target_set_slot. simpl. by rewrite bool_decide_eq_true_2.
Qed.

(** The calls planned over one listener of the event. *)
Lemma planned_one ev p l :
  Listener.event l = Dispatch.event_type ev →
  planned ev [ListenerManager.mkEntry p l]
  = option_list (Dispatch.invocation (plan ev l)).
Proof.
  intros Hl. unfold Dispatch.planned, ListenerManager.listeners_for.
  rewrite filter_cons_True by done. simpl.
  by destruct (Dispatch.invocation _).
Qed.

(** What the pipeline decides for a listener whose only attachment is a
    matcher, and for one whose only attachment is a role filter. *)
Lemma plan_matcher ev e f m :
  plan ev (Listener.set_slot SMatcher (AMatcher m) (Listener e f))
  = match Matcher.matches fold m (Dispatch.message_chain ev) with
    | Some r => Dispatch.Run f (Dispatch.Handle ev
                  (Some (Dispatch.PRaw (Matcher.argument r))))
    | None => Dispatch.Skip
    end.
Proof.
  unfold Dispatch.plan, Dispatch.accept. simpl.
  by destruct (Matcher.matches _ _ _).
Qed.

Lemma plan_matcher_convert ev e f m t :
  plan ev (Listener.set_slot SParamConvert (AParamConvert t)
             (Listener.set_slot SMatcher (AMatcher m) (Listener e f)))
  = match Matcher.matches fold m (Dispatch.message_chain ev) with
    | Some r =>
        match Dispatch.convert slot_value
                (Listener.set_slot SParamConvert (AParamConvert t)
                   (Listener.set_slot SMatcher (AMatcher m) (Listener e f)))
                ev (Matcher.argument r) with
        | Some ps => Dispatch.Run f (Dispatch.Handle ev (Some ps))
        | None => Dispatch.Skip
        end
    | None => Dispatch.Skip
    end.
Proof. unfold Dispatch.plan, Dispatch.accept. simpl. by destruct (Matcher.matches _ _ _). Qed.

Lemma plan_role ev e f rl todo :
  plan ev (Listener.set_slot SRole (ARole rl todo) (Listener e f))
  = if bool_decide (Dispatch.sender_role ev ∈ Dispatch.roles_of rl)
    then Dispatch.Run f (Dispatch.Handle ev None)
    else match todo with
         | Some g => Dispatch.Run g (Dispatch.Fallback ev (Dispatch.message ev)
                       (Dispatch.message_chain ev))
         | None => Dispatch.Skip
         end.
Proof. done. Qed.

(** ** Theorems *)

(** A pass over the registry of a ready application never raises, and
    every listener that accepts the event is called, in registry order,
    whatever the handlers called before it did: the calls of a pass are
    those planned for the registry as it was when the pass started, also
    when handlers register listeners or fail (for one because a [send_msg]
    of their body raised). *)
Lemma receive_calls_planned ev w loc r lg :
  ready w loc r lg →
  (receive ev w).1 = Ok tt
  ∧ ∃ outs, receive_traced ev w = (Ok outs, (receive ev w).2)
      ∧ outs.*1 = planned ev (registry w).
Proof.
  intros Hw. split; [|by apply (run_receive_traced ev w loc r lg)].
  rewrite (run_receive ev w loc r lg Hw). apply Dispatch.dispatch_ok.
Qed.

(** A pass keeps the invariant of the application: after it the
    application is ready and its registry is sorted and holds only sound
    listeners, whatever the handlers registered, attached or sent. *)
Lemma receive_keeps_inv ev w :
  adapter_records adapter → app_inv w → app_inv (receive ev w).2.
Proof. intros Hrec Hinv. by apply receive_returns. Qed.

(** C14: three handlers registered with [on] for one event class with
    priorities 3, 1 and 3, in this order, on an application without
    listeners: a pass for an event of the class calls the second, the first
    and the third, in this order, each with the event alone. *)
Theorem receive_priority_order (c : ClassRef) (f1 f2 f3 : PyFunc) ev w loc r lg :
  ready w loc r lg → registry w = [] →
  fn_is_coroutine f1 = true → fn_is_coroutine f2 = true →
  fn_is_coroutine f3 = true → Dispatch.event_type ev = VClass c →
  ∃ outs,
    (receive_traced ev (registered c 3 f3 (registered c 1 f2 (registered c 3 f1 w)))).1
    = Ok outs
    ∧ outs.*1 = [(f2, Dispatch.Handle ev None); (f1, Dispatch.Handle ev None);
                 (f3, Dispatch.Handle ev None)].
Proof.
  intros Hw Hreg Hf1 Hf2 Hf3 Hev.
  pose proof (ready_decorate_class c 3 f1 w loc r lg Hw eq_refl Hf1) as Hw1.
  pose proof (ready_decorate_class c 1 f2 _ loc _ lg Hw1 eq_refl Hf2) as Hw2.
  pose proof (ready_decorate_class c 3 f3 _ loc _ lg Hw2 eq_refl Hf3) as Hw3.
  unfold registered.
  destruct (run_receive_traced ev _ loc _ lg Hw3) as (outs & Ho & Hc).
  exists outs. rewrite Ho, Hc. split; [done|]. unfold Dispatch.planned. rewrite Hev.
  by rewrite (on_priority_order c f1 f2 f3 w loc r lg).
Qed.

(** C25: after [on] and [command] on a handler of an application without
    listeners, a pass for an event of the class calls the handler exactly
    when the command matcher built from the arguments of [command] matches
    the chain of the event, with the argument text as its parameter. *)
Theorem command_decides (c : ClassRef) (p : Z) (f : PyFunc) cmd maw ig ev w loc r lg :
  ready w loc r lg → registry w = [] → (0 < p)%Z → fn_is_coroutine f = true →
  Dispatch.event_type ev = VClass c →
  ∃ outs,
    (receive_traced ev (attached (command cmd maw ig) f (registered c p f w))).1
    = Ok outs
    ∧ outs.*1
      = match Matcher.matches fold (CommandMatcher cmd maw ig)
                (Dispatch.message_chain ev) with
        | Some m => [(f, Dispatch.Handle ev
                           (Some (Dispatch.PRaw (Matcher.argument m))))]
        | None => []
        end.
Proof.
  intros Hw Hreg Hp Hf Hev.
  destruct (ready_attached (AMatcher (CommandMatcher cmd maw ig)) "matcher"
              "消息匹配器" SMatcher c p f w loc r lg Hw Hp Hf eq_refl) as [r' Hw'].
  destruct (run_receive_traced ev _ loc _ lg Hw') as (outs & Ho & Hc).
  exists outs. unfold command, __set_decorator. rewrite Ho, Hc. split; [done|].
  rewrite (registry_attached _ _ _ SMatcher c p f w loc r lg) by done.
  rewrite planned_one, plan_matcher by done.
  by destruct (Matcher.matches _ _ _).
Qed.

(** C26: the decorators stack: after [on], [command] and [param_convert] on
    a handler of an application without listeners, a pass for an event of
    the class calls the handler exactly when the command matches, with the
    argument converted as declared: the text itself for [str] (and when
    [None] is declared), its tokens, split at white space, for [list]; with
    [dict] and no NLP binding, or any other type, the conversion is a
    rejection and the handler is not called. *)
Theorem param_convert_decides (c : ClassRef) (p : Z) (f : PyFunc) cmd maw ig t ev
    w loc r lg :
  ready w loc r lg → registry w = [] → (0 < p)%Z → fn_is_coroutine f = true →
  Dispatch.event_type ev = VClass c →
  ∃ outs,
    (receive_traced ev
       (attached (param_convert t) f
          (attached (command cmd maw ig) f (registered c p f w)))).1 = Ok outs
    ∧ outs.*1
      = match Matcher.matches fold (CommandMatcher cmd maw ig)
                (Dispatch.message_chain ev), t with
        | Some m, (None | Some TyStr) =>
            [(f, Dispatch.Handle ev (Some (Dispatch.PRaw (Matcher.argument m))))]
        | Some m, Some TyList =>
            [(f, Dispatch.Handle ev
                   (Some (Dispatch.PTokens (Dispatch.tokens (Matcher.argument m)))))]
        | _, _ => []
        end.
Proof.
  intros Hw Hreg Hp Hf Hev.
  destruct (ready_attached (AMatcher (CommandMatcher cmd maw ig)) "matcher"
              "消息匹配器" SMatcher c p f w loc r lg Hw Hp Hf eq_refl) as [r1 Hw1].
  assert (ready (attached (DecSet (AParamConvert t) "param_convert" "参数转换类型") f
                   (attached (DecSet (AMatcher (CommandMatcher cmd maw ig)) "matcher"
                               "消息匹配器") f (registered c p f w)))
            loc (lm_set SParamConvert (VFunc f) (AParamConvert t) r1).2 lg) as Hw2
    by by apply ready_apply_set.
  destruct (run_receive_traced ev _ loc _ lg Hw2) as (outs & Ho & Hc).
  exists outs. unfold param_convert, command, __set_decorator.
  rewrite Ho, Hc. split; [done|].
  rewrite (registry_attached_twice _ _ _ SMatcher _ _ _ SParamConvert c p f w
             loc r lg) by done.
  rewrite planned_one, plan_matcher_convert by done.
  destruct (Matcher.matches _ _ _) as [m|]; [|done].
  rewrite (Dispatch.convert_declared _ _ _ _ t) by done.
  by destruct t as [[]|].
Qed.

(** C27: after [on] and [role] on a handler of an application without
    listeners, a pass for an event of the class calls the handler when the
    role of the sender is among the roles given, and otherwise the fallback
    with the event, its message and its chain, or nothing when no fallback
    was given; the handler is not called then. *)
Theorem role_gates (c : ClassRef) (p : Z) (f : PyFunc) rl todo ev w loc r lg :
  ready w loc r lg → registry w = [] → (0 < p)%Z → fn_is_coroutine f = true →
  Dispatch.event_type ev = VClass c →
  ∃ outs,
    (receive_traced ev (attached (role rl todo) f (registered c p f w))).1 = Ok outs
    ∧ outs.*1
      = if bool_decide (Dispatch.sender_role ev ∈ Dispatch.roles_of rl)
        then [(f, Dispatch.Handle ev None)]
        else match todo with
             | Some g => [(g, Dispatch.Fallback ev (Dispatch.message ev)
                                (Dispatch.message_chain ev))]
             | None => []
             end.
Proof.
  intros Hw Hreg Hp Hf Hev.
  destruct (ready_attached (ARole rl todo) "role" "权限组" SRole c p f w loc r lg
              Hw Hp Hf eq_refl) as [r' Hw'].
  destruct (run_receive_traced ev _ loc _ lg Hw') as (outs & Ho & Hc).
  exists outs. unfold role, __set_decorator. rewrite Ho, Hc. split; [done|].
  rewrite (registry_attached _ _ _ SRole c p f w loc r lg) by done.
  rewrite planned_one, plan_role by done.
  case_bool_decide; [done|]. by destruct todo.
Qed.

End serve.

(** ** Concrete passes

    The application of [BotApplication.Demo] receiving group messages.
    Width folding is the identity, the NLP engine is sure of everything and
    finds no word; the handler [hello] answers with a string and fails,
    [second] registers one more listener, [third] sends an element. *)

Module Examples.
Import Demo.

Definition fold (s : string) : string := s.
Definition confidence (keywords : list string) (s : string) : Q := 1%Q.
Definition slot_value (slot s : string) : option string := None.

Definition fourth : PyFunc := mkFunc 5 "fourth" true.

Definition body (f : PyFunc) (i : Dispatch.Invocation) : list Call :=
  if decide (f = handler) then [CallSend friend (VStr "pong")]
  else if decide (f = second) then
    [CallOn (VClass GroupMessage) (VInt 2) (VFunc fourth)]
  else if decide (f = third) then [CallSend friend hi]
  else [].

Definition failure (f : PyFunc) (e : PyExc) : LogRecord :=
  mkLog ("Listener/" +:+ fn_name f) ERROR (MsgSendFailed e).

(** A group message of a member with one plain element. *)
Definition said (s : string) : Dispatch.Event :=
  Dispatch.mkEvent (VClass GroupMessage) Role.Member (VStr s)
    [mkElement Plain_ref s s].

Definition pass : Dispatch.Event → py (World (R:=Registry)) unit :=
  Serve.receive adapter classes construct fold confidence slot_value body failure.

Definition pass_traced :=
  Serve.receive_traced adapter classes construct fold confidence slot_value
    body failure.

Definition ping : Decorator := command (One "/ping") false [].
Definition admins (todo : option PyFunc) : Decorator := role (One Role.Admin) todo.

(** The three registrations of the priority example. *)
Definition w3 : World (R:=Registry) :=
  registered GroupMessage 3 third
    (registered GroupMessage 1 second (registered GroupMessage 3 handler w1)).

Lemma receive_calls_planned_witness :
  (pass (said "hi") w2).1 = Ok tt
  ∧ ∃ outs, pass_traced (said "hi") w2 = (Ok outs, (pass (said "hi") w2).2)
      ∧ outs.*1 = Dispatch.planned fold confidence slot_value (said "hi") (registry w2).
Proof.
  exact (receive_calls_planned adapter classes construct fold confidence
           slot_value body failure (said "hi") w2 0 _ _ w2_ready).
Defined.

Lemma receive_keeps_inv_witness : app_inv (pass (said "hi") w1).2.
Proof.
  exact (receive_keeps_inv adapter classes construct fold confidence slot_value
           body failure (said "hi") w1 adapter_records_demo w1_inv).
Defined.

Lemma receive_priority_order_witness :
  ∃ outs, (pass_traced (said "hi") w3).1 = Ok outs
    ∧ outs.*1 = [(second, Dispatch.Handle (said "hi") None);
                 (handler, Dispatch.Handle (said "hi") None);
                 (third, Dispatch.Handle (said "hi") None)].
Proof.
  apply (receive_priority_order adapter classes construct fold confidence
           slot_value body failure GroupMessage handler second third
           (said "hi") w1 0 [] "Application/2.2.0"); ready_demo.
Defined.

Lemma command_decides_witness :
  ∃ outs,
    (pass_traced (said "/ping 123")
       (attached ping handler (registered GroupMessage 5 handler w1))).1 = Ok outs
    ∧ outs.*1
      = match Matcher.matches fold (CommandMatcher (One "/ping") false [])
                (Dispatch.message_chain (said "/ping 123")) with
        | Some m => [(handler, Dispatch.Handle (said "/ping 123")
                                 (Some (Dispatch.PRaw (Matcher.argument m))))]
        | None => []
        end.
Proof.
  apply (command_decides adapter classes construct fold confidence slot_value
           body failure GroupMessage 5 handler (One "/ping") false []
           (said "/ping 123") w1 0 [] "Application/2.2.0"); ready_demo.
Defined.

Lemma param_convert_decides_witness :
  ∃ outs,
    (pass_traced (said "/ping 1  2")
       (attached (param_convert (Some TyList)) handler
          (attached ping handler (registered GroupMessage 5 handler w1)))).1
    = Ok outs
    ∧ outs.*1
      = match Matcher.matches fold (CommandMatcher (One "/ping") false [])
                (Dispatch.message_chain (said "/ping 1  2")), Some TyList with
        | Some m, (None | Some TyStr) =>
            [(handler, Dispatch.Handle (said "/ping 1  2")
                         (Some (Dispatch.PRaw (Matcher.argument m))))]
        | Some m, Some TyList =>
            [(handler, Dispatch.Handle (said "/ping 1  2")
                         (Some (Dispatch.PTokens
                                  (Dispatch.tokens (Matcher.argument m)))))]
        | _, _ => []
        end.
Proof.
  apply (param_convert_decides adapter classes construct fold confidence slot_value
           body failure GroupMessage 5 handler (One "/ping") false [] (Some TyList)
           (said "/ping 1  2") w1 0 [] "Application/2.2.0"); ready_demo.
Defined.

Lemma role_gates_witness :
  ∃ outs,
    (pass_traced (said "hi")
       (attached (admins (Some second)) handler
          (registered GroupMessage 5 handler w1))).1 = Ok outs
    ∧ outs.*1
      = if bool_decide (Dispatch.sender_role (said "hi")
                        ∈ Dispatch.roles_of (One Role.Admin))
        then [(handler, Dispatch.Handle (said "hi") None)]
        else match Some second with
             | Some g => [(g, Dispatch.Fallback (said "hi")
                                (Dispatch.message (said "hi"))
                                (Dispatch.message_chain (said "hi")))]
             | None => []
             end.
Proof.
  apply (role_gates adapter classes construct fold confidence slot_value
           body failure GroupMessage 5 handler (One Role.Admin) (Some second)
           (said "hi") w1 0 [] "Application/2.2.0"); ready_demo.
Defined.

(** The command [/ping] takes what follows the white space as its argument,
    and needs its first character. *)
Example ping_argument :
  Matcher.matches fold (CommandMatcher (One "/ping") false [])
    (Dispatch.message_chain (said "/ping 123"))
  = Some (Matcher.mkResult "/ping" "123")
  ∧ Matcher.matches fold (CommandMatcher (One "/ping") false [])
      (Dispatch.message_chain (said "ping 123")) = None.
Proof. by vm_compute. Qed.

(** A keyword is found anywhere in the text. *)
Example hello_anywhere :
  Matcher.matches fold (KeywordMatcher (One "hello") false [])
    (Dispatch.message_chain (said "say hello world"))
  = Some (Matcher.mkResult "hello" "say hello world").
Proof. by vm_compute. Qed.

(** Of two triggers that match, the longer decides the argument. *)
Example longest_trigger :
  Matcher.matches fold (CommandMatcher (Many ["/p"; "/p x"]) false [])
    (Dispatch.message_chain (said "/p x y"))
  = Some (Matcher.mkResult "/p x" "y").
Proof. by vm_compute. Qed.

(** One pass over the three listeners: [second] runs first and registers
    [fourth] with priority 2, which this pass does not visit; [hello] fails
    in [send_msg] and [third] is called all the same.  The next pass visits
    [fourth] in its place. *)
Example pass_isolates_and_snapshots :
  (pass_traced (said "hi") w3).1
  = Ok [(second, Dispatch.Handle (said "hi") None, Dispatch.Returned);
        (handler, Dispatch.Handle (said "hi") None,
         Dispatch.Failed (TypeError (NotIterable (TyClass Plain_ref))));
        (third, Dispatch.Handle (said "hi") None, Dispatch.Returned)]
  ∧ res_map (fmap (fst ∘ fst))
      (pass_traced (said "hi") (pass (said "hi") w3).2).1
    = Ok [second; fourth; handler; third].
Proof. by vm_compute. Qed.

(** The attachments compose: with [command] and [param_convert(list)] the
    handler receives the tokens of the argument; an NLP binding whose
    threshold the text does not reach keeps the handler from being
    called. *)
Example tokens_through_pass :
  res_map (fmap fst)
    (pass_traced (said "/ping  a b")
       (attached (param_convert (Some TyList)) handler
          (attached ping handler (registered GroupMessage 5 handler w1)))).1
  = Ok [(handler, Dispatch.Handle (said "/ping  a b")
                    (Some (Dispatch.PTokens ["a"; "b"])))].
Proof. by vm_compute. Qed.

Example nlp_below_threshold :
  (pass_traced (said "/ping a")
     (attached (nlp 2 ["weather"] [("city", "ns")]) handler
        (attached ping handler (registered GroupMessage 5 handler w1)))).1
  = Ok [].
Proof. by vm_compute. Qed.

(** A mapping needs the slots of an NLP binding: without one the
    conversion fails and the listener is skipped. *)
Example mapping_without_nlp :
  (pass_traced (said "/ping a")
     (attached (param_convert (Some TyDict)) handler
        (attached ping handler (registered GroupMessage 5 handler w1)))).1
  = Ok [].
Proof. by vm_compute. Qed.

(** The tokens handed to the handler, and the rejection of [dict] without
    an NLP binding. *)
Example tokens_of_ping :
  (pass_traced (said "/ping 1  2")
     (attached (param_convert (Some TyList)) handler
        (attached ping handler (registered GroupMessage 5 handler w1)))).1
  = Ok [(handler,
         Dispatch.Handle (said "/ping 1  2") (Some (Dispatch.PTokens ["1"; "2"])),
         Dispatch.Failed
           (TypeError (NotIterable (TyClass Plain_ref))))]
  ∧ (pass_traced (said "/ping 1  2")
       (attached (param_convert (Some TyDict)) handler
          (attached ping handler (registered GroupMessage 5 handler w1)))).1
    = Ok [].
Proof. by vm_compute. Qed.

(** A role attachment stored in the matcher slot, which only the private
    method allows, is read as no matcher and as no role: the handler is
    called for every message of every sender. *)
Example untyped_attachment_ignored :
  Dispatch.planned fold confidence slot_value (said "anything")
    (registry
       (run_calls adapter classes construct
          [CallOn (VClass GroupMessage) (VInt 5) (VFunc handler);
           CallAttach (ARole (One Role.Admin) None) "matcher" "" (VFunc handler)]
          w1))
  = [(handler, Dispatch.Handle (said "anything") None)].
Proof. by vm_compute. Qed.

End Examples.

End Serve.
