(* ===== verification/Sched.v ===== *)
(** * Sched: handlers as tasks of a cooperative scheduler

    The specification (section 5) has one dispatch pipeline driven by a
    single-threaded cooperative scheduler: the handlers of an event are
    tasks that may suspend without blocking the reception of events, and
    run without preemption to their next suspension point; a handler that
    never resumes stalls its task only.  [Serve] runs every handler to its
    end before the next; this file interleaves them.

    A task is a handler with what it has still to do: calls to the
    application, and possibly an await that never resumes ([Hang]); the
    suspension points are between the calls.  A state holds the world, the
    inbound events not yet taken and the pool of tasks.  A step takes the
    next event (its handlers become tasks, in registry order) or lets one
    task that can be resumed make its next call; a call that raises ends
    its task with a report, as in [Dispatch], and no other task.

    The scheduler is modelled from the specification: no scheduler is
    among the sources.  This file has the model and the lemmas on it that
    [Interleave] and [Suspend] use (a step keeps the invariant of the
    application, the tasks of a pool can be run one after the other, the
    states no step leaves); the theorems about the program are in those
    files, where what the adapter is handed depends on what [send_msg] and
    [MessageChain.create] do. *)

From Stdlib Require Import QArith.
From stdpp Require Import relations.
From S2P Require Import Prelude Python Chain Matchers Listeners Dispatch.
From S2P Require Import Bot Send Calls BotDemo Serve.
Import BotApplication Send Calls.

Module Sched.

(** What a handler does next: a call to the application, or an await that
    never resumes. *)
Inductive Op : Type :=
| Do (c : Call)
| Hang.

(** A task: a handler and what it has still to do. *)
Record Task : Type := mkTask { owner : PyFunc; todo : list Op }.

(** A task that waits for ever. *)
Definition stalled (t : Task) : bool :=
  match todo t with
  | Hang :: _ => true
  | _ => false
  end.

Section sched.
Context {R : Type} `{ListenerManagerOps R}.
Context (adapter : Adapter (R:=R)).
Context (classes : ClassTable).
Context (construct : ClassRef → PyVal → Element).
Context (fold : string → string).
Context (confidence : list string → string → Q).
Context (slot_value : string → string → option string).
Context (script : PyFunc → Dispatch.Invocation → list Op).
Context (failure : PyFunc → PyExc → LogRecord).

Local Abbreviation W := (World (R:=R)).

Record State : Type := mkState {
  world : W;
  inbox : list Dispatch.Event;
  pool : list Task
}.

(** The tasks an event starts: one for each call planned over the registry
    as it is when the event is taken, in registry order. *)
Definition spawn (ev : Dispatch.Event) (w : W) : list Task :=
  (λ fi, mkTask fi.1 (script fi.1 fi.2))
  <$> Dispatch.planned fold confidence slot_value ev (registry w).

(** The next inbound event is taken. *)
Definition arrive (s : State) : State :=
  match inbox s with
  | ev :: rest => mkState (world s) rest (pool s ++ spawn ev (world s))
  | [] => s
  end.

(** The task at position [i] runs to its next suspension point: it makes
    one call, or it ends when nothing is left; a call that raises is
    reported and ends the task.  A task that hangs does not run. *)
Definition run_task (i : nat) (s : State) : State :=
  match pool s !! i with
  | Some (mkTask f (Do c :: rest)) =>
      match do_call adapter classes construct c (world s) with
      | (Ok _, w') => mkState w' (inbox s) (<[i := mkTask f rest]> (pool s))
      | (Raise e, w') =>
          mkState (Serve.report failure f e w') (inbox s) (delete i (pool s))
      end
  | Some (mkTask f []) => mkState (world s) (inbox s) (delete i (pool s))
  | Some (mkTask _ (Hang :: _)) | None => s
  end.

(** What the scheduler may do next: take an event, or resume a task that
    can be resumed. *)
Inductive step : State → State → Prop :=
| step_arrive s : inbox s ≠ [] → step s (arrive s)
| step_task i t s :
    pool s !! i = Some t → stalled t = false → step s (run_task i s).

(** A task run alone as far as it goes: the world it leaves, and the task
    itself if it hangs. *)
Fixpoint run_ops (f : PyFunc) (ops : list Op) (w : W) : W * list Task :=
  match ops with
  | [] => (w, [])
  | Hang :: _ => (w, [mkTask f ops])
  | Do c :: rest =>
      match do_call adapter classes construct c w with
      | (Ok _, w') => run_ops f rest w'
      | (Raise e, w') => (Serve.report failure f e w', [])
      end
  end.

Definition finish (t : Task) (w : W) : W := (run_ops (owner t) (todo t) w).1.
Definition residue (t : Task) (w : W) : list Task :=
  (run_ops (owner t) (todo t) w).2.

(** A pool run task after task: the world, and the tasks left hanging. *)
Definition finish_all (p : list Task) (w : W) : W :=
  foldl (λ w t, finish t w) w p.

Fixpoint residues (p : list Task) (w : W) : list Task :=
  match p with
  | [] => []
  | t :: p' => residue t w ++ residues p' (finish t w)
  end.

(** ** The invariant *)

Lemma step_inv s s' :
  adapter_records adapter → step s s' → app_inv (world s) → app_inv (world s').
Proof.
  intros Hrec [s0 _|i t s0 _ _] Hinv.
  - unfold arrive. by destruct (inbox s0).
  - unfold run_task. destruct (pool s0 !! i) as [[f [|[c|] cs]]|]; try done.
    pose proof (app_inv_do_call adapter classes construct c _ Hrec Hinv) as Hc.
    destruct (do_call _ _ _ c (world s0)) as [[[]|e] w']; simpl in *; [done|].
    by apply app_inv_add_log.
Qed.

(** ** Tasks run one after the other *)

Lemma residue_stalled t w : Forall (λ t', stalled t' = true) (residue t w).
Proof.
  destruct t as [f ops]. unfold residue. simpl. revert w.
  induction ops as [|[c|] ops IH]; intros w; simpl; [done| |by repeat constructor].
  destruct (do_call _ _ _ c w) as [[[]|e] w']; [apply IH | done].
Qed.

Lemma residues_stalled p w : Forall (λ t, stalled t = true) (residues p w).
Proof.
  revert w. induction p as [|t p IH]; intros w; simpl; [done|].
  apply Forall_app. split; [apply residue_stalled | apply IH].
Qed.

(** A task can run as far as it goes before any other, wherever it is in
    the pool. *)
Lemma task_finishes pre t p ib w :
  rtc step (mkState w ib (pre ++ t :: p))
    (mkState (finish t w) ib (pre ++ residue t w ++ p)).
Proof.
  destruct t as [f ops]. unfold finish, residue. simpl. revert w.
  induction ops as [|[c|] ops IH]; intros w; simpl; [| |apply rtc_refl].
  - apply rtc_once.
    replace (mkState w ib (pre ++ p))
      with (run_task (length pre) (mkState w ib (pre ++ mkTask f [] :: p))).
    { by apply (step_task _ (mkTask f [])); [apply list_lookup_middle|]. }
    unfold run_task. simpl. by rewrite list_lookup_middle, delete_middle.
  - eapply rtc_l.
    { by apply (step_task (length pre) (mkTask f (Do c :: ops)));
        [apply list_lookup_middle|]. }
    unfold run_task. simpl. rewrite list_lookup_middle by done.
    destruct (do_call _ _ _ c w) as [[[]|e] w'].
    + rewrite insert_app_r_alt, Nat.sub_diag by done. apply IH.
    + rewrite delete_middle. apply rtc_refl.
Qed.

Lemma pool_finishes pre p ib w :
  rtc step (mkState w ib (pre ++ p))
    (mkState (finish_all p w) ib (pre ++ residues p w)).
Proof.
  revert pre w. induction p as [|t p IH]; intros pre w; [apply rtc_refl|].
  etrans; [apply task_finishes|]. simpl.
  rewrite !(assoc_L (++) pre). apply IH.
Qed.

(** A state no step leaves: no event waits and every task left hangs. *)
Lemma nf_stalled s :
  nf step s ↔ inbox s = [] ∧ Forall (λ t, stalled t = true) (pool s).
Proof.
  unfold nf, red. split.
  - intros Hnf. split.
    + destruct (inbox s) eqn:Hib; [done|]. destruct Hnf.
      exists (arrive s). apply step_arrive. by rewrite Hib.
    + apply Forall_lookup. intros i t Hi.
      destruct (stalled t) eqn:Hst; [done|]. destruct Hnf.
      exists (run_task i s). by apply (step_task i t).
  - intros [Hib Hp] [s' Hs]. inversion Hs as [? Hin|i t ? Hi Hst]; subst; [done|].
    rewrite Forall_lookup in Hp. specialize (Hp i t Hi). congruence.
Qed.

End sched.

(** ** A concrete run

    The three listeners of [Serve.Examples] and one event: the scheduler
    lets the last task go first; then the same with a handler that hangs
    after its first call. *)

Module Examples.
Import Demo Serve.Examples.

(** The handlers of [Serve.Examples], none of which hangs. *)
Definition script (f : PyFunc) (i : Dispatch.Invocation) : list Op :=
  Do <$> Serve.Examples.body f i.

(** The same handlers, but [third] awaits for ever after its first call. *)
Definition hanging (f : PyFunc) (i : Dispatch.Invocation) : list Op :=
  if decide (f = third)
  then take 1 (script f i) ++ Hang :: drop 1 (script f i)
  else script f i.

Definition start (w : World (R:=Registry)) (evs : list Dispatch.Event) : State :=
  mkState w evs [].

Definition run_at : nat → State → State :=
  Sched.run_task adapter classes construct failure.

Definition take_with (sc : PyFunc → Dispatch.Invocation → list Op)
    : State → State :=
  Sched.arrive fold confidence slot_value sc.

(** The tasks picked one after the other. *)
Definition schedule (picks : list nat) (s : State) : State :=
  foldl (λ s i, run_at i s) s picks.

Lemma w2_inv : app_inv w2.
Proof.
  exists 0, [entry1], "Application/2.2.0". split; [apply w2_ready|].
  split; repeat constructor.
Qed.

(** The event starts three tasks, in registry order; run last task first,
    all of them end, the failure of [hello] is reported once, and the
    listener [second] registered is in the registry. *)
Example interleaved_run :
  owner <$> pool (take_with script (start w3 [said "hi"])) = [second; handler; third]
  ∧ pool (schedule [2; 2; 1; 0; 0] (take_with script (start w3 [said "hi"]))) = []
  ∧ length (filter (λ r, log_level r = ERROR ∧ log_logger r = "Listener/hello")
              (log (world (schedule [2; 2; 1; 0; 0]
                             (take_with script (start w3 [said "hi"]))))))
    = 1
  ∧ (Listener.target ∘ ListenerManager.listener)
      <$> registry (world (schedule [2; 2; 1; 0; 0]
                             (take_with script (start w3 [said "hi"]))))
    = [second; fourth; handler; third].
Proof. by vm_compute. Qed.

(** With [third] hanging after its first call the other two tasks end as
    before, the log and the registry are the same, and the pool is left
    with the one task, which no schedule can resume. *)
Example hanging_run :
  (owner <$> pool (schedule [2; 2; 1; 0; 0]
                     (take_with hanging (start w3 [said "hi"]))) = [third])
  ∧ world (schedule [2; 2; 1; 0; 0] (take_with hanging (start w3 [said "hi"])))
    = world (schedule [2; 1; 0; 0] (take_with hanging (start w3 [said "hi"])))
  ∧ (Listener.target ∘ ListenerManager.listener)
      <$> registry (world (schedule [2; 1; 0; 0]
                             (take_with hanging (start w3 [said "hi"]))))
    = [second; fourth; handler; third].
Proof. by vm_compute. Qed.

End Examples.

End Sched.
