(* ===== verification/Interleave.v ===== *)
(** * Interleave: what reaches the adapter does not depend on the schedule

    [Sched] lets the scheduler pick any task at every step.  For handlers
    that answer with [send_msg] and nothing else, this file shows that the
    choice does not matter for what the adapter is handed: each send
    overwrites the class attributes of [MessageChain] before it reads them,
    so a task owes the adapter the same messages whatever ran before it.

    [pending] is what a task still owes; the outbox together with what the
    tasks of the pool owe is the same, up to the order, in every state of
    every run ([sends_owed]), so all complete runs hand the adapter the
    same messages ([sends_any_schedule]).  The order is a matter of the
    scheduler: lists are compared up to [Permutation]. *)

From Stdlib Require Import QArith.
From stdpp Require Import relations.
From S2P Require Import Prelude Python Chain Matchers Listeners Dispatch.
From S2P Require Import Bot Send Calls BotDemo Serve Sched.
Import BotApplication Send Calls Sched.

Module Interleave.

Section interleave.
Context {R : Type} `{ListenerManagerOps R}.
Context (adapter : Adapter (R:=R)).
Context (classes : ClassTable).
Context (construct : ClassRef → PyVal → Element).
Context (fold : string → string).
Context (confidence : list string → string → Q).
Context (slot_value : string → string → option string).
Context (script : PyFunc → Dispatch.Invocation → list Op).
Context (failure : PyFunc → PyExc → LogRecord).

Local Abbreviation State := (Sched.State (R:=R)).
Local Abbreviation step :=
  (Sched.step adapter classes construct fold confidence slot_value script failure).
Local Abbreviation run_task := (Sched.run_task adapter classes construct failure).
Implicit Types (s : State) (p : list Task) (t : Task).

(** A handler that only sends, and only stateless messages. *)
Definition sends_only (t : Task) : Prop :=
  Forall (λ o, match o with
               | Do (CallSend _ message) => stateless classes message
               | Do _ => False
               | Hang => True
               end) (todo t).

(** What a handler still hands to an adapter that records: the messages of
    its sends up to the first that raises, or to where it hangs. *)
Fixpoint pending (ops : list Op) : list (PyVal * PyVal * MessageChain.cls) :=
  match ops with
  | Do (CallSend target message) :: rest =>
      sent_of classes target message MessageChain.fresh
      ++ (if send_returns classes message MessageChain.fresh
          then pending rest else [])
  | _ => []
  end.

(** What the tasks of a pool owe the adapter. *)
Definition owed (p : list Task) : list (PyVal * PyVal * MessageChain.cls) :=
  p ≫= (pending ∘ todo).

(** ** The pool up to the order *)

Lemma owed_delete i p t :
  p !! i = Some t → owed p ≡ₚ pending (todo t) ++ owed (delete i p).
Proof. intros Hi. unfold owed. by rewrite (delete_Permutation p i t Hi) at 1. Qed.

Lemma owed_insert i p t t' :
  p !! i = Some t →
  owed (<[i:=t']> p) ≡ₚ pending (todo t') ++ owed (delete i p).
Proof.
  intros Hi. rewrite (owed_delete i _ t'), delete_insert_same; [done|].
  apply list_lookup_insert_eq. by eapply lookup_lt_Some.
Qed.

Lemma owed_stalled p : Forall (λ t, stalled t = true) p → owed p = [].
Proof.
  unfold owed. induction 1 as [|[f [|[c|] ops]] p Ht _ IH]; try done.
Qed.

(** ** One step *)

(** One send of a stateless message in a world of the invariant. *)
Lemma send_owed target message rest w :
  adapter_records adapter → app_inv w → stateless classes message →
  outbox (do_call adapter classes construct (CallSend target message) w).2
  ++ (if is_ok (do_call adapter classes construct (CallSend target message) w).1
      then pending rest else [])
  = outbox w ++ pending (Do (CallSend target message) :: rest).
Proof.
  intros Hrec (loc & r & lg & Hw & _) Hm. simpl.
  destruct (send_msg_effect adapter classes construct target message w
              (ready_has_adapter _ _ _ _ Hw) Hrec) as [-> ->].
  destruct (stateless_send classes target message (chain w) MessageChain.fresh Hm)
    as [-> ->].
  by rewrite <- (assoc_L (++)).
Qed.

Lemma step_owed s s' :
  adapter_records adapter → app_inv (world s) →
  inbox s = [] → Forall sends_only (pool s) → step s s' →
  (outbox (world s') ++ owed (pool s') ≡ₚ outbox (world s) ++ owed (pool s))
  ∧ inbox s' = [] ∧ Forall sends_only (pool s').
Proof.
  intros Hrec Hinv Hib Hp Hs. inversion Hs as [|i [f ops] ? Hi Hst]; subst; [done|].
  pose proof (proj1 (Forall_lookup _ _) Hp i _ Hi) as Ht.
  rewrite (owed_delete i _ _ Hi). unfold run_task, Sched.run_task. rewrite Hi.
  destruct ops as [|[c|] rest]; [| |done].
  - split_and!; [done..|by apply Forall_delete].
  - apply Forall_cons in Ht as [Hc Hrest]. destruct c as [| |target message]; try done.
    pose proof (send_owed target message rest (world s) Hrec Hinv Hc) as Hsend.
    destruct (do_call _ _ _ _ (world s)) as [[[]|e] w']; simpl in *.
    + split_and!; [|done|by apply Forall_insert].
      rewrite (owed_insert i _ _ (mkTask f rest) Hi). simpl.
      rewrite (assoc_L (++) (outbox w') (pending rest)), Hsend.
      by rewrite <- (assoc_L (++) (outbox (world s))).
    + split_and!; [|done|by apply Forall_delete].
      rewrite app_nil_r in Hsend.
      change (outbox (Serve.report failure f e w')) with (outbox w').
      by rewrite Hsend, <- (assoc_L (++) (outbox (world s))).
Qed.

(** ** Theorems *)

(** In every state of every run, the outbox and what the tasks still owe
    are, up to the order, the outbox and what the tasks owed at the start. *)
Lemma sends_owed s s' :
  adapter_records adapter → app_inv (world s) →
  inbox s = [] → Forall sends_only (pool s) → rtc step s s' →
  outbox (world s') ++ owed (pool s') ≡ₚ outbox (world s) ++ owed (pool s).
Proof.
  intros Hrec Hinv Hib Hp Hrun.
  induction Hrun as [|s1 s2 s3 Hs _ IH]; [done|].
  destruct (step_owed s1 s2 Hrec Hinv Hib Hp Hs) as (Hperm & Hib2 & Hp2).
  rewrite <- Hperm. apply IH; [|done..].
  by eapply (Sched.step_inv adapter classes construct).
Qed.

(** C15: what the adapter is handed does not depend on the schedule: when
    the handlers only send, and no message holds the class [MessageChain]
    itself, every complete run of the scheduler from a state without
    waiting events leaves in the outbox, up to the order, what was there
    and what each task hands over when it runs alone; so any two complete
    runs leave the same messages. *)
Theorem sends_any_schedule s s1 s2 :
  adapter_records adapter → app_inv (world s) →
  inbox s = [] → Forall sends_only (pool s) →
  rtc step s s1 → nf step s1 → rtc step s s2 → nf step s2 →
  outbox (world s1) ≡ₚ outbox (world s) ++ owed (pool s)
  ∧ outbox (world s1) ≡ₚ outbox (world s2).
Proof.
  intros Hrec Hinv Hib Hp Hr1 Hn1 Hr2 Hn2.
  assert (∀ s', rtc step s s' → nf step s' →
                outbox (world s') ≡ₚ outbox (world s) ++ owed (pool s)) as Hend.
  { intros s' Hr Hn. rewrite <- (sends_owed s s') by done.
    apply (Sched.nf_stalled adapter classes construct) in Hn as [_ Hst].
    by rewrite (owed_stalled _ Hst), app_nil_r. }
  split; [by apply Hend|]. etrans; [by apply Hend | symmetry; by apply Hend].
Qed.

End interleave.

(** ** A concrete pool

    Two handlers that answer with lists of one list of elements; the first
    also sends a string, which raises and ends it before its last send. *)

Module Examples.
Import Demo Serve.Examples.

Definition hello_msg : PyVal := VList [VList [hi; hi]].
Definition bye_msg : PyVal := VTuple [VList [VElem (mkElement Plain_ref "bye" "bye")]].

Definition t1 : Task :=
  mkTask handler [Do (CallSend friend hello_msg); Do (CallSend friend (VStr "x"));
                  Do (CallSend friend bye_msg)].
Definition t2 : Task := mkTask second [Do (CallSend friend bye_msg)].

Definition step : relation (State (R:=Registry)) :=
  Sched.step adapter classes construct fold confidence slot_value
    Sched.Examples.script failure.
Definition alone : Task → World (R:=Registry) → World (R:=Registry) :=
  finish adapter classes construct failure.
Definition left : Task → World (R:=Registry) → list Task :=
  residue adapter classes construct failure.

(** [t1] then [t2], and [t2] then [t1]. *)
Definition first : State :=
  mkState (alone t2 (alone t1 w2)) []
    ([] ++ residues adapter classes construct failure [t1; t2] w2).
Definition second_first : State :=
  mkState (alone t1 (alone t2 w2)) []
    ([] ++ left t1 (alone t2 w2) ++ left t2 w2 ++ []).

Lemma pool_sends_only : Forall (sends_only classes) [t1; t2].
Proof.
  repeat apply List.Forall_cons; try done; (split; [done|]);
    intros x items [= <-] [= <-] Hin; inv_elem_of; done.
Qed.

Lemma run_first : rtc step (mkState w2 [] [t1; t2]) first.
Proof. apply (pool_finishes _ _ _ _ _ _ _ _ [] [t1; t2]). Qed.

Lemma run_second_first : rtc step (mkState w2 [] [t1; t2]) second_first.
Proof.
  etrans; [apply (task_finishes _ _ _ _ _ _ _ _ [t1] t2 [])|].
  apply (task_finishes _ _ _ _ _ _ _ _ [] t1).
Qed.

Lemma nf_first : nf step first.
Proof. apply Sched.nf_stalled. split; [done|]. apply residues_stalled. Qed.

Lemma nf_second_first : nf step second_first.
Proof.
  apply Sched.nf_stalled. split; [done|]. simpl.
  rewrite !Forall_app. split_and!; try apply residue_stalled; done.
Qed.

Lemma sends_any_schedule_witness :
  outbox (world first) ≡ₚ outbox w2 ++ owed classes [t1; t2]
  ∧ outbox (world first) ≡ₚ outbox (world second_first).
Proof.
  apply (sends_any_schedule adapter classes construct fold confidence slot_value
           Sched.Examples.script failure (mkState w2 [] [t1; t2]) first second_first).
  - apply adapter_records_demo.
  - apply Sched.Examples.w2_inv.
  - done.
  - apply pool_sends_only.
  - apply run_first.
  - apply nf_first.
  - apply run_second_first.
  - apply nf_second_first.
Defined.

(** The two schedules hand over the same two messages in different
    orders; the last send of [t1] is never made. *)
Example orders_differ :
  (λ x, MessageChain._result x.2) <$> outbox (world first)
  = [Some "hihi"; Some "bye"]
  ∧ (λ x, MessageChain._result x.2) <$> outbox (world second_first)
    = [Some "bye"; Some "hihi"]
  ∧ pool first = [] ∧ pool second_first = [].
Proof. by vm_compute. Qed.

End Examples.

End Interleave.
