(* ===== verification/Suspend.v ===== *)
(** * Suspend: handlers suspended inside the adapter

    The specification (section 5) lets a handler suspend on outbound I/O.
    In [Sched] a handler is suspended between its calls to the application;
    here it may also be suspended inside [send_msg], at the [await] of the
    adapter's [send_message]: the adapter has been handed the target and
    the chain, and renders the chain ([to_code]) when it is resumed.

    The chain the adapter holds is the class [MessageChain] ([create]
    returns the class), and [to_code] reads the attribute of the class: what
    is transmitted is what the class holds when the adapter resumes, which
    another handler may have overwritten in between.

    A state has the world, the events waiting, the pool of tasks and the
    wire: the texts transmitted, each with its target.  A task that is
    inside the adapter holds its request ([held]).  The scheduler and the
    adapter that renders on resume are modelled from the specification;
    what the file shows of the program is that two handlers suspended
    together transmit the message of the second to both targets
    ([suspended_sends_cross]), and that what the adapter is handed is the
    same under every schedule ([suspend_hands_over], from [Interleave]):
    only the texts transmitted differ. *)

From Stdlib Require Import QArith.
From stdpp Require Import relations.
From S2P Require Import Prelude Python Chain Matchers Listeners Dispatch.
From S2P Require Import Bot Send Calls BotDemo Serve Sched Interleave.
Import BotApplication Send Calls.

Module Suspend.

(** A task: a handler, the request its [send_msg] is suspended on when it is
    inside the adapter (the target and the chain), and what it has still to
    do after that. *)
Record Task : Type := mkTask {
  owner : PyFunc;
  held : option (PyVal * PyVal);
  todo : list Sched.Op
}.

(** A task that waits for ever: it is not inside the adapter, and its next
    await never resumes. *)
Definition stalled (t : Task) : bool :=
  match held t, todo t with
  | None, Sched.Hang :: _ => true
  | _, _ => false
  end.

(** A task of [Sched] starts outside the adapter; a task seen from [Sched]
    is its handler and what it has still to do. *)
Definition lift (t : Sched.Task) : Task :=
  mkTask (Sched.owner t) None (Sched.todo t).
Definition forget_task (t : Task) : Sched.Task :=
  Sched.mkTask (owner t) (todo t).

(** [chain.to_code()] on what the adapter holds: the class [MessageChain]
    reads its attribute. *)
Definition render (ch : PyVal) : py MessageChain.cls PyVal :=
  MessageChain.item_to_code ch.

Section suspend.
Context {R : Type} `{ListenerManagerOps R}.
Context (adapter : Adapter (R:=R)).
Context (classes : ClassTable).
Context (construct : ClassRef → PyVal → Element).
Context (fold : string → string).
Context (confidence : list string → string → Q).
Context (slot_value : string → string → option string).
Context (script : PyFunc → Dispatch.Invocation → list Sched.Op).
Context (failure : PyFunc → PyExc → LogRecord).

Local Abbreviation W := (World (R:=R)).

Record State : Type := mkState {
  world : W;
  inbox : list Dispatch.Event;
  pool : list Task;
  wire : list (PyVal * PyVal)
}.

(** The next inbound event is taken: its handlers become tasks. *)
Definition arrive (s : State) : State :=
  match inbox s with
  | ev :: rest =>
      mkState (world s) rest
        (pool s ++ (lift <$> Sched.spawn fold confidence slot_value script ev (world s)))
        (wire s)
  | [] => s
  end.

(** What a call hands to the adapter, if it does: the request [send_msg]
    is suspended on. *)
Definition request (c : Call) (w : W) : option (PyVal * PyVal) :=
  match c with
  | CallSend target message =>
      match sent_of classes target message (chain w) with
      | [(tg, ch, _)] => Some (tg, ch)
      | _ => None
      end
  | _ => None
  end.

(** A task outside the adapter makes its next call: the call runs up to
    the await of the adapter, if it reaches it; a call that raises ends the
    task with a report. *)
Definition begin (i : nat) (f : PyFunc) (c : Call) (rest : list Sched.Op)
    (s : State) : State :=
  match do_call adapter classes construct c (world s) with
  | (Ok _, w') =>
      mkState w' (inbox s)
        (<[i := mkTask f (request c (world s)) rest]> (pool s)) (wire s)
  | (Raise e, w') =>
      mkState (Serve.report failure f e w') (inbox s) (delete i (pool s)) (wire s)
  end.

(** The adapter resumes with the request it holds: it renders the chain as
    the class is now and transmits the text.  When rendering raises, the
    exception leaves the await of [send_msg], whose [except] clause logs
    it and raises it again: the task ends with a report. *)
Definition resume (i : nat) (f : PyFunc) (tg ch : PyVal) (rest : list Sched.Op)
    (s : State) : State :=
  match (render ch (chain (world s))).1 with
  | Ok text =>
      mkState (world s) (inbox s) (<[i := mkTask f None rest]> (pool s))
        (wire s ++ [(tg, text)])
  | Raise e =>
      match send_handler adapter e (world s) with
      | (Raise e', w') =>
          mkState (Serve.report failure f e' w') (inbox s) (delete i (pool s))
            (wire s)
      | (Ok _, w') =>
          mkState w' (inbox s) (<[i := mkTask f None rest]> (pool s)) (wire s)
      end
  end.

(** The task at position [i] runs to its next suspension point. *)
Definition run_task (i : nat) (s : State) : State :=
  match pool s !! i with
  | Some (mkTask f (Some (tg, ch)) rest) => resume i f tg ch rest s
  | Some (mkTask f None (Sched.Do c :: rest)) => begin i f c rest s
  | Some (mkTask f None []) =>
      mkState (world s) (inbox s) (delete i (pool s)) (wire s)
  | Some (mkTask _ None (Sched.Hang :: _)) | None => s
  end.

(** What the scheduler may do next. *)
Inductive step : State → State → Prop :=
| step_arrive s : inbox s ≠ [] → step s (arrive s)
| step_task i t s :
    pool s !! i = Some t → stalled t = false → step s (run_task i s).

(** ** Sends resumed at once

    A task run to the end of its next call: when the call suspends inside
    the adapter, the adapter is resumed before any other task runs. *)
Definition settle (i : nat) (s : State) : State :=
  match pool s !! i with
  | Some (mkTask _ (Some _) _) => run_task i s
  | _ => s
  end.

Definition run_atomic (i : nat) (s : State) : State := settle i (run_task i s).

(** The state as [Sched] has it. *)
Definition forget (s : State) : Sched.State (R:=R) :=
  Sched.mkState (world s) (inbox s) (forget_task <$> pool s).

(** The texts of the requests the adapter was handed, each rendered as the
    class was when it was handed over. *)
Definition texts (o : list (PyVal * PyVal * MessageChain.cls))
  : list (PyVal * PyVal) :=
  omap (λ x, (λ r, (x.1.1, VStr r)) <$> MessageChain._result x.2) o.

(** No message sent is an instance of [MessageChain] ([create] returns
    the class, whose type is [type]). *)
Definition no_instance (ops : list Sched.Op) : Prop :=
  Forall (λ o, match o with
               | Sched.Do (CallSend _ message) =>
                   branch classes (py_type message) ≠ BChain
               | _ => True
               end) ops.

(** What a call hands to an adapter that records. *)
Definition call_sent (c : Call) (w : W) : list (PyVal * PyVal * MessageChain.cls) :=
  match c with
  | CallSend target message => sent_of classes target message (chain w)
  | _ => []
  end.

(** What the tasks inside the adapter hold is the class, and the class has
    a result. *)
Definition rendered (c : MessageChain.cls) (p : list Task) : Prop :=
  Forall (λ t, ∀ tg ch, held t = Some (tg, ch) →
               ch = VClass MessageChain.ref ∧ is_Some (MessageChain._result c)) p.

(** A state of a run: the invariant of the application holds, and the
    adapter can render what it holds. *)
Definition sound (s : State) : Prop :=
  app_inv (world s) ∧ Forall (no_instance ∘ todo) (pool s)
  ∧ rendered (chain (world s)) (pool s).

(** The text of a message: what [to_code] returns right after the chain of
    the message has been created. *)
Definition text_of (message : PyVal) : option string :=
  match sent_of classes VNone message MessageChain.fresh with
  | [x] => MessageChain._result x.2
  | _ => None
  end.

(** A state no step leaves: no event waits and every task left hangs
    outside the adapter. *)
Lemma suspend_nf_stalled s :
  nf step s ↔ inbox s = [] ∧ Forall (λ t, stalled t = true) (pool s).
Proof.
  unfold nf, red. split.
  - intros Hnf. split.
    + destruct (inbox s) eqn:Hib; [done|]. destruct Hnf.
      exists (arrive s). apply step_arrive. by rewrite Hib.
    + apply Forall_lookup. intros i t Hi.
      destruct (stalled t) eqn:Hst; [done|]. destruct Hnf.
      exists (run_task i s). by apply (step_task i t).
  - intros [Hib Hp] [s' Hs]. inversion Hs as [? Hin|i t ? Hi Hst]; subst; [done|].
    rewrite Forall_lookup in Hp. specialize (Hp i t Hi). congruence.
Qed.

(** ** One send, step by step *)

Lemma render_class c r :
  MessageChain._result c = Some r →
  (render (VClass MessageChain.ref) c).1 = Ok (VStr r).
Proof. intros Hr. unfold render. by rewrite MessageChain.run_item_to_code, Hr. Qed.

(** A stateless message with a text is handed over from every state of the
    class, as the class itself, and the class then renders that text. *)
Lemma text_of_sent target message r c :
  stateless classes message → text_of message = Some r →
  send_returns classes message c = true
  ∧ ∃ c', sent_of classes target message c
          = [(target, VClass MessageChain.ref, c')]
          ∧ MessageChain._result c' = Some r.
Proof.
  intros Hm. destruct (stateless_send classes target message c MessageChain.fresh Hm)
    as [-> ->]. destruct Hm as [_ Hm].
  unfold text_of, send_returns, sent_of.
  destruct (branch classes (py_type message)); try done.
  destruct (seq_items message) as [|x [|y l]]; try done.
  pose proof (MessageChain.create_value x MessageChain.fresh) as Hv.
  destruct (MessageChain.create x MessageChain.fresh) as [[v|e] c']; [|done].
  rewrite (Hv v eq_refl). eauto.
Qed.

(** The call is made: the task is inside the adapter, and the class
    renders the text of its message. *)
Lemma step_begin i f target message rest r s :
  adapter_records adapter → app_inv (world s) →
  pool s !! i = Some (mkTask f None (Sched.Do (CallSend target message) :: rest)) →
  stateless classes message → text_of message = Some r →
  ∃ w', step s (mkState w' (inbox s)
                  (<[i := mkTask f (Some (target, VClass MessageChain.ref)) rest]>
                     (pool s)) (wire s))
        ∧ app_inv w' ∧ MessageChain._result (chain w') = Some r.
Proof.
  intros Hrec Hinv Hi Hm Hr.
  exists (do_call adapter classes construct (CallSend target message) (world s)).2.
  pose proof Hinv as (loc & r0 & lg & Hw%ready_has_adapter & _).
  destruct (text_of_sent target message r (chain (world s)) Hm Hr)
    as (Hret & c' & Hsent & Hc').
  destruct (send_msg_request adapter classes construct target message (world s)
              (target, VClass MessageChain.ref, c') Hw Hrec (proj1 Hm)) as (_ & Hch & _);
    [rewrite Hsent; by left|].
  split_and!; [|by apply app_inv_do_call|by simpl; rewrite Hch].
  replace (mkState _ _ _ _) with (run_task i s); [by eapply step_task|].
  unfold run_task, begin, request. rewrite Hi, Hsent.
  destruct (send_msg_effect adapter classes construct target message (world s) Hw Hrec)
    as [Hok _]. rewrite Hret in Hok. simpl.
  by destruct (send_msg _ _ _ target message (world s)) as [[[]|e] w'].
Qed.

(** The adapter resumes: it transmits what the class renders now. *)
Lemma step_resume i f target rest r w ib p wi :
  p !! i = Some (mkTask f (Some (target, VClass MessageChain.ref)) rest) →
  MessageChain._result (chain w) = Some r →
  step (mkState w ib p wi)
    (mkState w ib (<[i := mkTask f None rest]> p) (wi ++ [(target, VStr r)])).
Proof.
  intros Hi Hr.
  replace (mkState w ib (<[i:=_]> p) _) with (run_task i (mkState w ib p wi));
    [by eapply step_task|].
  unfold run_task, resume. simpl. by rewrite Hi, (render_class _ r).
Qed.

(** ** Two handlers that send *)

Section two_sends.
Context (i j : nat) (f1 f2 : PyFunc) (tg1 tg2 m1 m2 : PyVal).
Context (rest1 rest2 : list Sched.Op) (r1 r2 : string) (s : State).
Context (Hrec : adapter_records adapter) (Hinv : app_inv (world s)).
Context (Hij : i ≠ j).
Context (Hi : pool s !! i
              = Some (mkTask f1 None (Sched.Do (CallSend tg1 m1) :: rest1))).
Context (Hj : pool s !! j
              = Some (mkTask f2 None (Sched.Do (CallSend tg2 m2) :: rest2))).
Context (Hm1 : stateless classes m1) (Hm2 : stateless classes m2).
Context (Hr1 : text_of m1 = Some r1) (Hr2 : text_of m2 = Some r2).

(** The pool when both sends are over. *)
Definition sent_pool : list Task :=
  <[j := mkTask f2 None rest2]> (<[i := mkTask f1 None rest1]> (pool s)).

(** The next step of a run that ends with the step [H]: the task at [i]
    sends, or the adapter resumes its request. *)
Local Ltac then_begin H i f tg m rest r Hinv' w Hs Hc :=
  match type of H with
  | step _ ?s1 =>
      destruct (step_begin i f tg m rest r s1 Hrec Hinv') as (w & Hs & _ & Hc);
      [by simpl; rewrite list_lookup_insert_ne|done..|simpl in Hs]
  end.
Local Ltac then_resume H i f tg rest r Hc Hs :=
  match type of H with
  | step _ (mkState ?w ?ib ?p ?wi) =>
      assert (step (mkState w ib p wi)
                (mkState w ib (<[i := mkTask f None rest]> p) (wi ++ [(tg, VStr r)])))
        as Hs;
      [apply step_resume; [|exact Hc];
       rewrite ?list_lookup_insert_ne by done;
       apply list_lookup_insert_eq; by rewrite ?length_insert|]
  end.

(** The first handler sends and the adapter transmits, then the second. *)
Lemma run_apart :
  ∃ s', rtc step s s' ∧ pool s' = sent_pool
        ∧ wire s' = wire s ++ [(tg1, VStr r1); (tg2, VStr r2)].
Proof.
  pose proof (lookup_lt_Some _ _ _ Hi) as Hlen.
  pose proof (lookup_lt_Some _ _ _ Hj) as Hlenj.
  destruct (step_begin i f1 tg1 m1 rest1 r1 s) as (w1 & Hs1 & Hinv1 & Hc1); try done.
  then_resume Hs1 i f1 tg1 rest1 r1 Hc1 Hs2. rewrite list_insert_insert_eq in Hs2.
  then_begin Hs2 j f2 tg2 m2 rest2 r2 Hinv1 w2 Hs3 Hc2.
  then_resume Hs3 j f2 tg2 rest2 r2 Hc2 Hs4. rewrite list_insert_insert_eq in Hs4.
  eexists. split; [by do 4 (eapply rtc_l; [eassumption|])|].
  split; [done|]. simpl. by rewrite <- (assoc_L (++)).
Qed.

(** Both handlers send before the adapter resumes either request. *)
Lemma run_together :
  ∃ s', rtc step s s' ∧ pool s' = sent_pool
        ∧ wire s' = wire s ++ [(tg1, VStr r2); (tg2, VStr r2)].
Proof.
  pose proof (lookup_lt_Some _ _ _ Hi) as Hlen.
  pose proof (lookup_lt_Some _ _ _ Hj) as Hlenj.
  destruct (step_begin i f1 tg1 m1 rest1 r1 s) as (w1 & Hs1 & Hinv1 & _); try done.
  then_begin Hs1 j f2 tg2 m2 rest2 r2 Hinv1 w2 Hs2 Hc2.
  then_resume Hs2 i f1 tg1 rest1 r2 Hc2 Hs3.
  then_resume Hs3 j f2 tg2 rest2 r2 Hc2 Hs4.
  rewrite insert_twice_ne in Hs4 by done.
  eexists. split; [by do 4 (eapply rtc_l; [eassumption|])|].
  split; [done|]. simpl. by rewrite <- (assoc_L (++)).
Qed.

(** C16: a handler suspended inside the adapter transmits what the class
    holds when the adapter resumes: two handlers that each send one message
    have a run in which each target is sent the text of its message, and a
    run, in which both send before the adapter resumes, where both targets
    are sent the text of the second message and the text of the first is
    never transmitted. *)
Theorem suspended_sends_cross :
  (∃ s', rtc step s s' ∧ pool s' = sent_pool
         ∧ wire s' = wire s ++ [(tg1, VStr r1); (tg2, VStr r2)])
  ∧ (∃ s', rtc step s s' ∧ pool s' = sent_pool
           ∧ wire s' = wire s ++ [(tg1, VStr r2); (tg2, VStr r2)]).
Proof. split; [apply run_apart | apply run_together]. Qed.

End two_sends.

Lemma forget_arrive s :
  forget (arrive s)
  = Sched.arrive fold confidence slot_value script (forget s).
Proof.
  unfold forget, arrive, Sched.arrive. simpl.
  destruct (inbox s) eqn:Hib; simpl; [by rewrite Hib|].
  rewrite fmap_app, <- list_fmap_compose. do 2 f_equal.
  etrans; [|apply list_fmap_id]. apply list_fmap_ext. by intros _ [] _.
Qed.

(** What a call hands over is nothing, or one request for the class with a
    result; nothing when the call raises. *)
Lemma call_sent_cases c ops w :
  adapter_records adapter → app_inv w → no_instance (Sched.Do c :: ops) →
  outbox (do_call adapter classes construct c w).2 = outbox w ++ call_sent c w
  ∧ match request c w with
    | Some (tg, ch) =>
        is_ok (do_call adapter classes construct c w).1 = true
        ∧ ch = VClass MessageChain.ref
        ∧ ∃ r, MessageChain._result
                 (chain (do_call adapter classes construct c w).2) = Some r
               ∧ texts (call_sent c w) = [(tg, VStr r)]
    | None => call_sent c w = []
    end.
Proof.
  intros Hrec Hinv [Hc _]%Forall_cons.
  pose proof Hinv as (loc & r0 & lg & Hw%ready_has_adapter & _).
  destruct c as [| |target message];
    [split; [rewrite app_nil_r; by apply frame_do_call|done]..|].
  simpl. destruct (send_msg_effect adapter classes construct target message w Hw Hrec)
    as [Hok ->]. split; [done|].
  pose proof (λ x, send_msg_request adapter classes construct target message w x
                     Hw Hrec Hc) as Hreq.
  revert Hok. unfold send_returns, sent_of in *.
  destruct (branch classes (py_type message)); try done.
  destruct (seq_items message) as [|x [|y l]]; try done.
  destruct (MessageChain.create x (chain w)) as [[v|e] ch]; [|done]. intros Hok.
  destruct (Hreq (target, v, ch)) as ([= ->] & -> & r & Hr); [by left|].
  split_and!; [done..|]. exists r. unfold texts. simpl in *. by rewrite Hr.
Qed.

(** ** Every run, seen from [Sched] *)

Section forgotten.
Context (Hrec : adapter_records adapter).
Context (Hscript : ∀ f iv, no_instance (script f iv)).

Local Abbreviation sched_step :=
  (Sched.step adapter classes construct fold confidence slot_value script failure).

Lemma rendered_do_call c w p :
  app_inv w → rendered (chain w) p →
  rendered (chain (do_call adapter classes construct c w).2) p.
Proof.
  intros Hinv Hp. eapply Forall_impl; [exact Hp|].
  intros t Ht tg ch [-> Hr]%Ht. split; [done|].
  destruct c as [ev pr f|v ty d f|target message];
    [edestruct (frame_do_call adapter classes construct) as [-> _]; by eauto..|].
  destruct Hinv as (loc & r & lg & Hw%ready_has_adapter & _).
  by apply send_msg_keeps_result.
Qed.

(** A task outside the adapter runs: the step of [Sched]. *)
Lemma forget_run_task i f ops s :
  pool s !! i = Some (mkTask f None ops) →
  forget (run_task i s)
  = Sched.run_task adapter classes construct failure i (forget s).
Proof.
  intros Hi. unfold run_task, Sched.run_task, forget at 2 3 4 5. simpl.
  rewrite list_lookup_fmap, Hi. simpl. destruct ops as [|[c|] ops]; [|unfold begin|done].
  - unfold forget. simpl. by rewrite list_fmap_delete.
  - destruct (do_call _ _ _ c (world s)) as [[[]|e] w']; unfold forget; simpl;
      by rewrite ?list_fmap_insert, ?list_fmap_delete.
Qed.

(** The adapter resumes: nothing [Sched] can see changes. *)
Lemma forget_resume i f tg ch rest s :
  sound s → pool s !! i = Some (mkTask f (Some (tg, ch)) rest) →
  forget (run_task i s) = forget s ∧ sound (run_task i s).
Proof.
  intros (Hinv & Hn & Hr) Hi.
  destruct (proj1 (Forall_lookup _ _) Hr i _ Hi tg ch eq_refl) as [-> [r Hres]].
  pose proof (proj1 (Forall_lookup _ _) Hn i _ Hi) as Hrest.
  unfold run_task, resume. rewrite Hi, (render_class _ r) by done.
  unfold forget, sound. simpl. rewrite list_fmap_insert. split.
  - f_equal. apply list_insert_id. by rewrite list_lookup_fmap, Hi.
  - split_and!; [done|by apply Forall_insert|by apply Forall_insert].
Qed.

(** A task outside the adapter runs: the state stays sound. *)
Lemma sound_run_task i f ops s :
  sound s → pool s !! i = Some (mkTask f None ops) → sound (run_task i s).
Proof.
  intros (Hinv & Hn & Hr) Hi. pose proof (proj1 (Forall_lookup _ _) Hn i _ Hi) as Hops.
  unfold run_task. rewrite Hi. destruct ops as [|[c|] ops]; [|unfold begin|done].
  - split_and!; [done|by apply Forall_delete..].
  - destruct (call_sent_cases c ops (world s) Hrec Hinv Hops) as [_ Hreq].
    pose proof (app_inv_do_call adapter classes construct c _ Hrec Hinv) as Hinv'.
    pose proof (rendered_do_call c _ _ Hinv Hr) as Hr'.
    apply Forall_cons in Hops as [_ Hops].
    destruct (do_call _ _ _ c (world s)) as [[[]|e] w']; simpl in *.
    + split_and!; [done|by apply Forall_insert|]. apply Forall_insert; [done|].
      intros tg ch Hh. simpl in Hh. rewrite Hh in Hreq.
      destruct Hreq as (_ & -> & r & Hres & _). simpl. by rewrite Hres.
    + split_and!; [by apply app_inv_add_log|by apply Forall_delete..].
Qed.

(** A step is a step of [Sched], or one [Sched] does not see. *)
Lemma step_sound s s' :
  sound s → step s s' →
  sound s' ∧ (forget s' = forget s ∨ sched_step (forget s) (forget s')).
Proof.
  intros Hs Hst. revert Hs. destruct Hst as [s0 Hin|i [f [[tg ch]|] ops] s0 Hi Hst];
    intros Hs.
  - split; [|right; rewrite forget_arrive; by apply Sched.step_arrive].
    destruct Hs as (Hinv & Hn & Hr). unfold arrive, sound, rendered, Sched.spawn.
    destruct (inbox s0); [done|]. simpl. rewrite !Forall_app, !Forall_fmap.
    split_and!; try done; apply Forall_true; intros [g iv]; [apply Hscript|done].
  - destruct (forget_resume i f tg ch ops s0 Hs Hi) as [-> Hs']. by split; [|left].
  - split; [by eapply sound_run_task|right].
    rewrite (forget_run_task i f ops s0 Hi).
    apply (Sched.step_task _ _ _ _ _ _ _ _ i (Sched.mkTask f ops)); [|done].
    simpl. by rewrite list_lookup_fmap, Hi.
Qed.

(** Every run, seen from [Sched], is a run of its scheduler. *)
Lemma run_sound s s' :
  sound s → rtc step s s' → sound s' ∧ rtc sched_step (forget s) (forget s').
Proof.
  intros Hs Hrun. induction Hrun as [|s1 s2 s3 Hst _ IH]; [done|].
  destruct (step_sound s1 s2 Hs Hst) as [Hs2 Hu]. destruct (IH Hs2) as [Hs3 Hrun].
  split; [done|]. destruct Hu as [<-|Hu]; [done|by eapply rtc_l].
Qed.

(** So what the adapter is handed does not depend on the schedule, whether
    or not handlers are suspended inside it: for handlers that only send,
    every complete run leaves in the outbox, up to the order, what was
    there and what each task hands over when it runs alone. *)
Lemma suspend_hands_over s s' :
  sound s → inbox s = [] →
  Forall (Interleave.sends_only classes) (forget_task <$> pool s) →
  rtc step s s' → nf step s' →
  outbox (world s')
  ≡ₚ outbox (world s) ++ Interleave.owed classes (forget_task <$> pool s).
Proof.
  intros Hs Hib Hp Hrun [Hib' Hst]%suspend_nf_stalled.
  destruct (run_sound s s' Hs Hrun) as [_ Hrun'].
  rewrite <- (Interleave.sends_owed adapter classes construct fold confidence
                slot_value script failure (forget s) (forget s') Hrec (proj1 Hs)
                Hib Hp Hrun').
  simpl. rewrite Interleave.owed_stalled, app_nil_r; [done|].
  rewrite Forall_fmap. eapply Forall_impl; [exact Hst|].
  by intros [f [h|] [|[c|] ops]].
Qed.

End forgotten.

End suspend.

(** ** Two handlers, two targets

    [handler] answers the friend with two plain elements, [second] answers
    someone else with one. *)
Module Examples.
Import Demo Serve.Examples Interleave.Examples.

Definition stranger : PyVal := VInt 10002.

Definition a : Task := mkTask handler None [Sched.Do (CallSend friend hello_msg)].
Definition b : Task := mkTask second None [Sched.Do (CallSend stranger bye_msg)].

Definition start : State (R:=Registry) := mkState w2 [] [a; b] (texts (outbox w2)).

Definition step : relation (State (R:=Registry)) :=
  Suspend.step adapter classes construct fold confidence slot_value
    Sched.Examples.script failure.
Definition run_at : nat → State → State :=
  run_task adapter classes construct failure.
Definition atomic_at : nat → State → State :=
  run_atomic adapter classes construct failure.

Lemma stateless_demo :
  stateless classes hello_msg ∧ stateless classes bye_msg.
Proof.
  split; (split; [done|]); intros x items [= <-] [= <-] Hin; inv_elem_of; done.
Qed.

Lemma suspended_sends_cross_witness :
  (∃ s', rtc step start s'
         ∧ pool s' = [mkTask handler None []; mkTask second None []]
         ∧ wire s' = wire start ++ [(friend, VStr "hihi"); (stranger, VStr "bye")])
  ∧ (∃ s', rtc step start s'
           ∧ pool s' = [mkTask handler None []; mkTask second None []]
           ∧ wire s' = wire start ++ [(friend, VStr "bye"); (stranger, VStr "bye")]).
Proof.
  apply (suspended_sends_cross adapter classes construct fold confidence slot_value
           Sched.Examples.script failure 0 1 handler second friend stranger
           hello_msg bye_msg [] [] "hihi" "bye" start);
    first [done | apply stateless_demo | apply Sched.Examples.w2_inv].
Defined.

(** The four steps of the crossed run: the friend is sent the answer meant
    for someone else, and the text of its own answer is lost; with the
    sends resumed at once each is sent its own. *)
Example crossed_run :
  wire (run_at 1 (run_at 0 (run_at 1 (run_at 0 start))))
  = [(friend, VStr "bye"); (stranger, VStr "bye")]
  ∧ wire (atomic_at 1 (atomic_at 0 start))
    = [(friend, VStr "hihi"); (stranger, VStr "bye")]
  ∧ texts (outbox (world (run_at 1 (run_at 0 (run_at 1 (run_at 0 start))))))
    = [(friend, VStr "hihi"); (stranger, VStr "bye")].
Proof. by vm_compute. Qed.

End Examples.

End Suspend.
