(* ===== verification/Mirai.v ===== *)
(** * Mirai: the adapter of one platform ([src/adapters/mirai/adapter.py])

    [MiraiAdapter] is the one adapter among the sources.  Its constructor
    copies the connection settings of a [MiraiConfig], builds a logger and a
    listener manager of its own, and then names classes and a global that
    the module never defines; [__request_api] is an HTTP GET with one
    [except] clause; the queries and the listening loop are stubs.

    The adapter object is a record of optional attributes (an attribute that
    was never assigned is [None] here and an [AttributeError] on reading);
    the names a module defines are a list, and the network is a function
    from the URL to the result of [requests.get], given as a section
    variable. *)

From stdpp Require Import pretty.
From S2P Require Import Prelude Python Listeners Bot.
Import BotApplication.

(** ** The settings ([JustBot.adapters.mirai.config], not among the sources) *)

Module MiraiConfig.

Record t : Type := mk {
  ws_host : string;
  ws_port : Z;
  http_host : string;
  http_port : Z;
  session_key : string;
  ws_reverse : bool
}.

End MiraiConfig.

Module MiraiAdapter.

(** The names the module binds: its imports (lines 1-8) and its class
    (line 11). *)
Definition module_globals : list string :=
  ["Adapter"; "ListenerManager"; "MiraiConfig"; "MiraiMessageHandler";
   "MiraiSenderHandler"; "Logger"; "HTTP_PROTOCOL"; "WS_PROTOCOL"; "sync_get";
   "MiraiAdapter"].

(** The builtins the file names. *)
Definition builtins : list string := ["ConnectionError"; "Exception"].

Definition MiraiUtils_ref : ClassRef :=
  mkClassRef "JustBot.adapters.mirai.utils" "MiraiUtils".
Definition MiraiSenderHandler_ref : ClassRef :=
  mkClassRef "JustBot.adapters.mirai.sender_handler" "MiraiSenderHandler".
Definition MiraiMessageHandler_ref : ClassRef :=
  mkClassRef "JustBot.adapters.mirai.message_handler" "MiraiMessageHandler".
Definition ref : ClassRef := mkClassRef "JustBot.adapters.mirai.adapter" "MiraiAdapter".

(** The attributes of an adapter object. *)
Record self : Type := mkSelf {
  name : option string;
  ws_host : option string;
  ws_port : option Z;
  http_host : option string;
  http_port : option Z;
  session_key : option string;
  ws_reverse : option bool;
  logger : option string;
  listener_manager : option nat;
  utils : option PyVal;
  sender_handler : option PyVal;
  message_handler : option PyVal
}.

(** A new object: no attribute yet. *)
Definition blank : self :=
  mkSelf None None None None None None None None None None None None.

Section adapter.
Context {R : Type} `{ListenerManagerOps R}.

(** The object under construction, the managers of the program and the
    attributes of the global the constructor calls [global_config]. *)
Record Env : Type := mkEnv {
  this : self;
  managers : gmap nat R;
  global_config : gmap string Attr
}.

Definition set_this (s : self) (e : Env) : Env :=
  mkEnv s (managers e) (global_config e).
Definition set_managers (m : gmap nat R) (e : Env) : Env :=
  mkEnv (this e) m (global_config e).
Definition set_global_config (g : gmap string Attr) (e : Env) : Env :=
  mkEnv (this e) (managers e) g.

(** [self.<attr> = v], one per attribute. *)
Definition assign (upd : self → self) : py Env unit :=
  modify (λ e, set_this (upd (this e)) e).

(** [self.<attr>]. *)
Definition read {A} (attr : string) (field : self → option A) : py Env A :=
  e <- get ;;
  match field (this e) with
  | Some v => ret v
  | None => raise (AttributeError (TyClass ref) attr)
  end.

(** The evaluation of a global name. *)
Definition global_name (n : string) : py Env unit :=
  if bool_decide (n ∈ module_globals ++ builtins) then ret tt
  else raise (NameError n).

(** [ListenerManager()]. *)
Definition new_manager : py Env nat :=
  global_name "ListenerManager" ;;
  e <- get ;;
  let loc := fresh (dom (managers e)) in
  put (set_managers (<[loc := lm_new]> (managers e)) e) ;;
  ret loc.

(** [C(self)] for a class the module names [n]. *)
Definition instantiate (n : string) (c : ClassRef) : py Env PyVal :=
  global_name n ;; ret (VObj c).

(** [global_config.<attr> = v]. *)
Definition global_config_setattr (attr : string) (v : Attr) : py Env unit :=
  global_name "global_config" ;;
  modify (λ e, set_global_config (<[attr := v]> (global_config e)) e).

(** [MiraiAdapter.__init__(config)] (lines 12-28). *)
Definition __init__ (config : MiraiConfig.t) : py Env unit :=
  assign (λ s, mkSelf (Some "Mirai") (ws_host s) (ws_port s) (http_host s)
                 (http_port s) (session_key s) (ws_reverse s) (logger s)
                 (listener_manager s) (utils s) (sender_handler s)
                 (message_handler s)) ;;
  assign (λ s, mkSelf (name s) (Some (MiraiConfig.ws_host config))
                 (Some (MiraiConfig.ws_port config))
                 (Some (MiraiConfig.http_host config))
                 (Some (MiraiConfig.http_port config))
                 (Some (MiraiConfig.session_key config))
                 (Some (MiraiConfig.ws_reverse config)) (logger s)
                 (listener_manager s) (utils s) (sender_handler s)
                 (message_handler s)) ;;
  global_name "Logger" ;;
  n <- read "name" name ;;
  assign (λ s, mkSelf (name s) (ws_host s) (ws_port s) (http_host s)
                 (http_port s) (session_key s) (ws_reverse s)
                 (Some ("Adapter/" +:+ n)) (listener_manager s) (utils s)
                 (sender_handler s) (message_handler s)) ;;
  loc <- new_manager ;;
  assign (λ s, mkSelf (name s) (ws_host s) (ws_port s) (http_host s)
                 (http_port s) (session_key s) (ws_reverse s) (logger s)
                 (Some loc) (utils s) (sender_handler s) (message_handler s)) ;;
  u <- instantiate "MiraiUtils" MiraiUtils_ref ;;
  assign (λ s, mkSelf (name s) (ws_host s) (ws_port s) (http_host s)
                 (http_port s) (session_key s) (ws_reverse s) (logger s)
                 (listener_manager s) (Some u) (sender_handler s)
                 (message_handler s)) ;;
  sh <- instantiate "MiraiSenderHandler" MiraiSenderHandler_ref ;;
  assign (λ s, mkSelf (name s) (ws_host s) (ws_port s) (http_host s)
                 (http_port s) (session_key s) (ws_reverse s) (logger s)
                 (listener_manager s) (utils s) (Some sh) (message_handler s)) ;;
  mh <- instantiate "MiraiMessageHandler" MiraiMessageHandler_ref ;;
  assign (λ s, mkSelf (name s) (ws_host s) (ws_port s) (http_host s)
                 (http_port s) (session_key s) (ws_reverse s) (logger s)
                 (listener_manager s) (utils s) (sender_handler s) (Some mh)) ;;
  lm <- read "listener_manager" listener_manager ;;
  global_config_setattr "listener_manager" (AtManager lm) ;;
  mh' <- read "message_handler" message_handler ;;
  global_config_setattr "message_handler" (AtVal mh') ;;
  u' <- read "utils" utils ;;
  global_config_setattr "adapter_utils" (AtVal u').

(** ** The HTTP query *)

(** What [requests.get] returns: [json ()] decodes the body. *)
Record Response : Type := mkResponse { json : pyres PyVal }.

Context (sync_get : string → pyres Response).

(** The f-string of line 32. *)
Definition request_url (host : string) (port : Z) (api_path : string) : string :=
  HTTP_PROTOCOL +:+ host +:+ ":" +:+ pretty port +:+ api_path.

Definition connect_failed : string :=
  "无法连接到 Mirai-Api-Http, 请检查是否配置完整! ".

(** The [except ConnectionError as e] clause (lines 33-35); the name is the
    builtin's, the module imports no other. *)
Definition request_handler (e : PyExc) : py Env PyVal :=
  if exc_isinstance e ExcConnectionError
  then raise (mkExc ExcException (Formatted connect_failed (exc_info e)))
  else raise e.

(** [MiraiAdapter.__request_api(api_path)] (lines 30-35). *)
Definition __request_api (api_path : string) : py Env PyVal :=
  try_except
    (global_name "sync_get" ;;
     global_name "HTTP_PROTOCOL" ;;
     host <- read "http_host" http_host ;;
     port <- read "http_port" http_port ;;
     response <- lift_res (sync_get (request_url host port api_path)) ;;
     lift_res (json response))
    request_handler.

(** ** The stubs (lines 37-56): bodies of [pass] *)

Definition login_info : PyVal := VNone.
Definition account : PyVal := VNone.
Definition nick_name : PyVal := VNone.

Definition check : Awaitable (R:=R) unit := Coroutine (ret tt).
Definition start_listen : Awaitable (R:=R) unit := Coroutine (ret tt).
Definition receiver (event : string) : PyVal := VNone.

(** The adapter a [BotApplication] is given, were an object [s] built:
    [send_message] is inherited from the base class. *)
Definition as_adapter (s : self)
    (send_message : PyVal → PyVal → Awaitable (R:=R) unit) : Adapter :=
  mkAdapter (default "" (name s)) (NotACoroutine nick_name)
    (from_option AtVal (AtVal VNone) (utils s))
    (from_option AtVal (AtVal VNone) (message_handler s))
    (default "" (logger s)) check start_listen send_message.

(** ** Running the constructor *)

(** The object when the constructor stops. *)
Definition half_built (config : MiraiConfig.t) (loc : nat) : self :=
  mkSelf (Some "Mirai") (Some (MiraiConfig.ws_host config))
    (Some (MiraiConfig.ws_port config)) (Some (MiraiConfig.http_host config))
    (Some (MiraiConfig.http_port config)) (Some (MiraiConfig.session_key config))
    (Some (MiraiConfig.ws_reverse config)) (Some "Adapter/Mirai") (Some loc)
    None None None.

(** C30: the constructor of [MiraiAdapter] never returns: on a new object and
    for every configuration it assigns the name, the six settings, the logger
    and a new listener manager, and then raises [NameError] for
    [MiraiUtils], a name the module neither imports nor defines; the three
    handlers are never built and the global configuration is untouched. *)
Theorem init_raises_NameError (config : MiraiConfig.t) m g :
  __init__ config (mkEnv blank m g)
  = (Raise (NameError "MiraiUtils"),
     mkEnv (half_built config (fresh (dom m))) (<[fresh (dom m) := lm_new]> m) g).
Proof. done. Qed.

(** ** Running the query *)

(** The [try] block, given the two settings. *)
Lemma run_request_body api_path e host port :
  http_host (this e) = Some host → http_port (this e) = Some port →
  __request_api api_path e
  = match res_bind (sync_get (request_url host port api_path)) json with
    | Ok v => (Ok v, e)
    | Raise err => request_handler err e
    end.
Proof.
  intros Hh Hp. unfold __request_api, try_except, read. eff_simpl.
  rewrite Hh, Hp. simpl.
  destruct (sync_get _) as [r|err]; [|done]. simpl. by destruct (json r).
Qed.

(** [__request_api] returns the decoded body of a GET on
    [http://<http_host>:<http_port><api_path>], and leaves the adapter as it
    was. *)
Lemma request_api_returns api_path e host port r v :
  http_host (this e) = Some host → http_port (this e) = Some port →
  sync_get (request_url host port api_path) = Ok r → json r = Ok v →
  __request_api api_path e = (Ok v, e).
Proof.
  intros Hh Hp Hget Hjson. rewrite (run_request_body _ _ host port Hh Hp).
  by rewrite Hget; simpl; rewrite Hjson.
Qed.

(** C33: the [except] clause names the builtin [ConnectionError], and the
    error [requests] raises when it cannot connect is not one: it leaves
    [__request_api] as it came, without the message of line 34. *)
Theorem request_api_requests_error api_path e host port err :
  http_host (this e) = Some host → http_port (this e) = Some port →
  sync_get (request_url host port api_path) = Raise err →
  exc_class err ∈ [ExcRequestsConnectionError; ExcRequestException] →
  __request_api api_path e = (Raise err, e).
Proof.
  intros Hh Hp Hget Hcls. rewrite (run_request_body _ _ host port Hh Hp), Hget.
  unfold request_handler, exc_isinstance. simpl.
  by inv_elem_of; rewrite Hcls.
Qed.

(** C34: an error that is a builtin [ConnectionError] (or of a subclass of
    it), from the GET or from decoding, is replaced by an [Exception] whose
    message ends with the text of the error. *)
Theorem request_api_wraps_builtin api_path e host port err :
  http_host (this e) = Some host → http_port (this e) = Some port →
  res_bind (sync_get (request_url host port api_path)) json = Raise err →
  exc_isinstance err ExcConnectionError = true →
  __request_api api_path e
  = (Raise (mkExc ExcException (Formatted connect_failed (exc_info err))), e).
Proof.
  intros Hh Hp Hget Hcls. rewrite (run_request_body _ _ host port Hh Hp), Hget.
  unfold request_handler. by rewrite Hcls.
Qed.

(** Whatever happens, [__request_api] changes nothing: not the adapter,
    not the managers, not the global configuration. *)
Lemma request_api_pure api_path e : (__request_api api_path e).2 = e.
Proof.
  unfold __request_api, try_except, read, request_handler. eff_simpl.
  destruct (http_host (this e)); [|done]. destruct (http_port (this e)); [|done].
  simpl. destruct (sync_get _) as [r|err]; simpl.
  - destruct (json r) as [v|err]; [done|]. by destruct (exc_isinstance _ _).
  - by destruct (exc_isinstance _ _).
Qed.

(** C32: an application cannot be built on a [MiraiAdapter]: [nick_name] is a
    property whose body is [pass], so [__init__] of [BotApplication] hands
    [None] to [asyncio.run], which raises [ValueError], with only the
    [adapter] attribute assigned. *)
Theorem application_init_fails (s : self) send (w : World) :
  BotApplication.__init__ (as_adapter s send) w
  = (Raise (ValueError (NotCoroutine TyNoneType)),
     set_app (<["adapter" := AtAdapter]> (app w)) w).
Proof. by apply (run_init_not_coroutine (as_adapter s send) VNone w). Qed.

End adapter.

(** ** Concrete runs *)

Definition local : MiraiConfig.t :=
  MiraiConfig.mk "localhost" 8080 "localhost" 8080 "key" false.

(** A network with one page, one host that resets and nothing else. *)
Definition net (url : string) : pyres Response :=
  if decide (url = "http://localhost:8080/about")
  then Ok (mkResponse (Ok (VStr "2.0")))
  else if decide (url = "http://localhost:8080/reset")
  then Raise (mkExc ExcConnectionError (Message "reset by peer"))
  else Raise (mkExc ExcRequestsConnectionError (Message "refused")).

Definition env : Env (R:=list ListenerManager.entry) :=
  mkEnv (half_built local 0) ∅ ∅.

Lemma request_api_returns_witness :
  __request_api net "/about" env = (Ok (VStr "2.0"), env).
Proof.
  by apply (request_api_returns net "/about" env "localhost" 8080
              (mkResponse (Ok (VStr "2.0")))).
Defined.

Lemma request_api_requests_error_witness :
  __request_api net "/sessionInfo" env
  = (Raise (mkExc ExcRequestsConnectionError (Message "refused")), env).
Proof.
  apply (request_api_requests_error net "/sessionInfo" env "localhost" 8080);
    [done..|]. by left.
Defined.

Lemma request_api_wraps_builtin_witness :
  __request_api net "/reset" env
  = (Raise (mkExc ExcException
              (Formatted connect_failed (Message "reset by peer"))), env).
Proof.
  by apply (request_api_wraps_builtin net "/reset" env "localhost" 8080
              (mkExc ExcConnectionError (Message "reset by peer"))).
Defined.

End MiraiAdapter.
