(* ===== verification/Contacts.v ===== *)
(** * Contacts: the member of a group ([src/objects/member.py])

    [Member] is a plain object: its constructor stores its six arguments as
    attributes and does nothing else.  The object is its attribute
    dictionary; the constructor runs in the monad [py] over it. *)

From S2P Require Import Prelude Python.

Module Member.

Definition ref : ClassRef := mkClassRef "JustBot.objects.member" "Member".

(** The attribute dictionary of one object. *)
Abbreviation self := (gmap string PyVal).

(** [self.<attr> = v] and [self.<attr>]. *)
Definition setattr (attr : string) (v : PyVal) : py self unit :=
  modify (λ s, <[attr := v]> s).

Definition getattr (attr : string) : py self PyVal :=
  s <- get ;;
  match s !! attr with
  | Some v => ret v
  | None => raise (AttributeError (TyClass ref) attr)
  end.

(** [Member.__init__] (lines 5-13): the annotations are not checked. *)
Definition __init__ (group nickname user_id role last_sent_time join_time : PyVal)
    : py self unit :=
  setattr "group" group ;;
  setattr "nickname" nickname ;;
  setattr "user_id" user_id ;;
  setattr "role" role ;;
  setattr "last_sent_time" last_sent_time ;;
  setattr "join_time" join_time.

(** [Member(...)]: a new object, initialised. *)
Definition Member (group nickname user_id role last_sent_time join_time : PyVal)
    : pyres unit * self :=
  __init__ group nickname user_id role last_sent_time join_time ∅.

(** The attributes of a member, in the order of the constructor. *)
Definition fields : list string :=
  ["group"; "nickname"; "user_id"; "role"; "last_sent_time"; "join_time"].

(** ** Theorems *)

Lemma run_member_init g n u r l j s :
  __init__ g n u r l j s
  = (Ok tt,
     <["join_time" := j]> (<["last_sent_time" := l]> (<["role" := r]>
       (<["user_id" := u]> (<["nickname" := n]> (<["group" := g]> s)))))).
Proof. done. Qed.

(** C40: the constructor of [Member] always returns, whatever the types of
    its arguments; afterwards the six attributes read back as the arguments,
    in the order of the constructor, and the object has no other
    attribute. *)
Theorem member_init_attrs g n u r l j :
  (Member g n u r l j).1 = Ok tt
  ∧ (λ a, (getattr a (Member g n u r l j).2).1) <$> fields
    = Ok <$> [g; n; u; r; l; j]
  ∧ dom (Member g n u r l j).2 = (list_to_set fields : gset string).
Proof.
  unfold Member. rewrite run_member_init. cbn [fst snd]. split_and!; [done | | ].
  - unfold fields, getattr. eff_simpl. by simplify_map_eq.
  - rewrite !dom_insert_L, dom_empty_L. unfold fields. simpl. set_solver.
Qed.

(** Constructing again on an object overwrites the six attributes and
    keeps every other attribute of it. *)
Lemma member_init_overwrites g n u r l j (s : self) (a : string) :
  (getattr a (__init__ g n u r l j s).2).1
  = if decide (a ∈ fields)
    then (getattr a (Member g n u r l j).2).1
    else (getattr a s).1.
Proof.
  unfold Member. rewrite !run_member_init. cbn [fst snd]. unfold getattr. eff_simpl.
  case_decide as Ha.
  - unfold fields in Ha. by inv_elem_of; subst; simplify_map_eq.
  - unfold fields in Ha. rewrite !not_elem_of_cons in Ha.
    destruct Ha as (? & ? & ? & ? & ? & ? & _).
    rewrite !lookup_insert_ne by done. by destruct (s !! a).
Qed.

End Member.
