(* ===== verification/Modules.v ===== *)
(** * Modules: what the four files do when they are imported

    A Python file is a sequence of statements run in order when the module
    is imported.  The statements of the four sources are imports,
    assignments of constants, one call ([install()]) and one class
    statement each; running them binds names in the namespace of the
    module, and evaluates names: those of the base classes, and for each
    [def] of a class body the decorators, the annotations of the
    parameters and of the result that are not strings, and the default
    values.  The names in the body of a function are evaluated when the
    function is called, in the namespace of the module as it is then (a
    class body is not a scope of the functions defined in it).

    Module [PyModule] has the statements as data ([Stmt], [Def]), their
    execution in the monad [py Scope] ([exec]), the call-time lookups of a
    function ([call]), and the four files as programs.  A [Def] keeps the
    names of a function, not its behaviour: that is the matter of [Chain],
    [Bot], [Mirai] and [Contacts].  What the imported packages export is a
    parameter of the section. *)

From S2P Require Import Prelude Python Listeners Bot Mirai.

Module PyModule.

(** A [def] statement: the global names its header evaluates when the
    statement runs, and those its body evaluates when the function is
    called (the names of nested [def] headers among them). *)
Record Def : Type := mkDef {
  def_name : string;
  header : list string;
  body : list string
}.

(** The statements of the sources, by the names they bind and evaluate. *)
Inductive Stmt : Type :=
| SFrom (package : string) (names : list string)
| SFromAs (package name alias : string)
| SImport (module : string)
| SExpr (reads : list string)
| SAssign (target : string) (reads : list string)
| SClass (name : string) (bases : list string) (defs : list Def).

(** The names bound so far in the module, and in the class body that is
    running (empty outside a class statement). *)
Record Scope : Type := mkScope {
  globals : list string;
  locals : list string
}.

(** The builtins the four files name. *)
Definition builtins : list string :=
  ["str"; "int"; "float"; "bool"; "dict"; "list"; "tuple"; "type"; "len";
   "staticmethod"; "classmethod"; "property"; "Exception"; "ConnectionError"].

(** What an installed package exports: [None] when there is no such
    package. *)
Definition Exports : Type := string → option (string → bool).

(** A name is looked up in the class body, then in the module, then among
    the builtins. *)
Definition bound (sc : Scope) (n : string) : Prop :=
  n ∈ locals sc ++ globals sc ++ builtins.

#[export] Instance bound_dec sc n : Decision (bound sc n).
Proof. unfold bound. apply _. Defined.

Section exec.
Context (exports : Exports).

(** The evaluation of a name. *)
Definition load (n : string) : py Scope unit :=
  sc <- get ;;
  if bool_decide (bound sc n) then ret tt else raise (NameError n).

(** A binding in the module. *)
Definition store (n : string) : py Scope unit :=
  modify (λ sc, mkScope (globals sc ++ [n]) (locals sc)).

(** A binding in the class body. *)
Definition store_local (n : string) : py Scope unit :=
  modify (λ sc, mkScope (globals sc) (locals sc ++ [n])).

(** [import m]. *)
Definition import_module (m : string) : py Scope (string → bool) :=
  match exports m with
  | Some names => ret names
  | None => raise (ModuleNotFoundError m)
  end.

(** One name of [from package import ...]. *)
Definition import_name (package n : string) : py Scope unit :=
  names <- import_module package ;;
  if names n then ret tt else raise (ImportError package n).

(** A [def] in a class body. *)
Definition exec_def (d : Def) : py Scope unit :=
  for_each load (header d) ;;
  store_local (def_name d).

(** One statement of a module. *)
Definition exec_stmt (s : Stmt) : py Scope unit :=
  match s with
  | SFrom package names =>
      for_each (λ n, import_name package n ;; store n) names
  | SFromAs package n alias => import_name package n ;; store alias
  | SImport m => _ <- import_module m ;; store m
  | SExpr reads => for_each load reads
  | SAssign target reads => for_each load reads ;; store target
  | SClass c bases defs =>
      for_each load bases ;;
      for_each exec_def defs ;;
      modify (λ sc, mkScope (globals sc ++ [c]) [])
  end.

(** The import of a module: its statements in order, from an empty
    namespace. *)
Definition exec (m : list Stmt) : py Scope unit := for_each exec_stmt m.

Definition empty : Scope := mkScope [] [].

(** A call of a function defined by [d], as far as global names go. *)
Definition call (d : Def) : py Scope unit := for_each load (body d).

End exec.

(** ** What is read off the text *)

(** The names a statement binds in the module. *)
Definition binds (s : Stmt) : list string :=
  match s with
  | SFrom _ names => names
  | SFromAs _ _ alias => [alias]
  | SImport m => [m]
  | SExpr _ => []
  | SAssign target _ => [target]
  | SClass c _ _ => [c]
  end.

(** What a statement imports: a package, and a name of it or none. *)
Definition imports (s : Stmt) : list (string * option string) :=
  match s with
  | SFrom package names => (λ n, (package, Some n)) <$> names
  | SFromAs package n _ => [(package, Some n)]
  | SImport m => [(m, None)]
  | _ => []
  end.

(** An import the installed packages satisfy. *)
Definition provided (exports : Exports) (i : string * option string) : Prop :=
  match exports i.1, i.2 with
  | Some names, Some n => names n = true
  | Some _, None => True
  | None, _ => False
  end.

(** Packages that export every name. *)
Definition everything : Exports := λ _, Some (λ _, true).

(** The methods of the classes of a module. *)
Definition methods (m : list Stmt) : list Def :=
  m ≫= λ s, match s with SClass _ _ defs => defs | _ => [] end.

(** The names the functions of a module evaluate when called that the
    namespace [ns] does not bind. *)
Definition unbound (ns : list string) (m : list Stmt) : list string :=
  remove_dups (filter (λ n, ¬ bound (mkScope ns []) n) (methods m ≫= body)).

(** ** The four files *)

(** [src/apis/message_chain.py]. *)
Definition MessageChain_defs : list Def :=
  [mkDef "__new__" ["List"; "str"] [];
   mkDef "create" ["classmethod"; "List"; "Element"] [];
   mkDef "to_code" ["classmethod"; "str"] [];
   mkDef "as_display" ["classmethod"; "str"] []].

Definition message_chain_py : list Stmt :=
  [SFrom "JustBot.apis.element" ["Element"];
   SFrom "typing" ["List"];
   SClass "MessageChain" [] MessageChain_defs].

(** [src/objects/member.py]. *)
Definition Member_defs : list Def :=
  [mkDef "__init__" ["Group"; "str"; "int"; "str"; "int"; "int"] []].

Definition member_py : list Stmt :=
  [SFrom "JustBot.objects" ["Group"];
   SClass "Member" [] Member_defs].

(** [src/adapters/mirai/adapter.py]. *)
Definition MiraiAdapter_defs : list Def :=
  [mkDef "__init__" ["MiraiConfig"]
     ["Logger"; "ListenerManager"; "MiraiUtils"; "MiraiSenderHandler";
      "MiraiMessageHandler"; "global_config"; "global_config"; "global_config"];
   mkDef "__request_api" ["str"; "str"]
     ["sync_get"; "HTTP_PROTOCOL"; "ConnectionError"; "Exception"];
   mkDef "login_info" ["property"; "dict"] [];
   mkDef "account" ["property"; "int"] [];
   mkDef "nick_name" ["property"; "str"] [];
   mkDef "check" [] [];
   mkDef "start_listen" [] [];
   mkDef "receiver" ["str"] []].

Definition adapter_py : list Stmt :=
  [SFrom "JustBot.apis" ["Adapter"; "ListenerManager"];
   SFrom "JustBot.adapters.mirai.config" ["MiraiConfig"];
   SFrom "JustBot.adapters.mirai.message_handler" ["MiraiMessageHandler"];
   SFrom "JustBot.adapters.mirai.sender_handler" ["MiraiSenderHandler"];
   SFrom "JustBot.utils" ["Logger"];
   SFrom "JustBot.application" ["HTTP_PROTOCOL"; "WS_PROTOCOL"];
   SFromAs "requests" "get" "sync_get";
   SClass "MiraiAdapter" ["Adapter"] MiraiAdapter_defs].

(** [src/jbot/__init__.py]. *)
Definition matcher_header : list string :=
  ["Union"; "List"; "str"; "Tuple"; "str"; "str"; "bool";
   "Union"; "List"; "Type"; "Element"; "Tuple"; "Type"; "Element"].

Definition BotApplication_defs : list Def :=
  [mkDef "__init__" ["Adapter"] ["ListenerManager"; "Logger"; "VERSION"; "VERSION"];
   mkDef "set_config" [] ["CONFIG"; "CONFIG"];
   mkDef "start_running" [] [];
   mkDef "send_msg"
     ["Contact"; "Union"; "MessageChain"; "Union"; "Element"; "List"; "Element";
      "Tuple"; "Element"; "str"]
     ["type"; "Element"; "Element"; "list"; "tuple"; "MessageChain"; "str"; "str";
      "MessageChain"; "MessageChain"; "MessageChain"; "Exception"; "str"];
   mkDef "coroutine" ["staticmethod"; "Union"; "Coroutine"; "Any"; "Any"]
     ["asyncio"];
   mkDef "on"
     ["Union"; "List"; "Type"; "Event"; "Tuple"; "Type"; "Event"; "Type"; "Event";
      "int"]
     ["type"; "int"; "Awaitable"; "Awaitable"; "asyncio"; "list"; "len"; "list";
      "Listener"; "pretty_function"; "list"; "tuple"; "pretty_function"];
   mkDef "__set_decorator" ["Any"; "str"; "str"]
     ["Awaitable"; "Awaitable"; "pretty_function"];
   mkDef "command" matcher_header ["CommandMatcher"];
   mkDef "keyword" matcher_header ["KeywordMatcher"];
   mkDef "matcher" ["Matcher"] [];
   mkDef "param_convert" ["Type"; "Union"; "str"; "list"; "dict"] [];
   mkDef "role" ["Union"; "Role"; "List"; "Role"; "Tuple"; "Role"; "Awaitable"] [];
   mkDef "nlp"
     ["float"; "Union"; "List"; "str"; "Tuple"; "str"; "Dict"; "str"; "str"] []].

Definition application_py : list Stmt :=
  [SFrom ".utils" ["Logger"; "MessageChain"; "Listener"; "ListenerManager"; "Role"];
   SFrom ".apis" ["Adapter"; "Config"; "Event"; "Element"; "Contact"; "Matcher"];
   SFrom ".utils.utils" ["pretty_function"];
   SFrom ".matchers" ["CommandMatcher"; "KeywordMatcher"];
   SFrom "typing"
     ["Dict"; "Type"; "Union"; "Coroutine"; "Any"; "List"; "Awaitable"; "Tuple"];
   SFrom "rich.traceback" ["install"];
   SImport "asyncio";
   SExpr ["install"];
   SAssign "VERSION" [];
   SAssign "HTTP_PROTOCOL" [];
   SAssign "WS_PROTOCOL" [];
   SAssign "CONFIG" ["Config"];
   SClass "BotApplication" [] BotApplication_defs].

(** ** Lemmas: running the statements *)

Section lemmas.
Context (exports : Exports).
Implicit Types (sc : Scope) (n : string) (m : list Stmt) (st : Stmt).

Lemma run_load sc n : bound sc n → load n sc = (Ok tt, sc).
Proof. intros Hn. unfold load. eff_simpl. by rewrite bool_decide_eq_true_2. Qed.

Lemma run_load_unbound sc n :
  ¬ bound sc n → load n sc = (Raise (NameError n), sc).
Proof. intros Hn. unfold load. eff_simpl. by rewrite bool_decide_eq_false_2. Qed.

(** Evaluating names does not change the scope. *)
Lemma loads_scope names sc : (for_each load names sc).2 = sc.
Proof.
  apply (for_each_invariant (λ s, s = sc)); [|done].
  intros n s _ ->. unfold load. eff_simpl. by case_bool_decide.
Qed.

Lemma run_loads names sc :
  Forall (bound sc) names ↔ for_each load names sc = (Ok tt, sc).
Proof.
  induction names as [|n names IH]; simpl; [done|]. rewrite Forall_cons. split.
  - intros [Hn Hl]. run (run_load sc n Hn). by apply IH.
  - intros Hrun. destruct (decide (bound sc n)) as [Hn|Hn].
    + split; [done|]. apply IH. revert Hrun. by run (run_load sc n Hn).
    + revert Hrun. by run (run_load_unbound sc n Hn).
Qed.

Lemma everything_provides (l : list (string * option string)) :
  Forall (provided everything) l.
Proof. apply Forall_forall. by intros [p [n|]] _. Qed.

(** An import the packages satisfy binds the name. *)
Lemma run_import_name package n sc :
  provided exports (package, Some n) →
  import_name exports package n sc = (Ok tt, sc).
Proof.
  unfold provided, import_name, import_module. simpl.
  destruct (exports package) as [names|]; [|done]. eff_simpl. by intros ->.
Qed.

(** With its imports satisfied a statement does what it does when every
    package exports every name. *)
Lemma exec_stmt_provided st :
  Forall (provided exports) (imports st) →
  exec_stmt exports st ≡ exec_stmt everything st.
Proof.
  destruct st as [package names|package n alias|name| | |]; simpl; intros Hp;
    try done.
  - apply for_each_ext. intros n Hn sc.
    rewrite Forall_fmap, Forall_forall in Hp.
    by rewrite (bind_ok _ _ _ _ _ (run_import_name package n sc (Hp n Hn))).
  - rewrite Forall_singleton in Hp. intros sc.
    by rewrite (bind_ok _ _ _ _ _ (run_import_name package n sc Hp)).
  - rewrite Forall_singleton in Hp. intros sc. revert Hp.
    unfold provided, bind, import_module. simpl. by destruct (exports name).
Qed.

Lemma exec_provided m :
  Forall (provided exports) (m ≫= imports) → exec exports m ≡ exec everything m.
Proof.
  intros Hp. apply for_each_ext. intros st Hs. apply exec_stmt_provided.
  rewrite Forall_forall in Hp |- *. intros i Hi. apply Hp.
  apply list_elem_of_bind. by exists st.
Qed.

(** The class body of a [def] is not a scope of the module: running the
    [def]s leaves the names of the module as they are. *)
Lemma defs_globals defs sc :
  globals (for_each exec_def defs sc).2 = globals sc.
Proof.
  apply (for_each_invariant (λ s, globals s = globals sc)); [|done].
  intros d s _ Hs. unfold exec_def, bind.
  pose proof (loads_scope (header d) s) as Hl.
  destruct (for_each load (header d) s) as [[[]|e] s']; simpl in *; by subst.
Qed.

Lemma import_name_scope package n sc r sc' :
  import_name exports package n sc = (r, sc') → sc' = sc.
Proof.
  unfold import_name, import_module. destruct (exports package) as [names|];
    eff_simpl; [destruct (names n)|]; congruence.
Qed.

Lemma from_binds package names sc sc' :
  for_each (λ n, import_name exports package n ;; store n) names sc = (Ok tt, sc') →
  sc' = mkScope (globals sc ++ names) (locals sc).
Proof.
  revert sc. induction names as [|n names IH]; intros sc; simpl.
  - rewrite app_nil_r. destruct sc. by intros [= <-].
  - unfold bind at 1 2.
    destruct (import_name exports package n sc) as [[[]|e] s] eqn:Hn; [|done].
    apply import_name_scope in Hn as ->. intros ->%IH. simpl.
    by rewrite <- (assoc_L (++)).
Qed.

(** A statement that runs binds the names its text binds, in order, and
    leaves no class body behind. *)
Lemma exec_stmt_binds st sc sc' :
  exec_stmt exports st sc = (Ok tt, sc') → locals sc = [] →
  globals sc' = globals sc ++ binds st ∧ locals sc' = [].
Proof.
  destruct st as [package names|package n alias|name|reads|target reads|c bases defs];
    simpl; intros Hrun Hl.
  - apply from_binds in Hrun as ->. by simpl.
  - revert Hrun. unfold bind.
    destruct (import_name exports package n sc) as [[[]|e] s] eqn:Hn; [|done].
    apply import_name_scope in Hn as ->. by intros [= <-].
  - revert Hrun. unfold bind, import_module.
    destruct (exports name); [|done]. by intros [= <-].
  - pose proof (loads_scope reads sc) as Hs. rewrite Hrun in Hs. simpl in Hs.
    subst. by rewrite app_nil_r.
  - revert Hrun. unfold bind. pose proof (loads_scope reads sc) as Hs.
    destruct (for_each load reads sc) as [[[]|e] s]; [|done]. simpl in Hs.
    subst. by intros [= <-].
  - revert Hrun. unfold bind. pose proof (loads_scope bases sc) as Hs.
    destruct (for_each load bases sc) as [[[]|e] s]; [|done]. simpl in Hs.
    subst. pose proof (defs_globals defs sc) as Hg.
    destruct (for_each exec_def defs sc) as [[[]|e] s]; [|done].
    simpl in Hg. intros [= <-]. simpl. by rewrite Hg.
Qed.

Lemma exec_binds m sc sc' :
  exec exports m sc = (Ok tt, sc') → locals sc = [] →
  globals sc' = globals sc ++ (m ≫= binds) ∧ locals sc' = [].
Proof.
  unfold exec. revert sc. induction m as [|st m IH]; intros sc; simpl.
  - intros [= <-] Hl. by rewrite app_nil_r.
  - unfold bind at 1. destruct (exec_stmt exports st sc) as [[[]|e] s] eqn:Hst; [|done].
    intros Hrun Hl. destruct (exec_stmt_binds st sc s Hst Hl) as [Hg Hl'].
    destruct (IH s Hrun Hl') as [-> ->]. by rewrite Hg, (assoc_L (++)).
Qed.

(** A call returns when the names of the body are bound, and raises
    [NameError] on the first that is not. *)
Lemma call_returns d sc :
  Forall (bound sc) (body d) ↔ call d sc = (Ok tt, sc).
Proof. apply run_loads. Qed.

Lemma loads_raise names sc e sc' :
  for_each load names sc = (Raise e, sc') →
  ∃ n, e = NameError n ∧ n ∈ names ∧ ¬ bound sc n.
Proof.
  induction names as [|n names IH]; simpl; [done|].
  destruct (decide (bound sc n)) as [Hn|Hn].
  - run (run_load sc n Hn). intros (n' & -> & Hin & Hb)%IH.
    exists n'. split_and!; [done | by right | done].
  - run (run_load_unbound sc n Hn). intros [= <- <-].
    exists n. split_and!; [done | by left | done].
Qed.

Lemma unbound_spec ns m n :
  n ∈ unbound ns m
  ↔ (∃ d, d ∈ methods m ∧ n ∈ body d) ∧ ¬ bound (mkScope ns []) n.
Proof.
  unfold unbound.
  rewrite elem_of_remove_dups, list_elem_of_filter, list_elem_of_bind.
  split; [intros [Hb (d & Hn & Hd)] | intros [(d & Hd & Hn) Hb]]; eauto.
Qed.

(** No name is unbound exactly when every function of the module can be
    called. *)
Lemma unbound_nil ns m :
  unbound ns m = []
  ↔ ∀ d, d ∈ methods m → call d (mkScope ns []) = (Ok tt, mkScope ns []).
Proof.
  split.
  - intros Hu d Hd. apply call_returns, Forall_forall. intros n Hn.
    destruct (decide (bound (mkScope ns []) n)) as [|Hb]; [done|].
    assert (n ∈ unbound ns m) as Hin by (apply unbound_spec; eauto).
    rewrite Hu in Hin. by apply elem_of_nil in Hin.
  - intros Hall. apply elem_of_nil_inv.
    intros n [(d & Hd & Hn) Hb]%unbound_spec. apply Hb.
    apply Hall, call_returns in Hd. by eapply Forall_forall in Hd.
Qed.

End lemmas.

(** ** Theorems: the four files *)

Section files.
Context (exports : Exports).
Context {R : Type} `{ListenerManagerOps R}.

Ltac run_module m :=
  intros Hp; split;
  [ rewrite (exec_provided _ _ Hp); by vm_compute
  | apply (proj1 (unbound_nil _ m)); by vm_compute ].

(** C21: with the packages of their imports installed, importing
    [src/jbot/__init__.py] and [src/adapters/mirai/adapter.py] raises
    nothing: every name a statement or a [def] header evaluates is bound
    when it is evaluated.  The application module then binds the names of
    its imports, its four constants and its class, in this order, and every
    global name a method of [BotApplication] evaluates when called is among
    them or a builtin: no method raises [NameError].  The adapter module
    binds the names [MiraiAdapter.module_globals]; the names its methods
    evaluate when called that are bound nowhere are [MiraiUtils] and
    [global_config], both in [__init__]: the module can be imported and
    its class cannot be instantiated. *)
Theorem sources_resolve :
  Forall (provided exports) (application_py ≫= imports) →
  Forall (provided exports) (adapter_py ≫= imports) →
  (exec exports application_py empty
   = (Ok tt, mkScope (application_py ≫= binds) [])
   ∧ ∀ d, d ∈ BotApplication_defs →
          call d (mkScope (application_py ≫= binds) [])
          = (Ok tt, mkScope (application_py ≫= binds) []))
  ∧ exec exports adapter_py empty
    = (Ok tt, mkScope MiraiAdapter.module_globals [])
  ∧ unbound MiraiAdapter.module_globals adapter_py
    = ["MiraiUtils"; "global_config"]
  ∧ ∀ d, d ∈ MiraiAdapter_defs → def_name d ≠ "__init__" →
         call d (mkScope MiraiAdapter.module_globals [])
         = (Ok tt, mkScope MiraiAdapter.module_globals []).
Proof.
  intros Ha Hm. split_and!.
  - rewrite (exec_provided _ _ Ha). by vm_compute.
  - apply (proj1 (unbound_nil _ application_py)). by vm_compute.
  - rewrite (exec_provided _ _ Hm). by vm_compute.
  - by vm_compute.
  - intros d Hd Hn. unfold MiraiAdapter_defs in Hd. inv_elem_of; subst; done.
Qed.

Lemma message_chain_py_resolves :
  Forall (provided exports) (message_chain_py ≫= imports) →
  exec exports message_chain_py empty
  = (Ok tt, mkScope (message_chain_py ≫= binds) [])
  ∧ ∀ d, d ∈ MessageChain_defs →
         call d (mkScope (message_chain_py ≫= binds) [])
         = (Ok tt, mkScope (message_chain_py ≫= binds) []).
Proof. run_module message_chain_py. Qed.

Lemma member_py_resolves :
  Forall (provided exports) (member_py ≫= imports) →
  exec exports member_py empty = (Ok tt, mkScope (member_py ≫= binds) [])
  ∧ ∀ d, d ∈ Member_defs →
         call d (mkScope (member_py ≫= binds) [])
         = (Ok tt, mkScope (member_py ≫= binds) []).
Proof. run_module member_py. Qed.

(** The names [MiraiAdapter.global_name] resolves are those the module
    binds: on the names the methods evaluate it agrees with [load] in the
    namespace of the imported module. *)
Lemma global_name_load n (e : MiraiAdapter.Env (R:=R)) :
  n ∈ methods adapter_py ≫= body →
  (MiraiAdapter.global_name n e).1
  = (load n (mkScope (adapter_py ≫= binds) [])).1.
Proof. intros Hn. cbn in Hn. inv_elem_of; subst; by vm_compute. Qed.

(** The constants [adapter.py] imports from [JustBot.application] are
    those the application module binds: when that package is
    [src/jbot/__init__.py], the import of line 6 is satisfied. *)
Lemma adapter_imports_application :
  exports "JustBot.application"
  = Some (λ n, bool_decide (n ∈ application_py ≫= binds)) →
  Forall (provided exports)
    (imports (SFrom "JustBot.application" ["HTTP_PROTOCOL"; "WS_PROTOCOL"])).
Proof. intros He. repeat constructor; unfold provided; simpl; by rewrite He. Qed.

End files.

(** ** Concrete runs *)

Module Examples.

Lemma sources_resolve_witness :
  (exec everything application_py empty
   = (Ok tt, mkScope (application_py ≫= binds) [])
   ∧ ∀ d, d ∈ BotApplication_defs →
          call d (mkScope (application_py ≫= binds) [])
          = (Ok tt, mkScope (application_py ≫= binds) []))
  ∧ exec everything adapter_py empty
    = (Ok tt, mkScope MiraiAdapter.module_globals [])
  ∧ unbound MiraiAdapter.module_globals adapter_py
    = ["MiraiUtils"; "global_config"]
  ∧ ∀ d, d ∈ MiraiAdapter_defs → def_name d ≠ "__init__" →
         call d (mkScope MiraiAdapter.module_globals [])
         = (Ok tt, mkScope MiraiAdapter.module_globals []).
Proof. apply (sources_resolve everything); apply everything_provides. Defined.

(** Packages without [rich]. *)
Definition no_rich : Exports :=
  λ p, if decide (p = "rich.traceback") then None else Some (λ _, true).

(** Without [rich] the import of the application stops at line 7: the
    names of the lines before it are bound, the class does not exist. *)
Example application_needs_rich :
  exec no_rich application_py empty
  = (Raise (ModuleNotFoundError "rich.traceback"),
     mkScope (take 5 application_py ≫= binds) []).
Proof. by vm_compute. Qed.

(** An annotation naming the class inside its own body would stop the
    class statement: the class is bound after its body has run. *)
Example class_not_bound_in_body :
  (exec everything [SClass "C" [] [mkDef "f" ["C"] []]] empty).1
  = Raise (NameError "C").
Proof. by vm_compute. Qed.

End Examples.

End PyModule.
