(* ===== verification/ChainSpec.v ===== *)
(** * ChainSpec: the chain of the specification, and the class against it

    The specification (sections 3 and 4.1) has a message chain as a value:
    built once, from strings or from elements, never changed afterwards,
    with its code and, when it was built from elements, its display.  The
    class of [src/apis/message_chain.py] keeps what it is built from in
    class attributes, and what a constructor returns is the class.

    This file states the specification ([chain], [toCode], [asDisplay]),
    runs client programs (build a chain, render a chain built earlier)
    against the specification ([spec_run]) and against the class
    ([impl_run]), and shows what the class computes for every program
    ([shared_run]: every chain a client holds renders as the last one
    built) and for which programs that is what the specification asks
    ([linear]: a chain is rendered before the next is built, and a chain
    of strings is not displayed after a chain of elements). *)

From S2P Require Import Prelude Python Chain.

Module ChainSpec.
Import MessageChain.

(** ** The specification *)

(** A chain: the strings or the elements it was built from. *)
Inductive chain : Type :=
| FromStrings (strings : list string)
| Created (elems : list Element).

#[export] Instance chain_eq_dec : EqDecision chain.
Proof. solve_decision. Defined.

Definition toCode (ch : chain) : string :=
  match ch with
  | FromStrings ss => str_concat ss
  | Created es => str_concat (elem_code <$> es)
  end.

(** The display; [None] when it is unavailable. *)
Definition asDisplay (ch : chain) : option string :=
  match ch with
  | FromStrings _ => None
  | Created es => Some (str_concat (elem_display <$> es))
  end.

(** What a client does with chains: build one, or render one it built
    earlier, named by its position among those built. *)
Inductive op : Type :=
| Build (ch : chain)
| Code (h : nat)
| Display (h : nat).

(** What the renderings of a program give, in order: a text, or nothing. *)
Fixpoint spec_run (chains : list chain) (p : list op) : list (option string) :=
  match p with
  | [] => []
  | Build ch :: p' => spec_run (chains ++ [ch]) p'
  | Code h :: p' => (toCode <$> chains !! h) :: spec_run chains p'
  | Display h :: p' => (chains !! h ≫= asDisplay) :: spec_run chains p'
  end.

(** ** The class *)

(** [MessageChain(strings)] and [MessageChain.create(elements)]. *)
Definition build (ch : chain) : py cls PyVal :=
  match ch with
  | FromStrings ss => __new__ (VList (VStr <$> ss))
  | Created es => create (VList (VElem <$> es))
  end.

(** The text of a call that returned a string. *)
Definition text (r : pyres PyVal) : option string :=
  match r with
  | Ok (VStr s) => Some s
  | _ => None
  end.

(** The program run on the class: the client keeps what the constructors
    returned and calls [to_code] and [as_display] on it. *)
Fixpoint impl_run (c : cls) (handles : list PyVal) (p : list op)
    : list (option string) :=
  match p with
  | [] => []
  | Build ch :: p' =>
      match build ch c with
      | (Ok v, c') => impl_run c' (handles ++ [v]) p'
      | (Raise _, c') => impl_run c' handles p'
      end
  | Code h :: p' =>
      match handles !! h with
      | Some v =>
          text (item_to_code v c).1 :: impl_run (item_to_code v c).2 handles p'
      | None => None :: impl_run c handles p'
      end
  | Display h :: p' =>
      match handles !! h with
      | Some v =>
          text (res_map VStr (item_as_display_in as_display v c).1)
          :: impl_run (item_as_display_in as_display v c).2 handles p'
      | None => None :: impl_run c handles p'
      end
  end.

(** ** What the class computes *)

(** The elements of the last chain that was built from elements. *)
Definition last_created (chains : list chain) : option (list Element) :=
  last (omap (λ ch, match ch with Created es => Some es | _ => None end) chains).

(** The class after the chains have been built, in order. *)
Definition class_of (chains : list chain) : cls :=
  foldl (λ c ch, (build ch c).2) fresh chains.

(** Every chain the client holds is the last one built; the display is
    that of the last chain built from elements. *)
Fixpoint shared_run (chains : list chain) (p : list op) : list (option string) :=
  match p with
  | [] => []
  | Build ch :: p' => shared_run (chains ++ [ch]) p'
  | Code h :: p' =>
      (if decide (h < length chains) then toCode <$> last chains else None)
      :: shared_run chains p'
  | Display h :: p' =>
      (if decide (h < length chains)
       then (λ es, str_concat (elem_display <$> es)) <$> last_created chains
       else None)
      :: shared_run chains p'
  end.

(** The display of the last chain is available, or no chain before it
    has left its elements behind. *)
Definition displayable (chains : list chain) : bool :=
  match last chains with
  | Some (Created _) => true
  | Some (FromStrings _) => bool_decide (last_created chains = None)
  | None => false
  end.

(** A program that renders a chain before it builds the next. *)
Fixpoint linear (chains : list chain) (p : list op) : bool :=
  match p with
  | [] => true
  | Build ch :: p' => linear (chains ++ [ch]) p'
  | Code h :: p' => bool_decide (S h = length chains) && linear chains p'
  | Display h :: p' =>
      bool_decide (S h = length chains) && displayable chains && linear chains p'
  end.

(** ** The class after a sequence of constructions *)

Lemma run_build ch c :
  build ch c
  = (Ok (VClass ref),
     match ch with
     | FromStrings ss =>
         mkCls (elements c) (Some (VList (VStr <$> ss))) (Some (str_concat ss))
     | Created es =>
         mkCls (Some (VList (VElem <$> es)))
           (Some (VList (VStr <$> (elem_code <$> es))))
           (Some (str_concat (elem_code <$> es)))
     end).
Proof. destruct ch; [apply run_new_strs | apply run_create_elems]. Qed.

Lemma class_of_snoc chains ch :
  class_of (chains ++ [ch]) = (build ch (class_of chains)).2.
Proof. unfold class_of. by rewrite foldl_app. Qed.

Lemma build_class_of chains ch :
  build ch (class_of chains) = (Ok (VClass ref), class_of (chains ++ [ch])).
Proof. by rewrite class_of_snoc, run_build. Qed.

Lemma last_created_snoc chains ch :
  last_created (chains ++ [ch])
  = match ch with
    | Created es => Some es
    | FromStrings _ => last_created chains
    end.
Proof.
  unfold last_created. rewrite omap_app. destruct ch; simpl.
  - by rewrite app_nil_r.
  - by rewrite last_snoc.
Qed.

Lemma last_created_last chains es :
  last chains = Some (Created es) → last_created chains = Some es.
Proof. intros [l ->]%last_Some. by rewrite last_created_snoc. Qed.

Lemma result_class_of chains :
  _result (class_of chains) = toCode <$> last chains.
Proof.
  induction chains as [|ch chains _] using rev_ind; [done|].
  rewrite class_of_snoc, run_build, last_snoc. by destruct ch.
Qed.

Lemma elements_class_of chains :
  elements (class_of chains)
  = (λ es, VList (VElem <$> es)) <$> last_created chains.
Proof.
  induction chains as [|ch chains IH] using rev_ind; [done|].
  rewrite class_of_snoc, run_build, last_created_snoc. by destruct ch.
Qed.

(** The two renderings on the class after [chains]. *)
Lemma code_class_of chains :
  item_to_code (VClass ref) (class_of chains)
  = (match last chains with
     | Some ch => Ok (VStr (toCode ch))
     | None => Raise (AttributeError TyType "_result")
     end, class_of chains).
Proof.
  rewrite run_item_to_code. simpl.
  rewrite result_class_of. by destruct (last chains).
Qed.

Lemma display_class_of chains :
  item_as_display_in as_display (VClass ref) (class_of chains)
  = (match last_created chains with
     | Some es => Ok (str_concat (elem_display <$> es))
     | None => Raise (AttributeError TyType "elements")
     end, class_of chains).
Proof.
  simpl.
  pose proof (elements_class_of chains) as He.
  destruct (class_of chains) as [el st r]. simpl in He. subst el.
  destruct (last_created chains) as [es|]; simpl.
  - apply run_as_display_elems.
  - by rewrite run_as_display.
Qed.

(** ** Theorems *)

(** The class run on a program: what [shared_run] says. *)
Lemma run_shared chains p :
  impl_run (class_of chains) (replicate (length chains) (VClass ref)) p
  = shared_run chains p.
Proof.
  revert chains. induction p as [|[ch|h|h] p IH]; intros chains; simpl; [done|..].
  - rewrite build_class_of, <- IH, length_app. simpl.
    by rewrite Nat.add_1_r, replicate_S_end.
  - destruct (decide (h < length chains)) as [Hh|Hh].
    + rewrite lookup_replicate_2 by done. rewrite code_class_of. cbn [fst snd].
      rewrite IH. by destruct (last chains).
    + assert (replicate (length chains) (VClass ref) !! h = None) as ->
        by (apply lookup_replicate_None; lia).
      by rewrite IH.
  - destruct (decide (h < length chains)) as [Hh|Hh].
    + rewrite lookup_replicate_2 by done. rewrite display_class_of. cbn [fst snd].
      rewrite IH. by destruct (last_created chains).
    + assert (replicate (length chains) (VClass ref) !! h = None) as ->
        by (apply lookup_replicate_None; lia).
      by rewrite IH.
Qed.

(** On a linear program that is what the specification gives. *)
Lemma shared_linear chains p :
  linear chains p = true → shared_run chains p = spec_run chains p.
Proof.
  revert chains. induction p as [|[ch|h|h] p IH]; intros chains; simpl; [done|..].
  - apply IH.
  - intros [Hh%bool_decide_eq_true Hp]%andb_true_iff. rewrite (IH _ Hp).
    rewrite decide_True by lia. f_equal.
    rewrite last_lookup, <- Hh. done.
  - intros [[Hh%bool_decide_eq_true Hd]%andb_true_iff Hp]%andb_true_iff.
    rewrite (IH _ Hp), decide_True by lia. f_equal.
    assert (chains !! h = last chains) as -> by (by rewrite last_lookup, <- Hh).
    unfold displayable in Hd.
    destruct (last chains) as [[ss|es]|] eqn:Hl; [| |done].
    + by apply bool_decide_eq_true in Hd as ->.
    + by rewrite (last_created_last _ _ Hl).
Qed.

(** The two construction paths of the specification give the same code on
    the class: a chain created from elements and a chain built from the
    codes of the elements. *)
Lemma construction_paths es c :
  ((build (Created es) ;; to_code) c).1
  = ((build (FromStrings (elem_code <$> es)) ;; to_code) c).1.
Proof. unfold bind. by rewrite !run_build, !run_to_code. Qed.

(** C13: the class against the chain of the specification.  For every
    client program, what the renderings give on the class is what
    [shared_run] says: a chain the client holds renders as the last chain
    built, and displays the elements of the last chain created from
    elements.  On a linear program (every chain is rendered before the
    next is built, and no chain of strings is displayed after a chain of
    elements) that is what the specification gives for chains that are
    values. *)
Theorem chain_refines_spec chains p :
  impl_run (class_of chains) (replicate (length chains) (VClass ref)) p
  = shared_run chains p
  ∧ (linear chains p = true →
     impl_run (class_of chains) (replicate (length chains) (VClass ref)) p
     = spec_run chains p).
Proof.
  split; [apply run_shared|]. intros Hp. rewrite run_shared. by apply shared_linear.
Qed.

(** ** Concrete programs *)

Module Examples.

Definition greeting : chain := Created [At "1"; Plain "hi"].
Definition farewell : chain := Created [Plain "bye"].
Definition raw : chain := FromStrings ["x"; "y"].

(** Each chain is rendered right after it is built. *)
Definition one_by_one : list op :=
  [Build greeting; Code 0; Display 0; Build farewell; Display 1; Code 1].

(** The first chain is rendered after the second is built. *)
Definition kept : list op := [Build greeting; Build farewell; Code 0; Display 0].

(** A chain of strings is displayed after a chain of elements. *)
Definition strings_after : list op := [Build greeting; Build raw; Code 1; Display 1].

Example one_by_one_agrees :
  linear [] one_by_one = true
  ∧ impl_run fresh [] one_by_one
    = [Some "[at:1]hi"; Some "@1hi"; Some "bye"; Some "bye"]
  ∧ spec_run [] one_by_one = impl_run fresh [] one_by_one.
Proof. by vm_compute. Qed.

Example kept_differs :
  linear [] kept = false
  ∧ spec_run [] kept = [Some "[at:1]hi"; Some "@1hi"]
  ∧ impl_run fresh [] kept = [Some "bye"; Some "bye"].
Proof. by vm_compute. Qed.

Example strings_after_differs :
  linear [] strings_after = false
  ∧ spec_run [] strings_after = [Some "xy"; None]
  ∧ impl_run fresh [] strings_after = [Some "xy"; Some "@1hi"].
Proof. by vm_compute. Qed.

(** A chain of strings built first has no display on the class either. *)
Example strings_first :
  linear [] [Build raw; Display 0; Code 0] = true
  ∧ impl_run fresh [] [Build raw; Display 0; Code 0] = [None; Some "xy"].
Proof. by vm_compute. Qed.

End Examples.

End ChainSpec.
