(* ===== verification/Attrs.v ===== *)
(** * Attrs: the attributes of [self] in the two classes with methods

    A method reads and assigns attributes of [self].  A read is looked up
    in the dictionary of the instance, then in the namespace of its class,
    then among the attributes every object has, and raises
    [AttributeError] when it is in none.  An identifier of a class body
    that starts with two underscores and does not end with two is private:
    it is replaced by [_<class><name>], in the [def] that defines a method
    as in the bodies that use it, so [__set_decorator] of [BotApplication]
    is the attribute [_BotApplication__set_decorator].

    This file has the rule ([mangle]), the methods of [BotApplication] and
    [MiraiAdapter] as the sequences of their accesses to [self] in source
    order, and their execution over the dictionary of the instance
    ([run]).  It shows that the constructor of [BotApplication] reads no
    attribute before it is assigned, that every method finds what it reads
    on a constructed application, where the private method can and cannot
    be reached from, and that the dictionary is the one [Bot] and [Mirai]
    work with. *)

From Stdlib Require Import Ascii.
From S2P Require Import Prelude Python Listeners Bot Mirai.

Module PyAttrs.

(** ** Private names *)

(** The class name without its leading underscores. *)
Fixpoint strip_underscores (s : string) : string :=
  match s with
  | String c s' => if Ascii.eqb c "_" then strip_underscores s' else s
  | EmptyString => s
  end.

Definition ends_with (suffix s : string) : bool :=
  String.prefix (String.string_of_list_ascii (rev (String.list_ascii_of_string suffix)))
    (String.string_of_list_ascii (rev (String.list_ascii_of_string s))).

(** A private name: two leading underscores, not two trailing ones. *)
Definition private (a : string) : bool :=
  String.prefix "__" a && negb (ends_with "__" a).

(** The name an identifier of the body of class [cls] stands for; [cls] is
    empty for code outside a class. *)
Definition mangle (cls a : string) : string :=
  if private a && negb (String.eqb (strip_underscores cls) "")
  then "_" +:+ strip_underscores cls +:+ a
  else a.

(** ** Methods as accesses to [self] *)

(** [self.a] read, [self.a = ...], and the call of a method whose
    attribute was read before. *)
Inductive Access : Type :=
| Load (a : string)
| Store (a : string)
| Invoke (m : string).

#[global] Instance Access_eq_dec : EqDecision Access.
Proof. solve_decision. Defined.

Record Method : Type := mkMethod { name : string; accesses : list Access }.

Record PyClass : Type := mkPyClass {
  cls_ref : ClassRef;
  methods : list Method
}.

(** The attributes every object has, as far as the sources name them. *)
Definition object_attrs : list string :=
  ["__dict__"; "__class__"; "__setattr__"; "__init__"].

Section run.
Context (c : PyClass).

Definition cname : string := cls_name (cls_ref c).

(** The namespace of the class: the names its [def]s bind. *)
Definition namespace : list string := (λ m, mangle cname (name m)) <$> methods c.

(** Where [a], named in the body of class [from], is found on an instance
    with the dictionary [inst]. *)
Definition found (from : string) (inst : list string) (a : string) : bool :=
  bool_decide (mangle from a ∈ inst ++ namespace ++ object_attrs).

Definition load (from a : string) : py (list string) unit :=
  inst <- get ;;
  if found from inst a then ret tt
  else raise (AttributeError (TyClass (cls_ref c)) (mangle from a)).

(** An assignment adds the name at the end of the dictionary, or keeps
    its place. *)
Definition store (from a : string) : py (list string) unit :=
  modify (λ inst, if decide (mangle from a ∈ inst) then inst
                  else inst ++ [mangle from a]).

(** The method of the class an attribute named in the class stands for. *)
Definition method_of (m : string) : option Method :=
  List.find (λ x, String.eqb (mangle cname (name x)) (mangle cname m)) (methods c).

(** One access, given what the bodies of the methods called do. *)
Definition access_in (inner : list Access → py (list string) unit)
    (x : Access) : py (list string) unit :=
  match x with
  | Load a => load cname a
  | Store a => store cname a
  | Invoke m =>
      match method_of m with
      | Some callee => inner (accesses callee)
      | None => ret tt
      end
  end.

(** The accesses of a body of the class, calls of its own methods
    included, at most [depth] calls deep. *)
Fixpoint run (depth : nat) (acc : list Access) : py (list string) unit :=
  match depth with
  | 0 => raise RecursionError
  | S d => for_each (access_in (run d)) acc
  end.

(** A call of the method [m] on an instance. *)
Definition call (m : string) : py (list string) unit :=
  match method_of m with
  | Some callee => run (S (length (methods c))) (accesses callee)
  | None => raise (AttributeError (TyClass (cls_ref c)) m)
  end.

End run.

(** ** The two classes *)

(** [BotApplication] (src/jbot/__init__.py); the accesses of the wrappers
    that [on] and [__set_decorator] return are those of the method.  A
    body with branches is listed with the accesses of all of them, in
    source order: the branches only read, so when every access of the
    list resolves, those of each path do.  The read of [__dict__] in the
    loop of [set_config] is listed once. *)
Definition BotApplication_class : PyClass :=
  mkPyClass BotApplication_ref
    [mkMethod "__init__"
       [Store "adapter";
        Load "coroutine"; Load "adapter"; Invoke "coroutine"; Store "nickname";
        Store "listener_manager";
        Load "adapter"; Store "adapter_utils";
        Load "adapter"; Store "message_handler";
        Load "set_config"; Invoke "set_config";
        Store "logger";
        Load "logger"; Load "logger"; Load "logger"; Load "nickname";
        Load "coroutine"; Load "adapter"; Invoke "coroutine"];
     mkMethod "set_config" [Load "__dict__"; Load "__dict__"];
     mkMethod "start_running" [Load "coroutine"; Load "adapter"; Invoke "coroutine"];
     mkMethod "send_msg" [Load "adapter"; Load "adapter"; Load "adapter"; Load "adapter"];
     mkMethod "coroutine" [];
     mkMethod "on"
       [Load "logger"; Load "listener_manager"; Load "logger"; Load "logger";
        Load "logger"];
     mkMethod "__set_decorator"
       [Load "listener_manager"; Load "listener_manager"; Load "listener_manager";
        Load "listener_manager"; Load "logger"];
     mkMethod "command" [Load "__set_decorator"; Invoke "__set_decorator"];
     mkMethod "keyword" [Load "__set_decorator"; Invoke "__set_decorator"];
     mkMethod "matcher" [Load "__set_decorator"; Invoke "__set_decorator"];
     mkMethod "param_convert" [Load "__set_decorator"; Invoke "__set_decorator"];
     mkMethod "role" [Load "__set_decorator"; Invoke "__set_decorator"];
     mkMethod "nlp" [Load "__set_decorator"; Invoke "__set_decorator"]].

(** [MiraiAdapter] (src/adapters/mirai/adapter.py); the constructor up to
    the call of [MiraiUtils], which raises [NameError], and after it. *)
Definition MiraiAdapter_init_reached : list Access :=
  [Store "name"; Store "ws_host"; Store "ws_port"; Store "http_host";
   Store "http_port"; Store "session_key"; Store "ws_reverse";
   Load "name"; Store "logger"; Store "listener_manager"].

Definition MiraiAdapter_init_rest : list Access :=
  [Store "utils"; Store "sender_handler"; Store "message_handler";
   Load "listener_manager"; Load "message_handler"; Load "utils"].

Definition MiraiAdapter_class : PyClass :=
  mkPyClass MiraiAdapter.ref
    [mkMethod "__init__" (MiraiAdapter_init_reached ++ MiraiAdapter_init_rest);
     mkMethod "__request_api" [Load "http_host"; Load "http_port"];
     mkMethod "login_info" [];
     mkMethod "account" [];
     mkMethod "nick_name" [];
     mkMethod "check" [];
     mkMethod "start_listen" [];
     mkMethod "receiver" []].

(** The dictionary of an adapter object of [Mirai]: the names of the
    attributes assigned, in the order of the assignments. *)
Definition named {A} (n : string) (field : option A) : list string :=
  match field with Some _ => [n] | None => [] end.

Definition assigned (s : MiraiAdapter.self) : list string :=
  named "name" (MiraiAdapter.name s) ++ named "ws_host" (MiraiAdapter.ws_host s)
  ++ named "ws_port" (MiraiAdapter.ws_port s)
  ++ named "http_host" (MiraiAdapter.http_host s)
  ++ named "http_port" (MiraiAdapter.http_port s)
  ++ named "session_key" (MiraiAdapter.session_key s)
  ++ named "ws_reverse" (MiraiAdapter.ws_reverse s)
  ++ named "logger" (MiraiAdapter.logger s)
  ++ named "listener_manager" (MiraiAdapter.listener_manager s)
  ++ named "utils" (MiraiAdapter.utils s)
  ++ named "sender_handler" (MiraiAdapter.sender_handler s)
  ++ named "message_handler" (MiraiAdapter.message_handler s).

(** The dictionary of a constructed application. *)
Definition constructed : list string :=
  ["adapter"; "nickname"; "listener_manager"; "adapter_utils"; "message_handler";
   "logger"].

(** ** The rule *)

Lemma mangle_outside a : mangle "" a = a.
Proof. unfold mangle. simpl. by rewrite andb_false_r. Qed.

Lemma mangle_public cls a : private a = false → mangle cls a = a.
Proof. unfold mangle. by intros ->. Qed.

Lemma mangle_private cls a :
  private a = true → strip_underscores cls ≠ "" →
  mangle cls a = "_" +:+ strip_underscores cls +:+ a.
Proof.
  unfold mangle. intros -> Hc. simpl.
  by destruct (String.eqb_spec (strip_underscores cls) "").
Qed.

Lemma prefix_underscore c s :
  String.prefix "_" (String c s) = Ascii.eqb c "_".
Proof.
  change (String.prefix "_" (String c s))
    with (if ascii_dec "_" c then String.prefix "" s else false).
  by destruct (ascii_dec "_" c), (Ascii.eqb_spec c "_"), s.
Qed.

(** What is left of a class name does not start with an underscore. *)
Lemma strip_underscores_head cls :
  String.prefix "_" (strip_underscores cls) = false.
Proof.
  induction cls as [|c cls IH]; [done|]. cbn [strip_underscores].
  destruct (Ascii.eqb c "_") eqn:Hc; [done|]. by rewrite prefix_underscore.
Qed.

(** A name already replaced is an ordinary name: it stands for itself in
    every class. *)
Lemma mangle_mangled cls cls' a :
  strip_underscores cls ≠ "" → mangle cls' (mangle cls a) = mangle cls a.
Proof.
  intros Hc. destruct (private a) eqn:Ha;
    [|by rewrite (mangle_public cls a Ha); apply mangle_public].
  rewrite (mangle_private cls a Ha Hc). apply mangle_public.
  pose proof (strip_underscores_head cls) as Hh.
  destruct (strip_underscores cls) as [|c x]; [done|].
  rewrite prefix_underscore in Hh. unfold private.
  change (String.prefix "__" ("_" +:+ String c x +:+ a))
    with (String.prefix "_" (String c (x +:+ a))).
  by rewrite prefix_underscore, Hh.
Qed.

(** ** More attributes never hurt *)

(** A computation that returns from a dictionary returns from every
    larger one, with a larger dictionary. *)
Definition mono (f : py (list string) unit) : Prop :=
  ∀ inst inst' inst2, f inst = (Ok tt, inst') → inst ⊆ inst2 →
    ∃ inst2', f inst2 = (Ok tt, inst2') ∧ inst' ⊆ inst2'.

Lemma mono_ret : mono (ret tt).
Proof. intros inst inst' inst2 [= <-] Hs. eauto. Qed.

Lemma mono_bind f g : mono f → mono g → mono (_ <- f ;; g).
Proof.
  intros Hf Hg inst inst' inst2 Hrun Hs. unfold bind in *.
  destruct (f inst) as [[[]|e] mid] eqn:Hfi; [|done].
  destruct (Hf _ _ _ Hfi Hs) as (mid2 & -> & Hmid). eauto.
Qed.

Lemma mono_for_each {B} (body : B → py (list string) unit) l :
  (∀ x, mono (body x)) → mono (for_each body l).
Proof.
  intros Hb. induction l as [|x l IH]; [apply mono_ret|].
  by apply mono_bind.
Qed.

Section laws.
Context (c : PyClass).

Lemma found_mono from inst inst2 a :
  inst ⊆ inst2 → found c from inst a = true → found c from inst2 a = true.
Proof.
  unfold found. rewrite !bool_decide_eq_true, !elem_of_app. intros Hs [?|?]; auto.
Qed.

Lemma mono_load from a : mono (load c from a).
Proof.
  intros inst inst' inst2 Hrun Hs. unfold load, bind, get in *.
  destruct (found c from inst a) eqn:Hf; [|done]. injection Hrun as <-.
  rewrite (found_mono _ _ _ _ Hs Hf). eauto.
Qed.

Lemma mono_store from a : mono (store from a).
Proof.
  intros inst inst' inst2 [= <-] Hs. eexists. split; [done|].
  intros x. repeat case_decide; rewrite ?elem_of_app, ?list_elem_of_singleton;
    intros; destruct_or?; subst; auto.
Qed.

Lemma mono_access inner :
  (∀ acc, mono (inner acc)) → ∀ x, mono (access_in c inner x).
Proof.
  intros Hi [a|a|m]; simpl; [apply mono_load|apply mono_store|].
  destruct (method_of c m); [apply Hi|apply mono_ret].
Qed.

Lemma mono_run d acc : mono (run c d acc).
Proof.
  revert acc. induction d as [|d IH]; intros acc; [done|].
  by apply mono_for_each, mono_access.
Qed.

Lemma run_mono d acc inst inst2 :
  (run c d acc inst).1 = Ok tt → inst ⊆ inst2 → (run c d acc inst2).1 = Ok tt.
Proof.
  destruct (run c d acc inst) as [r inst'] eqn:Hrun. cbn [fst]. intros -> Hs.
  by destruct (mono_run _ _ _ _ _ Hrun Hs) as (? & -> & _).
Qed.

(** A method that returns on an instance returns on every instance with
    at least its attributes. *)
Lemma call_mono m inst inst2 :
  (call c m inst).1 = Ok tt → inst ⊆ inst2 → (call c m inst2).1 = Ok tt.
Proof.
  unfold call. destruct (method_of c m) as [callee|]; [apply run_mono|done].
Qed.

(** *** Bodies that only read *)

Definition is_load (x : Access) : Prop :=
  match x with Load _ => True | _ => False end.

(** A read that finds its attribute on [inst]. *)
Definition resolves (inst : list string) (x : Access) : Prop :=
  match x with Load a => found c (cname c) inst a = true | _ => False end.

Lemma run_reads d acc inst :
  Forall (resolves inst) acc → run c (S d) acc inst = (Ok tt, inst).
Proof.
  induction 1 as [|[a| |] acc Hx _ IH]; try done.
  cbn [run for_each access_in resolves] in *. unfold load, bind, get.
  by rewrite Hx.
Qed.

Lemma run_reads_inv d acc inst :
  Forall is_load acc → (run c (S d) acc inst).1 = Ok tt →
  Forall (resolves inst) acc.
Proof.
  induction 1 as [|[a| |] acc Hx _ IH]; try done.
  cbn [run for_each access_in resolves] in *. unfold load, bind, get.
  destruct (found c (cname c) inst a) eqn:Hf; [|done]. intros Hrun.
  constructor; auto.
Qed.

(** A body that only reads and returns with all its reads returns with
    any of them: the reads of each path through its branches resolve. *)
Lemma run_path d acc path inst :
  Forall is_load acc → path ⊆ acc → (run c (S d) acc inst).1 = Ok tt →
  run c (S d) path inst = (Ok tt, inst).
Proof.
  intros Hl Hp Hrun. apply run_reads.
  pose proof (run_reads_inv _ _ _ Hl Hrun) as Hall.
  rewrite Forall_forall in Hall |- *. auto.
Qed.

End laws.

(** ** [BotApplication] *)

(** C22: on a constructed application every method of [BotApplication]
    finds every attribute of [self] it reads, the private
    [__set_decorator] included, which the six decorators name from inside
    the class; the constructor itself reads no attribute before it has
    assigned it; the methods return as well on every instance that has
    these attributes and others.  From outside the class, and from a
    class of another name, [__set_decorator] names another attribute,
    which the application does not have;
    [_BotApplication__set_decorator] is the method, from everywhere. *)
Theorem application_attrs_resolve :
  call BotApplication_class "__init__" [] = (Ok tt, constructed)
  ∧ Forall (λ m, call BotApplication_class (name m) constructed
                 = (Ok tt, constructed)) (methods BotApplication_class)
  ∧ (∀ inst m, constructed ⊆ inst → m ∈ methods BotApplication_class →
       (call BotApplication_class (name m) inst).1 = Ok tt)
  ∧ (∀ from, from ∈ [""; "Application"; "_Bot"] →
       load BotApplication_class from "__set_decorator" constructed
       = (Raise (AttributeError (TyClass BotApplication_ref)
                   (mangle from "__set_decorator")), constructed))
  ∧ (∀ from,
       load BotApplication_class from "_BotApplication__set_decorator" constructed
       = (Ok tt, constructed)).
Proof.
  assert (Forall (λ m, call BotApplication_class (name m) constructed
                       = (Ok tt, constructed)) (methods BotApplication_class)) as Hall
    by (repeat constructor; by vm_compute).
  split_and!; [by vm_compute|done| | |].
  - intros inst m Hs Hm. eapply call_mono; [|exact Hs].
    by rewrite (proj1 (Forall_forall _ _) Hall m Hm).
  - intros from Hf. inv_elem_of; subst; by vm_compute.
  - intros from. unfold load, found.
    rewrite (mangle_public from "_BotApplication__set_decorator") by done.
    by vm_compute.
Qed.

(** The constructor reads no attribute before it is assigned, and leaves
    the six attributes in the order of their assignments. *)
Lemma init_assigns : call BotApplication_class "__init__" [] = (Ok tt, constructed).
Proof. by vm_compute. Qed.

(** The attributes assigned when the constructor calls [set_config]: what
    [CONFIG] receives. *)
Lemma set_config_sees :
  run BotApplication_class 2
    (take 10 (accesses (default (mkMethod "" [])
                          (method_of BotApplication_class "__init__")))) []
  = (Ok tt, take 5 constructed).
Proof. by vm_compute. Qed.

(** The bodies with branches ([send_msg], [on] with its wrapper, the
    wrapper of [__set_decorator]) only read: each path through them finds
    its attributes on every instance with those of a constructed one. *)
Lemma branching_paths m path inst :
  m ∈ ["send_msg"; "on"; "__set_decorator"] →
  path ⊆ accesses (default (mkMethod "" []) (method_of BotApplication_class m)) →
  constructed ⊆ inst →
  ∀ d, run BotApplication_class (S d) path inst = (Ok tt, inst).
Proof.
  intros Hm Hp Hs d. eapply run_path; [|exact Hp|eapply run_mono; [|exact Hs]];
    inv_elem_of; subst; first [by repeat constructor | by vm_compute].
Qed.

(** No attribute of the instance hides a method of the class. *)
Lemma no_method_hidden :
  Forall (λ a, a ∉ namespace BotApplication_class) constructed.
Proof. by apply (bool_decide_unpack _); vm_compute. Qed.

(** The dictionary is the one [Bot] works with: the attributes of the
    world [__init__] leaves. *)
Lemma constructed_init_world {R} `{ListenerManagerOps R} adapter nick shown
    (w : BotApplication.World (R:=R)) :
  dom (BotApplication.app (BotApplication.init_world adapter nick shown w))
  = list_to_set constructed.
Proof.
  unfold BotApplication.init_world, BotApplication.init_attrs. simpl.
  rewrite !dom_insert_L, dom_empty_L. set_solver.
Qed.

(** ** [MiraiAdapter] *)

(** What the constructor has assigned when it raises: the attributes of
    the object [MiraiAdapter.__init__] of [Mirai] leaves, on which
    [__request_api] finds the two it reads. *)
Lemma adapter_half_built config loc :
  assigned MiraiAdapter.blank = []
  ∧ run MiraiAdapter_class 1 MiraiAdapter_init_reached []
    = (Ok tt, assigned (MiraiAdapter.half_built config loc))
  ∧ call MiraiAdapter_class "__request_api"
      (assigned (MiraiAdapter.half_built config loc))
    = (Ok tt, assigned (MiraiAdapter.half_built config loc)).
Proof. split_and!; by vm_compute. Qed.

(** [__request_api] is private, and no method of the class names it: it
    can be reached only as [_MiraiAdapter__request_api], also from the
    classes the constructor hands the adapter to. *)
Lemma request_api_unreachable :
  Forall (λ m, Load "__request_api" ∉ accesses m) (methods MiraiAdapter_class)
  ∧ Forall (λ m, Invoke "__request_api" ∉ accesses m)
      (methods MiraiAdapter_class)
  ∧ mangle (cname MiraiAdapter_class) "__request_api"
    = "_MiraiAdapter__request_api"
  ∧ Forall (λ from, found MiraiAdapter_class from [] "__request_api" = false)
      [""; "MiraiUtils"; "MiraiSenderHandler"; "MiraiMessageHandler"].
Proof.
  split_and!; try (by vm_compute); by apply (bool_decide_unpack _); vm_compute.
Qed.

End PyAttrs.
